(* ===== verification/_CoqProject ===== *)
-Q . S2P
Prelude.v
JsString.v
RoomId.v
ObjectId.v
Store.v
Rooms.v
ChatServer.v
Async.v
Http.v
Mongo.v
Follow.v
Auth.v
Maintenance.v
ChatClient.v
ChatSystem.v
ChatFriends.v
Content.v
Session.v
Signup.v
Boards.v
Discover.v
Router.v
Pages.v
Scene3D.v
