(* ===== verification/Prelude.v ===== *)
(** * CampusConnect: a verification development

    This library models the CampusConnect campus social platform: its
    Node backend ([src/backend/server.js]) and the logic of the pages of
    its React client that talk to it ([src/frontend/src/pages/Chat.tsx],
    [Users.tsx], [Index.tsx], [Login.tsx], [Dashboard.tsx],
    [Profile.tsx], [Resources.tsx], [Landing.tsx] and the [Navbar.tsx]
    component).
    It proves the properties that make the real-time chat, the follow
    graph, the accounts and the content routes correct, and it shows the
    places where the code departs from its specification or from what it
    means to do.

    ** The program and how its parts interact

    - [server.js] is one Node process.  It keeps a MongoDB database
      (collections [User], [Message], [FollowRequest], [Note] and
      [Announcement], declared by Mongoose schemas at lines 35-99).  It
      serves a REST API through Express: registration, verification,
      login, profile, Google OAuth, follow requests, users, notes,
      announcements and message history.  It also runs a socket.io
      server whose connection handler (lines 564-590) reacts to
      [join_room], [send_message] and [disconnect].  Every route and
      listener is an [async] function; the single-threaded event loop
      interleaves them at their [await]s.
    - The socket.io adapter keeps the in-memory room registry.
      [send_message] persists a message, re-reads it with its sender
      populated and emits it to every socket of the room.
    - [Chat.tsx] derives pairwise room ids by sorting the two user ids
      and joining them with "--" (line 118).  On every room switch it
      joins the current room without leaving the previous one.  It
      fetches the room's history over REST and appends incoming
      messages whose room is the current one.
    - [Users.tsx] lists the other users, filters them by a search box
      and sends follow requests.
    - The login page, the dashboard (after a Google sign-in) and the
      profile page write the logged-in user into the browser's
      [localStorage]; the other pages read their user id or e-mail
      from it.  The follow routes create pending
      requests and accept them, after which each user is in the other's
      [friends], whom the chat page offers as partners.

    ** Files, in dependency order

    - [Prelude.v] (this file) holds:
      - the [result] type of fallible operations, with its bind
        notation in [campus_scope];
      - the tactics [invc], [destruct_res], [obind] (which takes
        apart an option bind in a hypothesis) and [by_decide] (which
        evaluates a closed decidable goal), and the hint databases
        [campus] and [campus_rw];
      - generic list lemmas;
      - the stable insertion sort [sort_by], with which JavaScript's
        [Array.prototype.sort] and MongoDB's [.sort] are modelled.
    - [JsString.v]: the JavaScript string built-ins the code calls
      ([sort], [join], [split], [trim]) and the decimal form of a
      number, on [String.string].
    - [RoomId.v]: the named channels and the pairwise room id of
      [selectP2P].
    - [ObjectId.v]: ObjectIds, their 24-digit hexadecimal form and the
      cast back.
    - [Store.v]: the five collections as a record of gmaps and lists.
      It holds the Message model's construction, validation, [save],
      [findById(...).populate] and history query.
    - [Rooms.v]: the socket.io adapter and the typeclass
      [RoomRegistry], with the laws the chat server is proved against.
    - [ChatServer.v]: the socket.io handler as a step function on a
      server state.  [send_message] is split at its two [await]s.
    - [Async.v]: handlers as programs of a free monad ([prog]) that
      await operations.  It provides a sequential [run] and a pool of
      handlers that the event loop resumes in any order ([pool_run]),
      with invariants over every interleaving, the well-foundedness of
      the resume relation ([pool_terminates]) and a schedule that
      answers every handler ([pool_drains]).
    - [Http.v]: the status codes and JSON bodies of the responses.
    - [Mongo.v]: the Mongoose queries of the follow routes as atomic
      operations.
    - [Follow.v]: the follow request, accept, requests, friends and
      users routes, and the router that dispatches a request to them.
    - [Auth.v]:
      - register, verify-code, login, logout, profile, the bearer or
        session user and the Google strategy;
      - bcryptjs and jsonwebtoken as typeclasses [Bcrypt] and [Jwt],
        with laws;
      - the e-mail check and the unique indexes of the User model.
    - [Maintenance.v]: the scripts [fix_indexes.js] (drop the
      [googleId_1] index, build the sparse unique one, exit code) and
      [db_clear.js] (delete every user), over the users collection and
      its indexes, with MongoDB's sparse and unique index semantics;
      [register_test.js] as its request to [Auth.register],
      [db_check.js] as the lines it prints, each database script's
      connection, and [email_test.js] over a network of reachable
      ports and accepted credentials beside the server's own
      transport.
    - [ChatClient.v]: the chat page as a state machine over its hooks,
      its socket, its requests in flight and its effect timing, with
      [render].
    - [ChatSystem.v]: any number of chat pages ([ChatClient.v]) and the
      server ([ChatServer.v]) composed over socket.io.  A step is a
      user event, a connection opening or dropping, the server reading
      a page's next packet, a [receive_message] delivery, a history
      request answered from the server's state, or one of the server's
      own steps; the steps interleave in any order.
    - [ChatFriends.v]: the same page composed with the REST routes it
      calls ([Follow.v] and the history route) on one database: its
      friends, requests and accept requests answered in any order.
    - [Content.v]: note uploads with multer's file name, notes,
      announcements, the CORS origin callback and the cookie flags.
    - [Discover.v]: the peer discovery page [Users.tsx], with the array
      each follow click captures.
    - [Session.v]: [localStorage], the login page, the dashboard's
      mount and logout, the profile page with its form, and the query
      string the profile request goes through.  Each page request runs
      the [Auth.v] handler on the server's world.
    - [Signup.v]: the registration page [Index.tsx], with the browser's
      [required] and [type="email"] checks and the digit filter of the
      code field.
    - [Boards.v]: the resources page (notes list and upload) and the
      landing page (announcements list and post), run against the
      [Content.v] handlers.
    - [Pages.v]: the login page's form with the browser's checks and
      its OAuth buttons, the dashboard (its token read through
      [URLSearchParams], its view and buttons), the navigation bar's
      links and the landing page's view.
    - [Router.v]: the Express application's layers (the static mount
      of [/uploads] and the route table in declaration order) with
      Express 4's path matching, and the OAuth callback URL.
    - [Scene3D.v]: the 3D scene of [components/Scene3D.tsx] that the
      profile and resources pages mount: the camera, the building, the
      flying notes and the background particles, each [useFrame]
      callback as one frame of its state, composed into a frame and a
      run of the whole scene, over exact rationals with three.js's
      [Vector3] and its [lerp] as [Proper] morphisms of pointwise
      [Qeq].

    ** What the theorems show (see PROJECT.json for the numbered claims)

    - Chat.
      - Pairwise room ids are symmetric, never collide with a named
        channel, and split back into the sorted pair of ids.
      - Every reachable server state has only connected sockets in its
        rooms.
      - A successful [send_message] extends the room's history by
        exactly the new message.  The emit reaches exactly the room's
        members.
      - An empty content is rejected without side effect.
      - White-space-only content is accepted, although the
        specification rejects it.
      - A failed publish is silent.
      - In every reachable state, two publishes to one room whose
        saves complete in the reverse order leave the message just
        saved before the other in the history, and every socket of the
        room receives them in the opposite order.
      - The client appends only messages of the room on screen and
        never sends blank content.  A stale history response can still
        be shown under another room.
      - Pages and server together: in every reachable state of the
        composed system, every message a page shows is a stored
        message; a message typed on one page reaches, once, exactly
        the pages that listen to its room and whose socket joined it,
        with the sender's name (the scenario of the specification's
        section 8).  In every state, a page whose connection opens
        again re-joins its room but starts no history request and
        shows exactly what it showed before, so it never shows what
        was sent meanwhile.  A tab's connection stays in every room the
        page has shown until the connection drops: switching rooms
        never leaves the prior one.
      - Page and REST routes together: accepting a request refreshes
        the page to exactly the routes' pending requests and friends;
        a refused accept leaves the page as it was, with no message;
        under any interleaving the follow graph keeps its invariant.
    - Follow graph.
      - Sequential runs refine the specification's graph: no duplicate
        pending pair, and a symmetric friendship.
      - Interleavings break both, on every database: two concurrent
        requests for a pair that is not pending both pass the check,
        and an outage inside an accept between two users who are not
        yet friends leaves the friendship one-sided.
      - On the page, a second follow answer erases the first card's
        "Requested" mark.  The search shows exactly the users whose
        name or department contains the text, but a user without a
        name makes the page throw.
    - Accounts.
      - Register, verify and login succeed in sequence.
      - The user store keeps unique e-mails and Google ids under every
        interleaving.
      - The code has six digits.
      - The profile routes expose the code and let anyone escalate a
        role or store an unhashed password.
      - A stale token skips the session fallback.
      - A Google link keeps the old password.
    - Session and pages.
      - Signing up through the registration page, the mailed code and
        the login page works end to end and stores the new account's
        id for the other pages.
      - A login stores the identity the chat, discovery and profile
        pages read.
      - Saving the profile form and reloading shows the saved form.
      - A plus-addressed account never sees its own profile page,
        because the e-mail reaches the route with a space.
      - A Google sign-in ends on a dashboard that read its token from
        the URL and stores and greets the user; a refused token still
        shows "Signed in successfully".  The pages' logout never
        reaches the server, so the Google session still authenticates
        the browser afterwards.
      - The landing page shows its post controls only to a stored
        admin or secretary document, so never after a password login,
        which stores no role.
    - Content: uploads in the same millisecond collide, and the
      announcements route answers the ten most recent.  A note
      uploaded from the resources page is listed with what was typed,
      and its Download link serves the uploaded file.

    - Maintenance.  The [googleId] check of every user write is the
      sparse unique index [fix_indexes.js] builds; on any store the
      server keeps the script succeeds and re-running it changes
      nothing, and after [db_clear.js] it always succeeds; with two
      accounts on one Google id it exits with 1 after dropping the old
      index, leaving none; a unique index that is not sparse clashes
      on two accounts without a Google id.  [register_test.js] exits
      with 0 also when the registration is refused; on a new address
      [db_check.js] then lists the pending test account last.  A
      script whose database does not answer exits with 1 and changes
      nothing.  [email_test.js] tests port 465 while the server mails
      through 587: it can pass while every registration answers 500.

    - Routing.  The chat page's requests reach their routes for every
      id or room without a [/]; every stored note's file URL is served
      by the static mount; without [CALLBACK_URL] the Google callback
      URL is a path no layer handles.

    - 3D scene.  The camera's distance to its target shrinks by [19/20]
      each frame and it always looks at the origin; its target moves
      continuously with the scroll position; the building's height
      stays in [[-5, 0]]; notes, windows and particles stay within
      their bounds.  Mounted without [scrollProgress], as both pages
      mount it, none of the scroll-driven motion ever happens: the
      camera, the building's height and the notes stay put; only the
      clock-driven rotations of the building and the particles run.

    ** Bounds, fuel and what is not modelled

    - The only fuel is that of [JsString.js_N_to_string], one more than
      the binary logarithm of the number.  Each step divides by ten, so
      this fuel is always enough: the printed string reads back as
      the number ([js_N_to_string_dec], [dec_go_length]).  Every other
      recursion is structural.
    - [Math.random()] is [k / 2^52] for a 52-bit [k], the precision of a
      double in [0, 1).
    - Time is a [Z] count of milliseconds; [Date.prototype.toString],
      which [db_check.js] prints and which depends on the time zone, is
      a parameter.
    - MongoDB's sort is modelled as a stable sort on insertion order.
      MongoDB does not promise stability, so ties are one admissible
      order among several.
    - Socket ids and ObjectIds are abstract keys.
    - Strings are 8-bit: [toLowerCase], [trim] and the query string's
      percent-decoding (Express's and [URLSearchParams]) are modelled
      on ASCII.
    - In the composed chat system a connection carries a page's
      packets in order; the packets the server has not read when the
      connection drops are lost, and a new connection has a new id.
    - A page's request is answered before the page handles its next
      event where the page allows no other (login, registration,
      profile, dashboard, resources, landing);
      the chat and discovery pages keep their requests in flight.
    - bcrypt, JWT and mail are interfaces with laws, not implementations.
    - The 3D scene computes in doubles; the model computes the same
      expressions exactly in [Q] ([Math.PI] is the double's exact
      value), so its theorems hold up to the doubles' rounding, and
      the particles' [Float32Array] rounding is not modelled.
      [Math.random()] draws are any values in [0, 1), [Math.sin] any
      function, the clock's times any rationals.
    - Express matches paths on their segments with ASCII letter case
      ignored; the percent-decoding of route parameters is not modelled.
    - Not modelled, because they are presentation or I/O:
      - the OAuth protocol and e-mail delivery;
      - React styling and animation;
      - the 3D scene's materials, lights, fog, the drei [Float]
        wrapper's own motion, and the meshes that only draw (roof,
        pillars' cylinders);
      - the styling and the animations of the pages (framer-motion,
        GSAP), and their static text (the landing page's hero, stats
        and feature cards);
      - the GitHub button and the "Forgot password?" link, which do
        nothing beyond a console log and a "#" link;
      - the SMTP protocol itself: a mail transport works or not as a
        whole, by its host, port and credentials. *)

From stdpp Require Export base list gmap strings.
From Stdlib Require Export ZArith Lia Permutation Sorted.
From Stdlib Require Export Ascii.
From Stdlib Require String.

Declare Scope campus_scope.
Delimit Scope campus_scope with campus.
Open Scope campus_scope.

(** ** Results of fallible operations *)

Inductive result (E A : Type) : Type :=
| Ok (a : A)
| Err (e : E).
Arguments Ok {E A} a.
Arguments Err {E A} e.

Notation "'let!' x := c 'in' k" :=
  (match c with Ok x => k | Err e => Err e end)
  (at level 10, x name, c at level 100, k at level 200) : campus_scope.

Definition is_ok {E A} (r : result E A) : bool :=
  match r with Ok _ => true | Err _ => false end.

(** ** Tactics *)

Ltac invc H := inversion H; subst; clear H.

(** Case on every [Ok]/[Err] scrutinee of a hypothesis or of the goal. *)
Ltac destruct_res :=
  repeat match goal with
  | H : context [match ?c with Ok _ => _ | Err _ => _ end] |- _ =>
      let E := fresh "E" in destruct c eqn:E
  | |- context [match ?c with Ok _ => _ | Err _ => _ end] =>
      let E := fresh "E" in destruct c eqn:E
  end.

(** Take apart [c ≫= f = Some y] in [H]: case on [c], keep its
    equation, and drop the [None] case. *)
Ltac obind H :=
  match type of H with
  | @mbind option _ _ _ _ ?c = Some _ =>
      let E := fresh "E" in
      destruct c eqn:E; cbn [mbind option_bind] in H; [|discriminate H]
  end.

(** A closed decidable proposition, decided by evaluating its
    [bool_decide]. *)
Ltac by_decide :=
  match goal with |- ?P => apply (bool_decide_eq_true_1 P); vm_compute; reflexivity end.

Create HintDb campus.
Create Rewrite HintDb campus_rw.

(** ** Generic list facts *)

Lemma Forall_filter_of {A} (P : A -> Prop) `{!forall x, Decision (P x)}
    (Q : A -> Prop) (l : list A) :
  Forall Q l -> Forall Q (filter P l).
Proof.
  induction 1 as [|x l Hx _ IH]; [constructor|].
  destruct (decide (P x)); [rewrite filter_cons_True by done; by constructor|].
  by rewrite filter_cons_False.
Qed.

#[export] Hint Resolve Forall_filter_of : campus.

(** A map whose image has no duplicates is injective on the list. *)
Lemma NoDup_map_inj_in {A B} (f : A -> B) l x y :
  NoDup (map f l) -> x ∈ l -> y ∈ l -> f x = f y -> x = y.
Proof.
  induction l as [|z l IH]; cbn; [set_solver|].
  intros [Hz Hl]%NoDup_cons Hx Hy Hf. rewrite elem_of_cons in Hx, Hy.
  destruct Hx as [->|Hx], Hy as [->|Hy]; auto; exfalso; apply Hz.
  - rewrite Hf. apply list_elem_of_In, in_map, list_elem_of_In, Hy.
  - rewrite <-Hf. apply list_elem_of_In, in_map, list_elem_of_In, Hx.
Qed.

Lemma find_some_elem {A} (f : A -> bool) l x :
  List.find f l = Some x -> x ∈ l /\ f x = true.
Proof. intros [Hin Hf]%find_some. split; [by apply list_elem_of_In|done]. Qed.

Lemma find_none_elem {A} (f : A -> bool) l x :
  List.find f l = None -> x ∈ l -> f x = false.
Proof. intros Hn Hx%list_elem_of_In. by apply (find_none f l). Qed.

(** An element appended after elements the test rejects is found. *)
Lemma find_app_last {A} (f : A -> bool) l x :
  (forall y, y ∈ l -> f y = false) -> f x = true -> List.find f (l ++ [x]) = Some x.
Proof.
  induction l as [|z l IH]; intros Hl Hx; cbn; [by rewrite Hx|].
  rewrite Hl by set_solver. apply IH; [|done]. intros y Hy. apply Hl. set_solver.
Qed.

(** Membership in the Standard Library's boolean [List.filter], the
    filter that a JavaScript [Array.prototype.filter] or a query's
    condition is written with. *)
Lemma elem_of_List_filter {A} (f : A -> bool) l x :
  x ∈ List.filter f l <-> x ∈ l /\ f x = true.
Proof. rewrite !list_elem_of_In. apply filter_In. Qed.

(** ** A stable insertion sort

    [insert_by le x l] places [x] before the first element [y] of [l]
    with [le x y]; sorting inserts the head into the sorted tail, so an
    element is placed before the equal elements that followed it: the
    sort is stable. *)

Section SortBy.
Context {A : Type} (le : A -> A -> bool).

Fixpoint insert_by (x : A) (l : list A) : list A :=
  match l with
  | [] => [x]
  | y :: l' => if le x y then x :: l else y :: insert_by x l'
  end.

Fixpoint sort_by (l : list A) : list A :=
  match l with
  | [] => []
  | x :: l' => insert_by x (sort_by l')
  end.

Lemma insert_by_perm x l : Permutation (insert_by x l) (x :: l).
Proof.
  induction l as [|y l IH]; simpl; [done|].
  destruct (le x y); [done|].
  rewrite IH. constructor.
Qed.

Lemma sort_by_perm l : Permutation (sort_by l) l.
Proof.
  induction l as [|x l IH]; simpl; [done|].
  rewrite insert_by_perm, IH. done.
Qed.

Lemma elem_of_sort_by x l : x ∈ sort_by l <-> x ∈ l.
Proof. apply elem_of_Permutation_proper, sort_by_perm. Qed.

Lemma length_sort_by l : length (sort_by l) = length l.
Proof. apply Permutation_length, sort_by_perm. Qed.

(** Inserting an element that is [le]-above everything of [l] in front
    of a last element it is [le]-below commutes with the append. *)
Lemma insert_by_app_last x z l :
  le x z = true -> insert_by x (l ++ [z]) = insert_by x l ++ [z].
Proof.
  intros Hxz. induction l as [|y l IH]; simpl.
  - by rewrite Hxz.
  - destruct (le x y); [done|]. by rewrite IH.
Qed.

(** The key fact for message history: sorting a list whose last element
    is [le]-above all the others leaves that element last. *)
Lemma sort_by_app_last l z :
  Forall (fun y => le y z = true) l ->
  sort_by (l ++ [z]) = sort_by l ++ [z].
Proof.
  induction 1 as [|y l Hy _ IH]; simpl; [done|].
  rewrite IH. by apply insert_by_app_last.
Qed.

(** Inserting an element [le]-below the head of a suffix into a list
    followed by that suffix inserts it into the list alone. *)
Lemma insert_by_app_head x z l r :
  le x z = true -> insert_by x (l ++ z :: r) = insert_by x l ++ z :: r.
Proof.
  intros Hxz. induction l as [|y l IH]; simpl.
  - by rewrite Hxz.
  - destruct (le x y); [done|]. by rewrite IH.
Qed.

(** Sorting a list followed by two elements in the wrong order, both
    above everything before them, swaps the two. *)
Lemma sort_by_app_swap l a b :
  Forall (fun y => le y b = true) l -> le a b = false ->
  sort_by (l ++ [a; b]) = sort_by l ++ [b; a].
Proof.
  intros Hl Hab. induction Hl as [|y l Hy _ IH]; simpl.
  - by rewrite Hab.
  - simpl in IH. rewrite IH. by apply insert_by_app_head.
Qed.

Section Total.
Hypothesis le_total : forall x y, le x y = false -> le y x = true.
Hypothesis le_trans : forall x y z,
  le x y = true -> le y z = true -> le x z = true.

Lemma insert_by_sorted x l :
  Sorted (fun a b => le a b = true) l ->
  Sorted (fun a b => le a b = true) (insert_by x l).
Proof.
  induction 1 as [|y l Hl IH Hhd]; simpl; [by repeat constructor|].
  destruct (le x y) eqn:Hxy; [by repeat constructor|].
  constructor; [done|].
  destruct l as [|w l]; simpl; [constructor; auto|].
  invc Hhd. destruct (le x w); constructor; auto.
Qed.

Lemma sort_by_sorted l : Sorted (fun a b => le a b = true) (sort_by l).
Proof. induction l; simpl; [constructor|]. by apply insert_by_sorted. Qed.

(** The first [k] elements of a sorted list come before all the
    others: the prefix a query's [.limit(k)] keeps after a [.sort]. *)
Lemma sort_by_take_drop k l x y :
  x ∈ take k (sort_by l) -> y ∈ drop k (sort_by l) -> le x y = true.
Proof.
  assert (Hs : StronglySorted (fun a b => le a b = true) (take k (sort_by l) ++ drop k (sort_by l))).
  { rewrite take_drop. apply Sorted_StronglySorted; [|apply sort_by_sorted].
    intros a b c. apply le_trans. }
  revert Hs x. generalize (take k (sort_by l)) (drop k (sort_by l)). intros l1 l2.
  induction l1 as [|z l1 IH]; intros Hs x Hx Hy; [set_solver|].
  rewrite <-app_comm_cons in Hs.
  apply StronglySorted_inv in Hs as [Hs Hz]. apply elem_of_cons in Hx as [->|Hx].
  - rewrite Forall_forall in Hz. apply Hz, elem_of_app. by right.
  - by apply (IH Hs x).
Qed.
End Total.
End SortBy.

#[export] Hint Resolve sort_by_perm sort_by_sorted insert_by_sorted : campus.
#[export] Hint Rewrite @length_sort_by @sort_by_app_last using assumption : campus_rw.
