(* ===== verification/JsString.v ===== *)
(** * JavaScript string built-ins used by the code

    The client and the server call a handful of ECMAScript built-ins on
    strings: [Array.prototype.sort] with the default comparator (on the
    pair of user ids of a pairwise room), [Array.prototype.join],
    [String.prototype.split] (on a comma-separated tag list and on the
    [Authorization] header) and [String.prototype.trim] (on the chat input
    box).  JavaScript strings are sequences of UTF-16 code units; the
    model uses Rocq's 8-bit [ascii], whose codes agree with the code units
    of the Latin-1 range, and compares them by code like the default
    comparator does.  A JavaScript value that may be [undefined] is an
    [option string]. *)

From S2P Require Import Prelude.

Open Scope stdpp_scope.

(** ** Strings: generic facts *)

(** stdpp makes [simpl] leave [String.append] folded; these two
    equations unfold it one step. *)
Lemma string_app_nil_l (b : string) : "" +:+ b = b.
Proof. reflexivity. Qed.

Lemma string_app_cons c (a b : string) : String c a +:+ b = String c (a +:+ b).
Proof. reflexivity. Qed.

#[export] Hint Rewrite string_app_nil_l string_app_cons : campus_rw.

Lemma string_app_assoc (a b c : string) : (a +:+ b) +:+ c = a +:+ (b +:+ c).
Proof. induction a as [|x a IH]; rewrite ?string_app_cons; [done|]. by rewrite IH. Qed.

Lemma string_app_nil_r (a : string) : a +:+ "" = a.
Proof. induction a as [|x a IH]; rewrite ?string_app_cons; [done|]. by rewrite IH. Qed.

#[export] Hint Rewrite string_app_assoc string_app_nil_r : campus_rw.

(** [has_char c s]: the character [c] occurs in [s]. *)
Fixpoint has_char (c : ascii) (s : string) : bool :=
  match s with
  | EmptyString => false
  | String d s' => if ascii_dec c d then true else has_char c s'
  end.

Lemma has_char_app c (a b : string) :
  has_char c (a +:+ b) = has_char c a || has_char c b.
Proof.
  induction a as [|d a IH]; rewrite ?string_app_cons; simpl; [done|].
  destruct (ascii_dec c d); [done|]. apply IH.
Qed.

#[export] Hint Rewrite has_char_app : campus_rw.

Definition dash : ascii := "-"%char.

(** ** [Array.prototype.sort] with the default comparator

    The default comparator moves [undefined] to the end and compares the
    other elements as strings by code units; the sort is stable
    (ECMAScript 2019). *)

Definition js_str_le (a b : string) : bool := String.leb a b.

Definition js_undef_le (a b : option string) : bool :=
  match a, b with
  | Some x, Some y => js_str_le x y
  | Some _, None => true
  | None, Some _ => false
  | None, None => true
  end.

Definition js_sort (l : list (option string)) : list (option string) :=
  sort_by js_undef_le l.

(** [Array.prototype.join]: [undefined] elements print as the empty
    string. *)
Definition js_to_str (v : option string) : string :=
  match v with Some s => s | None => "" end.

Definition js_join (sep : string) (l : list (option string)) : string :=
  String.concat sep (map js_to_str l).

(** ** [String.prototype.split] with a non-empty separator

    The scan is left to right; at each position where the separator
    starts, the current piece is emitted and the rest of the separator is
    skipped, so occurrences do not overlap. [skip] counts the separator
    characters still to be skipped. *)

Fixpoint split_go (sep : string) (skip : nat) (s cur : string) : list string :=
  match s with
  | EmptyString => [cur]
  | String c s' =>
      match skip with
      | S k => split_go sep k s' cur
      | O =>
          if String.prefix sep s
          then cur :: split_go sep (String.length sep - 1) s' ""
          else split_go sep 0 s' (cur +:+ String c EmptyString)
      end
  end.

(** With the empty separator JavaScript splits into single characters. *)
Definition js_split (sep s : string) : list string :=
  match sep with
  | EmptyString => map (fun c => String c EmptyString) (String.list_ascii_of_string s)
  | _ => split_go sep 0 s ""
  end.

(** ** [String.prototype.trim]

    The white space of ECMAScript restricted to 8-bit codes: tab, line
    feed, vertical tab, form feed, carriage return, space and the
    no-break space U+00A0. *)

Definition js_is_ws (c : ascii) : bool :=
  let n := nat_of_ascii c in
  ((9 <=? n) && (n <=? 13)) || (n =? 32) || (n =? 160).

Fixpoint trim_start (s : string) : string :=
  match s with
  | EmptyString => EmptyString
  | String c s' => if js_is_ws c then trim_start s' else s
  end.

Definition string_rev (s : string) : string :=
  String.string_of_list_ascii (rev (String.list_ascii_of_string s)).

Definition js_trim (s : string) : string :=
  string_rev (trim_start (string_rev (trim_start s))).

(** ** [Number.prototype.toString] on non-negative integers

    Decimal digits, most significant first, without leading zeros; the
    fuel is one more than the binary logarithm, which is at least the
    number of decimal digits. *)

Definition digit_char (d : N) : ascii := ascii_of_N (48 + d).

Fixpoint dec_go (fuel : nat) (n : N) (acc : string) : string :=
  match fuel with
  | O => acc
  | S f =>
      let acc' := String (digit_char (n mod 10)) acc in
      if (n <? 10)%N then acc' else dec_go f (n / 10) acc'
  end.

Definition js_N_to_string (n : N) : string := dec_go (S (N.to_nat (N.log2 n))) n "".

(** The value of a string of decimal digits, read left to right after
    the digits [a] stands for, as [Number(s)] reads one; [None] on a
    character that is no digit.  It specifies [js_N_to_string]. *)
Definition digit_val (c : ascii) : option N :=
  let k := N_of_ascii c in if (48 <=? k)%N && (k <=? 57)%N then Some (k - 48)%N else None.

Fixpoint dec_val (s : string) (a : N) : option N :=
  match s with
  | EmptyString => Some a
  | String c s' => d ← digit_val c; dec_val s' (10 * a + d)
  end.

(** ** Lemmas *)

(** A number with [S k] decimal digits prints as [S k] characters, given
    the fuel to do so. *)
Lemma dec_go_length k fuel n acc :
  (k < fuel)%nat -> (10 ^ N.of_nat k <= n < 10 ^ N.of_nat (S k))%N ->
  String.length (dec_go fuel n acc) = (S k + String.length acc)%nat.
Proof.
  revert fuel n acc. induction k as [|k IH]; intros [|fuel] n acc Hf Hn; try lia.
  - cbn [dec_go]. rewrite (proj2 (N.ltb_lt n 10)) by (cbn in Hn; lia). done.
  - cbn [dec_go]. rewrite (proj2 (N.ltb_ge n 10)).
    2:{ rewrite Nat2N.inj_succ, N.pow_succ_r' in Hn. pose proof (N.pow_nonzero 10 (N.of_nat k) ltac:(lia)). lia. }
    rewrite (IH fuel); [cbn; lia|lia|].
    rewrite !Nat2N.inj_succ, !N.pow_succ_r' in Hn. split.
    + apply N.div_le_lower_bound; lia.
    + apply N.Div0.div_lt_upper_bound. rewrite Nat2N.inj_succ, N.pow_succ_r'. lia.
Qed.

Lemma digit_val_char d : (d < 10)%N -> digit_val (digit_char d) = Some d.
Proof.
  intros Hd. unfold digit_val, digit_char. rewrite N_ascii_embedding by lia.
  rewrite (proj2 (N.leb_le 48 (48 + d))), (proj2 (N.leb_le (48 + d) 57)) by lia. cbn. f_equal. lia.
Qed.

Lemma dec_go_nonempty fuel n acc : fuel <> 0%nat \/ acc <> "" -> dec_go fuel n acc <> "".
Proof.
  revert n acc. induction fuel as [|f IH]; intros n acc H; cbn [dec_go]; [naive_solver|].
  destruct (n <? 10)%N; [done|]. apply IH. by right.
Qed.

(** With [fuel] at least the number of digits of [n], [dec_go] puts
    the [k] decimal digits of [n] in front of [acc]. *)
Lemma dec_go_val fuel n :
  fuel <> 0%nat -> (n < 10 ^ N.of_nat fuel)%N ->
  exists k, (n < 10 ^ k)%N /\ forall acc a, dec_val (dec_go fuel n acc) a = dec_val acc (a * 10 ^ k + n).
Proof.
  revert n. induction fuel as [|f IH]; intros n Hf Hn; [done|]. cbn [dec_go].
  destruct (N.ltb_spec n 10) as [Hlt|Hge].
  - exists 1%N. split; [cbn; lia|]. intros acc a. cbn [dec_val].
    rewrite N.mod_small, digit_val_char by lia. cbn [mbind option_bind]. f_equal. lia.
  - destruct f as [|f]; [cbn in Hn; lia|].
    destruct (IH (n / 10)%N) as (k & Hk & Hval); [done| |].
    { apply N.Div0.div_lt_upper_bound. rewrite Nat2N.inj_succ, N.pow_succ_r' in Hn. lia. }
    exists (N.succ k). split.
    { rewrite N.pow_succ_r'. pose proof (N.div_mod n 10 ltac:(lia)). pose proof (N.mod_lt n 10 ltac:(lia)). lia. }
    intros acc a. rewrite Hval. cbn [dec_val].
    rewrite digit_val_char by (apply N.mod_lt; lia). cbn [mbind option_bind]. f_equal.
    rewrite N.pow_succ_r'. rewrite (N.div_mod n 10) at 3 by lia. ring.
Qed.

(** [Number.prototype.toString] gives the decimal digits of the number:
    the printed string is not empty and reads back as the number, so the
    fuel of [js_N_to_string] is always enough. *)
Theorem js_N_to_string_dec n : js_N_to_string n <> "" /\ dec_val (js_N_to_string n) 0 = Some n.
Proof.
  unfold js_N_to_string. split; [apply dec_go_nonempty; by left|].
  destruct (dec_go_val (S (N.to_nat (N.log2 n))) n) as (k & _ & Hval); [done| |].
  - rewrite Nat2N.inj_succ, N2Nat.id.
    destruct (N.eq_dec n 0) as [->|Hn]; [cbn; lia|].
    destruct (N.log2_spec n) as [_ H2]; [lia|].
    eapply N.lt_le_trans; [exact H2|]. apply N.pow_le_mono_l. lia.
  - rewrite Hval. cbn. f_equal; lia.
Qed.

Lemma js_N_to_string_6 n :
  (100000 <= n <= 999999)%N -> String.length (js_N_to_string n) = 6%nat.
Proof.
  intros Hn. unfold js_N_to_string. rewrite (dec_go_length 5); [done| |cbn; lia].
  assert (N.log2 100000 <= N.log2 n)%N by (apply N.log2_le_mono; lia).
  cbn in H. lia.
Qed.

Lemma js_undef_le_total a b : js_undef_le a b = false -> js_undef_le b a = true.
Proof.
  destruct a as [x|], b as [y|]; simpl; try done.
  unfold js_str_le. destruct (String.leb_total x y); congruence.
Qed.

Lemma js_undef_le_antisym a b :
  js_undef_le a b = true -> js_undef_le b a = true -> a = b.
Proof.
  destruct a as [x|], b as [y|]; simpl; try done.
  intros H1 H2. f_equal. by apply String.leb_antisym.
Qed.

(** Sorting two elements does not depend on their order. *)
Lemma js_sort_pair_comm a b : js_sort [a; b] = js_sort [b; a].
Proof.
  unfold js_sort; simpl.
  destruct (js_undef_le a b) eqn:Hab, (js_undef_le b a) eqn:Hba; try done.
  - by rewrite (js_undef_le_antisym a b).
  - apply js_undef_le_total in Hab. congruence.
Qed.

Lemma js_sort_pair a b :
  js_sort [a; b] = if js_undef_le a b then [a; b] else [b; a].
Proof. reflexivity. Qed.

(** Splitting a piece free of the separator's first character only
    accumulates it. *)
Lemma split_go_no_sep (d : ascii) (sep a t cur : string) :
  String.prefix (String d EmptyString) sep = true ->
  has_char d a = false ->
  split_go sep 0 (a +:+ t) cur = split_go sep 0 t (cur +:+ a).
Proof.
  intros Hsep. revert cur.
  induction a as [|c a IH]; intros cur Ha; rewrite ?string_app_cons.
  - by rewrite string_app_nil_l, string_app_nil_r.
  - cbn [has_char] in Ha. cbn [split_go].
    destruct (ascii_dec d c) as [|Hc]; [done|].
    replace (String.prefix sep (String c (a +:+ t))) with false.
    + rewrite IH by done. by rewrite string_app_assoc.
    + destruct sep as [|d' sep]; [done|]. cbn [String.prefix] in Hsep |- *.
      destruct (ascii_dec d d') as [<-|]; [|done].
      by destruct (ascii_dec d c).
Qed.

Corollary split_go_no_sep_end (d : ascii) (sep a cur : string) :
  String.prefix (String d EmptyString) sep = true ->
  has_char d a = false ->
  split_go sep 0 a cur = [cur +:+ a].
Proof.
  intros Hsep Ha. rewrite <- (string_app_nil_r a) at 1.
  by rewrite (split_go_no_sep d).
Qed.

(** At an occurrence of "--" the current piece is emitted. *)
Lemma split_go_dd (t cur : string) :
  split_go "--" 0 ("--" +:+ t) cur = cur :: split_go "--" 0 t "".
Proof. by destruct t. Qed.

Lemma string_length_app s t :
  String.length (s +:+ t) = (String.length s + String.length t)%nat.
Proof. induction s as [|c s IH]; [done|]. rewrite string_app_cons. cbn. by rewrite IH. Qed.

Lemma prefix_app s t : String.prefix s (s +:+ t) = true.
Proof.
  induction s as [|c s IH]; [by destruct t|]. rewrite string_app_cons. cbn.
  by destruct (ascii_dec c c).
Qed.

(** A piece free of spaces after ["Bearer "] is the second piece of
    [split(' ')]. *)
Lemma js_split_bearer tok :
  has_char " " tok = false -> js_split " " ("Bearer " +:+ tok) = ["Bearer"; tok].
Proof.
  intros Htok. unfold js_split.
  change ("Bearer " +:+ tok) with ("Bearer" +:+ (" " +:+ tok)).
  rewrite (split_go_no_sep " ") by done. rewrite string_app_nil_l.
  change (" " +:+ tok) with (String " " tok). cbn [split_go String.prefix].
  destruct (ascii_dec " " " ") as [_|[]]; [|reflexivity].
  replace (String.prefix "" tok) with true by (by destruct tok).
  rewrite (split_go_no_sep_end " "); [by rewrite string_app_nil_l| |done].
  cbn. by destruct (ascii_dec " " " ").
Qed.

Lemma js_trim_start_all_ws s :
  trim_start s = "" <-> forallb js_is_ws (String.list_ascii_of_string s) = true.
Proof.
  induction s as [|c s IH]; simpl; [done|].
  destruct (js_is_ws c); simpl; [done|]. split; done.
Qed.
