(* ===== verification/RoomId.v ===== *)
(** * Room identifiers of the chat client ([Chat.tsx])

    A room is a string.  The client offers four named channels (line 152)
    and derives the room of a private conversation from the two user ids:
    [[myId, friendId].sort().join("--")] (line 118), where [myId] is
    [user.id || user._id] of the user object stored at login (line 116).
    The theorems show that the derivation does not depend on who starts
    the conversation, that a pairwise room is never a named channel, and
    that for ids without a dash (MongoDB ObjectIds are hexadecimal) the
    room splits back into the sorted pair of ids, so two different pairs
    never share a room. *)

From S2P Require Import Prelude JsString.

Open Scope stdpp_scope.

Module RoomId.

(** [const rooms = ["General", "Study Room 1", "Study Room 2", "Peer Support"]] *)
Definition rooms : list string :=
  ["General"; "Study Room 1"; "Study Room 2"; "Peer Support"].

(** The user object kept in [localStorage]: the login route returns
    [{ id, ... }], the session route [/api/auth/user] returns the
    Mongoose document, which serializes its key as [_id]. *)
Record ClientUser := {
  cu_id : option string;
  cu__id : option string;
}.

(** JavaScript [a || b]: [a] when it is truthy (a non-empty string),
    [b] otherwise. *)
Definition js_or (a b : option string) : option string :=
  match a with
  | Some (String _ _) => a
  | _ => b
  end.

Definition user_id (u : ClientUser) : option string := js_or (cu_id u) (cu__id u).

Definition pair_room (a b : option string) : string :=
  js_join "--" (js_sort [a; b]).

(** [selectP2P]: the room opened when [user] clicks on a friend whose
    [_id] is [friendId]. *)
Definition selectP2P (user : ClientUser) (friendId : option string) : string :=
  pair_room (user_id user) friendId.

(** [has_dd s]: the separator "--" occurs in [s]. *)
Fixpoint has_dd (s : string) : bool :=
  match s with
  | String c ((String d _) as s') =>
      (bool_decide (c = dash) && bool_decide (d = dash)) || has_dd s'
  | _ => false
  end.

Lemma has_dd_cons c (s : string) : has_dd s = true -> has_dd (String c s) = true.
Proof. destruct s as [|d s]; [done|]. cbn [has_dd]. intros ->. apply orb_true_r. Qed.

Lemma has_dd_sep (x y : string) : has_dd (x +:+ "--" +:+ y) = true.
Proof.
  induction x as [|c x IH]; [done|].
  rewrite string_app_cons. by apply has_dd_cons.
Qed.

(** Joining a pair puts the separator between its two elements. *)
Lemma pair_room_shape a b :
  exists p q, js_sort [a; b] = [p; q] /\
              pair_room a b = js_to_str p +:+ "--" +:+ js_to_str q.
Proof.
  unfold pair_room. rewrite js_sort_pair.
  destruct (js_undef_le a b); eexists _, _; split; reflexivity.
Qed.

Lemma split_pair (p q : string) :
  has_char dash p = false -> has_char dash q = false ->
  js_split "--" (p +:+ "--" +:+ q) = [p; q].
Proof.
  intros Hp Hq. unfold js_split; cbn match.
  rewrite (split_go_no_sep dash), string_app_nil_l, split_go_dd by done.
  by rewrite (split_go_no_sep_end dash), string_app_nil_l.
Qed.

Lemma rooms_no_dd r : r ∈ rooms -> has_dd r = false.
Proof.
  assert (Forall (fun r => has_dd r = false) rooms) as Hall
    by (repeat constructor).
  rewrite Forall_forall in Hall. apply Hall.
Qed.

Lemma pair_room_some (a b : string) :
  pair_room (Some a) (Some b) =
    if js_str_le a b then a +:+ "--" +:+ b else b +:+ "--" +:+ a.
Proof.
  unfold pair_room, js_join. rewrite js_sort_pair. cbn [js_undef_le].
  by destruct (js_str_le a b).
Qed.

(** ** Properties *)

(** The pairwise room does not depend on who opens the
    conversation: [selectP2P] of the first user towards the second is
    [selectP2P] of the second towards the first. *)
Theorem selectP2P_symmetric (u1 u2 : ClientUser) :
  selectP2P u1 (user_id u2) = selectP2P u2 (user_id u1).
Proof. unfold selectP2P, pair_room. by rewrite js_sort_pair_comm. Qed.

(** A pairwise room, whatever the two ids (even undefined), is never
    one of the named channels, so private messages are never shown in
    or persisted to a public channel. *)
Theorem pair_room_not_named (a b : option string) : pair_room a b ∉ rooms.
Proof.
  destruct (pair_room_shape a b) as (p & q & _ & ->). intros Hin.
  apply rooms_no_dd in Hin. by rewrite has_dd_sep in Hin.
Qed.

(** For ids without a dash, splitting a pairwise room on "--" gives
    back the two ids in sorted order. *)
Theorem pair_room_split (a b : string) :
  has_char dash a = false -> has_char dash b = false ->
  js_split "--" (pair_room (Some a) (Some b)) =
    if js_str_le a b then [a; b] else [b; a].
Proof.
  intros Ha Hb. rewrite pair_room_some.
  destruct (js_str_le a b); by apply split_pair.
Qed.

(** For ids without a dash, two pairs of ids that produce the same
    pairwise room are the same pair: no two conversations share a room. *)
Theorem pair_room_inj (a b c d : string) :
  has_char dash a = false -> has_char dash b = false ->
  has_char dash c = false -> has_char dash d = false ->
  pair_room (Some a) (Some b) = pair_room (Some c) (Some d) ->
  (a = c /\ b = d) \/ (a = d /\ b = c).
Proof.
  intros Ha Hb Hc Hd Heq.
  apply (f_equal (js_split "--")) in Heq.
  rewrite !pair_room_split in Heq by done.
  destruct (js_str_le a b), (js_str_le c d); simplify_eq; tauto.
Qed.

(** With dashes allowed, two different pairs can share a room: the
    hypotheses of [pair_room_inj] are needed. *)
Example pair_room_dash_collision :
  pair_room (Some "!-") (Some "b") = pair_room (Some "!") (Some "-b").
Proof. reflexivity. Qed.

Definition oid_u1 : string := "65a1f0c2e4b0a1b2c3d4e5f6".
Definition oid_u2 : string := "65a1f0c2e4b0a1b2c3d4e5f7".

Lemma pair_room_split_witness :
  js_split "--" (pair_room (Some oid_u2) (Some oid_u1)) = [oid_u1; oid_u2].
Proof. apply (pair_room_split oid_u2 oid_u1); reflexivity. Defined.

Lemma pair_room_inj_witness :
  (oid_u1 = oid_u2 /\ oid_u2 = oid_u1) \/ (oid_u1 = oid_u1 /\ oid_u2 = oid_u2).
Proof. apply (pair_room_inj oid_u1 oid_u2 oid_u2 oid_u1); reflexivity. Defined.
End RoomId.
