(* ===== verification/ObjectId.v ===== *)
(** * ObjectIds and their hexadecimal string form

    Every document key of the MongoDB collections is an ObjectId, a
    96-bit number.  It travels to the client as its 24-character
    lower-case hexadecimal string ([res.json(user)], the login route's
    [id: user._id]) and comes back as a string in request bodies and
    socket payloads ([senderId], [receiverId], the [sender] field of
    [send_message]); Mongoose casts such a string back to an ObjectId
    when a schema path has type [ObjectId] ([server.js] lines 54-56, 67,
    77, 86, 94-95) and records a cast error otherwise.  Only the
    24-hex-digit form of the cast is modelled. *)

From S2P Require Import Prelude JsString.

Open Scope stdpp_scope.

Module ObjectId.

Definition ObjectId := N.

Definition oid_bound : N := 2 ^ 96.

Definition hex_char (d : N) : ascii :=
  if (d <? 10)%N then ascii_of_N (48 + d) else ascii_of_N (87 + d).

Definition hex_val (c : ascii) : option N :=
  let n := N_of_ascii c in
  if ((48 <=? n) && (n <=? 57))%N then Some (n - 48)%N
  else if ((97 <=? n) && (n <=? 102))%N then Some (n - 87)%N
  else if ((65 <=? n) && (n <=? 70))%N then Some (n - 55)%N
  else None.

(** [toHexString]: [k] digits, most significant first, zero padded. *)
Fixpoint hex_of (k : nat) (n : N) (acc : string) : string :=
  match k with
  | O => acc
  | S k' => hex_of k' (n / 16) (String (hex_char (n mod 16)) acc)
  end.

Definition to_hex (id : ObjectId) : string := hex_of 24 id "".

Fixpoint parse_hex (s : string) (acc : N) : option N :=
  match s with
  | EmptyString => Some acc
  | String c s' =>
      match hex_val c with
      | Some d => parse_hex s' (acc * 16 + d)
      | None => None
      end
  end.

(** Mongoose's cast of a string to an ObjectId. *)
Definition cast (s : string) : option ObjectId :=
  if String.length s =? 24 then parse_hex s 0 else None.

(** ** Lemmas *)

Lemma hex_val_char d : (d < 16)%N -> hex_val (hex_char d) = Some d.
Proof.
  intros Hd. unfold hex_char, hex_val.
  destruct (N.ltb_spec d 10).
  - rewrite N_ascii_embedding by lia.
    replace ((48 <=? 48 + d) && (48 + d <=? 57))%N with true
      by (symmetry; apply andb_true_iff; split; apply N.leb_le; lia).
    f_equal. lia.
  - rewrite N_ascii_embedding by lia.
    replace ((48 <=? 87 + d) && (87 + d <=? 57))%N with false
      by (symmetry; apply andb_false_iff; right; apply N.leb_gt; lia).
    replace ((97 <=? 87 + d) && (87 + d <=? 102))%N with true
      by (symmetry; apply andb_true_iff; split; apply N.leb_le; lia).
    f_equal. lia.
Qed.

Lemma length_hex_of k n acc :
  String.length (hex_of k n acc) = k + String.length acc.
Proof.
  revert n acc. induction k as [|k IH]; intros n acc; [done|].
  cbn [hex_of]. rewrite IH. simpl. lia.
Qed.

Lemma parse_hex_of k n acc a :
  parse_hex (hex_of k n acc) a =
    parse_hex acc (a * 16 ^ N.of_nat k + n mod 16 ^ N.of_nat k).
Proof.
  revert n acc a. induction k as [|k IH]; intros n acc a.
  - cbn. f_equal. rewrite N.mod_1_r. lia.
  - cbn [hex_of]. rewrite IH. cbn [parse_hex].
    rewrite hex_val_char by (apply N.mod_lt; lia).
    f_equal.
    rewrite Nat2N.inj_succ, N.pow_succ_r', N.Div0.mod_mul_r. ring.
Qed.

(** ** Properties *)

(** Every ObjectId below 2^96 prints as 24 hexadecimal characters
    that Mongoose casts back to the same ObjectId, so the ids the client
    sends back ([sender], [senderId], [receiverId]) denote the documents
    the server gave it. *)
Theorem cast_to_hex (id : ObjectId) : (id < oid_bound)%N -> cast (to_hex id) = Some id.
Proof.
  intros Hid. unfold cast, to_hex.
  rewrite length_hex_of. simpl (24 + _ =? 24).
  rewrite parse_hex_of. cbn [parse_hex]. f_equal.
  rewrite N.mod_small; [lia|]. apply Hid.
Qed.

Lemma cast_to_hex_witness : cast (to_hex 123456789%N) = Some 123456789%N.
Proof. apply cast_to_hex. reflexivity. Defined.

(** A string that is not 24 hexadecimal digits does not cast. *)
Example cast_short : cast "65a1f0c2" = None.
Proof. reflexivity. Qed.

Example cast_not_hex : cast "65a1f0c2e4b0a1b2c3d4e5fz" = None.
Proof. reflexivity. Qed.
End ObjectId.
