(* ===== verification/Store.v ===== *)
(** * The MongoDB store as seen through the Mongoose models

    [server.js] declares five Mongoose models (lines 35-99).  Each
    collection is a list of documents in insertion (natural) order, the
    order a query returns them in before any [.sort]; documents are
    looked up by their ObjectId [_id].  [db_up] says whether the database answers: every query
    fails with [Unavailable] when it does not.

    The Message model is modelled in full: [new Message({room, sender,
    content})] (line 575) builds a document with a fresh [_id] and
    [timestamp: Date.now] (line 88) and casts [sender] to an ObjectId;
    [save] (line 576) first validates (a cast failure of [sender], or a
    missing or empty [content], which is [required], line 87) and then
    appends; [findById(...).populate('sender', 'displayName photo')]
    (line 579) and [find({room}).populate(...).sort({timestamp: 1})]
    (line 549) read it back. *)

From S2P Require Import Prelude JsString ObjectId.

Open Scope stdpp_scope.

Module Store.
Import ObjectId.

(** Milliseconds since the epoch, [Date.now()]. *)
Definition Date := Z.

(** ** Schemas *)

Inductive Role := student | secretary | admin.

#[export] Instance Role_eq_dec : EqDecision Role.
Proof. solve_decision. Defined.

(** [userSchema], lines 36-58. *)
Record User := {
  u_id : ObjectId;
  googleId : option string;
  displayName : option string;
  email : string;
  password : option string;
  photo : option string;
  isVerified : bool;
  verificationCode : option string;
  verificationCodeExpires : option Date;
  department : option string;
  college : option string;
  class : option string;
  year : option string;
  placedAt : option string;
  leetCodeHandle : option string;
  codeForcesHandle : option string;
  role : Role;
  following : list ObjectId;
  followers : list ObjectId;
  friends : list ObjectId;
  u_createdAt : Date;
}.

#[export] Instance User_eq_dec : EqDecision User.
Proof. solve_decision. Defined.

Inductive FollowStatus := pending | accepted | rejected.

#[export] Instance FollowStatus_eq_dec : EqDecision FollowStatus.
Proof. solve_decision. Defined.

(** [followRequestSchema], lines 93-98. *)
Record FollowRequest := {
  fr_id : ObjectId;
  fr_sender : ObjectId;
  fr_receiver : ObjectId;
  fr_status : FollowStatus;
  fr_createdAt : Date;
}.

(** [noteSchema], lines 63-70. *)
Record Note := {
  n_id : ObjectId;
  n_title : option string;
  n_subject : option string;
  n_fileUrl : option string;
  n_uploadedBy : option ObjectId;
  n_tags : list string;
  n_createdAt : Date;
}.

Inductive AnnouncementType := hackathon | club | general.

(** [announcementSchema], lines 74-80. *)
Record Announcement := {
  a_id : ObjectId;
  a_title : option string;
  a_content : option string;
  a_postedBy : option ObjectId;
  a_type : AnnouncementType;
  a_createdAt : Date;
}.

(** [messageSchema], lines 84-89: [room] is an optional string, [sender]
    an optional ObjectId, [content] required. *)
Record Message := {
  m_id : ObjectId;
  m_room : option string;
  m_sender : option ObjectId;
  m_content : option string;
  m_timestamp : Date;
}.

Record DB := {
  users : list User;
  notes : list Note;
  announcements : list Announcement;
  messages : list Message;
  followRequests : list FollowRequest;
  db_up : bool;
}.

Definition set_messages (ms : list Message) (db : DB) : DB :=
  {| users := users db; notes := notes db; announcements := announcements db;
     messages := ms; followRequests := followRequests db; db_up := db_up db |}.

(** [Model.findById(id)] on a collection. *)
Definition find_user (id : ObjectId) (db : DB) : option User :=
  List.find (fun u => bool_decide (u_id u = id)) (users db).

Inductive DbError :=
| ValidationError (path : string)
| CastError (path : string)
| DuplicateKey (index : string)
(** [save()] of a loaded document that is no longer in the collection *)
| DocumentNotFound
(** [$set] of the immutable [_id] *)
| ImmutableField (path : string)
| Unavailable.

(** ** The Message model *)

(** The [data] of a [send_message] event; a missing field is
    [undefined]. *)
Record SendPayload := {
  p_room : option string;
  p_sender : option string;
  p_content : option string;
}.

(** [new Message({ room, sender, content })] with the defaults of the
    schema; a [sender] that does not cast is left unset and reported
    by [message_errors]. *)
Definition new_Message (id : ObjectId) (now : Date) (p : SendPayload) : Message :=
  {| m_id := id;
     m_room := p_room p;
     m_sender := p_sender p ≫= ObjectId.cast;
     m_content := p_content p;
     m_timestamp := now |}.

(** The errors [validate] reports: the cast error of [sender] and the
    [required] validator of [content], which rejects [undefined] and the
    empty string and nothing else. *)
Definition message_errors (p : SendPayload) : list DbError :=
  (match p_sender p with
   | Some s => if ObjectId.cast s is None then [CastError "sender"] else []
   | None => []
   end) ++
  (match p_content p with
   | None | Some EmptyString => [ValidationError "content"]
   | Some _ => []
   end).

(** [await newMessage.save()]: validation first, then the insert. *)
Definition Message_save (m : Message) (errs : list DbError) (db : DB) : result DbError DB :=
  match errs with
  | e :: _ => Err e
  | [] => if db_up db then Ok (set_messages (messages db ++ [m]) db) else Err Unavailable
  end.

(** [.populate('sender', 'displayName photo')]: a sender that is not a
    user document populates to [null]. *)
Record SenderInfo := {
  si_id : ObjectId;
  si_displayName : option string;
  si_photo : option string;
}.

Record PopMessage := {
  pm_id : ObjectId;
  pm_room : option string;
  pm_sender : option SenderInfo;
  pm_content : option string;
  pm_timestamp : Date;
}.

Definition sender_info (db : DB) (id : ObjectId) : option SenderInfo :=
  u ← find_user id db;
  Some {| si_id := id; si_displayName := displayName u; si_photo := photo u |}.

Definition populate (db : DB) (m : Message) : PopMessage :=
  {| pm_id := m_id m;
     pm_room := m_room m;
     pm_sender := m_sender m ≫= sender_info db;
     pm_content := m_content m;
     pm_timestamp := m_timestamp m |}.

(** [Message.findById(id).populate(...)]. *)
Definition Message_findById (id : ObjectId) (db : DB) : result DbError (option PopMessage) :=
  if db_up db
  then Ok (populate db <$> List.find (fun m => bool_decide (m_id m = id)) (messages db))
  else Err Unavailable.

Definition ts_le (a b : Message) : bool := (m_timestamp a <=? m_timestamp b)%Z.

Definition in_room (r : string) (m : Message) : Prop := m_room m = Some r.

#[export] Instance in_room_dec r m : Decision (in_room r m).
Proof. unfold in_room. apply _. Defined.

(** [Message.find({ room }).populate(...).sort({ timestamp: 1 })]. *)
Definition room_history (r : string) (db : DB) : list PopMessage :=
  map (populate db) (sort_by ts_le (filter (in_room r) (messages db))).

Definition Message_find_room (r : string) (db : DB) : result DbError (list PopMessage) :=
  if db_up db then Ok (room_history r db) else Err Unavailable.

(** ** Sample data

    Users with the schema defaults, a collection the examples of the
    later files start from, and the database going down. *)

Definition demo_user (id : ObjectId) (name : string) : User :=
  {| u_id := id; googleId := None; displayName := Some name;
     email := name +:+ "@campus.edu"; password := None; photo := None;
     isVerified := true; verificationCode := None; verificationCodeExpires := None;
     department := None; college := None; class := None; year := None;
     placedAt := None; leetCodeHandle := None; codeForcesHandle := None;
     role := student; following := []; followers := []; friends := [];
     u_createdAt := 0%Z |}.

Definition demo_db : DB :=
  {| users := [demo_user 1%N "asha"; demo_user 2%N "ravi"]; notes := [];
     announcements := []; messages := []; followRequests := []; db_up := true |}.

Definition set_up (up : bool) (db : DB) : DB :=
  {| users := users db; notes := notes db; announcements := announcements db;
     messages := messages db; followRequests := followRequests db; db_up := up |}.

(** ** Lemmas *)

Lemma Message_save_ok m errs db db' :
  Message_save m errs db = Ok db' ->
  errs = [] /\ db_up db = true /\ db' = set_messages (messages db ++ [m]) db.
Proof.
  unfold Message_save. destruct errs; [|done].
  destruct (db_up db); [|done]. intros [= <-]. done.
Qed.

Lemma Message_save_errors m errs db : errs <> [] -> is_ok (Message_save m errs db) = false.
Proof. by destruct errs. Qed.

Lemma message_errors_content d :
  (p_content d = None \/ p_content d = Some "") -> message_errors d <> [].
Proof.
  unfold message_errors. intros Hc.
  destruct (p_sender d) as [s|]; [destruct (ObjectId.cast s)|];
    destruct Hc as [-> | ->]; done.
Qed.

Lemma populate_set_messages ms db : populate (set_messages ms db) = populate db.
Proof. done. Qed.

(** Appending a message of room [r] whose timestamp is not below any
    stored timestamp appends its populated form to the history of [r]. *)
Lemma room_history_append r m db :
  in_room r m ->
  Forall (fun m' => (m_timestamp m' <= m_timestamp m)%Z) (messages db) ->
  room_history r (set_messages (messages db ++ [m]) db) =
    room_history r db ++ [populate db m].
Proof.
  intros Hr Hts. unfold room_history. rewrite populate_set_messages. cbn [messages set_messages].
  rewrite filter_app, filter_cons_True, filter_nil by done.
  rewrite sort_by_app_last, map_app; [done|].
  apply Forall_filter_of. eapply Forall_impl; [exact Hts|].
  intros m' Hle. unfold ts_le. by apply Z.leb_le.
Qed.

(** Two messages of room [r] appended in the reverse order of their
    timestamps, both not below any stored one, appear in the history in
    timestamp order. *)
Lemma room_history_append_swap r m1 m2 db :
  in_room r m1 -> in_room r m2 ->
  Forall (fun m' => (m_timestamp m' <= m_timestamp m1)%Z) (messages db) ->
  (m_timestamp m1 < m_timestamp m2)%Z ->
  room_history r (set_messages (messages db ++ [m2; m1]) db) =
    room_history r db ++ [populate db m1; populate db m2].
Proof.
  intros Hr1 Hr2 Hts Hlt. unfold room_history. rewrite populate_set_messages. cbn [messages set_messages].
  rewrite filter_app, filter_cons_True, filter_cons_True, filter_nil by done.
  rewrite sort_by_app_swap, map_app; [done| |unfold ts_le; apply Z.leb_gt; lia].
  apply Forall_filter_of. eapply Forall_impl; [exact Hts|].
  intros m' Hle. unfold ts_le. by apply Z.leb_le.
Qed.

(** A message of another room leaves the history of [r] unchanged. *)
Lemma room_history_append_other r m db :
  ¬ in_room r m ->
  room_history r (set_messages (messages db ++ [m]) db) = room_history r db.
Proof.
  intros Hr. unfold room_history. rewrite populate_set_messages. cbn [messages set_messages].
  by rewrite filter_app, filter_cons_False, filter_nil, app_nil_r by done.
Qed.
End Store.
