(* ===== verification/Rooms.v ===== *)
(** * The room registry: socket.io's in-memory adapter

    [socket.join(room)] (server.js line 568), the implicit join of a
    socket to the room named by its own id when it connects, the implicit
    [leaveAll] when it disconnects (line 587) and [io.to(room)] (line
    581) act on the adapter of the namespace, which keeps two maps:
    [rooms] from a room to its set of socket ids and [sids] from a socket
    id to its set of rooms.  The adapter is library code; it is modelled
    from its contract, the Room Registry of the specification: [join]
    adds, [leaveAll] removes a socket from every room, and the members of
    a room are the sockets in it.

    The typeclass [RoomRegistry] with its laws [RoomRegistryLaws] is the
    interface the chat server is proved against; [Adapter] implements it
    under the invariant [adapter_wf] that the two maps agree. *)

From S2P Require Import Prelude.

Open Scope stdpp_scope.

Module Rooms.

Definition SocketId := string.
Definition Room := string.

(** ** Interface *)

Class RoomRegistry (R : Type) := {
  reg_empty : R;
  reg_join : SocketId -> Room -> R -> R;
  reg_leave_all : SocketId -> R -> R;
  reg_members : Room -> R -> gset SocketId;
  reg_wf : R -> Prop;
}.

Class RoomRegistryLaws (R : Type) `{!RoomRegistry R} := {
  reg_wf_empty : reg_wf reg_empty;
  reg_wf_join s r g : reg_wf g -> reg_wf (reg_join s r g);
  reg_wf_leave_all s g : reg_wf g -> reg_wf (reg_leave_all s g);
  reg_members_empty r : reg_members r reg_empty = ∅;
  reg_members_join s r r' g : reg_wf g ->
    reg_members r' (reg_join s r g) =
      if decide (r' = r) then {[s]} ∪ reg_members r' g else reg_members r' g;
  reg_members_leave_all s r g : reg_wf g ->
    reg_members r (reg_leave_all s g) = reg_members r g ∖ {[s]};
}.

(** ** The in-memory adapter *)

Record Adapter := {
  rooms : gmap Room (gset SocketId);
  sids : gmap SocketId (gset Room);
}.

Definition adapter_empty : Adapter := {| rooms := ∅; sids := ∅ |}.

(** One iteration of the loop of [addAll]: [sids.get(id).add(room)],
    then create the room's set if needed and add [id] to it. *)
Definition add_one (id : SocketId) (a : Adapter) (room : Room) : Adapter :=
  {| rooms := <[room := {[id]} ∪ rooms a !!! room]> (rooms a);
     sids := <[id := {[room]} ∪ sids a !!! id]> (sids a) |}.

(** [if (!this.sids.has(id)) this.sids.set(id, new Set())] *)
Definition ensure_sid (id : SocketId) (a : Adapter) : Adapter :=
  if decide (is_Some (sids a !! id)) then a
  else {| rooms := rooms a; sids := <[id := ∅]> (sids a) |}.

(** [addAll(id, rooms)]: make sure [id] has a set of rooms, then add
    each room. *)
Definition addAll (id : SocketId) (rs : list Room) (a : Adapter) : Adapter :=
  foldl (add_one id) (ensure_sid id a) rs.

(** [_del(room, id)]: remove [id] from the room and drop the room when
    it becomes empty. *)
Definition del_room (id : SocketId) (room : Room)
    (rm : gmap Room (gset SocketId)) : gmap Room (gset SocketId) :=
  match rm !! room with
  | Some set =>
      let set' := set ∖ {[id]} in
      if decide (set' = ∅) then delete room rm else <[room := set']> rm
  | None => rm
  end.

(** [delAll(id)]: [_del] every room of [id], then forget [id]. *)
Definition delAll (id : SocketId) (a : Adapter) : Adapter :=
  match sids a !! id with
  | None => a
  | Some rs =>
      {| rooms := foldr (del_room id) (rooms a) (elements rs);
         sids := delete id (sids a) |}
  end.

Definition members (room : Room) (a : Adapter) : gset SocketId := rooms a !!! room.

(** The two maps describe the same membership relation. *)
Definition adapter_wf (a : Adapter) : Prop :=
  forall s r, s ∈ rooms a !!! r <-> r ∈ sids a !!! s.

(** ** Lemmas *)

Lemma lookup_total_del_room id room rm r :
  del_room id room rm !!! r =
    if decide (r = room) then rm !!! r ∖ {[id]} else rm !!! r.
Proof.
  unfold del_room. rewrite !lookup_total_alt.
  destruct (rm !! room) as [set|] eqn:E.
  - case_decide as Hempty.
    + destruct (decide (r = room)) as [->|Hne].
      * by rewrite lookup_delete_eq, E.
      * by rewrite lookup_delete_ne by congruence.
    + destruct (decide (r = room)) as [->|Hne].
      * by rewrite lookup_insert_eq, E.
      * by rewrite lookup_insert_ne by congruence.
  - destruct (decide (r = room)) as [->|]; [|done].
    rewrite E. simpl. set_solver.
Qed.

Lemma elem_of_fold_del_room id rs rm s r :
  s ∈ foldr (del_room id) rm rs !!! r <-> s ∈ rm !!! r /\ ¬ (s = id /\ r ∈ rs).
Proof.
  induction rs as [|room rs IH]; simpl.
  - set_solver.
  - rewrite lookup_total_del_room. case_decide; set_solver.
Qed.

Lemma add_one_wf id a room : adapter_wf a -> adapter_wf (add_one id a room).
Proof.
  intros Hwf s r. unfold add_one; cbn [rooms sids].
  rewrite !lookup_total_insert. specialize (Hwf s r).
  do 2 case_decide; subst; set_solver.
Qed.

Lemma ensure_sid_wf id a : adapter_wf a -> adapter_wf (ensure_sid id a).
Proof.
  intros Hwf. unfold ensure_sid.
  case_decide as Hs; [done|]. intros s r. cbn [rooms sids].
  rewrite lookup_total_insert. case_decide; subst; [|apply Hwf].
  rewrite (Hwf s r), lookup_total_alt.
  destruct (sids a !! s); [by destruct Hs|]. done.
Qed.

Lemma rooms_ensure_sid id a : rooms (ensure_sid id a) = rooms a.
Proof. unfold ensure_sid. by case_decide. Qed.

Lemma foldl_add_one_wf id rs a : adapter_wf a -> adapter_wf (foldl (add_one id) a rs).
Proof.
  revert a. induction rs as [|room rs IH]; intros a Hwf; [done|].
  apply IH, add_one_wf, Hwf.
Qed.

Lemma addAll_wf id rs a : adapter_wf a -> adapter_wf (addAll id rs a).
Proof. intros Hwf. by apply foldl_add_one_wf, ensure_sid_wf. Qed.

Lemma rooms_foldl_add_one r id rs a :
  rooms (foldl (add_one id) a rs) !!! r =
    (if decide (r ∈ rs) then {[id]} else ∅) ∪ rooms a !!! r.
Proof.
  revert a. induction rs as [|room rs IH]; intros a; cbn [foldl].
  - destruct (decide (r ∈ [])) as [Hin|]; [by apply not_elem_of_nil in Hin|].
    set_solver.
  - rewrite IH. unfold add_one; cbn [rooms]. rewrite lookup_total_insert.
    repeat case_decide; set_solver.
Qed.

Lemma members_addAll r id rs a :
  members r (addAll id rs a) = (if decide (r ∈ rs) then {[id]} else ∅) ∪ members r a.
Proof. unfold members, addAll. by rewrite rooms_foldl_add_one, rooms_ensure_sid. Qed.

Lemma delAll_wf id a : adapter_wf a -> adapter_wf (delAll id a).
Proof.
  intros Hwf s r. unfold delAll.
  destruct (sids a !! id) as [rs|] eqn:E; [|apply Hwf].
  cbn [rooms sids]. rewrite elem_of_fold_del_room, elem_of_elements, (Hwf s r).
  rewrite !lookup_total_alt.
  destruct (decide (s = id)) as [->|Hne].
  - rewrite lookup_delete_eq, E. simpl. set_solver.
  - rewrite lookup_delete_ne by congruence. set_solver.
Qed.

Lemma members_delAll r id a :
  adapter_wf a -> members r (delAll id a) = members r a ∖ {[id]}.
Proof.
  intros Hwf. unfold members, delAll.
  pose proof (Hwf id r) as Hid. rewrite (lookup_total_alt (sids a) id) in Hid.
  destruct (sids a !! id) as [rs|] eqn:E; simpl in Hid.
  - apply set_eq. intros s. cbn [rooms].
    rewrite elem_of_fold_del_room, elem_of_elements. set_solver.
  - set_solver.
Qed.

(** ** The adapter implements the registry interface *)

#[export] Instance adapter_registry : RoomRegistry Adapter := {|
  reg_empty := adapter_empty;
  reg_join s r a := addAll s [r] a;
  reg_leave_all := delAll;
  reg_members := members;
  reg_wf := adapter_wf;
|}.

Lemma adapter_empty_wf : adapter_wf adapter_empty.
Proof. intros s r. unfold adapter_empty; cbn [rooms sids]. by rewrite !lookup_total_empty. Qed.

#[export] Instance adapter_registry_laws : RoomRegistryLaws Adapter.
Proof.
  split; intros *; cbn [reg_wf reg_empty reg_join reg_leave_all reg_members adapter_registry].
  - apply adapter_empty_wf.
  - apply addAll_wf.
  - apply delAll_wf.
  - unfold members, adapter_empty; cbn [rooms]. by rewrite lookup_total_empty.
  - intros _. rewrite members_addAll. repeat case_decide; set_solver.
  - apply members_delAll.
Qed.
(** [addAll] of a room the socket is already in leaves the whole
    adapter, both maps included, unchanged. *)
Lemma addAll_twice id r a :
  addAll id [r] (addAll id [r] a) = addAll id [r] a.
Proof.
  unfold addAll; cbn [foldl].
  unfold ensure_sid at 1. rewrite decide_True.
  2:{ unfold add_one; cbn [sids]. rewrite lookup_insert_eq. by eexists. }
  unfold add_one; cbn [rooms sids].
  rewrite !lookup_total_insert_eq, !insert_insert_eq.
  f_equal; f_equal; set_solver.
Qed.
End Rooms.
