(* ===== verification/ChatServer.v ===== *)
(** * The socket.io connection handler of [server.js] (lines 564-590)

    The server state is the database, the room registry, the set of
    connected sockets, the asynchronous work in flight and the log of
    [receive_message] events emitted to sockets.  Every inbound event is
    one step; the [send_message] handler (lines 572-585) is asynchronous
    and is split at its two [await]s:
    - [SendMessage] runs its synchronous prefix: [new Message(...)] takes
      a fresh [_id] and [Date.now()] and the [save] is issued;
    - the first [Resume] of that task completes [save] (validation, then
      the insert, or an error that the [catch] only logs);
    - the second [Resume] completes [findById(...).populate(...)] and
      emits the populated message to the room.
    Between these steps any other event may run: this is how the
    event loop interleaves handlers.  [Tick] advances the clock and
    [SetDb] makes the database (un)available.

    The server is parameterized by any implementation of the
    [RoomRegistry] interface that satisfies its laws; [Rooms.Adapter] is
    the one socket.io uses. *)

From S2P Require Import Prelude JsString ObjectId Store Rooms.

Open Scope stdpp_scope.

Module ChatServer.
Import ObjectId Store Rooms.

(** A [save] issued and not yet completed, or a saved message whose
    [findById] has not completed. *)
Inductive Task :=
| TSave (m : Message) (errs : list DbError)
| TEmit (room : option string) (id : ObjectId).

(** [receive_message] sent to a socket with the populated message, or
    [null] when [findById] found nothing. *)
Record Delivery := {
  dl_to : SocketId;
  dl_msg : option PopMessage;
}.

Inductive Event :=
| Connect (s : SocketId)
| JoinRoom (s : SocketId) (room : Room)
| SendMessage (s : SocketId) (data : SendPayload)
| Resume (i : nat)
| Disconnect (s : SocketId)
| Tick (dt : Z)
| SetDb (up : bool).

Section Server.
Context {R : Type} `{!RoomRegistry R, !RoomRegistryLaws R}.

Record Server := {
  db : DB;
  reg : R;
  connected : gset SocketId;
  tasks : list Task;
  outbox : list Delivery;
  next_oid : ObjectId;
  now : Date;
}.

Definition mk (d : DB) (g : R) (c : gset SocketId) (ts : list Task)
    (o : list Delivery) (n : ObjectId) (t : Date) : Server :=
  {| db := d; reg := g; connected := c; tasks := ts; outbox := o;
     next_oid := n; now := t |}.

(** A fresh process on an existing database. *)
Definition init (db0 : DB) (t0 : Date) : Server := mk db0 reg_empty ∅ [] [] 0%N t0.

(** ** Handlers *)

(** socket.io's connection: the socket joins the room named by its own
    id; the handler itself only registers listeners and logs. *)
Definition on_connection (s : SocketId) (srv : Server) : Server :=
  mk (db srv) (reg_join s s (reg srv)) ({[s]} ∪ connected srv)
     (tasks srv) (outbox srv) (next_oid srv) (now srv).

(** [socket.on('join_room', (room) => { socket.join(room); ... })] *)
Definition on_join_room (s : SocketId) (room : Room) (srv : Server) : Server :=
  mk (db srv) (reg_join s room (reg srv)) (connected srv)
     (tasks srv) (outbox srv) (next_oid srv) (now srv).

(** [send_message] up to its first [await]. *)
Definition on_send_message (data : SendPayload) (srv : Server) : Server :=
  let m := new_Message (next_oid srv) (now srv) data in
  mk (db srv) (reg srv) (connected srv)
     (tasks srv ++ [TSave m (message_errors data)]) (outbox srv)
     (next_oid srv + 1)%N (now srv).

(** [io.to(room).emit('receive_message', populatedMessage)]: the
    adapter sends to the sockets of the room that the namespace still
    knows; [to(undefined)] reaches nobody. *)
Definition recipients (room : option string) (srv : Server) : list SocketId :=
  match room with
  | Some r => elements (reg_members r (reg srv) ∩ connected srv)
  | None => []
  end.

Definition emit (room : option string) (pm : option PopMessage) (srv : Server) : list Delivery :=
  map (fun s => {| dl_to := s; dl_msg := pm |}) (recipients room srv).

(** Completion of the [await] of task [i]. *)
Definition resume (i : nat) (t : Task) (srv : Server) : Server :=
  match t with
  | TSave m errs =>
      match Message_save m errs (db srv) with
      | Ok db' =>
          mk db' (reg srv) (connected srv) (<[i := TEmit (m_room m) (m_id m)]> (tasks srv))
             (outbox srv) (next_oid srv) (now srv)
      | Err _ =>
          mk (db srv) (reg srv) (connected srv) (delete i (tasks srv))
             (outbox srv) (next_oid srv) (now srv)
      end
  | TEmit room id =>
      match Message_findById id (db srv) with
      | Ok pm =>
          mk (db srv) (reg srv) (connected srv) (delete i (tasks srv))
             (outbox srv ++ emit room pm srv) (next_oid srv) (now srv)
      | Err _ =>
          mk (db srv) (reg srv) (connected srv) (delete i (tasks srv))
             (outbox srv) (next_oid srv) (now srv)
      end
  end.

(** socket.io's disconnect: [leaveAll], then the socket is removed from
    the namespace; the handler only logs. *)
Definition on_disconnect (s : SocketId) (srv : Server) : Server :=
  mk (db srv) (reg_leave_all s (reg srv)) (connected srv ∖ {[s]})
     (tasks srv) (outbox srv) (next_oid srv) (now srv).

Definition set_db_up (up : bool) (srv : Server) : Server :=
  mk (set_up up (db srv)) (reg srv) (connected srv) (tasks srv) (outbox srv) (next_oid srv) (now srv).

Definition tick (dt : Z) (srv : Server) : Server :=
  mk (db srv) (reg srv) (connected srv) (tasks srv) (outbox srv)
     (next_oid srv) (now srv + dt)%Z.

(** One event; [None] when the event cannot happen in this state. *)
Definition step (srv : Server) (ev : Event) : option Server :=
  match ev with
  | Connect s => if decide (s ∈ connected srv) then None else Some (on_connection s srv)
  | JoinRoom s room =>
      if decide (s ∈ connected srv) then Some (on_join_room s room srv) else None
  | SendMessage s data =>
      if decide (s ∈ connected srv) then Some (on_send_message data srv) else None
  | Resume i => t ← tasks srv !! i; Some (resume i t srv)
  | Disconnect s =>
      if decide (s ∈ connected srv) then Some (on_disconnect s srv) else None
  | Tick dt => if decide (0 <= dt)%Z then Some (tick dt srv) else None
  | SetDb up => Some (set_db_up up srv)
  end.

Fixpoint run (srv : Server) (evs : list Event) : option Server :=
  match evs with
  | [] => Some srv
  | ev :: evs' => srv' ← step srv ev; run srv' evs'
  end.

(** [GET /api/messages/:room] (lines 547-554). *)
Definition get_messages (r : string) (srv : Server) : result (Z * string) (list PopMessage) :=
  match Message_find_room r (db srv) with
  | Ok l => Ok l
  | Err _ => Err (500%Z, "Failed to fetch messages")
  end.

(** ** Reachable states and the invariant *)

Definition db_ts_ok (db0 : DB) (t0 : Date) : bool :=
  forallb (fun m => bool_decide (m_timestamp m <= t0)%Z) (messages db0).

Inductive reachable : Server -> Prop :=
| reach_init db0 t0 : db_ts_ok db0 t0 = true -> reachable (init db0 t0)
| reach_step srv ev srv' : reachable srv -> step srv ev = Some srv' -> reachable srv'.

Definition task_ts_ok (t : Date) (k : Task) : Prop :=
  match k with TSave m _ => (m_timestamp m <= t)%Z | TEmit _ _ => True end.

Record inv (srv : Server) : Prop := {
  inv_reg : reg_wf (reg srv);
  inv_members : forall r, reg_members r (reg srv) ⊆ connected srv;
  inv_ts : Forall (fun m => (m_timestamp m <= now srv)%Z) (messages (db srv));
  inv_tasks : Forall (task_ts_ok (now srv)) (tasks srv);
}.

Lemma run_reachable srv evs srv' :
  reachable srv -> run srv evs = Some srv' -> reachable srv'.
Proof.
  revert srv. induction evs as [|ev evs IH]; intros srv Hr Hrun; simpl in Hrun.
  - by simplify_eq.
  - destruct (step srv ev) as [srv1|] eqn:E; [|done].
    apply (IH srv1); [by econstructor|done].
Qed.

Lemma inv_init db0 t0 : db_ts_ok db0 t0 = true -> inv (init db0 t0).
Proof.
  intros Hts. split; cbn.
  - apply reg_wf_empty.
  - intros r. rewrite reg_members_empty. set_solver.
  - apply Forall_forall. intros m Hm. unfold db_ts_ok in Hts.
    rewrite forallb_forall in Hts. apply list_elem_of_In in Hm.
    specialize (Hts m Hm). by apply bool_decide_eq_true in Hts.
  - constructor.
Qed.

Lemma inv_resume srv i t : inv srv -> tasks srv !! i = Some t -> inv (resume i t srv).
Proof.
  intros [Hreg Hmem Hts Htasks] Hi.
  pose proof (Forall_lookup_1 _ _ _ _ Htasks Hi) as Ht.
  destruct t as [m errs|room id]; cbn [resume].
  - destruct (Message_save m errs (db srv)) as [db'|e] eqn:E.
    + apply Message_save_ok in E as (_ & _ & ->).
      split; cbn; [done|done| |by apply Forall_insert].
      apply Forall_app; split; [done|by constructor].
    + split; cbn; [done|done|done|by apply Forall_delete].
  - destruct (Message_findById id (db srv));
      (split; cbn; [done|done|done|by apply Forall_delete]).
Qed.

Lemma step_inv srv ev srv' : inv srv -> step srv ev = Some srv' -> inv srv'.
Proof.
  intros Hinv Hstep. pose proof Hinv as [Hreg Hmem Hts Htasks].
  destruct ev as [s|s room|s data|i|s|dt|up]; cbn [step] in Hstep.
  - case_decide; simplify_eq. split; cbn; [by apply reg_wf_join| |done|done].
    intros r. rewrite reg_members_join by done. specialize (Hmem r).
    case_decide; set_solver.
  - case_decide; simplify_eq. split; cbn; [by apply reg_wf_join| |done|done].
    intros r. rewrite reg_members_join by done. specialize (Hmem r).
    case_decide; set_solver.
  - case_decide; simplify_eq. split; cbn; [done|done|done|].
    apply Forall_app; split; [done|]. constructor; [cbn; lia|constructor].
  - destruct (tasks srv !! i) as [t|] eqn:Ht; cbn in Hstep; simplify_eq. by apply inv_resume.
  - case_decide; simplify_eq. split; cbn; [by apply reg_wf_leave_all| |done|done].
    intros r. rewrite reg_members_leave_all by done. specialize (Hmem r). set_solver.
  - case_decide; simplify_eq. split; cbn; [done|done| |].
    + eapply Forall_impl; [exact Hts|]. intros m; cbn; lia.
    + eapply Forall_impl; [exact Htasks|]. intros [m errs|]; cbn; [lia|done].
  - simplify_eq. by split.
Qed.

Lemma reachable_inv srv : reachable srv -> inv srv.
Proof.
  induction 1 as [db0 t0 Hts|srv ev srv' _ IH Hstep].
  - by apply inv_init.
  - by eapply step_inv.
Qed.

Lemma run_inv db0 t0 evs srv :
  db_ts_ok db0 t0 = true -> run (init db0 t0) evs = Some srv -> inv srv.
Proof.
  intros Hts Hrun. apply reachable_inv.
  eapply run_reachable; [by constructor|exact Hrun].
Qed.

(** ** Helper lemmas on the [send_message] handler *)

(** Whether the [await] of a task succeeds on database [d]. *)
Definition task_succeeds (t : Task) (d : DB) : bool :=
  match t with
  | TSave m errs => is_ok (Message_save m errs d)
  | TEmit _ id => is_ok (Message_findById id d)
  end.

(** A [send_message] followed by the completion of its [save]. *)
Lemma send_then_save srv s data srv1 srv2 :
  step srv (SendMessage s data) = Some srv1 ->
  step srv1 (Resume (length (tasks srv))) = Some srv2 ->
  s ∈ connected srv /\
  srv2 = resume (length (tasks srv))
           (TSave (new_Message (next_oid srv) (now srv) data) (message_errors data))
           (on_send_message data srv).
Proof.
  cbn [step]. case_decide; [|done]. intros [= <-].
  cbn [on_send_message tasks mk].
  rewrite list_lookup_middle by done. cbn. intros [= <-]. done.
Qed.

Lemma resume_save_ok i m errs srv db' :
  Message_save m errs (db srv) = Ok db' ->
  resume i (TSave m errs) srv =
    mk db' (reg srv) (connected srv) (<[i := TEmit (m_room m) (m_id m)]> (tasks srv))
       (outbox srv) (next_oid srv) (now srv).
Proof. cbn [resume]. by intros ->. Qed.

Lemma resume_failed i t srv :
  task_succeeds t (db srv) = false ->
  resume i t srv =
    mk (db srv) (reg srv) (connected srv) (delete i (tasks srv))
       (outbox srv) (next_oid srv) (now srv).
Proof.
  destruct t as [m errs|room id]; cbn [resume task_succeeds].
  - by destruct (Message_save m errs (db srv)).
  - by destruct (Message_findById id (db srv)).
Qed.

Lemma recipients_members srv r :
  inv srv -> forall s, s ∈ recipients (Some r) srv <-> s ∈ reg_members r (reg srv).
Proof.
  intros Hinv s. cbn [recipients]. rewrite elem_of_elements.
  pose proof (inv_members _ Hinv r). set_solver.
Qed.

(** ** Properties *)

(** C2: in every state the server can reach, every member of every
    room is a connected socket: disconnecting removes a socket from all
    its rooms before it is discarded, so no emit ever targets a dead
    socket. *)
Theorem members_connected db0 t0 evs srv r :
  db_ts_ok db0 t0 = true -> run (init db0 t0) evs = Some srv ->
  reg_members r (reg srv) ⊆ connected srv.
Proof. intros Hts Hrun. by eapply inv_members, run_inv. Qed.

(** C1: in a reachable state, a valid [send_message] to room [r]
    whose [save] completes next makes the history of [r]
    ([GET /api/messages/:room]) the previous history followed by exactly
    the new message, populated with its sender. *)
Theorem send_then_history db0 t0 evs srv s data r srv1 srv2 :
  db_ts_ok db0 t0 = true -> run (init db0 t0) evs = Some srv ->
  p_room data = Some r -> message_errors data = [] -> db_up (db srv) = true ->
  step srv (SendMessage s data) = Some srv1 ->
  step srv1 (Resume (length (tasks srv))) = Some srv2 ->
  get_messages r srv2 =
    Ok (room_history r (db srv) ++
        [populate (db srv) (new_Message (next_oid srv) (now srv) data)]).
Proof.
  intros Hts Hrun Hroom Herrs Hup Hs1 Hs2.
  pose proof (run_inv _ _ _ _ Hts Hrun) as Hinv.
  destruct (send_then_save _ _ _ _ _ Hs1 Hs2) as [_ ->].
  rewrite Herrs, (resume_save_ok _ _ _ _ (set_messages (messages (db srv) ++
    [new_Message (next_oid srv) (now srv) data]) (db srv))).
  2:{ cbn [Message_save on_send_message db mk]. by rewrite Hup. }
  unfold get_messages, Message_find_room. cbn [db mk set_messages db_up].
  rewrite Hup, room_history_append; [done|done|].
  cbn [new_Message m_timestamp]. apply (inv_ts _ Hinv).
Qed.

(** C4: a [send_message] whose content is missing or empty fails its
    [save] with a validation error and has no effect: nothing is
    stored, nothing is emitted, and the task is gone. *)
Theorem send_empty_rejected srv s data srv1 srv2 :
  (p_content data = None \/ p_content data = Some "") ->
  step srv (SendMessage s data) = Some srv1 ->
  step srv1 (Resume (length (tasks srv))) = Some srv2 ->
  db srv2 = db srv /\ outbox srv2 = outbox srv /\ tasks srv2 = tasks srv.
Proof.
  intros Hc Hs1 Hs2. destruct (send_then_save _ _ _ _ _ Hs1 Hs2) as [_ ->].
  rewrite resume_failed; cbn -[delete].
  - rewrite delete_middle, app_nil_r. done.
  - by apply Message_save_errors, message_errors_content.
Qed.

(** C7: unlike what the specification requires, the server accepts a
    content made only of white space: a [send_message] with such a
    content and no sender is stored once its [save] completes.  Only
    the client's [input.trim()] check keeps it out. *)
Theorem send_whitespace_stored srv s r c srv1 srv2 :
  c <> "" -> js_trim c = "" -> db_up (db srv) = true ->
  step srv (SendMessage s {| p_room := Some r; p_sender := None; p_content := Some c |}) = Some srv1 ->
  step srv1 (Resume (length (tasks srv))) = Some srv2 ->
  messages (db srv2) = messages (db srv) ++
    [new_Message (next_oid srv) (now srv) {| p_room := Some r; p_sender := None; p_content := Some c |}].
Proof.
  intros Hc _ Hup Hs1 Hs2. destruct (send_then_save _ _ _ _ _ Hs1 Hs2) as [_ ->].
  assert (Herrs : message_errors {| p_room := Some r; p_sender := None; p_content := Some c |} = [])
    by (destruct c; done).
  rewrite Herrs, resume_save_ok with (db' := set_messages (messages (db srv) ++
    [new_Message (next_oid srv) (now srv)
       {| p_room := Some r; p_sender := None; p_content := Some c |}]) (db srv)); [done|].
  cbn [Message_save on_send_message db mk]. by rewrite Hup.
Qed.

(** C5: when the [await] of a [send_message] fails (validation,
    database unavailable), the failure is only logged: nothing is
    stored, nothing is emitted to anyone (the sender gets no error
    event), and the work is dropped without retry. *)
Theorem failed_send_silent srv i t srv' :
  tasks srv !! i = Some t -> task_succeeds t (db srv) = false ->
  step srv (Resume i) = Some srv' ->
  outbox srv' = outbox srv /\ db srv' = db srv /\ tasks srv' = delete i (tasks srv).
Proof.
  intros Hi Hfail. cbn [step]. rewrite Hi. cbn. intros [= <-].
  by rewrite resume_failed.
Qed.

(** C3: in a reachable state, completing the [findById] of a saved
    message of room [r] emits it exactly once to each socket that is a
    member of [r] at that moment, and to no other socket. *)
Theorem emit_to_room_members db0 t0 evs srv i r id srv' :
  db_ts_ok db0 t0 = true -> run (init db0 t0) evs = Some srv ->
  tasks srv !! i = Some (TEmit (Some r) id) -> db_up (db srv) = true ->
  step srv (Resume i) = Some srv' ->
  exists pm ls,
    Message_findById id (db srv) = Ok pm /\
    outbox srv' = outbox srv ++ map (fun s => {| dl_to := s; dl_msg := pm |}) ls /\
    NoDup ls /\ (forall s, s ∈ ls <-> s ∈ reg_members r (reg srv)).
Proof.
  intros Hts Hrun Hi Hup. cbn [step]. rewrite Hi. cbn. intros [= <-].
  pose proof (run_inv _ _ _ _ Hts Hrun) as Hinv.
  unfold Message_findById. rewrite Hup.
  eexists _, (recipients (Some r) srv). split; [done|]. split; [done|]. split.
  - apply NoDup_elements.
  - by apply recipients_members.
Qed.

(** In a reachable state, a disconnecting socket leaves every
    room it was in, the other members of every room stay, and it is no
    longer connected. *)
Theorem disconnect_leaves_rooms db0 t0 evs srv s srv' :
  db_ts_ok db0 t0 = true -> run (init db0 t0) evs = Some srv ->
  step srv (Disconnect s) = Some srv' ->
  s ∉ connected srv' /\
  (forall r, reg_members r (reg srv') = reg_members r (reg srv) ∖ {[s]}).
Proof.
  intros Hts Hrun. cbn [step]. case_decide; [|done]. intros [= <-].
  pose proof (run_inv _ _ _ _ Hts Hrun) as Hinv.
  cbn. split; [set_solver|].
  intros r. apply reg_members_leave_all, (inv_reg _ Hinv).
Qed.

(** C8: [send_message] checks neither who sends nor where: any
    connected socket, member of the room or not, stores a message
    whose [sender] is whatever user id the payload names. *)
Theorem send_sender_unchecked srv s r sender victim content srv1 srv2 :
  s ∉ reg_members r (reg srv) -> ObjectId.cast sender = Some victim ->
  content <> "" -> db_up (db srv) = true ->
  step srv (SendMessage s {| p_room := Some r; p_sender := Some sender; p_content := Some content |}) = Some srv1 ->
  step srv1 (Resume (length (tasks srv))) = Some srv2 ->
  exists m, messages (db srv2) = messages (db srv) ++ [m] /\
    m_room m = Some r /\ m_sender m = Some victim.
Proof.
  intros _ Hcast Hc Hup Hs1 Hs2. destruct (send_then_save _ _ _ _ _ Hs1 Hs2) as [_ ->].
  assert (Herrs : message_errors {| p_room := Some r; p_sender := Some sender;
                                    p_content := Some content |} = []).
  { unfold message_errors; cbn. rewrite Hcast. by destruct content. }
  rewrite Herrs, resume_save_ok with (db' := set_messages (messages (db srv) ++
    [new_Message (next_oid srv) (now srv)
       {| p_room := Some r; p_sender := Some sender; p_content := Some content |}]) (db srv)).
  - eexists. split; [done|]. cbn. by rewrite Hcast.
  - cbn [Message_save on_send_message db mk]. by rewrite Hup.
Qed.
(** ** Two concurrent publishes *)

(** Simplification of the handlers' records. *)
Ltac srv_simpl := cbn [mbind option_bind resume Message_save on_send_message tick mk
  tasks next_oid now db reg connected outbox set_messages messages db_up m_room m_id new_Message].

Lemma lookup_app_two {A} (l : list A) a b :
  (l ++ [a; b]) !! length l = Some a /\ (l ++ [a; b]) !! S (length l) = Some b.
Proof. split; [by rewrite lookup_app_r, Nat.sub_diag by lia|]. rewrite lookup_app_r by lia.
  by rewrite Nat.sub_succ_l, Nat.sub_diag by lia. Qed.

Lemma insert_app_two_snd {A} (l : list A) a b x :
  <[S (length l) := x]> (l ++ [a; b]) = l ++ [a; x].
Proof. replace (S (length l)) with (length l + 1)%nat by lia. by rewrite insert_app_r. Qed.

Lemma insert_app_two_fst {A} (l : list A) a b y :
  <[length l := y]> (l ++ [a; b]) = l ++ [y; b].
Proof. replace (length l) with (length l + 0)%nat at 1 by lia. by rewrite insert_app_r. Qed.

Lemma run_two_sends (srv : Server) s1 s2 d1 d2 dt :
  s1 ∈ connected srv -> s2 ∈ connected srv -> (0 <= dt)%Z ->
  message_errors d1 = [] -> message_errors d2 = [] -> db_up (db srv) = true ->
  run srv [SendMessage s1 d1; Tick dt; SendMessage s2 d2;
           Resume (S (length (tasks srv))); Resume (length (tasks srv))] =
  Some (mk (set_messages (messages (db srv) ++
                [new_Message (next_oid srv + 1)%N (now srv + dt)%Z d2;
                 new_Message (next_oid srv) (now srv) d1]) (db srv))
            (reg srv) (connected srv)
            (tasks srv ++ [TEmit (p_room d1) (next_oid srv); TEmit (p_room d2) (next_oid srv + 1)%N])
            (outbox srv) (next_oid srv + 1 + 1)%N (now srv + dt)%Z).
Proof.
  intros Hs1 Hs2 Hdt He1 He2 Hup. cbn [run step].
  rewrite decide_True by done. cbn [mbind option_bind].
  rewrite decide_True by done. cbn [mbind option_bind].
  rewrite decide_True by done.
  cbn [mbind option_bind on_send_message tick mk tasks next_oid now db reg connected outbox].
  rewrite <-app_assoc. cbn [app].
  rewrite (proj2 (lookup_app_two _ _ _)). srv_simpl. rewrite He2. srv_simpl. rewrite Hup. srv_simpl.
  rewrite <-app_assoc. cbn [app]. rewrite insert_app_two_snd.
  rewrite (proj1 (lookup_app_two _ _ _)). srv_simpl. rewrite He1. srv_simpl. rewrite Hup. srv_simpl.
  rewrite insert_app_two_fst, <-(app_assoc (messages (db srv))). reflexivity.
Qed.

Lemma find_msg_app i ms l :
  i ∉ map m_id ms ->
  List.find (fun m => bool_decide (m_id m = i)) (ms ++ l) = List.find (fun m => bool_decide (m_id m = i)) l.
Proof.
  induction ms as [|m ms IH]; intros Hi; [done|]. cbn [app List.find].
  rewrite bool_decide_false; [apply IH; set_solver|]. intros <-. apply Hi. by left.
Qed.

Lemma filter_dl_notin s pm l :
  s ∉ l -> filter (fun d => dl_to d = s) (map (fun x => {| dl_to := x; dl_msg := pm |}) l) = [].
Proof.
  induction l as [|x l IH]; intros Hs; [done|]. cbn [map].
  rewrite filter_cons_False by (cbn; intros ->; apply Hs; by left). apply IH. set_solver.
Qed.

Lemma filter_dl_member s pm l :
  NoDup l -> s ∈ l ->
  filter (fun d => dl_to d = s) (map (fun x => {| dl_to := x; dl_msg := pm |}) l) =
    [{| dl_to := s; dl_msg := pm |}].
Proof.
  induction 1 as [|x l Hx Hl IH]; intros Hs; [set_solver|]. cbn [map].
  destruct (decide (x = s)) as [->|Hne].
  - rewrite filter_cons_True by done. by rewrite filter_dl_notin.
  - rewrite filter_cons_False by done. apply IH. set_solver.
Qed.

(** What a socket of the room receives from one emit. *)
Lemma filter_emit (srv : Server) r pm s :
  s ∈ reg_members r (reg srv) -> s ∈ connected srv ->
  filter (fun d => dl_to d = s) (emit (Some r) pm srv) = [{| dl_to := s; dl_msg := pm |}].
Proof.
  intros Hm Hc. unfold emit, recipients. apply filter_dl_member; [apply NoDup_elements|].
  rewrite elem_of_elements. set_solver.
Qed.

Lemma delete_app_two_snd {A} (l : list A) a b : delete (S (length l)) (l ++ [a; b]) = l ++ [a].
Proof.
  replace (l ++ [a; b]) with ((l ++ [a]) ++ b :: []) by (by rewrite <-app_assoc).
  replace (S (length l)) with (length (l ++ [a])) by (rewrite length_app; cbn; lia).
  by rewrite delete_middle, app_nil_r.
Qed.

Lemma delete_app_one {A} (l : list A) a : delete (length l) (l ++ [a]) = l.
Proof. by rewrite delete_middle, app_nil_r. Qed.

Lemma run_two_emits (d : DB) (g : R) c T o nx t r1 i1 r2 i2 pm1 pm2 :
  Message_findById i1 d = Ok pm1 -> Message_findById i2 d = Ok pm2 ->
  run (mk d g c (T ++ [TEmit r1 i1; TEmit r2 i2]) o nx t) [Resume (S (length T)); Resume (length T)] =
  Some (mk d g c T (o ++ emit r2 pm2 (mk d g c T o nx t) ++ emit r1 pm1 (mk d g c T o nx t)) nx t).
Proof.
  intros H1 H2. cbn [run step]. srv_simpl. rewrite (proj2 (lookup_app_two _ _ _)). srv_simpl.
  rewrite H2. srv_simpl. rewrite delete_app_two_snd, list_lookup_middle by done. srv_simpl.
  rewrite H1. srv_simpl. rewrite delete_app_one, <-app_assoc. reflexivity.
Qed.

(** C6: publishing is not atomic with respect to concurrent publishes
    to one room.  In every reachable state, when two valid
    [send_message]s to room [r] are sent a positive time apart and the
    later one's [save] completes first, the step that completes the
    earlier one's [save] leaves a history that ends with the later
    message, not with the one just saved; and when the two [findById]s
    complete in the same order, every socket of the room receives the
    later message before the earlier one, while the history lists the
    earlier one first.  Both messages have fresh ids. *)
Theorem interleaved_publish_order db0 t0 evs srv s1 s2 d1 d2 r dt s :
  db_ts_ok db0 t0 = true -> run (init db0 t0) evs = Some srv ->
  s1 ∈ connected srv -> s2 ∈ connected srv -> (0 < dt)%Z ->
  p_room d1 = Some r -> p_room d2 = Some r -> message_errors d1 = [] -> message_errors d2 = [] ->
  db_up (db srv) = true ->
  next_oid srv ∉ map m_id (messages (db srv)) -> (next_oid srv + 1)%N ∉ map m_id (messages (db srv)) ->
  s ∈ reg_members r (reg srv) ->
  let m1 := new_Message (next_oid srv) (now srv) d1 in
  let m2 := new_Message (next_oid srv + 1)%N (now srv + dt)%Z d2 in
  let n := length (tasks srv) in
  exists srv5 srv7,
    run srv [SendMessage s1 d1; Tick dt; SendMessage s2 d2; Resume (S n); Resume n] = Some srv5 /\
    get_messages r srv5 = Ok (room_history r (db srv) ++ [populate (db srv) m1; populate (db srv) m2]) /\
    run srv5 [Resume (S n); Resume n] = Some srv7 /\
    filter (fun d => dl_to d = s) (outbox srv7) =
      filter (fun d => dl_to d = s) (outbox srv) ++
      [{| dl_to := s; dl_msg := Some (populate (db srv) m2) |};
       {| dl_to := s; dl_msg := Some (populate (db srv) m1) |}].
Proof.
  intros Hts Hrun Hs1 Hs2 Hdt Hr1 Hr2 He1 He2 Hup Hid1 Hid2 Hs m1 m2 n.
  pose proof (run_inv _ _ _ _ Hts Hrun) as Hinv.
  assert (Hsc : s ∈ connected srv) by (by apply (inv_members _ Hinv r)).
  set (db' := set_messages (messages (db srv) ++ [m2; m1]) (db srv)).
  set (T := tasks srv).
  assert (Hf1 : Message_findById (next_oid srv) db' = Ok (Some (populate db' m1))).
  { unfold Message_findById, db'. cbn [set_messages db_up messages]. rewrite Hup, find_msg_app by done.
    cbn [List.find]. rewrite bool_decide_false by (cbn; lia). by rewrite bool_decide_true. }
  assert (Hf2 : Message_findById (next_oid srv + 1)%N db' = Ok (Some (populate db' m2))).
  { unfold Message_findById, db'. cbn [set_messages db_up messages]. rewrite Hup, find_msg_app by done.
    cbn [List.find]. by rewrite bool_decide_true. }
  eexists (mk db' (reg srv) (connected srv)
             (T ++ [TEmit (p_room d1) (next_oid srv); TEmit (p_room d2) (next_oid srv + 1)%N])
             (outbox srv) (next_oid srv + 1 + 1)%N (now srv + dt)%Z), _.
  split_and!.
  - apply run_two_sends; [done|done|lia|done|done|done].
  - unfold get_messages, Message_find_room, db'. srv_simpl. rewrite Hup.
    rewrite room_history_append_swap; [done|done|done| |cbn; lia].
    eapply Forall_impl; [exact (inv_ts _ Hinv)|]. intros m; cbn; done.
  - apply run_two_emits; [exact Hf1|exact Hf2].
  - cbn [outbox mk]. rewrite !filter_app, Hr1, Hr2, !filter_emit by done. done.
Qed.

End Server.

(** ** Concrete runs on socket.io's adapter *)

Definition demo_init : Server := init (R := Adapter) demo_db 0%Z.

(** Two sockets connect and join the "General" channel. *)
Definition demo_evs : list Event :=
  [Connect "sa"; Connect "sb"; JoinRoom "sa" "General"; JoinRoom "sb" "General"].

Definition after (srv : Server (R := Adapter)) (evs : list Event) : Server :=
  default srv (run srv evs).

Definition demo_srv : Server := after demo_init demo_evs.

Definition say (room sender content : string) : SendPayload :=
  {| p_room := Some room; p_sender := Some sender; p_content := Some content |}.

Definition hello : SendPayload := say "General" (to_hex 1%N) "hello".

Lemma members_connected_witness :
  reg_members "General" (reg demo_srv) ⊆ connected demo_srv.
Proof. apply (members_connected demo_db 0%Z demo_evs); reflexivity. Defined.

Lemma send_then_history_witness :
  exists l, get_messages "General" (after demo_srv [SendMessage "sa" hello; Resume 0]) = Ok l.
Proof.
  eexists. apply (send_then_history demo_db 0%Z demo_evs demo_srv "sa" hello "General"
    (after demo_srv [SendMessage "sa" hello])); reflexivity.
Defined.

Definition empty_msg : SendPayload :=
  {| p_room := Some "General"; p_sender := None; p_content := Some "" |}.

Definition blank_msg : SendPayload :=
  {| p_room := Some "General"; p_sender := None; p_content := Some "   " |}.

Lemma send_empty_rejected_witness :
  db (after demo_srv [SendMessage "sa" empty_msg; Resume 0]) = db demo_srv /\
  outbox (after demo_srv [SendMessage "sa" empty_msg; Resume 0]) = outbox demo_srv /\
  tasks (after demo_srv [SendMessage "sa" empty_msg; Resume 0]) = tasks demo_srv.
Proof.
  apply (send_empty_rejected demo_srv "sa" empty_msg
    (after demo_srv [SendMessage "sa" empty_msg])); [right|..]; reflexivity.
Defined.

Lemma send_whitespace_stored_witness :
  messages (db (after demo_srv [SendMessage "sa" blank_msg; Resume 0])) =
    messages (db demo_srv) ++ [new_Message (next_oid demo_srv) (now demo_srv) blank_msg].
Proof.
  apply (send_whitespace_stored demo_srv "sa" "General" "   "
    (after demo_srv [SendMessage "sa" blank_msg])); first [reflexivity | discriminate].
Defined.

(** The database goes down after the message was sent. *)
Definition down_srv : Server := after demo_srv [SendMessage "sa" hello; SetDb false].

Lemma failed_send_silent_witness :
  let srv' := after down_srv [Resume 0] in
  outbox srv' = outbox down_srv /\ db srv' = db down_srv /\ tasks srv' = delete 0 (tasks down_srv).
Proof.
  apply (failed_send_silent down_srv 0
    (TSave (new_Message 0%N 0%Z hello) [])); reflexivity.
Defined.

Lemma emit_to_room_members_witness :
  let srv := after demo_srv [SendMessage "sa" hello; Resume 0] in
  exists pm ls,
    Message_findById 0%N (db srv) = Ok pm /\
    outbox (after srv [Resume 0]) = outbox srv ++ map (fun s => {| dl_to := s; dl_msg := pm |}) ls /\
    NoDup ls /\ (forall s, s ∈ ls <-> s ∈ reg_members "General" (reg srv)).
Proof.
  apply (emit_to_room_members demo_db 0%Z (demo_evs ++ [SendMessage "sa" hello; Resume 0])
    _ 0 "General" 0%N); reflexivity.
Defined.

Lemma disconnect_leaves_rooms_witness :
  "sb" ∉ connected (after demo_srv [Disconnect "sb"]) /\
  (forall r, reg_members r (reg (after demo_srv [Disconnect "sb"])) =
             reg_members r (reg demo_srv) ∖ {[ "sb" ]}).
Proof. apply (disconnect_leaves_rooms demo_db 0%Z demo_evs demo_srv "sb"); reflexivity. Defined.

(** Socket "sb" (of user ravi) posts in a room it never joined under
    asha's id. *)
Definition spoof : SendPayload := say "Study Room 1" (to_hex 1%N) "hi, asha here".

Lemma send_sender_unchecked_witness :
  exists m, messages (db (after demo_srv [SendMessage "sb" spoof; Resume 0])) =
              messages (db demo_srv) ++ [m] /\
            m_room m = Some "Study Room 1" /\ m_sender m = Some 1%N.
Proof.
  apply (send_sender_unchecked demo_srv "sb" "Study Room 1" (to_hex 1%N) 1%N
    "hi, asha here" (after demo_srv [SendMessage "sb" spoof]));
    first [reflexivity | discriminate | (apply bool_decide_unpack; vm_compute; exact I)].
Defined.

(** The [join_room] handler is idempotent: a second [join_room]
    of the same socket to the same room leaves the server, the adapter's
    two maps included, exactly as the first one left it. *)
Theorem join_room_idempotent (srv : Server (R := Adapter)) s r :
  on_join_room s r (on_join_room s r srv) = on_join_room s r srv.
Proof.
  unfold on_join_room, mk; cbn [reg db connected tasks outbox next_oid now].
  cbn [reg_join adapter_registry]. f_equal. apply addAll_twice.
Qed.

(** Two messages to "General": "first" from socket "sa", then, one
    millisecond later, "second" from socket "sb"; the database completes
    the [save] of "second" before that of "first". *)
Definition first_msg : SendPayload := say "General" (to_hex 1%N) "first".
Definition second_msg : SendPayload := say "General" (to_hex 2%N) "second".

Lemma interleaved_publish_order_witness :
  exists srv5 srv7,
    run demo_srv [SendMessage "sa" first_msg; Tick 1; SendMessage "sb" second_msg; Resume 1; Resume 0] = Some srv5 /\
    get_messages "General" srv5 =
      Ok (room_history "General" (db demo_srv) ++
          [populate (db demo_srv) (new_Message (next_oid demo_srv) (now demo_srv) first_msg);
           populate (db demo_srv) (new_Message (next_oid demo_srv + 1)%N (now demo_srv + 1)%Z second_msg)]) /\
    run srv5 [Resume 1; Resume 0] = Some srv7 /\
    filter (fun d => dl_to d = "sa") (outbox srv7) =
      filter (fun d => dl_to d = "sa") (outbox demo_srv) ++
      [{| dl_to := "sa"; dl_msg := Some (populate (db demo_srv)
                          (new_Message (next_oid demo_srv + 1)%N (now demo_srv + 1)%Z second_msg)) |};
       {| dl_to := "sa"; dl_msg := Some (populate (db demo_srv)
                          (new_Message (next_oid demo_srv) (now demo_srv) first_msg)) |}].
Proof.
  apply (interleaved_publish_order demo_db 0%Z demo_evs demo_srv "sa" "sb" first_msg second_msg
           "General" 1%Z "sa");
    first [reflexivity | lia | by_decide].
Defined.

End ChatServer.
