(* ===== verification/Async.v ===== *)
(** * Asynchronous handlers on a single-threaded event loop

    An Express route handler or a socket.io listener of [server.js] is an
    [async] function: it runs synchronously up to an [await] on a database
    query, gives control back to the event loop, and resumes with the
    query's result.  [prog Op Res A] is such a handler: [Call op k] awaits
    the operation [op] and continues with [k] applied to its result, [Ret a]
    is the response.  The database executes one operation at a time
    ([exec]); the handlers in flight form a pool, and the event loop may
    resume any of them next ([pool_step]): an interleaving is a list of
    thread indices.  A handler run with no other handler in between is
    [run]. *)

From S2P Require Import Prelude.
From Stdlib Require Import Wellfounded.Inclusion Wellfounded.Inverse_Image.

Open Scope stdpp_scope.

Module Async.

Inductive prog (Op Res A : Type) : Type :=
| Ret (a : A)
| Call (op : Op) (k : Res -> prog Op Res A).
Arguments Ret {Op Res A} a.
Arguments Call {Op Res A} op k.

Notation "x <-- op ;; k" := (Call op (fun x => k))
(at level 100, op at next level, right associativity) : campus_scope.

Section Run.
Context {Op Res S : Type} (exec : Op -> S -> Res * S).

Fixpoint bind {A B} (p : prog Op Res A) (f : A -> prog Op Res B) : prog Op Res B :=
  match p with
  | Ret a => f a
  | Call op k => Call op (fun r => bind (k r) f)
  end.

(** A handler that runs to completion without interleaving. *)
Fixpoint run {A} (p : prog Op Res A) (s : S) : A * S :=
  match p with
  | Ret a => (a, s)
  | Call op k => let '(r, s') := exec op s in run (k r) s'
  end.

Lemma run_bind {A B} (p : prog Op Res A) (f : A -> prog Op Res B) s :
  run (bind p f) s = let '(a, s') := run p s in run (f a) s'.
Proof.
  revert s. induction p as [a|op k IH]; intros s; [done|].
  cbn [bind run]. destruct (exec op s) as [r s']. apply IH.
Qed.

(** ** Interleaved handlers *)

(** Resume thread [i]: execute the operation it awaits. *)
Definition pool_step {A} (i : nat) (ps : list (prog Op Res A) * S)
    : option (list (prog Op Res A) * S) :=
  let '(ts, s) := ps in
  match ts !! i with
  | Some (Call op k) => let '(r, s') := exec op s in Some (<[i := k r]> ts, s')
  | _ => None
  end.

(** A schedule resumes threads and lets the environment act on the
    state (an outage of the database, for instance). *)
Inductive sched_step :=
| SResume (i : nat)
| SEnv (f : S -> S).

Definition sched_apply {A} (st : sched_step) (ps : list (prog Op Res A) * S)
    : option (list (prog Op Res A) * S) :=
  match st with
  | SResume i => pool_step i ps
  | SEnv f => Some (ps.1, f ps.2)
  end.

Fixpoint pool_run {A} (sched : list sched_step) (ps : list (prog Op Res A) * S)
    : option (list (prog Op Res A) * S) :=
  match sched with
  | [] => Some ps
  | st :: sched' => ps' ← sched_apply st ps; pool_run sched' ps'
  end.

(** An invariant of the state that every single operation preserves is
    preserved by every interleaving. *)
Section Invariant.
Context (I : S -> Prop).
Hypothesis exec_inv : forall op s, I s -> I (exec op s).2.

Lemma run_preserves {A} (p : prog Op Res A) s : I s -> I (run p s).2.
Proof.
  revert s. induction p as [a|op k IH]; intros s Hs; [done|].
  cbn [run]. pose proof (exec_inv op s Hs) as H.
  destruct (exec op s) as [r s']. by apply IH.
Qed.

(** Without environment steps, or with ones that preserve [I]. *)
Lemma pool_run_inv {A} sched (ts ts' : list (prog Op Res A)) s s' :
  Forall (fun st => forall f, st = SEnv f -> forall x, I x -> I (f x)) sched ->
  I s -> pool_run sched (ts, s) = Some (ts', s') -> I s'.
Proof.
  intros Henv. revert ts s.
  induction Henv as [|st sched Hst _ IH]; intros ts s Hs Hrun;
    cbn [pool_run] in Hrun; [by simplify_eq|].
  destruct (sched_apply st (ts, s)) as [[ts1 s1]|] eqn:E; [|done].
  cbn in Hrun. apply (IH ts1 s1); [|done].
  destruct st as [i|f]; cbn in E.
  - destruct (ts !! i) as [[|op k]|]; try done.
    pose proof (exec_inv op s Hs) as H.
    destruct (exec op s) as [r s2]. by simplify_eq.
  - simplify_eq. by apply (Hst f).
Qed.
End Invariant.

(** ** Every interleaving ends

    A handler awaits finitely many operations: [prog] is an inductive
    type, and a resumed handler continues with a strict subterm of the
    program it was.  The pool therefore admits no infinite sequence of
    resumes, whatever the order the event loop picks. *)

(** [p'] is what [p] continues with after one of its awaits. *)
Inductive resumes {A} : prog Op Res A -> prog Op Res A -> Prop :=
| resumes_call op k r : resumes (k r) (Call op k).

Lemma resumes_wf {A} : well_founded (@resumes A).
Proof.
  intros p. induction p as [a|op k IH]; constructor; intros p' Hp; inversion Hp; subst; auto.
Qed.

(** One thread of the list resumes, the others are unchanged. *)
Definition one_resumes {A} (l' l : list (prog Op Res A)) : Prop :=
  exists i p p', l !! i = Some p /\ resumes p' p /\ l' = <[i := p']> l.

Lemma one_resumes_cons {A} (x : prog Op Res A) l :
  Acc resumes x -> Acc one_resumes l -> Acc one_resumes (x :: l).
Proof.
  intros Hx. revert l. induction Hx as [x Hx IHx]. intros l Hl.
  induction Hl as [l Hl IHl]. constructor. intros l' ([|i] & p & p' & Hi & Hr & ->); cbn in *.
  - simplify_eq. apply IHx; [done|]. by constructor.
  - apply IHl. by exists i, p, p'.
Qed.

Lemma one_resumes_wf {A} : well_founded (@one_resumes A).
Proof.
  intros l. induction l as [|x l IH].
  - constructor. by intros l' (i & p & p' & Hi & _).
  - apply one_resumes_cons; [apply resumes_wf|done].
Qed.

(** The event loop resumes thread [i] of [a] and reaches [b]. *)
Definition pool_next {A} (b a : list (prog Op Res A) * S) : Prop :=
  exists i, pool_step i a = Some b.

Lemma pool_next_resumes {A} (b a : list (prog Op Res A) * S) :
  pool_next b a -> one_resumes b.1 a.1.
Proof.
  destruct a as [ts s], b as [ts' s']. intros [i Hi]. cbn in *.
  destruct (ts !! i) as [[|op k]|] eqn:E; try done.
  destruct (exec op s) as [r s2]. simplify_eq.
  exists i, (Call op k), (k r). split_and!; [done|constructor|done].
Qed.

Lemma pool_done_or_step {A} (ts : list (prog Op Res A)) s :
  Forall (fun p => exists a, p = Ret a) ts \/ exists b, pool_next b (ts, s).
Proof.
  induction ts as [|p ts IH] using rev_ind; [left; constructor|].
  destruct IH as [Hall|[[ts' s'] [i Hi]]].
  - destruct p as [a|op k].
    + left. apply Forall_app. eauto.
    + right. exists (<[length ts := k (exec op s).1]> (ts ++ [Call op k]), (exec op s).2).
      exists (length ts). cbn. rewrite lookup_app_r, Nat.sub_diag by lia. cbn.
      by destruct (exec op s).
  - right. cbn in Hi. destruct (ts !! i) as [[|op k]|] eqn:E; try done.
    exists (<[i := k (exec op s).1]> (ts ++ [p]), (exec op s).2), i. cbn.
    rewrite (lookup_app_l_Some _ _ _ _ E). by destruct (exec op s).
Qed.

(** The event loop cannot resume the handlers of a pool forever,
    whatever thread it picks at each step: the resume relation of the
    pool is well-founded. *)
Theorem pool_terminates {A} : well_founded (@pool_next A).
Proof.
  apply (wf_incl _ _ (fun b a => one_resumes b.1 a.1)); [intros ??; apply pool_next_resumes|].
  apply (wf_inverse_image _ _ one_resumes fst), one_resumes_wf.
Qed.

Lemma pool_run_length {A} sched (ts ts' : list (prog Op Res A)) s s' :
  pool_run sched (ts, s) = Some (ts', s') -> length ts' = length ts.
Proof.
  revert ts s. induction sched as [|[i|f] sched IH]; intros ts s Hrun; cbn in Hrun.
  - by simplify_eq.
  - destruct (ts !! i) as [[|op k]|]; try done. destruct (exec op s) as [r s1].
    cbn in Hrun. rewrite (IH _ _ Hrun). apply length_insert.
  - by rewrite (IH _ _ Hrun).
Qed.

Lemma Forall_Ret {A} (ts : list (prog Op Res A)) :
  Forall (fun p => exists a, p = Ret a) ts -> exists rs, ts = map Ret rs.
Proof.
  induction 1 as [|p ts [a ->] _ [rs ->]]; [by exists []|]. by exists (a :: rs).
Qed.

(** Every pool of handlers in flight can be run to completion: some
    schedule of resumes leaves every handler returned with its
    response, one response per handler, in the pool's order. *)
Lemma pool_drains {A} (ts : list (prog Op Res A)) s :
  exists sched rs s', pool_run (map SResume sched) (ts, s) = Some (map Ret rs, s') /\
    length rs = length ts.
Proof.
  remember (ts, s) as ps eqn:Hps. revert ts s Hps.
  induction ps as [ps IH] using (well_founded_induction pool_terminates).
  intros ts s ->. destruct (pool_done_or_step ts s) as [Hall|[[ts1 s1] [i Hi]]].
  - destruct (Forall_Ret ts Hall) as [rs ->]. exists [], rs, s. by rewrite length_map.
  - destruct (IH (ts1, s1) (ex_intro _ i Hi) ts1 s1 eq_refl) as (sched & rs & s' & Hrun & Hlen).
    exists (i :: sched), rs, s'. cbn [map pool_run sched_apply]. rewrite Hi. split; [done|].
    rewrite Hlen. apply (pool_run_length (map SResume [i]) ts ts1 s s1).
    cbn [map pool_run sched_apply]. by rewrite Hi.
Qed.

End Run.

End Async.
