(* ===== verification/Http.v ===== *)
(** * HTTP responses of the REST routes

    Every Express route of [server.js] answers with [res.status(code)
    .json(body)] (200 when no status is set).  The bodies are either a
    [{ message }] object or the JSON of documents, often restricted to a
    few paths by [.select] or [.populate]; the records below are those
    projections. *)

From S2P Require Import Prelude ObjectId Store.

Open Scope stdpp_scope.

Module Http.
Import ObjectId Store.

(** [.select('displayName email photo department role')] (line 484). *)
Record UserCard := {
  uc_id : ObjectId;
  uc_displayName : option string;
  uc_email : string;
  uc_photo : option string;
  uc_department : option string;
  uc_role : Role;
}.

Definition user_card (u : User) : UserCard :=
  {| uc_id := u_id u; uc_displayName := displayName u; uc_email := email u;
     uc_photo := photo u; uc_department := department u; uc_role := role u |}.

(** [.populate('sender', 'displayName photo email')] (line 509): [null]
    when the sender is not a user. *)
Record SenderCard := {
  sc_id : ObjectId;
  sc_displayName : option string;
  sc_photo : option string;
  sc_email : string;
}.

Record RequestView := {
  rv_id : ObjectId;
  rv_sender : option SenderCard;
  rv_receiver : ObjectId;
  rv_status : FollowStatus;
  rv_createdAt : Date;
}.

(** [.populate('friends', 'displayName photo email department')] (line
    539): ids that are not users are left out of the array. *)
Record FriendCard := {
  fc_id : ObjectId;
  fc_displayName : option string;
  fc_photo : option string;
  fc_email : string;
  fc_department : option string;
}.

(** The user object of the login response (line 400). *)
Record LoginUser := {
  lu_id : ObjectId;
  lu_displayName : option string;
  lu_email : string;
  lu_photo : option string;
}.

Definition login_user (u : User) : LoginUser :=
  {| lu_id := u_id u; lu_displayName := displayName u; lu_email := email u; lu_photo := photo u |}.

Inductive Body :=
| BMsg (message : string)
| BUsers (us : list UserCard)
| BRequests (rs : list RequestView)
| BFriends (fs : list FriendCard)
| BUser (u : User)
(** [{ token, user }] of the login route *)
| BLogin (token : string) (u : LoginUser)
(** [{ authenticated, user }] of [GET /api/auth/user] *)
| BAuth (authenticated : bool) (u : option User)
(** [{ message, user }] of the profile update *)
| BProfile (message : string) (u : User)
(** [res.redirect(url)] *)
| BRedirect (url : string)
(** Express's default error page *)
| BNone.

Record Response := {
  status : Z;
  body : Body;
}.

Definition msg (code : Z) (m : string) : Response := {| status := code; body := BMsg m |}.

End Http.
