(* ===== verification/Mongo.v ===== *)
(** * The Mongoose queries of the REST routes

    Every [await] of a route handler of [server.js] is one of the
    operations [Op] below; [exec] runs it atomically on the store and
    returns its result [Res].  Query filters whose ObjectId paths receive
    a string that does not cast fail with a [CastError] (the route's
    [catch] turns it into a 500); every operation fails with [Unavailable]
    while the database is down.  Handlers are [Async.prog Op Res]
    programs over these operations. *)

From S2P Require Import Prelude ObjectId Store Async Http.

Open Scope stdpp_scope.

Module Mongo.
Import ObjectId Store Http.

Inductive Op :=
(** [FollowRequest.findOne({ sender, receiver, status: 'pending' })] *)
| ReqFindPending (sender receiver : string)
(** [FollowRequest.findById(id)] *)
| ReqFindById (id : string)
(** [FollowRequest.find({ receiver, status: 'pending' })
    .populate('sender', 'displayName photo email')] *)
| ReqFindIncoming (receiver : string)
(** [request.save()] of a new or loaded follow request *)
| ReqSave (fr : FollowRequest)
(** [User.findById(id)] *)
| UserFindById (id : string)
(** [User.findByIdAndUpdate(id, { $addToSet: { friends: friend } })] *)
| UserAddFriend (id friend : ObjectId)
(** [User.find({ _id: { $ne: exclude } })] *)
| UserFindAll (exclude : option string)
(** [User.findById(id).populate('friends', 'displayName photo email department')] *)
| UserFriends (id : string).

Inductive Res :=
| RDone
| RReq (r : option FollowRequest)
| RReqViews (rs : list RequestView)
| RFriends (fs : option (list FriendCard))
| RUser (u : option User)
| RUsers (us : list User)
| RErr (e : DbError).

Definition Handler (A : Type) := Async.prog Op Res A.

(** ** Collections updated in place *)

(** Replace the document with the same [_id], or append a new one. *)
Definition upsert {A} (key : A -> ObjectId) (x : A) (l : list A) : list A :=
  if bool_decide (Exists (fun y => key y = key x) l)
  then (fun y => if bool_decide (key y = key x) then x else y) <$> l
  else l ++ [x].

Definition set_friends (fs : list ObjectId) (u : User) : User :=
  {| u_id := u_id u; googleId := googleId u; displayName := displayName u;
     email := email u; password := password u; photo := photo u;
     isVerified := isVerified u; verificationCode := verificationCode u;
     verificationCodeExpires := verificationCodeExpires u;
     department := department u; college := college u; class := class u;
     year := year u; placedAt := placedAt u; leetCodeHandle := leetCodeHandle u;
     codeForcesHandle := codeForcesHandle u; role := role u;
     following := following u; followers := followers u; friends := fs;
     u_createdAt := u_createdAt u |}.

(** [$addToSet]: append unless already present. *)
Definition add_to_set (x : ObjectId) (l : list ObjectId) : list ObjectId :=
  if bool_decide (x ∈ l) then l else l ++ [x].

Definition set_users (us : list User) (db : DB) : DB :=
  {| users := us; notes := notes db; announcements := announcements db;
     messages := messages db; followRequests := followRequests db; db_up := db_up db |}.

Definition set_requests (rs : list FollowRequest) (db : DB) : DB :=
  {| users := users db; notes := notes db; announcements := announcements db;
     messages := messages db; followRequests := rs; db_up := db_up db |}.

Definition add_friend_to (id friend : ObjectId) (u : User) : User :=
  if bool_decide (u_id u = id) then set_friends (add_to_set friend (friends u)) u else u.

Definition add_friend (id friend : ObjectId) (db : DB) : DB :=
  set_users (map (add_friend_to id friend) (users db)) db.

Definition is_pending_for (s r : ObjectId) (fr : FollowRequest) : bool :=
  bool_decide (fr_sender fr = s /\ fr_receiver fr = r /\ fr_status fr = pending).

Definition cast_path (path s : string) : result DbError ObjectId :=
  match ObjectId.cast s with Some id => Ok id | None => Err (CastError path) end.

(** ** Populated documents *)

Definition sender_card (db : DB) (id : ObjectId) : option SenderCard :=
  u ← find_user id db;
  Some {| sc_id := u_id u; sc_displayName := displayName u; sc_photo := photo u;
          sc_email := email u |}.

Definition request_view (db : DB) (fr : FollowRequest) : RequestView :=
  {| rv_id := fr_id fr; rv_sender := sender_card db (fr_sender fr);
     rv_receiver := fr_receiver fr; rv_status := fr_status fr;
     rv_createdAt := fr_createdAt fr |}.

Definition friend_card (u : User) : FriendCard :=
  {| fc_id := u_id u; fc_displayName := displayName u; fc_photo := photo u;
     fc_email := email u; fc_department := department u |}.

Definition friend_cards (db : DB) (u : User) : list FriendCard :=
  omap (fun f => friend_card <$> find_user f db) (friends u).

(** ** Execution *)

Definition exec_up (op : Op) (db : DB) : Res * DB :=
  match op with
  | ReqFindPending s r =>
      match cast_path "sender" s, cast_path "receiver" r with
      | Ok si, Ok ri => (RReq (List.find (is_pending_for si ri) (followRequests db)), db)
      | Err e, _ | _, Err e => (RErr e, db)
      end
  | ReqFindById id =>
      match cast_path "_id" id with
      | Ok i => (RReq (List.find (fun fr => bool_decide (fr_id fr = i)) (followRequests db)), db)
      | Err e => (RErr e, db)
      end
  | ReqFindIncoming r =>
      match cast_path "receiver" r with
      | Ok ri =>
          (RReqViews (map (request_view db)
             (List.filter (fun fr => bool_decide (fr_receiver fr = ri /\ fr_status fr = pending))
                          (followRequests db))), db)
      | Err e => (RErr e, db)
      end
  | ReqSave fr => (RDone, set_requests (upsert fr_id fr (followRequests db)) db)
  | UserFindById id =>
      match cast_path "_id" id with
      | Ok i => (RUser (find_user i db), db)
      | Err e => (RErr e, db)
      end
  | UserAddFriend id friend => (RUser (find_user id db), add_friend id friend db)
  | UserFindAll None => (RUsers (users db), db)
  | UserFindAll (Some e) =>
      match cast_path "_id" e with
      | Ok i => (RUsers (List.filter (fun u => bool_decide (u_id u <> i)) (users db)), db)
      | Err err => (RErr err, db)
      end
  | UserFriends id =>
      match cast_path "_id" id with
      | Ok i => (RFriends (friend_cards db <$> find_user i db), db)
      | Err e => (RErr e, db)
      end
  end.

Definition exec (op : Op) (db : DB) : Res * DB :=
  if db_up db then exec_up op db else (RErr Unavailable, db).

(** ** Lemmas *)

Lemma exec_down op db : db_up db = false -> exec op db = (RErr Unavailable, db).
Proof. unfold exec. by intros ->. Qed.

Lemma elem_of_upsert {A} (key : A -> ObjectId) x l y :
  y ∈ upsert key x l <-> y = x \/ (y ∈ l /\ key y <> key x).
Proof.
  unfold upsert. case_bool_decide as Hex.
  - rewrite list_elem_of_fmap. split.
    + intros (z & -> & Hz). case_bool_decide; [by left|by right].
    + intros [->|[Hy Hk]].
      * apply Exists_exists in Hex as (z & Hz & Hkz).
        exists z. split; [by rewrite bool_decide_true|done].
      * exists y. split; [by rewrite bool_decide_false|done].
  - rewrite elem_of_app, list_elem_of_singleton. split; [|naive_solver].
    intros [Hy | ->]; [|by left]. right. split; [done|].
    intros Hk. apply Hex, Exists_exists. by exists y.
Qed.

Lemma upsert_fresh {A} (key : A -> ObjectId) x l :
  key x ∉ map key l -> upsert key x l = l ++ [x].
Proof.
  intros Hx. unfold upsert. rewrite bool_decide_false; [done|].
  intros (y & Hy & Hk)%Exists_exists. apply Hx, list_elem_of_In, in_map_iff.
  exists y. split; [done|]. by apply list_elem_of_In.
Qed.

(** Replacing a document by one with the same key keeps the keys. *)
Lemma map_key_upsert {A} (key : A -> ObjectId) x l :
  key x ∈ map key l -> map key (upsert key x l) = map key l.
Proof.
  intros Hx. unfold upsert. rewrite bool_decide_true.
  - rewrite <-list_fmap_compose. apply list_fmap_ext. intros _ y _. cbn.
    by case_bool_decide.
  - apply Exists_exists. apply list_elem_of_fmap in Hx as (y & Hk & Hy). by exists y.
Qed.

Lemma elem_of_add_to_set x y l : x ∈ add_to_set y l <-> x = y \/ x ∈ l.
Proof. unfold add_to_set. case_bool_decide; set_solver. Qed.

Lemma u_id_add_friend_to id f u : u_id (add_friend_to id f u) = u_id u.
Proof. unfold add_friend_to. by case_bool_decide. Qed.

Lemma friends_add_friend_to id f u x :
  x ∈ friends (add_friend_to id f u) <-> x ∈ friends u \/ (u_id u = id /\ x = f).
Proof.
  unfold add_friend_to. case_bool_decide as Hid; cbn [friends set_friends].
  - rewrite elem_of_add_to_set. naive_solver.
  - naive_solver.
Qed.

Lemma elem_of_users_add_friend id f db u' :
  u' ∈ users (add_friend id f db) <-> exists u, u' = add_friend_to id f u /\ u ∈ users db.
Proof. unfold add_friend, set_users; cbn [users]. apply list_elem_of_fmap. Qed.

#[export] Hint Rewrite u_id_add_friend_to : campus_rw.

End Mongo.
