(* ===== verification/Follow.v ===== *)
(** * Follow requests, friends and peer discovery ([server.js] lines 480-544)

    [POST /api/follow/request] checks for a pending request with the same
    sender and receiver and, if there is none, saves a new pending one;
    [POST /api/follow/accept] marks a request accepted and adds each party
    to the other's [friends] with two [$addToSet] updates; the two [GET]
    routes list a user's incoming pending requests and friends, and
    [GET /api/users] lists every user but one.  Each handler is an
    [Async.prog] over the [Mongo] operations, one [Call] per [await].

    The theorems show what a handler run without interleaving does (as a
    refinement of the follow graph the specification describes: pending
    pairs and a symmetric friendship), that these runs keep the pending
    pairs duplicate-free and the friendship symmetric, and that
    interleavings the event loop allows break both: two concurrent
    requests both pass the check, and an outage between the two updates
    of an accept leaves the friendship one-sided.  [route] dispatches a
    request to its handler. *)

From S2P Require Import Prelude ObjectId Store Async Http Mongo.

Open Scope stdpp_scope.

Module Follow.
Import ObjectId Store Async Http Mongo.

(** ** Handlers *)

(** [new FollowRequest({ sender: senderId, receiver: receiverId })] with
    the schema defaults: a fresh [_id], [status: 'pending'],
    [createdAt: Date.now]. *)
Definition new_FollowRequest (id : ObjectId) (now : Date) (s r : ObjectId) : FollowRequest :=
  {| fr_id := id; fr_sender := s; fr_receiver := r; fr_status := pending; fr_createdAt := now |}.

Definition set_status (st : FollowStatus) (fr : FollowRequest) : FollowRequest :=
  {| fr_id := fr_id fr; fr_sender := fr_sender fr; fr_receiver := fr_receiver fr;
     fr_status := st; fr_createdAt := fr_createdAt fr |}.

Definition fail_request : Response := msg 500 "Failed to send request".
Definition fail_accept : Response := msg 500 "Failed to accept request".

(** [POST /api/follow/request] (lines 492-504). *)
Definition follow_request (senderId receiverId : string) (id : ObjectId) (now : Date)
    : Handler Response :=
  r <-- ReqFindPending senderId receiverId ;;
  match r with
  | RReq (Some _) => Ret (msg 400 "Request already pending")
  | RReq None =>
      match ObjectId.cast senderId, ObjectId.cast receiverId with
      | Some s, Some rc =>
          r2 <-- ReqSave (new_FollowRequest id now s rc) ;;
          match r2 with
          | RDone => Ret (msg 201 "Follow request sent")
          | _ => Ret fail_request
          end
      | _, _ => Ret fail_request
      end
  | _ => Ret fail_request
  end.

(** [GET /api/follow/requests/:userId] (lines 507-514). *)
Definition incoming_requests (userId : string) : Handler Response :=
  r <-- ReqFindIncoming userId ;;
  match r with
  | RReqViews rs => Ret {| status := 200; body := BRequests rs |}
  | _ => Ret (msg 500 "Failed to fetch requests")
  end.

(** [POST /api/follow/accept] (lines 517-534). *)
Definition accept_request (requestId : string) : Handler Response :=
  r <-- ReqFindById requestId ;;
  match r with
  | RReq None => Ret (msg 404 "Request not found")
  | RReq (Some fr) =>
      r1 <-- ReqSave (set_status accepted fr) ;;
      match r1 with
      | RDone =>
          r2 <-- UserAddFriend (fr_sender fr) (fr_receiver fr) ;;
          match r2 with
          | RErr _ => Ret fail_accept
          | _ =>
              r3 <-- UserAddFriend (fr_receiver fr) (fr_sender fr) ;;
              match r3 with
              | RErr _ => Ret fail_accept
              | _ => Ret (msg 200 "Follow request accepted")
              end
          end
      | _ => Ret fail_accept
      end
  | _ => Ret fail_accept
  end.

(** [GET /api/users/friends/:userId] (lines 537-544): for an unknown user
    [user.friends] throws a [TypeError], answered with a 500. *)
Definition get_friends (userId : string) : Handler Response :=
  r <-- UserFriends userId ;;
  match r with
  | RFriends (Some fs) => Ret {| status := 200; body := BFriends fs |}
  | _ => Ret (msg 500 "Failed to fetch connections")
  end.

(** [GET /api/users?exclude=id] (lines 481-489). *)
Definition get_users (exclude : option string) : Handler Response :=
  r <-- UserFindAll exclude ;;
  match r with
  | RUsers us => Ret {| status := 200; body := BUsers (map user_card us) |}
  | _ => Ret (msg 500 "Failed to fetch users")
  end.

(** The Express router of the user and follow routes (lines 481-544):
    the handler each request runs.  A new request's [_id] and its
    [Date.now()] are drawn when the handler starts. *)
Inductive FollowRoute :=
| PostFollowRequest (senderId receiverId : string) (id : ObjectId) (now : Date)
| GetFollowRequests (userId : string)
| PostFollowAccept (requestId : string)
| GetFriends (userId : string)
| GetUsers (exclude : option string).

Definition route (r : FollowRoute) : Handler Response :=
  match r with
  | PostFollowRequest s rc id now => follow_request s rc id now
  | GetFollowRequests u => incoming_requests u
  | PostFollowAccept rid => accept_request rid
  | GetFriends u => get_friends u
  | GetUsers ex => get_users ex
  end.

(** ** The follow graph the specification describes *)

Definition is_pending (fr : FollowRequest) : bool := bool_decide (fr_status fr = pending).

Definition pair_of (fr : FollowRequest) : ObjectId * ObjectId := (fr_sender fr, fr_receiver fr).

(** The (sender, receiver) pairs of the pending requests. *)
Definition pending_pairs (db : DB) : list (ObjectId * ObjectId) :=
  map pair_of (List.filter is_pending (followRequests db)).

Definition req_ids (db : DB) : list ObjectId := map fr_id (followRequests db).

(** At most one pending request per pair, and distinct request ids. *)
Record req_wf (db : DB) : Prop := {
  req_ids_nodup : NoDup (req_ids db);
  pending_nodup : NoDup (pending_pairs db);
}.

(** Friendship between users is symmetric. *)
Definition friends_sym (db : DB) : Prop :=
  forall u v, u ∈ users db -> v ∈ users db -> (u_id v ∈ friends u <-> u_id u ∈ friends v).

(** Decidability of the symmetry, so that it can be evaluated. *)
#[export] Instance friends_sym_dec db : Decision (friends_sym db).
Proof.
  destruct (decide (Forall (fun u => Forall (fun v =>
    u_id v ∈ friends u <-> u_id u ∈ friends v) (users db)) (users db))) as [H|H];
    [left|right]; unfold friends_sym; rewrite Forall_forall in H;
    setoid_rewrite Forall_forall in H; naive_solver.
Defined.

(** ** Interleavings *)

(** Two tabs of the same user send the same follow request at once. *)
Definition asha_hex : string := ObjectId.to_hex 1%N.
Definition ravi_hex : string := ObjectId.to_hex 2%N.

Definition double_request : list (Handler Response) :=
  [follow_request asha_hex ravi_hex 10%N 0%Z; follow_request asha_hex ravi_hex 11%N 0%Z].

(** Both handlers run their [findOne] before either [save]s. *)
Definition race_sched : list (@Async.sched_step DB) :=
  [Async.SResume 0; Async.SResume 1; Async.SResume 0; Async.SResume 1].

(** Ravi accepts Asha's request; the database goes down between the two
    [$addToSet] updates. *)
Definition asha_to_ravi : FollowRequest := new_FollowRequest 10%N 0%Z 1%N 2%N.

Definition requested_db : DB := set_requests [asha_to_ravi] demo_db.

Definition outage_sched : list (@Async.sched_step DB) :=
  [Async.SResume 0; Async.SResume 0; Async.SResume 0; Async.SEnv (set_up false);
   Async.SResume 0].

(** ** Lemmas *)

Lemma cast_path_ok path s i : ObjectId.cast s = Some i -> cast_path path s = Ok i.
Proof. unfold cast_path. by intros ->. Qed.

Lemma is_pending_for_spec si ri fr :
  is_pending_for si ri fr = is_pending fr && bool_decide (pair_of fr = (si, ri)).
Proof.
  unfold is_pending_for, is_pending, pair_of.
  repeat case_bool_decide; simplify_eq/=; naive_solver.
Qed.

Lemma find_pending_none si ri l :
  List.find (is_pending_for si ri) l = None <->
  (si, ri) ∉ map pair_of (List.filter is_pending l).
Proof.
  induction l as [|fr l IH]; cbn; [set_solver|].
  rewrite is_pending_for_spec.
  destruct (is_pending fr); cbn; [|done].
  case_bool_decide as Hp; cbn; rewrite ?elem_of_cons; naive_solver.
Qed.

(** The run of [follow_request] with the database up and castable ids. *)
Lemma run_follow_request s r si ri id now db :
  db_up db = true -> ObjectId.cast s = Some si -> ObjectId.cast r = Some ri ->
  Async.run exec (follow_request s r id now) db =
    match List.find (is_pending_for si ri) (followRequests db) with
    | Some _ => (msg 400 "Request already pending", db)
    | None => (msg 201 "Follow request sent",
               set_requests (upsert fr_id (new_FollowRequest id now si ri) (followRequests db)) db)
    end.
Proof.
  intros Hup Hs Hr. cbn [follow_request Async.run]. unfold exec at 1. rewrite Hup.
  cbn [exec_up]. rewrite (cast_path_ok _ _ _ Hs), (cast_path_ok _ _ _ Hr).
  destruct (List.find _ _); [done|]. rewrite Hs, Hr. cbn [Async.run].
  unfold exec. by rewrite Hup.
Qed.

Lemma pending_pairs_append db fr :
  pending_pairs (set_requests (followRequests db ++ [fr]) db) =
    pending_pairs db ++ (if is_pending fr then [pair_of fr] else []).
Proof.
  unfold pending_pairs; cbn. rewrite List.filter_app, map_app. cbn.
  by destruct (is_pending fr).
Qed.

Lemma pending_pairs_append_new db id now si ri :
  pending_pairs (set_requests (followRequests db ++ [new_FollowRequest id now si ri]) db) =
    pending_pairs db ++ [(si, ri)].
Proof. by rewrite pending_pairs_append. Qed.

Lemma req_ids_append db fr :
  req_ids (set_requests (followRequests db ++ [fr]) db) = req_ids db ++ [fr_id fr].
Proof. unfold req_ids; cbn. by rewrite map_app. Qed.

Lemma pending_pair_found si ri db :
  List.find (is_pending_for si ri) (followRequests db) <> None ->
  (si, ri) ∈ pending_pairs db.
Proof.
  intros Hf. unfold pending_pairs.
  destruct (decide ((si, ri) ∈ map pair_of (List.filter is_pending (followRequests db))))
    as [|Hn]; [done|].
  by apply find_pending_none in Hn.
Qed.

Lemma exec_up_eq op db : db_up db = true -> exec op db = exec_up op db.
Proof. unfold exec. by intros ->. Qed.

(** The run of [accept_request] on a request that exists, the database up:
    the status is saved, then both [$addToSet] updates run. *)
Lemma run_accept_request rid i fr db :
  db_up db = true -> ObjectId.cast rid = Some i ->
  List.find (fun fr => bool_decide (fr_id fr = i)) (followRequests db) = Some fr ->
  Async.run exec (accept_request rid) db =
    (msg 200 "Follow request accepted",
     add_friend (fr_receiver fr) (fr_sender fr)
       (add_friend (fr_sender fr) (fr_receiver fr)
         (set_requests (upsert fr_id (set_status accepted fr) (followRequests db)) db))).
Proof.
  intros Hup Hi Hf. cbn [accept_request Async.run].
  rewrite exec_up_eq by done. cbn [exec_up]. rewrite (cast_path_ok _ _ _ Hi), Hf.
  cbn [Async.run]. rewrite exec_up_eq by done. cbn [exec_up Async.run].
  rewrite exec_up_eq by done. cbn [exec_up Async.run].
  by rewrite exec_up_eq by done.
Qed.

Lemma friends_sym_set_requests rs db : friends_sym (set_requests rs db) <-> friends_sym db.
Proof. done. Qed.

(** The users after both [$addToSet] updates of an accept. *)
Lemma users_add_both a b db u' :
  u' ∈ users (add_friend b a (add_friend a b db)) ->
  exists u, u ∈ users db /\ u_id u' = u_id u /\
    (forall x, x ∈ friends u' <->
       x ∈ friends u \/ (u_id u = a /\ x = b) \/ (u_id u = b /\ x = a)).
Proof.
  intros (u1 & -> & (u & -> & Hu)%elem_of_users_add_friend)%elem_of_users_add_friend.
  exists u. split; [done|]. rewrite !u_id_add_friend_to. split; [done|].
  intros x. rewrite !friends_add_friend_to, !u_id_add_friend_to. naive_solver.
Qed.

(** Adding both directions of an edge keeps the friendship symmetric. *)
Lemma friends_sym_add_both a b db :
  friends_sym db -> friends_sym (add_friend b a (add_friend a b db)).
Proof.
  intros Hs u' v' (u & Hu & Hiu & Hfu)%users_add_both (v & Hv & Hiv & Hfv)%users_add_both.
  rewrite Hfu, Hfv, Hiu, Hiv. pose proof (Hs u v Hu Hv). naive_solver.
Qed.

Lemma map_u_id_add_friend a b db :
  map u_id (users (add_friend a b db)) = map u_id (users db).
Proof.
  unfold add_friend, set_users; cbn [users]. rewrite <-list_fmap_compose.
  apply list_fmap_ext. intros _ u _. apply u_id_add_friend_to.
Qed.

(** Marking a request accepted removes at most its pair from the pending
    pairs. *)
Lemma pending_pairs_accept_sublist fr l :
  map pair_of (List.filter is_pending (upsert fr_id (set_status accepted fr) l))
    `sublist_of` map pair_of (List.filter is_pending l).
Proof.
  assert (is_pending (set_status accepted fr) = false) as Hnp by done.
  unfold upsert. case_bool_decide as Hex; clear Hex.
  - induction l as [|y l IH]; [done|]. cbn in IH |- *.
    case_bool_decide; cbn [List.filter]; [rewrite Hnp|];
      destruct (is_pending y); cbn;
      first [exact IH | by apply sublist_skip | by apply sublist_cons].
  - rewrite List.filter_app, map_app. cbn. by rewrite app_nil_r.
Qed.

Lemma req_ids_accept fr l :
  Exists (fun y => fr_id y = fr_id fr) l ->
  map fr_id (upsert fr_id (set_status accepted fr) l) = map fr_id l.
Proof.
  intros Hex. unfold upsert. rewrite bool_decide_true by done.
  rewrite <-list_fmap_compose. apply list_fmap_ext. intros _ y _. cbn.
  by case_bool_decide.
Qed.

Lemma find_Exists {A} (P : A -> Prop) `{!forall x, Decision (P x)} l x :
  List.find (fun y => bool_decide (P y)) l = Some x -> P x /\ x ∈ l.
Proof.
  intros Hf. apply find_some in Hf as [Hin Hp%bool_decide_eq_true].
  split; [done|]. by apply list_elem_of_In.
Qed.

Lemma find_id_none i l :
  i ∉ map fr_id l -> List.find (fun fr => bool_decide (fr_id fr = i)) l = None.
Proof.
  induction l as [|fr l IH]; cbn; [done|]. rewrite elem_of_cons.
  intros Hn. rewrite bool_decide_false by naive_solver. naive_solver.
Qed.

(** With the database up, a [findOne] for a pair that is not pending
    finds nothing. *)
Lemma exec_find_pending_none s r si ri db :
  db_up db = true -> ObjectId.cast s = Some si -> ObjectId.cast r = Some ri ->
  (si, ri) ∉ pending_pairs db -> exec (ReqFindPending s r) db = (RReq None, db).
Proof.
  intros Hup Hs Hr Hn. rewrite exec_up_eq by done. cbn [exec_up].
  rewrite (cast_path_ok _ _ _ Hs), (cast_path_ok _ _ _ Hr).
  by apply find_pending_none in Hn as ->.
Qed.

(** Saving a request whose id no request has appends it. *)
Lemma exec_save_fresh fr db :
  db_up db = true -> fr_id fr ∉ req_ids db ->
  exec (ReqSave fr) db = (RDone, set_requests (followRequests db ++ [fr]) db).
Proof. intros Hup Hf. rewrite exec_up_eq by done. cbn [exec_up]. by rewrite upsert_fresh. Qed.

(** After the [save] of [x], the request with [x]'s id is [x]. *)
Lemma find_id_upsert i x l :
  fr_id x = i -> Exists (fun y => fr_id y = fr_id x) l ->
  List.find (fun fr => bool_decide (fr_id fr = i)) (upsert fr_id x l) = Some x.
Proof.
  intros <- Hex. unfold upsert. rewrite bool_decide_true by done.
  induction Hex as [y l Hy|y l _ IH]; cbn [fmap list_fmap List.find].
  - rewrite (bool_decide_true _ Hy). by rewrite bool_decide_true.
  - destruct (decide (fr_id y = fr_id x)) as [Hy|Hy].
    + rewrite (bool_decide_true _ Hy). by rewrite bool_decide_true.
    + rewrite !(bool_decide_false _ Hy). exact IH.
Qed.

(** ** Properties *)

(** C13: run without interleaving, [POST /api/follow/request] with the
    database up implements the specification's [requestFollow]: when the
    pair already has a pending request it answers 400 and changes
    nothing, otherwise it answers 201 and adds exactly that pair to the
    pending pairs; in both cases at most one request per pair stays
    pending. *)
Theorem follow_request_spec s r si ri id now db :
  req_wf db -> id ∉ req_ids db -> db_up db = true ->
  ObjectId.cast s = Some si -> ObjectId.cast r = Some ri ->
  req_wf (Async.run exec (follow_request s r id now) db).2 /\
  (if bool_decide ((si, ri) ∈ pending_pairs db)
   then Async.run exec (follow_request s r id now) db = (msg 400 "Request already pending", db)
   else (Async.run exec (follow_request s r id now) db).1 = msg 201 "Follow request sent" /\
        pending_pairs (Async.run exec (follow_request s r id now) db).2 =
          pending_pairs db ++ [(si, ri)]).
Proof.
  intros [Hids Hpend] Hid Hup Hs Hr. rewrite (run_follow_request s r si ri) by done.
  destruct (List.find _ _) eqn:E.
  - rewrite bool_decide_true by (apply (pending_pair_found si ri); by rewrite E). done.
  - pose proof E as Hn. apply find_pending_none in Hn.
    rewrite bool_decide_false by done. cbn [fst snd].
    rewrite upsert_fresh by done.
    split; [split|by rewrite pending_pairs_append_new].
    + rewrite req_ids_append. apply NoDup_app; split_and!; [done| |by apply NoDup_singleton].
      intros x Hx ->%list_elem_of_singleton. done.
    + rewrite pending_pairs_append_new. apply NoDup_app; split_and!; [done| |by apply NoDup_singleton].
      intros x Hx ->%list_elem_of_singleton. done.
Qed.

(** C14: run without interleaving, [POST /api/follow/accept] on a request
    that exists, with the database up, answers 200, marks the request
    accepted and makes its sender and receiver friends of each other: each
    user keeps its id and gains exactly the other party as a friend.  It
    keeps the pending pairs duplicate-free and the friendship symmetric.
    It does not look at the request's status nor at who accepts: the
    hypotheses say nothing of either. *)
Theorem accept_spec rid i fr db :
  db_up db = true -> ObjectId.cast rid = Some i ->
  List.find (fun fr => bool_decide (fr_id fr = i)) (followRequests db) = Some fr ->
  req_wf db -> friends_sym db ->
  let '(res, db') := Async.run exec (accept_request rid) db in
  res = msg 200 "Follow request accepted" /\ req_wf db' /\ friends_sym db' /\
  map u_id (users db') = map u_id (users db) /\
  (forall u', u' ∈ users db' -> exists u, u ∈ users db /\ u_id u' = u_id u /\
     (forall x, x ∈ friends u' <-> x ∈ friends u \/
        (u_id u = fr_sender fr /\ x = fr_receiver fr) \/
        (u_id u = fr_receiver fr /\ x = fr_sender fr))) /\
  set_status accepted fr ∈ followRequests db'.
Proof.
  intros Hup Hi Hf [Hids Hpend] Hsym. rewrite (run_accept_request rid i fr) by done.
  pose proof (find_Exists _ _ _ Hf) as [Hid Hin].
  split_and!; [done| split | | | |].
  - unfold req_ids; cbn [followRequests add_friend set_users set_requests].
    rewrite req_ids_accept; [done|]. apply Exists_exists. by exists fr.
  - eapply sublist_NoDup; [exact Hpend|]. apply pending_pairs_accept_sublist.
  - by apply friends_sym_add_both.
  - by rewrite !map_u_id_add_friend.
  - intros u' Hu'. by apply users_add_both in Hu'.
  - cbn [followRequests add_friend set_users set_requests]. apply elem_of_upsert. by left.
Qed.

(** C15: the check for a pending request and the [save] are two awaits,
    so two concurrent [POST /api/follow/request] for the same pair both
    pass the check.  From every database that is up, for every pair of
    castable ids that is not pending and every two fresh request ids,
    when both handlers run their [findOne] before either [save]s, both
    answer 201 and the pair is pending twice: the pending pairs are no
    longer duplicate-free, which a run of the two handlers one after
    the other never produces ([follow_request_spec]). *)
Theorem follow_request_race s r si ri id1 id2 now1 now2 db :
  db_up db = true -> ObjectId.cast s = Some si -> ObjectId.cast r = Some ri ->
  (si, ri) ∉ pending_pairs db -> id1 ∉ req_ids db -> id2 ∉ req_ids db -> id1 <> id2 ->
  exists db',
    Async.pool_run exec race_sched ([follow_request s r id1 now1; follow_request s r id2 now2], db) =
      Some ([Async.Ret (msg 201 "Follow request sent"); Async.Ret (msg 201 "Follow request sent")], db') /\
    pending_pairs db' = pending_pairs db ++ [(si, ri); (si, ri)] /\ ~ req_wf db'.
Proof.
  intros Hup Hs Hr Hn H1 H2 H12.
  set (fr1 := new_FollowRequest id1 now1 si ri). set (fr2 := new_FollowRequest id2 now2 si ri).
  set (db1 := set_requests (followRequests db ++ [fr1]) db).
  assert (Hp : pending_pairs (set_requests (followRequests db1 ++ [fr2]) db1) =
               pending_pairs db ++ [(si, ri); (si, ri)]).
  { unfold db1, fr1, fr2. rewrite !pending_pairs_append_new. by rewrite <-app_assoc. }
  exists (set_requests (followRequests db1 ++ [fr2]) db1). split_and!; [|exact Hp|].
  - cbn -[exec]. rewrite (exec_find_pending_none _ _ _ _ _ Hup Hs Hr Hn).
    cbn -[exec]. rewrite (exec_find_pending_none _ _ _ _ _ Hup Hs Hr Hn).
    cbn -[exec]. rewrite Hs, Hr. cbn -[exec]. rewrite (exec_save_fresh (new_FollowRequest id1 now1 si ri) db Hup H1).
    cbn -[exec]. rewrite exec_save_fresh; [done|exact Hup|].
    cbn [fr_id new_FollowRequest]. rewrite req_ids_append, elem_of_app, list_elem_of_singleton.
    intros [Hin| ->]; [exact (H2 Hin)|exact (H12 eq_refl)].
  - intros [_ Hnd]. rewrite Hp in Hnd. apply NoDup_app in Hnd as (_ & _ & Hnd).
    apply NoDup_cons in Hnd as [Hnd _]. apply Hnd. by left.
Qed.

(** C16: the two [$addToSet] updates of [POST /api/follow/accept] are
    separate awaits.  For every request of the database between two
    users who are not yet friends, when the database fails between the
    two updates the client gets a 500, the request is nevertheless
    accepted, and the friendship is one-sided: the sender lists the
    receiver, the receiver does not list the sender. *)
Theorem accept_not_atomic rid i fr db su ru :
  db_up db = true -> ObjectId.cast rid = Some i ->
  List.find (fun fr => bool_decide (fr_id fr = i)) (followRequests db) = Some fr ->
  su ∈ users db -> ru ∈ users db -> u_id su = fr_sender fr -> u_id ru = fr_receiver fr ->
  fr_sender fr <> fr_receiver fr -> fr_sender fr ∉ friends ru ->
  exists db',
    Async.pool_run exec outage_sched ([accept_request rid], db) = Some ([Async.Ret fail_accept], db') /\
    List.find (fun fr' => bool_decide (fr_id fr' = i)) (followRequests db') = Some (set_status accepted fr) /\
    ~ friends_sym db'.
Proof.
  intros Hup Hi Hf Hsu Hru Hs Hr Hne Hnf.
  pose proof (find_Exists (fun fr => fr_id fr = i) _ _ Hf) as [Hid Hin].
  set (db1 := add_friend (fr_sender fr) (fr_receiver fr)
                (set_requests (upsert fr_id (set_status accepted fr) (followRequests db)) db)).
  exists (set_up false db1). split_and!.
  - cbn -[exec]. rewrite exec_up_eq by done. cbn [exec_up]. rewrite (cast_path_ok _ _ _ Hi), Hf.
    cbn -[exec]. rewrite exec_up_eq by done. cbn [exec_up].
    cbn -[exec]. rewrite exec_up_eq by done. cbn [exec_up].
    cbn -[exec]. rewrite exec_down by done. done.
  - cbn [set_up db1 add_friend set_users followRequests set_requests].
    apply find_id_upsert; [done|]. apply Exists_exists. by exists fr.
  - intros Hsym.
    assert (Hsu' : add_friend_to (fr_sender fr) (fr_receiver fr) su ∈ users (set_up false db1)).
    { apply elem_of_users_add_friend. by exists su. }
    assert (Hru' : add_friend_to (fr_sender fr) (fr_receiver fr) ru ∈ users (set_up false db1)).
    { apply elem_of_users_add_friend. by exists ru. }
    pose proof (Hsym _ _ Hsu' Hru') as Hiff.
    rewrite !u_id_add_friend_to, !friends_add_friend_to, Hs, Hr in Hiff.
    destruct (proj1 Hiff (or_intror (conj eq_refl eq_refl))) as [H|[H _]];
      [exact (Hnf H)|exact (Hne (eq_sym H))].
Qed.

(** [POST /api/follow/accept] answers 500 and changes nothing while
    the database is down or when the id is not an ObjectId, and 404 when
    no request has that id. *)
Theorem accept_errors rid db :
  (db_up db = false -> Async.run exec (accept_request rid) db = (fail_accept, db)) /\
  (db_up db = true -> ObjectId.cast rid = None ->
   Async.run exec (accept_request rid) db = (fail_accept, db)) /\
  (forall i, db_up db = true -> ObjectId.cast rid = Some i -> i ∉ req_ids db ->
   Async.run exec (accept_request rid) db = (msg 404 "Request not found", db)).
Proof.
  split_and!.
  - intros Hd. cbn [accept_request Async.run]. by rewrite exec_down.
  - intros Hup Hc. cbn [accept_request Async.run]. rewrite exec_up_eq by done.
    cbn [exec_up]. unfold cast_path. by rewrite Hc.
  - intros i Hup Hc Hn. cbn [accept_request Async.run]. rewrite exec_up_eq by done.
    cbn [exec_up]. rewrite (cast_path_ok _ _ _ Hc). by rewrite find_id_none.
Qed.

(** With the database up, [GET /api/follow/requests/:userId] answers
    200 with exactly the pending requests addressed to the user, each with
    its sender populated, and changes nothing. *)
Theorem incoming_requests_spec r ri db :
  db_up db = true -> ObjectId.cast r = Some ri ->
  exists rs, Async.run exec (incoming_requests r) db = ({| status := 200; body := BRequests rs |}, db) /\
    forall v, v ∈ rs <-> exists fr, fr ∈ followRequests db /\ fr_receiver fr = ri /\
                                   fr_status fr = pending /\ v = request_view db fr.
Proof.
  intros Hup Hc. cbn [incoming_requests Async.run]. rewrite exec_up_eq by done.
  cbn [exec_up]. rewrite (cast_path_ok _ _ _ Hc). eexists. split; [reflexivity|].
  intros v. rewrite list_elem_of_fmap. setoid_rewrite elem_of_List_filter.
  setoid_rewrite bool_decide_eq_true. naive_solver.
Qed.

(** With the database up, [GET /api/users/friends/:userId] answers
    500 for an id that is no user (the route dereferences [user.friends]
    of [null]) and otherwise 200 with a card for each friend id that is a
    user, the others left out; it changes nothing. *)
Theorem get_friends_spec uid i db :
  db_up db = true -> ObjectId.cast uid = Some i ->
  match find_user i db with
  | None => Async.run exec (get_friends uid) db = (msg 500 "Failed to fetch connections", db)
  | Some u =>
      exists cs, Async.run exec (get_friends uid) db = ({| status := 200; body := BFriends cs |}, db) /\
        forall c, c ∈ cs <-> exists f v, f ∈ friends u /\ find_user f db = Some v /\ c = friend_card v
  end.
Proof.
  intros Hup Hc. cbn [get_friends Async.run]. rewrite exec_up_eq by done.
  cbn [exec_up]. rewrite (cast_path_ok _ _ _ Hc).
  destruct (find_user i db) as [u|]; cbn; [|done].
  eexists. split; [reflexivity|]. intros c. unfold friend_cards. rewrite list_elem_of_omap.
  setoid_rewrite fmap_Some. naive_solver.
Qed.

(** With the database up, [GET /api/users?exclude=id] answers 200
    with the card of every user whose id differs from the excluded one,
    in the collection's order. *)
Theorem get_users_spec ex i db :
  db_up db = true -> ObjectId.cast ex = Some i ->
  Async.run exec (get_users (Some ex)) db =
    ({| status := 200; body := BUsers (map user_card (List.filter (fun u => bool_decide (u_id u <> i)) (users db))) |}, db) /\
  forall c, c ∈ map user_card (List.filter (fun u => bool_decide (u_id u <> i)) (users db)) <->
    exists u, u ∈ users db /\ u_id u <> i /\ c = user_card u.
Proof.
  intros Hup Hc. cbn [get_users Async.run]. rewrite exec_up_eq by done.
  cbn [exec_up]. rewrite (cast_path_ok _ _ _ Hc). split; [done|].
  intros c. rewrite list_elem_of_fmap. setoid_rewrite elem_of_List_filter.
  setoid_rewrite bool_decide_eq_true. naive_solver.
Qed.

(** ** Witnesses *)

Lemma follow_request_spec_witness :
  (Async.run exec (follow_request asha_hex ravi_hex 10%N 0%Z) demo_db).1 =
    msg 201 "Follow request sent".
Proof.
  assert (Hwf : req_wf demo_db) by (split; vm_compute; constructor).
  assert (Hs : ObjectId.cast asha_hex = Some 1%N) by (vm_compute; reflexivity).
  assert (Hr : ObjectId.cast ravi_hex = Some 2%N) by (vm_compute; reflexivity).
  destruct (follow_request_spec asha_hex ravi_hex 1%N 2%N 10%N 0%Z demo_db Hwf
    (not_elem_of_nil _) eq_refl Hs Hr) as [_ H].
  rewrite bool_decide_false in H by apply not_elem_of_nil. apply H.
Defined.

Lemma accept_spec_witness :
  (Async.run exec (accept_request (ObjectId.to_hex 10%N)) requested_db).1 =
    msg 200 "Follow request accepted".
Proof.
  assert (Hc : ObjectId.cast (ObjectId.to_hex 10%N) = Some 10%N) by (vm_compute; reflexivity).
  assert (Hf : List.find (fun fr => bool_decide (fr_id fr = 10%N)) (followRequests requested_db)
               = Some asha_to_ravi) by (vm_compute; reflexivity).
  assert (Hwf : req_wf requested_db)
    by (split; vm_compute; apply NoDup_singleton).
  assert (Hsym : friends_sym requested_db)
    by (apply (@bool_decide_eq_true_1 _ (friends_sym_dec _)); vm_compute; reflexivity).
  pose proof (accept_spec (ObjectId.to_hex 10%N) 10%N asha_to_ravi requested_db
    eq_refl Hc Hf Hwf Hsym) as H.
  destruct (Async.run _ _ _) as [res db']. by destruct H as [-> _].
Defined.

Lemma accept_errors_witness :
  Async.run exec (accept_request (ObjectId.to_hex 10%N)) (set_up false requested_db) =
    (fail_accept, set_up false requested_db) /\
  Async.run exec (accept_request "nope") requested_db = (fail_accept, requested_db) /\
  Async.run exec (accept_request (ObjectId.to_hex 11%N)) requested_db =
    (msg 404 "Request not found", requested_db).
Proof.
  destruct (accept_errors (ObjectId.to_hex 10%N) (set_up false requested_db)) as [H1 _].
  destruct (accept_errors "nope" requested_db) as [_ [H2 _]].
  destruct (accept_errors (ObjectId.to_hex 11%N) requested_db) as [_ [_ H3]].
  split_and!; [apply H1; reflexivity | apply H2; reflexivity |].
  apply (H3 11%N); [reflexivity | vm_compute; reflexivity |].
  vm_compute. intros Hin. apply list_elem_of_singleton in Hin. discriminate.
Defined.

Lemma incoming_requests_spec_witness :
  exists rs, Async.run exec (incoming_requests ravi_hex) requested_db =
    ({| status := 200; body := BRequests rs |}, requested_db) /\
    forall v, v ∈ rs <-> exists fr, fr ∈ followRequests requested_db /\ fr_receiver fr = 2%N /\
                                   fr_status fr = pending /\ v = request_view requested_db fr.
Proof.
  apply (incoming_requests_spec ravi_hex 2%N requested_db); [reflexivity | vm_compute; reflexivity].
Defined.

Lemma get_friends_spec_witness :
  Async.run exec (get_friends (ObjectId.to_hex 7%N)) demo_db =
    (msg 500 "Failed to fetch connections", demo_db).
Proof.
  assert (Hc : ObjectId.cast (ObjectId.to_hex 7%N) = Some 7%N) by (vm_compute; reflexivity).
  exact (get_friends_spec (ObjectId.to_hex 7%N) 7%N demo_db eq_refl Hc).
Defined.

Lemma get_users_spec_witness :
  Async.run exec (get_users (Some asha_hex)) demo_db =
    ({| status := 200; body := BUsers [user_card (demo_user 2%N "ravi")] |}, demo_db).
Proof.
  assert (Hc : ObjectId.cast asha_hex = Some 1%N) by (vm_compute; reflexivity).
  rewrite (proj1 (get_users_spec asha_hex 1%N demo_db eq_refl Hc)). reflexivity.
Defined.

(** The two tabs of [double_request] on the demo database. *)
Lemma follow_request_race_witness :
  exists db',
    Async.pool_run exec race_sched (double_request, demo_db) =
      Some ([Async.Ret (msg 201 "Follow request sent"); Async.Ret (msg 201 "Follow request sent")], db') /\
    pending_pairs db' = pending_pairs demo_db ++ [(1%N, 2%N); (1%N, 2%N)] /\ ~ req_wf db'.
Proof.
  apply (follow_request_race asha_hex ravi_hex 1%N 2%N 10%N 11%N 0%Z 0%Z demo_db);
    [reflexivity|vm_compute; reflexivity|vm_compute; reflexivity|by_decide|by_decide|by_decide|discriminate].
Defined.

(** Ravi accepts Asha's request on the demo database. *)
Lemma accept_not_atomic_witness :
  exists db',
    Async.pool_run exec outage_sched ([accept_request (ObjectId.to_hex 10%N)], requested_db) =
      Some ([Async.Ret fail_accept], db') /\
    List.find (fun fr' => bool_decide (fr_id fr' = 10%N)) (followRequests db') =
      Some (set_status accepted asha_to_ravi) /\
    ~ friends_sym db'.
Proof.
  apply (accept_not_atomic (ObjectId.to_hex 10%N) 10%N asha_to_ravi requested_db
           (demo_user 1%N "asha") (demo_user 2%N "ravi"));
    [reflexivity|vm_compute; reflexivity|vm_compute; reflexivity|by_decide|by_decide
    |reflexivity|reflexivity|discriminate|by_decide].
Defined.

End Follow.
