(* ===== verification/Auth.v ===== *)
(** * Accounts: registration, e-mail verification, login and the session

    [server.js] lines 290-476 and 172-217.  [POST /api/auth/register]
    looks the e-mail up, hashes the password with bcryptjs, draws a
    six-digit code, mails it and saves the user, unverified, with the code
    and an expiry ten minutes ahead; [POST /api/auth/verify-code] finds the
    user by e-mail, code and unexpired date and marks it verified;
    [POST /api/auth/login] checks the password and signs a JSON web token
    valid for a day; [GET] and [PUT /api/auth/profile] read and [$set] the
    profile found by e-mail; [GET /api/auth/user] accepts a bearer token or
    the passport session.  The Google strategy's verify callback finds,
    links or creates the user.

    Each handler is an [Async.prog] over the operations [Op], which [exec]
    runs one at a time on a [World]: the store, the mails sent, and whether
    the SMTP server accepts mail.  A [save()] of a document loaded earlier
    writes only the paths the handler modified ([UpdateUser] with a patch
    applied to the document as it is when the write happens), a [save()]
    of a new document inserts it; both check the [required] e-mail and the
    unique indexes on [email] and [googleId].  bcryptjs and jsonwebtoken
    are interfaces ([Bcrypt], [Jwt]) with the laws the routes rely on. *)

From S2P Require Import Prelude JsString ObjectId Store Async Http Mongo.
From coqutil Require Import Datatypes.RecordSetters.
Import DoubleBraceUpdate.

Open Scope stdpp_scope.

Module Auth.
Import ObjectId Store Async Http.

(** ** Libraries the routes call *)

(** bcryptjs: [bcrypt.hash(pw, 10)] gives a 60-character hash (its salt
    is drawn inside and not observed by the routes); [bcrypt.compare]
    accepts the password a hash was made from and rejects any string that
    is not 60 characters long. *)
Class Bcrypt := {
  bhash : string -> string;
  bcompare : string -> string -> bool;
  bhash_length p : String.length (bhash p) = 60%nat;
  bcompare_hash p : bcompare p (bhash p) = true;
  bcompare_length p h : String.length h <> 60%nat -> bcompare p h = false;
}.

(** jsonwebtoken: [jwt.sign({ id }, secret, { expiresIn: '1d' })] at
    time [t] gives a token that [jwt.verify] accepts, with the same id,
    until [floor(t/1000) + 86400] seconds, and rejects from then on. *)
Class Jwt := {
  jwt_sign : ObjectId -> Date -> string;
  jwt_verify : string -> Date -> option ObjectId;
  jwt_verify_sign id t now :
    (id < oid_bound)%N -> (0 <= t <= now)%Z -> (now / 1000 < t / 1000 + 86400)%Z ->
    jwt_verify (jwt_sign id t) now = Some id;
  jwt_verify_expired id t now :
    (0 <= t)%Z -> (t / 1000 + 86400 <= now / 1000)%Z -> jwt_verify (jwt_sign id t) now = None;
  (** a token is base64url text: it has no space *)
  jwt_sign_no_space id t : has_char " " (jwt_sign id t) = false;
}.

(** ** The world the handlers act on *)

(** A verification mail: its recipient and the code it carries. *)
Record Mail := {
  mail_to : string;
  mail_code : string;
}.

Record World := {
  wdb : DB;
  mails : list Mail;
  smtp_up : bool;
}.

Definition set_wdb (db : DB) (w : World) : World :=
  {| wdb := db; mails := mails w; smtp_up := smtp_up w |}.

Definition add_mail (m : Mail) (w : World) : World :=
  {| wdb := wdb w; mails := mails w ++ [m]; smtp_up := smtp_up w |}.

(** ** Queries and updates *)

(** The filters of the [User.findOne] and [User.findById] calls. *)
Inductive UserQuery :=
(** [{ email }] (lines 296, 391, 424) *)
| ByEmail (e : string)
(** [{ googleId: profile.id }] (line 182) *)
| ByGoogleId (g : string)
(** [{ email, verificationCode: code, verificationCodeExpires: { $gt: Date.now() } }]
    (lines 365-369) *)
| ByCode (e code : string) (now : Date)
(** [findById(id)] (lines 212, 461) *)
| ById (id : ObjectId).

Definition matches (q : UserQuery) (u : User) : bool :=
  match q with
  | ByEmail e => bool_decide (email u = e)
  | ByGoogleId g => bool_decide (googleId u = Some g)
  | ByCode e c now =>
      bool_decide (email u = e) && bool_decide (verificationCode u = Some c) &&
      match verificationCodeExpires u with
      | Some x => bool_decide (now < x)%Z
      | None => false
      end
  | ById id => bool_decide (u_id u = id)
  end.

(** The paths of the user schema a profile update may name, and the
    values of a JSON body: strings and booleans.  A key outside the schema
    is dropped by Mongoose's strict mode. *)
Inductive Path :=
| PGoogleId | PDisplayName | PPassword | PPhoto | PIsVerified | PVerificationCode
| PDepartment | PCollege | PClass | PYear | PPlacedAt | PLeetCodeHandle
| PCodeForcesHandle | PRole
| PUnknown (key : string).

Inductive JVal := JStr (s : string) | JBool (b : bool).

(** Mongoose's String cast: [String(true)] is ["true"]. *)
Definition cast_string (v : JVal) : string :=
  match v with JStr s => s | JBool b => if b then "true" else "false" end.

(** Mongoose's Boolean cast (its [convertToTrue] and [convertToFalse]
    lists). *)
Definition cast_boolean (v : JVal) : result DbError bool :=
  match v with
  | JBool b => Ok b
  | JStr s =>
      if bool_decide (s = "true" \/ s = "1" \/ s = "yes") then Ok true
      else if bool_decide (s = "false" \/ s = "0" \/ s = "no") then Ok false
      else Err (CastError "isVerified")
  end.

(** The [enum] validator of [role], run by [runValidators: true]. *)
Definition role_of (s : string) : result DbError Role :=
  if bool_decide (s = "student") then Ok student
  else if bool_decide (s = "secretary") then Ok secretary
  else if bool_decide (s = "admin") then Ok admin
  else Err (ValidationError "role").

Definition set_path (p : Path) (v : JVal) (u : User) : result DbError User :=
  match p with
  | PGoogleId => Ok u{{googleId := Some (cast_string v)}}
  | PDisplayName => Ok u{{displayName := Some (cast_string v)}}
  | PPassword => Ok u{{password := Some (cast_string v)}}
  | PPhoto => Ok u{{photo := Some (cast_string v)}}
  | PIsVerified => let! b := cast_boolean v in Ok u{{isVerified := b}}
  | PVerificationCode => Ok u{{verificationCode := Some (cast_string v)}}
  | PDepartment => Ok u{{department := Some (cast_string v)}}
  | PCollege => Ok u{{college := Some (cast_string v)}}
  | PClass => Ok u{{class := Some (cast_string v)}}
  | PYear => Ok u{{year := Some (cast_string v)}}
  | PPlacedAt => Ok u{{placedAt := Some (cast_string v)}}
  | PLeetCodeHandle => Ok u{{leetCodeHandle := Some (cast_string v)}}
  | PCodeForcesHandle => Ok u{{codeForcesHandle := Some (cast_string v)}}
  | PRole => let! r := role_of (cast_string v) in Ok u{{role := r}}
  | PUnknown _ => Ok u
  end.

(** [{ $set: updateData }], path by path in the body's order. *)
Fixpoint apply_set (upd : list (Path * JVal)) (u : User) : result DbError User :=
  match upd with
  | [] => Ok u
  | (p, v) :: upd' => let! u' := set_path p v u in apply_set upd' u'
  end.

(** ** Operations *)

Inductive Op :=
(** [User.findOne(filter)], [User.findById(id)]: the first match *)
| FindOne (q : UserQuery)
(** [save()] of a new document *)
| InsertUser (u : User)
(** [save()] of a document loaded earlier: its modified paths *)
| UpdateUser (id : ObjectId) (patch : User -> User)
(** [User.findOneAndUpdate({ email }, { $set }, { new: true, runValidators: true })] *)
| UpdateOne (e : string) (upd : list (Path * JVal))
(** [bcrypt.hash(password, 10)] *)
| Hash (pw : string)
(** [bcrypt.compare(password, hash)] *)
| Compare (pw h : string)
(** [transporter.sendMail(mailOptions)] *)
| SendMail (m : Mail).

Inductive Res :=
| RUser (u : option User)
| RDone
| RHash (h : string)
| RBool (b : bool)
| RErr (e : DbError)
| RMailErr.

Definition Handler (A : Type) := Async.prog Op Res A.

Definition find_one (q : UserQuery) (db : DB) : option User :=
  List.find (matches q) (users db).

(** The [required] e-mail and the unique indexes [email_1] and the
    sparse [googleId_1], checked against every other document. *)
Definition check_user (u : User) (db : DB) : result DbError unit :=
  if bool_decide (email u = "") then Err (ValidationError "email")
  else if bool_decide (Exists (fun v => u_id v <> u_id u /\ email v = email u) (users db))
  then Err (DuplicateKey "email_1")
  else if bool_decide (Exists (fun v => u_id v <> u_id u /\ googleId u <> None /\
                                         googleId v = googleId u) (users db))
  then Err (DuplicateKey "googleId_1")
  else Ok ().

Definition insert_user (u : User) (db : DB) : result DbError DB :=
  if bool_decide (u_id u ∈ map u_id (users db)) then Err (DuplicateKey "_id_")
  else let! _ := check_user u db in Ok (Mongo.set_users (users db ++ [u]) db).

(** Write [patch] into the stored document with the id. *)
Definition update_user (id : ObjectId) (patch : User -> User) (db : DB) : result DbError (User * DB) :=
  match find_user id db with
  | None => Err DocumentNotFound
  | Some u =>
      let u' := patch u in
      if bool_decide (u_id u' <> id) then Err (ImmutableField "_id") else
      let! _ := check_user u' db in
      Ok (u', Mongo.set_users (Mongo.upsert u_id u' (users db)) db)
  end.

Definition update_one (e : string) (upd : list (Path * JVal)) (db : DB)
    : result DbError (option User * DB) :=
  match find_one (ByEmail e) db with
  | None => Ok (None, db)
  | Some u =>
      let! u' := apply_set upd u in
      let! _ := check_user u' db in
      Ok (Some u', Mongo.set_users (Mongo.upsert u_id u' (users db)) db)
  end.

(** ** The user collection

    What the [required] validator and the unique indexes guarantee of the
    stored users: distinct ids, distinct e-mails, distinct Google ids,
    and no empty e-mail. *)
Record users_wf (db : DB) : Prop := {
  wf_ids : NoDup (map u_id (users db));
  wf_email : forall v w, v ∈ users db -> w ∈ users db -> email v = email w -> v = w;
  wf_gid : forall v w, v ∈ users db -> w ∈ users db -> googleId v = googleId w ->
           googleId v <> None -> v = w;
  wf_nonempty : forall v, v ∈ users db -> email v <> "";
}.

Lemma users_wf_alt db :
  users_wf db <->
  NoDup (map u_id (users db)) /\
  Forall (fun v => Forall (fun w => email v = email w -> v = w) (users db)) (users db) /\
  Forall (fun v => Forall (fun w => googleId v = googleId w -> googleId v <> None -> v = w)
                          (users db)) (users db) /\
  Forall (fun v => email v <> "") (users db).
Proof.
  rewrite !Forall_forall. setoid_rewrite Forall_forall.
  split; [intros []; naive_solver|]. intros (? & ? & ? & ?). split; naive_solver.
Qed.

(** The invariant is decidable, so that it can be checked on a store. *)
#[export] Instance users_wf_dec db : Decision (users_wf db).
Proof.
  destruct (decide (NoDup (map u_id (users db)) /\
    Forall (fun v => Forall (fun w => email v = email w -> v = w) (users db)) (users db) /\
    Forall (fun v => Forall (fun w => googleId v = googleId w -> googleId v <> None -> v = w)
                            (users db)) (users db) /\
    Forall (fun v => email v <> "") (users db))) as [H|H];
    [left|right]; by rewrite users_wf_alt.
Defined.

Lemma check_user_ok u db :
  check_user u db = Ok () <->
  email u <> "" /\
  (forall v, v ∈ users db -> u_id v <> u_id u -> email v <> email u) /\
  (forall v, v ∈ users db -> u_id v <> u_id u -> googleId u <> None -> googleId v <> googleId u).
Proof.
  unfold check_user. repeat case_bool_decide; rewrite ?Exists_exists in *;
    split; try done; naive_solver.
Qed.

Lemma insert_user_ok u db :
  u_id u ∉ map u_id (users db) -> check_user u db = Ok () ->
  insert_user u db = Ok (Mongo.set_users (users db ++ [u]) db).
Proof. intros Hid Hc. unfold insert_user. rewrite bool_decide_false by done. by rewrite Hc. Qed.

Lemma update_user_ok id f u db :
  find_user id db = Some u -> u_id (f u) = id -> check_user (f u) db = Ok () ->
  update_user id f db = Ok (f u, Mongo.set_users (Mongo.upsert u_id (f u) (users db)) db).
Proof.
  intros Hf Hid Hc. unfold update_user. rewrite Hf. cbn.
  rewrite bool_decide_false by auto. by rewrite Hc.
Qed.

Lemma users_wf_insert u db :
  users_wf db -> u_id u ∉ map u_id (users db) -> check_user u db = Ok () ->
  users_wf (Mongo.set_users (users db ++ [u]) db).
Proof.
  intros [Hids Hem Hgid Hne] Hid (Hu & Hue & Hug)%check_user_ok.
  assert (forall v, v ∈ users db -> u_id v <> u_id u).
  { intros v Hv Heq. apply Hid, list_elem_of_fmap. exists v. by rewrite Heq. }
  split; cbn [users Mongo.set_users]; try setoid_rewrite elem_of_app;
    try setoid_rewrite list_elem_of_singleton.
  - rewrite map_app. apply NoDup_app. split_and!; [done| |apply NoDup_singleton].
    intros x Hx Hx'%list_elem_of_singleton. by subst x.
  - intros v w [Hv| ->] [Hw| ->] Hvw; [by apply Hem| | |done].
    + exfalso. by apply (Hue v Hv (H v Hv)).
    + exfalso. by apply (Hue w Hw (H w Hw)).
  - intros v w [Hv| ->] [Hw| ->] Hvw Hn; [by apply Hgid| | |done].
    + exfalso. apply (Hug v Hv (H v Hv)); [by rewrite <-Hvw|done].
    + exfalso. by apply (Hug w Hw (H w Hw) Hn).
  - intros v [Hv| ->]; [by apply Hne|done].
Qed.

(** Writing a checked document over the one with its id. *)
(** A stored document rewritten with its id, e-mail and Google id kept
    passes the checks. *)
Lemma check_user_stored db u u' :
  users_wf db -> u ∈ users db -> u_id u' = u_id u -> email u' = email u ->
  googleId u' = googleId u -> check_user u' db = Ok ().
Proof.
  intros Hwf Hu Hid He Hg. apply check_user_ok. rewrite Hid, He, Hg.
  split_and!; [by apply (wf_nonempty _ Hwf)| |].
  - intros v Hv Hvid Heq. apply Hvid. f_equal. by apply (wf_email _ Hwf).
  - intros v Hv Hvid Hn Heq. apply Hvid. f_equal. apply (wf_gid _ Hwf); auto.
    by rewrite Heq.
Qed.

Lemma users_wf_upsert u db :
  users_wf db -> u_id u ∈ map u_id (users db) -> check_user u db = Ok () ->
  users_wf (Mongo.set_users (Mongo.upsert u_id u (users db)) db).
Proof.
  intros [Hids Hem Hgid Hne] Hid (Hu & Hue & Hug)%check_user_ok.
  split; cbn [users Mongo.set_users]; try setoid_rewrite Mongo.elem_of_upsert.
  - by rewrite Mongo.map_key_upsert.
  - intros v w [->|[Hv Hv']] [->|[Hw Hw']] Hvw; [done| | |by apply Hem].
    + exfalso. by apply (Hue w Hw Hw').
    + exfalso. by apply (Hue v Hv Hv').
  - intros v w [->|[Hv Hv']] [->|[Hw Hw']] Hvw Hn; [done| | |by apply Hgid].
    + exfalso. by apply (Hug w Hw Hw' Hn).
    + exfalso. apply (Hug v Hv Hv'); [by rewrite <-Hvw|done].
  - intros v [->|[Hv _]]; [done|by apply Hne].
Qed.

Lemma elem_of_find_user id db u : find_user id db = Some u -> u ∈ users db /\ u_id u = id.
Proof. intros [Hu Hid%bool_decide_eq_true]%find_some_elem. done. Qed.

Lemma users_wf_update id f db u db' :
  users_wf db -> update_user id f db = Ok (u, db') -> users_wf db'.
Proof.
  intros Hwf. unfold update_user.
  destruct (find_user id db) as [v|] eqn:Hf; [|done].
  apply elem_of_find_user in Hf as [Hv Hvid].
  case_bool_decide as Hid; [done|].
  destruct (check_user (f v) db) as [[]|] eqn:Hc; [|done]. intros [= <- <-].
  apply users_wf_upsert; [done| |done]. rewrite Hid, <-Hvid.
  apply list_elem_of_fmap. by exists v.
Qed.

Lemma apply_set_id upd u u' : apply_set upd u = Ok u' -> u_id u' = u_id u /\ email u' = email u.
Proof.
  revert u. induction upd as [|[p v] upd IH]; intros u; cbn; [by intros [= ->]|].
  destruct (set_path p v u) as [u1|] eqn:Hs; [|done]. intros [Hi He]%IH.
  rewrite Hi, He. destruct p; cbn in Hs;
    repeat match goal with
    | H : context [let! _ := ?r in _] |- _ => destruct r; cbn in H
    end; by simplify_eq.
Qed.

Lemma users_wf_update_one e upd db u db' :
  users_wf db -> update_one e upd db = Ok (u, db') -> users_wf db'.
Proof.
  intros Hwf. unfold update_one.
  destruct (find_one (ByEmail e) db) as [v|] eqn:Hf; [|by intros [= _ <-]].
  apply find_some_elem in Hf as [Hv _].
  destruct (apply_set upd v) as [v'|] eqn:Ha; [|done]. cbn.
  destruct (check_user v' db) as [[]|] eqn:Hc; [|done]. intros [= _ <-].
  apply users_wf_upsert; [done| |done]. apply apply_set_id in Ha as [-> _].
  apply list_elem_of_fmap. by exists v.
Qed.

Lemma users_wf_insert_ok u db db' :
  users_wf db -> insert_user u db = Ok db' -> users_wf db'.
Proof.
  intros Hwf. unfold insert_user. case_bool_decide; [done|].
  destruct (check_user u db) as [[]|] eqn:Hc; [|done]. intros [= <-].
  by apply users_wf_insert.
Qed.

Section Exec.
Context `{!Bcrypt}.

Definition exec_db (op : Op) (db : DB) : Res * DB :=
  match op with
  | FindOne q => (RUser (find_one q db), db)
  | InsertUser u =>
      match insert_user u db with Ok db' => (RDone, db') | Err e => (RErr e, db) end
  | UpdateUser id patch =>
      match update_user id patch db with Ok (_, db') => (RDone, db') | Err e => (RErr e, db) end
  | UpdateOne e upd =>
      match update_one e upd db with Ok (u, db') => (RUser u, db') | Err e => (RErr e, db) end
  | _ => (RDone, db)
  end.

Definition exec (op : Op) (w : World) : Res * World :=
  match op with
  | Hash pw => (RHash (bhash pw), w)
  | Compare pw h => (RBool (bcompare pw h), w)
  | SendMail m =>
      if smtp_up w then (RDone, add_mail m w) else (RMailErr, w)
  | _ =>
      if db_up (wdb w) then let '(r, db') := exec_db op (wdb w) in (r, set_wdb db' w)
      else (RErr Unavailable, w)
  end.

Lemma set_wdb_id w : set_wdb (wdb w) w = w.
Proof. by destruct w. Qed.

Lemma exec_find q w :
  db_up (wdb w) = true -> exec (FindOne q) w = (RUser (find_one q (wdb w)), w).
Proof. intros Hup. unfold exec. rewrite Hup. cbn. by rewrite set_wdb_id. Qed.

Lemma exec_insert u w db' :
  db_up (wdb w) = true -> insert_user u (wdb w) = Ok db' ->
  exec (InsertUser u) w = (RDone, set_wdb db' w).
Proof. intros Hup Hi. unfold exec. rewrite Hup. cbn. by rewrite Hi. Qed.

Lemma exec_update id f w u db' :
  db_up (wdb w) = true -> update_user id f (wdb w) = Ok (u, db') ->
  exec (UpdateUser id f) w = (RDone, set_wdb db' w).
Proof. intros Hup Hi. unfold exec. rewrite Hup. cbn. by rewrite Hi. Qed.

Lemma exec_update_one e upd w u db' :
  db_up (wdb w) = true -> update_one e upd (wdb w) = Ok (u, db') ->
  exec (UpdateOne e upd) w = (RUser u, set_wdb db' w).
Proof. intros Hup Hi. unfold exec. rewrite Hup. cbn. by rewrite Hi. Qed.

Lemma exec_hash pw w : exec (Hash pw) w = (RHash (bhash pw), w).
Proof. reflexivity. Qed.

Lemma exec_compare pw h w : exec (Compare pw h) w = (RBool (bcompare pw h), w).
Proof. reflexivity. Qed.

Lemma exec_mail m w : smtp_up w = true -> exec (SendMail m) w = (RDone, add_mail m w).
Proof. intros Hs. unfold exec. by rewrite Hs. Qed.

(** Every operation keeps the user collection well formed. *)
Lemma exec_users_wf op w : users_wf (wdb w) -> users_wf (wdb (exec op w).2).
Proof.
  intros Hwf. unfold exec. destruct op; try done; cbn [wdb add_mail];
    try (destruct (smtp_up w); done);
    destruct (db_up (wdb w)); cbn; try done.
  - destruct (insert_user u (wdb w)) eqn:E; cbn; [|done]. by eapply users_wf_insert_ok.
  - destruct (update_user id patch (wdb w)) as [[u d]|] eqn:E; cbn; [|done].
    by eapply users_wf_update.
  - destruct (update_one e upd (wdb w)) as [[u d]|] eqn:E; cbn; [|done].
    by eapply users_wf_update_one.
Qed.
End Exec.

(** ** Documents the handlers build *)

(** [new User({ email })] with the schema defaults. *)
Definition new_User (id : ObjectId) (e : string) (now : Date) : User :=
  {| u_id := id; googleId := None; displayName := None; email := e; password := None;
     photo := None; isVerified := false; verificationCode := None;
     verificationCodeExpires := None; department := None; college := None; class := None;
     year := None; placedAt := None; leetCodeHandle := None; codeForcesHandle := None;
     role := student; following := []; followers := []; friends := []; u_createdAt := now |}.

(** [Math.floor(100000 + Math.random() * 900000).toString()] with
    [Math.random()] equal to [k / 2^52] (V8 draws the 52 bits of the
    mantissa), the product and the sum taken exactly. *)
Definition verification_code (k : N) : string :=
  js_N_to_string (100000 + 900000 * k / 2 ^ 52)%N.

(** Lines 343-346. *)
Definition registration (name : option string) (h code : string) (exp : Date) (u : User) : User :=
  u{{displayName := name; password := Some h; verificationCode := Some code;
     verificationCodeExpires := Some exp}}.

(** Lines 375-377. *)
Definition verified (u : User) : User :=
  u{{isVerified := true; verificationCode := None; verificationCodeExpires := None}}.

(** The profile the Google strategy receives: [profile.id],
    [profile.displayName], [profile.emails[0].value],
    [profile.photos[0].value]. *)
Record GoogleProfile := {
  gp_id : string;
  gp_displayName : option string;
  gp_email : string;
  gp_photo : string;
}.

(** Lines 186-188. *)
Definition link_google (p : GoogleProfile) (u : User) : User :=
  u{{googleId := Some (gp_id p); photo := Some (gp_photo p); isVerified := true}}.

(** Lines 191-197. *)
Definition google_User (id : ObjectId) (p : GoogleProfile) (now : Date) : User :=
  (new_User id (gp_email p) now){{googleId := Some (gp_id p); displayName := gp_displayName p;
                                   photo := Some (gp_photo p); isVerified := true}}.

(** A branch the operations never take (a query answered with another
    kind of result). *)
Definition unreachable : Response := {| status := 500; body := BNone |}.

(** The value of [authHeader.split(' ')[1]] when the header starts with
    ["Bearer "]. *)
Definition bearer_token (h : string) : option (option string) :=
  if String.prefix "Bearer " h then Some (nth_error (js_split " " h) 1) else None.

(** ** Handlers *)

Section Handlers.
Context `{!Bcrypt, !Jwt}.
(** [err.message] of a database error and of the SMTP failure. *)
Variable err_message : DbError -> string.
Variable smtp_message : string.

Definition server_error (m : string) : Response := msg 500 ("Server error: " +:+ m).

(** The [catch] of the register route (lines 352-358). *)
Definition register_error (e : DbError) : Response :=
  match e with
  | DuplicateKey _ => msg 400 "User already exists"
  | _ => server_error (err_message e)
  end.

(** Lines 309-351, once the document to write is known: [write] saves
    the user with the registration's paths set. *)
Definition register_save (name : option string) (e pw : string) (now : Date) (k : N)
    (write : (User -> User) -> Op) : Handler Response :=
  h <-- Hash pw ;;
  match h with
  | RHash hp =>
      let code := verification_code k in
      m <-- SendMail {| mail_to := e; mail_code := code |} ;;
      match m with
      | RDone =>
          s <-- write (registration name hp code (now + 10 * 60 * 1000)%Z) ;;
          match s with
          | RDone => Ret (msg 201 "Code sent to your email. Please verify.")
          | RErr err => Ret (register_error err)
          | _ => Ret unreachable
          end
      | _ => Ret (server_error smtp_message)
      end
  | _ => Ret unreachable
  end.

(** [POST /api/auth/register] (lines 291-359); [fresh] is the [_id] of
    the new document, [now] the clock, [k] the random draw. *)
Definition register (name : option string) (e pw : string) (fresh : ObjectId) (now : Date) (k : N)
    : Handler Response :=
  r <-- FindOne (ByEmail e) ;;
  match r with
  | RUser (Some u) =>
      if isVerified u then Ret (msg 400 "User already exists and is verified.")
      else register_save name e pw now k (UpdateUser (u_id u))
  | RUser None => register_save name e pw now k (fun f => InsertUser (f (new_User fresh e now)))
  | RErr err => Ret (register_error err)
  | _ => Ret unreachable
  end.

(** [POST /api/auth/verify-code] (lines 362-385). *)
Definition verify_code (e code : string) (now : Date) : Handler Response :=
  r <-- FindOne (ByCode e code now) ;;
  match r with
  | RUser None => Ret (msg 400 "Invalid or expired verification code.")
  | RUser (Some u) =>
      s <-- UpdateUser (u_id u) verified ;;
      match s with
      | RDone => Ret (msg 200 "Email verified successfully! You can now login.")
      | _ => Ret (msg 500 "Verification failed.")
      end
  | _ => Ret (msg 500 "Verification failed.")
  end.

(** [POST /api/auth/login] (lines 388-404). *)
Definition login (e pw : string) (now : Date) : Handler Response :=
  r <-- FindOne (ByEmail e) ;;
  match r with
  | RUser None => Ret (msg 400 "Invalid credentials")
  | RUser (Some u) =>
      match password u with
      | None | Some EmptyString => Ret (msg 400 "Invalid credentials")
      | Some h =>
          if negb (isVerified u) then Ret (msg 401 "Please verify your email before logging in.")
          else
            c <-- Compare pw h ;;
            match c with
            | RBool true =>
                Ret {| status := 200; body := BLogin (jwt_sign (u_id u) now) (login_user u) |}
            | _ => Ret (msg 400 "Invalid credentials")
            end
      end
  | _ => Ret (msg 500 "Server error during login")
  end.

(** [POST /api/auth/logout] (lines 407-412): [failed] says whether
    passport's [req.logout] reports an error. *)
Definition logout (failed : bool) : Response :=
  if failed then msg 500 "Logout failed" else msg 200 "Logged out successfully".

(** [GET /api/auth/profile?email=] (lines 417-431). *)
Definition get_profile (q : option string) : Handler Response :=
  match q with
  | None | Some EmptyString => Ret (msg 400 "Email required")
  | Some e =>
      r <-- FindOne (ByEmail e) ;;
      match r with
      | RUser None => Ret (msg 404 "User not found")
      | RUser (Some u) => Ret {| status := 200; body := BUser u |}
      | _ => Ret (msg 500 "Server error")
      end
  end.

(** [PUT /api/auth/profile] (lines 434-452): the body's [email] and the
    other keys. *)
Definition put_profile (e : option string) (upd : list (Path * JVal)) : Handler Response :=
  match e with
  | None | Some EmptyString => Ret (msg 400 "Email required")
  | Some e =>
      r <-- UpdateOne e upd ;;
      match r with
      | RUser None => Ret (msg 404 "User not found")
      | RUser (Some u) => Ret {| status := 200; body := BProfile "Profile updated successfully" u |}
      | _ => Ret (msg 500 "Server error")
      end
  end.

Definition authenticated (u : User) : Response := {| status := 200; body := BAuth true (Some u) |}.
Definition unauthenticated : Response := {| status := 200; body := BAuth false None |}.

(** [req.isAuthenticated()] and [req.user] (lines 468-470). *)
Definition session_fallback (sess : option User) : Handler Response :=
  match sess with
  | Some u => Ret (authenticated u)
  | None => Ret unauthenticated
  end.

(** [passport.session()] runs [deserializeUser] (lines 210-217) before
    the route: a session id is looked up, an unknown one leaves the
    request unauthenticated, a failed lookup is an Express error. *)
Definition deserialize (sid : option ObjectId) (k : option User -> Handler Response)
    : Handler Response :=
  match sid with
  | None => k None
  | Some id =>
      r <-- FindOne (ById id) ;;
      match r with
      | RUser u => k u
      | _ => Ret {| status := 500; body := BNone |}
      end
  end.

(** [GET /api/auth/user] (lines 455-476) for an [Authorization] header
    and a session id; [jwt.verify] throwing ends in the [catch]. *)
Definition auth_user (hdr : option string) (sid : option ObjectId) (now : Date)
    : Handler Response :=
  deserialize sid (fun sess =>
    match hdr ≫= bearer_token with
    | None => session_fallback sess
    | Some None => Ret unauthenticated
    | Some (Some tok) =>
        match jwt_verify tok now with
        | None => Ret unauthenticated
        | Some id =>
            r <-- FindOne (ById id) ;;
            match r with
            | RUser (Some u) => Ret (authenticated u)
            | RUser None => session_fallback sess
            | _ => Ret unauthenticated
            end
        end
    end).

(** The Google strategy's verify callback (lines 180-205): the user to
    log in, or the error passed to [done]. *)
Definition google_verify (p : GoogleProfile) (fresh : ObjectId) (now : Date)
    : Handler (result DbError User) :=
  r <-- FindOne (ByGoogleId (gp_id p)) ;;
  match r with
  | RUser (Some u) => Ret (Ok u)
  | RUser None =>
      r2 <-- FindOne (ByEmail (gp_email p)) ;;
      match r2 with
      | RUser (Some u) =>
          s <-- UpdateUser (u_id u) (link_google p) ;;
          match s with
          | RDone => Ret (Ok (link_google p u))
          | RErr e => Ret (Err e)
          | _ => Ret (Err Unavailable)
          end
      | RUser None =>
          s <-- InsertUser (google_User fresh p now) ;;
          match s with
          | RDone => Ret (Ok (google_User fresh p now))
          | RErr e => Ret (Err e)
          | _ => Ret (Err Unavailable)
          end
      | RErr e => Ret (Err e)
      | _ => Ret (Err Unavailable)
      end
  | RErr e => Ret (Err e)
  | _ => Ret (Err Unavailable)
  end.

(** [GET /api/auth/google/callback] after a successful authentication
    (lines 558-561): a token for the user in the redirect to the
    dashboard. *)
Definition google_callback (client_url : option string) (u : User) (now : Date) : Response :=
  let base := match client_url with
              | Some (String _ _ as c) => c
              | _ => "http://localhost:8080"
              end in
  {| status := 302; body := BRedirect (base +:+ "/dashboard?token=" +:+ jwt_sign (u_id u) now) |}.

(** ** Runs of the handlers *)

(** The user a registration of a new e-mail inserts. *)
Definition reg_user (name : option string) (e pw : string) (fresh : ObjectId) (now : Date) (k : N) : User :=
  registration name (bhash pw) (verification_code k) (now + 10 * 60 * 1000)%Z (new_User fresh e now).

Lemma find_one_unique q db u :
  users_wf db -> u ∈ users db -> matches q u = true ->
  (forall v, matches q v = true -> email v = email u) -> find_one q db = Some u.
Proof.
  intros Hwf Hu Hq Hem. unfold find_one.
  destruct (List.find (matches q) (users db)) as [v|] eqn:Hf.
  - apply find_some_elem in Hf as [Hv Hqv]. f_equal. apply (wf_email _ Hwf); auto.
  - by rewrite (find_none_elem _ _ u Hf Hu) in Hq.
Qed.

Lemma find_user_stored db u :
  users_wf db -> u ∈ users db -> find_user (u_id u) db = Some u.
Proof.
  intros Hwf Hu. unfold find_user. destruct (List.find _ _) as [v|] eqn:Hv.
  - apply find_some_elem in Hv as [Hv Hid%bool_decide_eq_true]. f_equal.
    apply (NoDup_map_inj_in u_id (users db)); auto using wf_ids.
  - pose proof (find_none_elem _ _ u Hv Hu) as Hc. cbn in Hc.
    by rewrite bool_decide_true in Hc.
Qed.

Lemma find_one_none q db :
  (forall v, v ∈ users db -> matches q v = false) -> find_one q db = None.
Proof.
  intros Hn. unfold find_one. destruct (List.find _ _) as [v|] eqn:Hv; [|done].
  apply find_some_elem in Hv as [Hv Hm]. by rewrite Hn in Hm.
Qed.

Lemma find_one_none_email e db :
  find_one (ByEmail e) db = None -> forall v, v ∈ users db -> email v <> e.
Proof.
  intros Hn v Hv He. pose proof (find_none_elem _ _ v Hn Hv) as Hm. cbn in Hm.
  by rewrite bool_decide_true in Hm.
Qed.

Lemma run_register_new name e pw fresh now k w db' :
  db_up (wdb w) = true -> smtp_up w = true -> find_one (ByEmail e) (wdb w) = None ->
  insert_user (reg_user name e pw fresh now k) (wdb w) = Ok db' ->
  Async.run exec (register name e pw fresh now k) w =
    (msg 201 "Code sent to your email. Please verify.",
     set_wdb db' (add_mail {| mail_to := e; mail_code := verification_code k |} w)).
Proof.
  intros Hup Hs Hn Hi. cbn [register Async.run]. rewrite exec_find, Hn by done.
  cbn [register_save Async.run]. rewrite exec_hash. cbn [Async.run].
  rewrite exec_mail by done.
  cbn [Async.run]. by rewrite (exec_insert _ _ db').
Qed.

Lemma check_reg_user name e pw fresh now k db :
  e <> "" -> find_one (ByEmail e) db = None -> check_user (reg_user name e pw fresh now k) db = Ok ().
Proof.
  intros He Hn. apply check_user_ok.
  split_and!; [done| |done]. intros v Hv _. by apply (find_one_none_email e db).
Qed.

Lemma run_verify_found e code now u w :
  db_up (wdb w) = true -> users_wf (wdb w) -> find_one (ByCode e code now) (wdb w) = Some u ->
  Async.run exec (verify_code e code now) w =
    (msg 200 "Email verified successfully! You can now login.",
     set_wdb (Mongo.set_users (Mongo.upsert u_id (verified u) (users (wdb w))) (wdb w)) w).
Proof.
  intros Hup Hwf Hf. pose proof (find_some_elem _ _ _ Hf) as [Hu _].
  cbn [verify_code Async.run]. rewrite exec_find, Hf by done. cbn [Async.run].
  erewrite exec_update; [done|done|].
  apply update_user_ok; [by apply find_user_stored|done|].
  - by apply (check_user_stored _ u).
Qed.

Lemma run_login_ok e pw now u h w :
  db_up (wdb w) = true -> find_one (ByEmail e) (wdb w) = Some u ->
  password u = Some h -> h <> "" -> isVerified u = true -> bcompare pw h = true ->
  Async.run exec (login e pw now) w =
    ({| status := 200; body := BLogin (jwt_sign (u_id u) now) (login_user u) |}, w).
Proof.
  intros Hup Hf Hp Hh Hv Hc. cbn [login Async.run]. rewrite exec_find, Hf by done.
  rewrite Hp, Hv. destruct h as [|c h]; [done|]. cbn [negb Async.run].
  rewrite exec_compare, Hc. done.
Qed.

Lemma run_get_profile e w :
  e <> "" -> db_up (wdb w) = true ->
  Async.run exec (get_profile (Some e)) w =
    (match find_one (ByEmail e) (wdb w) with
     | Some u => {| status := 200; body := BUser u |}
     | None => msg 404 "User not found"
     end, w).
Proof.
  intros He Hup. destruct e as [|c e]; [done|]. cbn [get_profile Async.run].
  rewrite exec_find by done. by destruct (find_one _ _).
Qed.

Lemma run_put_profile e upd w u db' :
  e <> "" -> db_up (wdb w) = true -> update_one e upd (wdb w) = Ok (Some u, db') ->
  Async.run exec (put_profile (Some e) upd) w =
    ({| status := 200; body := BProfile "Profile updated successfully" u |}, set_wdb db' w).
Proof.
  intros He Hup Hu. destruct e as [|c e]; [done|]. cbn [put_profile Async.run].
  by rewrite (exec_update_one _ _ _ (Some u) db').
Qed.

(** A [$set] of a stored user that keeps its e-mail and Google id. *)
Lemma update_one_stored u upd u' db :
  users_wf db -> u ∈ users db -> apply_set upd u = Ok u' -> googleId u' = googleId u ->
  update_one (email u) upd db =
    Ok (Some u', Mongo.set_users (Mongo.upsert u_id u' (users db)) db).
Proof.
  intros Hwf Hu Ha Hg. unfold update_one.
  rewrite (find_one_unique _ _ u) by (done || by apply bool_decide_true
                                      || by intros v ?%bool_decide_eq_true).
  rewrite Ha. cbn. pose proof (apply_set_id _ _ _ Ha) as [Hi He].
  by rewrite (check_user_stored _ u u').
Qed.

Lemma run_deserialize sid k w :
  db_up (wdb w) = true ->
  Async.run exec (deserialize sid k) w = Async.run exec (k (sid ≫= fun id => find_user id (wdb w))) w.
Proof.
  intros Hup. destruct sid as [id|]; [|done]. cbn [deserialize Async.run].
  by rewrite exec_find.
Qed.

Lemma bearer_sign id t :
  Some ("Bearer " +:+ jwt_sign id t) ≫= bearer_token = Some (Some (jwt_sign id t)).
Proof.
  cbn. unfold bearer_token. rewrite prefix_app, js_split_bearer by apply jwt_sign_no_space.
  done.
Qed.

Lemma run_register_save_smtp_down name e pw now k write w :
  smtp_up w = false ->
  Async.run exec (register_save name e pw now k write) w = (server_error smtp_message, w).
Proof.
  intros Hs. cbn [register_save Async.run]. rewrite exec_hash. cbn [Async.run].
  unfold exec at 1. by rewrite Hs.
Qed.

(** Linking a Google id no user holds passes the checks. *)
Lemma check_link_google p u db :
  users_wf db -> u ∈ users db -> find_one (ByGoogleId (gp_id p)) db = None ->
  check_user (link_google p u) db = Ok ().
Proof.
  intros Hwf Hu Hg. apply check_user_ok.
  change (email (link_google p u)) with (email u).
  change (u_id (link_google p u)) with (u_id u).
  change (googleId (link_google p u)) with (Some (gp_id p)). split_and!.
  - by apply (wf_nonempty _ Hwf).
  - intros v Hv Hid Heq. apply Hid. f_equal. by apply (wf_email _ Hwf).
  - intros v Hv _ _ Heq. pose proof (find_none_elem _ _ v Hg Hv) as Hm. cbn in Hm.
    by rewrite bool_decide_true in Hm.
Qed.

Lemma run_google_link p u fresh now w :
  users_wf (wdb w) -> db_up (wdb w) = true -> u ∈ users (wdb w) -> email u = gp_email p ->
  find_one (ByGoogleId (gp_id p)) (wdb w) = None ->
  Async.run exec (google_verify p fresh now) w =
    (Ok (link_google p u),
     set_wdb (Mongo.set_users (Mongo.upsert u_id (link_google p u) (users (wdb w))) (wdb w)) w).
Proof.
  intros Hwf Hup Hu He Hg. cbn [google_verify Async.run]. rewrite exec_find, Hg by done.
  cbn [Async.run]. rewrite exec_find by done.
  rewrite (find_one_unique _ _ u);
    [|done|done|by apply bool_decide_true|intros v Hv%bool_decide_eq_true; congruence].
  cbn [Async.run]. erewrite exec_update; [done|done|].
  apply update_user_ok; [by apply find_user_stored|done|].
  by apply check_link_google.
Qed.

(** A registration does not give anyone a Google id. *)
Lemma find_gid_insert g name e pw fresh now k db :
  find_one (ByGoogleId g) db = None ->
  find_one (ByGoogleId g) (Mongo.set_users (users db ++ [reg_user name e pw fresh now k]) db) = None.
Proof.
  intros Hg. apply find_one_none. intros v Hv. cbn in Hv. apply elem_of_app in Hv as [Hv|Hv].
  - by rewrite (find_none_elem _ _ v Hg Hv).
  - apply list_elem_of_singleton in Hv as ->. done.
Qed.

Lemma hash_nonempty pw : bhash pw <> "".
Proof. intros Hh. pose proof (bhash_length pw) as Hl. by rewrite Hh in Hl. Qed.

(** [Math.floor(100000 + Math.random() * 900000)] lies between 100000
    and 999999 for every double in [0, 1). *)
Lemma verification_code_range k :
  (k < 2 ^ 52)%N -> (100000 <= 100000 + 900000 * k / 2 ^ 52 <= 999999)%N.
Proof.
  intros Hk. split; [apply N.le_add_r|].
  enough (900000 * k / 2 ^ 52 < 900000)%N as Hlt.
  { apply N.lt_le_pred in Hlt. apply (N.add_le_mono_l _ _ 100000) in Hlt. exact Hlt. }
  apply N.Div0.div_lt_upper_bound. rewrite (N.mul_comm (2 ^ 52)).
  apply (proj1 (N.mul_lt_mono_pos_l 900000 k (2 ^ 52) ltac:(lia))), Hk.
Qed.

(** ** Properties *)

(** A new e-mail goes through the whole account lifecycle.  Run one
    after the other with the database and the mail server up,
    [POST /api/auth/register] answers 201 and mails a code to the
    address; [POST /api/auth/verify-code] with that code before it
    expires answers 200; [POST /api/auth/login] with the same password
    then answers 200 with a token for the new id and the user's public
    fields; the collection stays well formed throughout. *)
Theorem register_verify_login name e pw fresh now k t1 t2 w :
  users_wf (wdb w) -> db_up (wdb w) = true -> smtp_up w = true -> e <> "" ->
  find_one (ByEmail e) (wdb w) = None -> fresh ∉ map u_id (users (wdb w)) ->
  (t1 < now + 10 * 60 * 1000)%Z ->
  let '(r1, w1) := Async.run exec (register name e pw fresh now k) w in
  let '(r2, w2) := Async.run exec (verify_code e (verification_code k) t1) w1 in
  let '(r3, w3) := Async.run exec (login e pw t2) w2 in
  r1 = msg 201 "Code sent to your email. Please verify." /\
  mails w1 = mails w ++ [{| mail_to := e; mail_code := verification_code k |}] /\
  r2 = msg 200 "Email verified successfully! You can now login." /\
  r3 = {| status := 200; body := BLogin (jwt_sign fresh t2)
            {| lu_id := fresh; lu_displayName := name; lu_email := e; lu_photo := None |} |} /\
  users_wf (wdb w3).
Proof.
  intros Hwf Hup Hs He Hn Hfresh Ht. set (ru := reg_user name e pw fresh now k).
  pose proof (check_reg_user name e pw fresh now k _ He Hn) as Hc.
  rewrite (run_register_new _ _ _ _ _ _ _ _ Hup Hs Hn (insert_user_ok ru _ Hfresh Hc)).
  set (db1 := Mongo.set_users (users (wdb w) ++ [ru]) (wdb w)).
  assert (Hwf1 : users_wf db1) by (by apply users_wf_insert).
  assert (Hru : ru ∈ users db1) by (cbn; set_solver).
  assert (Hf1 : find_one (ByCode e (verification_code k) t1) db1 = Some ru).
  { apply find_one_unique; [done|done| |].
    - cbn. rewrite !bool_decide_true by (done || lia). done.
    - intros v [[Hv _]%andb_true_iff _]%andb_true_iff. by apply bool_decide_eq_true in Hv. }
  rewrite (run_verify_found _ _ _ ru) by done. cbn [wdb set_wdb].
  set (db2 := Mongo.set_users (Mongo.upsert u_id (verified ru) (users db1)) db1).
  assert (Hwf2 : users_wf db2).
  { apply users_wf_upsert; [done| |by apply (check_user_stored _ ru)].
    apply list_elem_of_fmap. by exists ru. }
  assert (Hf2 : find_one (ByEmail e) db2 = Some (verified ru)).
  { apply find_one_unique; [done| |by apply bool_decide_true|].
    - cbn. apply Mongo.elem_of_upsert. by left.
    - intros v Hv%bool_decide_eq_true. done. }
  rewrite (run_login_ok _ _ _ (verified ru) (bhash pw))
    by first [done | apply hash_nonempty | apply bcompare_hash].
  split_and!; done.
Qed.

(** C20: [GET /api/auth/profile?email=] needs no credential and answers
    with the whole document: right after a registration it hands anyone
    who knows the address the pending verification code (which the
    [verify-code] accepts) and the password hash. *)
Theorem profile_exposes_code name e pw fresh now k w :
  users_wf (wdb w) -> db_up (wdb w) = true -> smtp_up w = true -> e <> "" ->
  find_one (ByEmail e) (wdb w) = None -> fresh ∉ map u_id (users (wdb w)) ->
  let w1 := (Async.run exec (register name e pw fresh now k) w).2 in
  exists u, Async.run exec (get_profile (Some e)) w1 = ({| status := 200; body := BUser u |}, w1) /\
    verificationCode u = Some (verification_code k) /\ password u = Some (bhash pw) /\
    isVerified u = false.
Proof.
  intros Hwf Hup Hs He Hn Hfresh. set (ru := reg_user name e pw fresh now k).
  pose proof (check_reg_user name e pw fresh now k _ He Hn) as Hc.
  rewrite (run_register_new _ _ _ _ _ _ _ _ Hup Hs Hn (insert_user_ok ru _ Hfresh Hc)).
  cbn zeta. rewrite run_get_profile by done. cbn [wdb set_wdb].
  exists ru. rewrite (find_one_unique _ _ ru).
  - done.
  - by apply users_wf_insert.
  - cbn. set_solver.
  - by apply bool_decide_true.
  - by intros v ?%bool_decide_eq_true.
Qed.

(** C21: [PUT /api/auth/profile] needs no credential and [$set]s any
    schema path but the e-mail: whoever knows a user's address makes it
    an [admin] and verified, and the update is stored. *)
Theorem put_profile_escalates u w :
  users_wf (wdb w) -> db_up (wdb w) = true -> u ∈ users (wdb w) ->
  exists u', Async.run exec (put_profile (Some (email u)) [(PRole, JStr "admin"); (PIsVerified, JBool true)]) w =
    ({| status := 200; body := BProfile "Profile updated successfully" u' |},
     set_wdb (Mongo.set_users (Mongo.upsert u_id u' (users (wdb w))) (wdb w)) w) /\
    role u' = admin /\ isVerified u' = true /\ u_id u' = u_id u /\ password u' = password u.
Proof.
  intros Hwf Hup Hu. exists (u{{role := admin; isVerified := true}}). split; [|done].
  apply run_put_profile; [by apply (wf_nonempty _ Hwf)|done|].
  by apply update_one_stored.
Qed.

(** C22: a [password] in the body of [PUT /api/auth/profile] is stored as
    it is, not hashed: unless it happens to be 60 characters long, no
    password logs the user in afterwards. *)
Theorem put_password_locks_out u p w :
  users_wf (wdb w) -> db_up (wdb w) = true -> u ∈ users (wdb w) -> String.length p <> 60%nat ->
  let '(r, w1) := Async.run exec (put_profile (Some (email u)) [(PPassword, JStr p)]) w in
  status r = 200%Z /\ forall pw t, status (Async.run exec (login (email u) pw t) w1).1 <> 200%Z.
Proof.
  intros Hwf Hup Hu Hp. set (u' := u{{password := Some p}}).
  assert (Hupd : update_one (email u) [(PPassword, JStr p)] (wdb w) =
                 Ok (Some u', Mongo.set_users (Mongo.upsert u_id u' (users (wdb w))) (wdb w)))
    by (by apply update_one_stored).
  rewrite (run_put_profile _ _ _ u' _) by (done || by apply (wf_nonempty _ Hwf)).
  split; [done|]. intros pw t. cbn [login Async.run].
  rewrite exec_find by done. cbn [wdb set_wdb].
  rewrite (find_one_unique _ _ u').
  - cbn [password u']. destruct p as [|c p]; [done|].
    destruct (isVerified u'); cbn; [|done]. by rewrite bcompare_length.
  - apply users_wf_upsert; [done| |by apply (check_user_stored _ u)].
    apply list_elem_of_fmap. by exists u.
  - cbn. apply Mongo.elem_of_upsert. by left.
  - by apply bool_decide_true.
  - by intros v ?%bool_decide_eq_true.
Qed.

(** [GET /api/auth/user] with a bearer token signed less than a day ago
    for a stored user answers that user. *)
Lemma run_auth_user_bearer u t now sid w :
  users_wf (wdb w) -> db_up (wdb w) = true -> u ∈ users (wdb w) ->
  (u_id u < oid_bound)%N -> (0 <= t <= now)%Z -> (now / 1000 < t / 1000 + 86400)%Z ->
  Async.run exec (auth_user (Some ("Bearer " +:+ jwt_sign (u_id u) t)) sid now) w = (authenticated u, w).
Proof.
  intros Hwf Hup Hu Hid Ht Hnow. unfold auth_user. rewrite run_deserialize by done.
  cbv beta. rewrite bearer_sign, jwt_verify_sign by (done || lia). cbn [Async.run].
  rewrite exec_find by done.
  change (find_one (ById (u_id u)) (wdb w)) with (find_user (u_id u) (wdb w)).
  by rewrite find_user_stored.
Qed.

(** C23: [GET /api/auth/user] with the bearer token login signed for a
    stored user answers that user as authenticated for a day, whatever the
    session; once the token has expired it answers unauthenticated, even
    when the passport session holds a user: [jwt.verify] throws and the
    [catch] answers before the session fallback is reached. *)
Theorem auth_user_token u t now sid w :
  users_wf (wdb w) -> db_up (wdb w) = true -> u ∈ users (wdb w) ->
  (u_id u < oid_bound)%N -> (0 <= t <= now)%Z ->
  ((now / 1000 < t / 1000 + 86400)%Z ->
   Async.run exec (auth_user (Some ("Bearer " +:+ jwt_sign (u_id u) t)) sid now) w = (authenticated u, w)) /\
  ((t / 1000 + 86400 <= now / 1000)%Z ->
   Async.run exec (auth_user (Some ("Bearer " +:+ jwt_sign (u_id u) t)) sid now) w = (unauthenticated, w)).
Proof.
  intros Hwf Hup Hu Hid Ht. split; intros Hnow; [by apply run_auth_user_bearer|].
  unfold auth_user. rewrite run_deserialize by done.
  cbv beta. rewrite bearer_sign. by rewrite jwt_verify_expired by lia.
Qed.

(** [POST /api/auth/register] answers 400 and changes nothing for
    an address whose user is verified; when the mail cannot be sent it
    answers 500 and neither stores nor changes a user, since the mail is
    sent before the [save]. *)
Theorem register_errors name e pw fresh now k w :
  db_up (wdb w) = true ->
  ((exists u, find_one (ByEmail e) (wdb w) = Some u /\ isVerified u = true) ->
   Async.run exec (register name e pw fresh now k) w =
     (msg 400 "User already exists and is verified.", w)) /\
  (smtp_up w = false -> (forall u, find_one (ByEmail e) (wdb w) = Some u -> isVerified u = false) ->
   Async.run exec (register name e pw fresh now k) w = (server_error smtp_message, w)).
Proof.
  intros Hup. cbn [register Async.run]. rewrite exec_find by done. split.
  - intros (u & -> & ->). done.
  - intros Hs Hnv. destruct (find_one _ _) as [u|] eqn:Hf.
    + rewrite (Hnv u eq_refl). by apply run_register_save_smtp_down.
    + by apply run_register_save_smtp_down.
Qed.

(** [POST /api/auth/verify-code] answers 400 and changes nothing
    when no user with the address has that code unexpired: a wrong code,
    or one whose ten minutes have passed. *)
Theorem verify_code_rejects e c now w :
  db_up (wdb w) = true ->
  (forall u, u ∈ users (wdb w) -> email u = e -> verificationCode u = Some c ->
   forall x, verificationCodeExpires u = Some x -> (x <= now)%Z) ->
  Async.run exec (verify_code e c now) w = (msg 400 "Invalid or expired verification code.", w).
Proof.
  intros Hup Hexp. cbn [verify_code Async.run]. rewrite exec_find by done.
  rewrite find_one_none; [done|]. intros v Hv. cbn.
  destruct (decide (email v = e)) as [He|]; [|by rewrite bool_decide_false].
  destruct (decide (verificationCode v = Some c)) as [Hc|];
    [|by rewrite (bool_decide_true (email v = e)), bool_decide_false].
  rewrite !bool_decide_true by done. cbn.
  destruct (verificationCodeExpires v) as [x|] eqn:Hx; [|done].
  apply bool_decide_false. pose proof (Hexp v Hv He Hc x Hx). lia.
Qed.

(** C25: the Google strategy links a Google login to the account that
    holds its e-mail and marks it verified, keeping the account's
    password.  So whoever registered the address first, without ever
    receiving its code, logs in with their own password once the owner
    has signed in with Google. *)
Theorem google_link_keeps_password name e pw fresh now k p fresh' t1 t2 w :
  users_wf (wdb w) -> db_up (wdb w) = true -> smtp_up w = true -> e <> "" ->
  find_one (ByEmail e) (wdb w) = None -> fresh ∉ map u_id (users (wdb w)) ->
  find_one (ByGoogleId (gp_id p)) (wdb w) = None -> gp_email p = e ->
  let '(_, w1) := Async.run exec (register name e pw fresh now k) w in
  let '(g, w2) := Async.run exec (google_verify p fresh' t1) w1 in
  (exists u, g = Ok u /\ u_id u = fresh /\ isVerified u = true) /\
  Async.run exec (login e pw t2) w2 =
    ({| status := 200; body := BLogin (jwt_sign fresh t2)
          {| lu_id := fresh; lu_displayName := name; lu_email := e; lu_photo := Some (gp_photo p) |} |},
     w2).
Proof.
  intros Hwf Hup Hs He Hn Hfresh Hg Hpe. set (ru := reg_user name e pw fresh now k).
  pose proof (check_reg_user name e pw fresh now k _ He Hn) as Hc.
  rewrite (run_register_new _ _ _ _ _ _ _ _ Hup Hs Hn (insert_user_ok ru _ Hfresh Hc)).
  set (db1 := Mongo.set_users (users (wdb w) ++ [ru]) (wdb w)).
  assert (Hwf1 : users_wf db1) by (by apply users_wf_insert).
  rewrite (run_google_link p ru); cbn [wdb set_wdb];
    [|done|done|cbn; set_solver|by rewrite Hpe|].
  2:{ by apply find_gid_insert. }
  split; [by eexists|].
  set (db2 := Mongo.set_users (Mongo.upsert u_id (link_google p ru) (users db1)) db1).
  assert (Hf2 : find_one (ByEmail e) db2 = Some (link_google p ru)).
  { apply find_one_unique; [| |by apply bool_decide_true|by intros v ?%bool_decide_eq_true].
    - apply users_wf_upsert; [done| |].
      + apply list_elem_of_fmap. exists ru. split; [done|]. cbn. set_solver.
      + apply check_link_google; [done|cbn; set_solver|].
        by apply find_gid_insert.
    - cbn. apply Mongo.elem_of_upsert. by left. }
  by rewrite (run_login_ok _ _ _ (link_google p ru) (bhash pw))
    by first [done | apply hash_nonempty | apply bcompare_hash].
Qed.

(** C18: whatever handlers run and however the event loop interleaves
    their awaits (with outside events that keep it, such as an outage),
    the required e-mail and the unique indexes keep the user collection
    well formed: no two users share an id, an e-mail or a Google id. *)
Theorem users_wf_interleaved {A} sched (ts ts' : list (Handler A)) w w' :
  Forall (fun st => forall f, st = Async.SEnv f -> forall x, users_wf (wdb x) -> users_wf (wdb (f x)))
    sched ->
  users_wf (wdb w) -> Async.pool_run exec sched (ts, w) = Some (ts', w') -> users_wf (wdb w').
Proof.
  intros Henv Hwf Hrun.
  apply (Async.pool_run_inv exec (fun x => users_wf (wdb x)) exec_users_wf sched ts ts' w w');
    done.
Qed.

(** C19: the verification code is [Math.floor(100000 + Math.random() *
    900000).toString()]: for every draw of [Math.random()] it has exactly
    six characters, which are the decimal digits of a number between
    100000 and 999999. *)
Theorem verification_code_length k :
  (k < 2 ^ 52)%N ->
  String.length (verification_code k) = 6%nat /\
  exists n, (100000 <= n <= 999999)%N /\ dec_val (verification_code k) 0 = Some n.
Proof.
  intros Hk. pose proof (verification_code_range k Hk) as Hr.
  split; [by apply js_N_to_string_6|]. eexists. split; [exact Hr|]. apply js_N_to_string_dec.
Qed.

End Handlers.

(** ** Sample instances

    A bcrypt whose hash is the password cut or padded to 53 characters
    behind the ["$2a$10$"] prefix, and a token that is the id on 24 and the
    issue second on as many hexadecimal digits as it needs.  They satisfy
    the laws, and let the examples below evaluate. *)

Fixpoint take_pad (n : nat) (s : string) : string :=
  match n with
  | O => ""
  | S n' =>
      match s with
      | String c s' => String c (take_pad n' s')
      | EmptyString => String "." (take_pad n' EmptyString)
      end
  end.

Definition sample_hash (p : string) : string := "$2a$10$" +:+ take_pad 53 p.

Definition sample_compare (p h : string) : bool :=
  bool_decide (String.length h = 60%nat) && bool_decide (h = sample_hash p).

Lemma length_take_pad n s : String.length (take_pad n s) = n.
Proof. revert s. induction n as [|n IH]; intros [|c s]; cbn; by rewrite ?IH. Qed.

Lemma sample_hash_length p : String.length (sample_hash p) = 60%nat.
Proof. unfold sample_hash. by rewrite string_length_app, length_take_pad. Qed.

#[local] Instance sample_bcrypt : Bcrypt.
Proof.
  refine {| bhash := sample_hash; bcompare := sample_compare; bhash_length := sample_hash_length |}.
  - intros p. unfold sample_compare. rewrite !bool_decide_true; auto using sample_hash_length.
  - intros p h Hh. unfold sample_compare. by rewrite bool_decide_false.
Defined.

(** The issue second [floor(t/1000)] and the number of hex digits it is
    written with. *)
Definition iat_of (t : Date) : N := Z.to_N (t / 1000).
Definition iat_digits (iat : N) : nat := S (N.to_nat (N.log2 iat)).

Definition sample_sign (id : ObjectId) (t : Date) : string :=
  hex_of 24 id (hex_of (iat_digits (iat_of t)) (iat_of t) "").

Definition sample_verify (tok : string) (now : Date) : option ObjectId :=
  let k := N.of_nat (String.length tok - 24) in
  v ← parse_hex tok 0;
  if bool_decide (now / 1000 < Z.of_N (v mod 16 ^ k) + 86400)%Z
  then Some (v / 16 ^ k)%N else None.

Lemma iat_digits_bound iat : (iat < 16 ^ N.of_nat (iat_digits iat))%N.
Proof.
  unfold iat_digits. rewrite Nat2N.inj_succ, N2Nat.id.
  destruct (N.eq_dec iat 0) as [->|Hnz]; [cbn; lia|].
  destruct (N.log2_spec iat) as [_ Hlt]; [lia|].
  eapply N.lt_le_trans; [exact Hlt|]. apply N.pow_le_mono_l. lia.
Qed.

Lemma parse_sample_sign id t :
  parse_hex (sample_sign id t) 0 =
    Some ((id mod 16 ^ 24) * 16 ^ N.of_nat (iat_digits (iat_of t)) + iat_of t)%N.
Proof.
  unfold sample_sign. rewrite parse_hex_of, parse_hex_of. cbn [parse_hex].
  by rewrite (N.mod_small (iat_of t)) by apply iat_digits_bound.
Qed.

Lemma length_sample_sign id t :
  (String.length (sample_sign id t) - 24)%nat = iat_digits (iat_of t).
Proof. unfold sample_sign. rewrite !length_hex_of. cbn [String.length]. lia. Qed.

Lemma has_space_hex_of k n acc :
  has_char " " acc = false -> has_char " " (hex_of k n acc) = false.
Proof.
  revert n acc. induction k as [|k IH]; intros n acc Hacc; [done|]. cbn [hex_of].
  apply IH. cbn [has_char]. destruct (ascii_dec " " (hex_char (n mod 16))) as [Hc|]; [|done].
  pose proof (hex_val_char (n mod 16) ltac:(apply N.mod_lt; lia)) as Hv.
  by rewrite <-Hc in Hv.
Qed.

(** Reading the token back: the id and the issue second. *)
Lemma sample_verify_eq id t now :
  (0 <= t)%Z ->
  sample_verify (sample_sign id t) now =
    if bool_decide (now / 1000 < t / 1000 + 86400)%Z then Some (id mod 16 ^ 24)%N else None.
Proof.
  intros Ht. unfold sample_verify. rewrite length_sample_sign, parse_sample_sign.
  cbn [mbind option_bind]. pose proof (iat_digits_bound (iat_of t)) as Hb.
  set (K := (16 ^ N.of_nat (iat_digits (iat_of t)))%N) in *.
  rewrite N.add_comm, N.Div0.mod_add, N.mod_small by done.
  rewrite N.add_comm, N.div_add_l, N.div_small by (done || lia). rewrite N.add_0_r.
  unfold iat_of. rewrite Z2N.id by (apply Z.div_pos; lia). done.
Qed.

Lemma sample_verify_sign id t now :
  (id < oid_bound)%N -> (0 <= t <= now)%Z -> (now / 1000 < t / 1000 + 86400)%Z ->
  sample_verify (sample_sign id t) now = Some id.
Proof.
  intros Hid Ht Hnow. rewrite sample_verify_eq by lia. rewrite bool_decide_true by done.
  rewrite N.mod_small; [done|]. exact Hid.
Qed.

Lemma sample_verify_expired id t now :
  (0 <= t)%Z -> (t / 1000 + 86400 <= now / 1000)%Z -> sample_verify (sample_sign id t) now = None.
Proof. intros Ht Hnow. rewrite sample_verify_eq by lia. by rewrite bool_decide_false by lia. Qed.

Lemma sample_sign_no_space id t : has_char " " (sample_sign id t) = false.
Proof. unfold sample_sign. by do 2 apply has_space_hex_of. Qed.

#[local] Instance sample_jwt : Jwt :=
  {| jwt_sign := sample_sign; jwt_verify := sample_verify;
     jwt_verify_sign := sample_verify_sign; jwt_verify_expired := sample_verify_expired;
     jwt_sign_no_space := sample_sign_no_space |}.

(** ** Examples *)

Definition sample_err (e : DbError) : string := "MongoServerError".
Definition sample_smtp : string := "Invalid login: 535 Authentication failed".

Definition sample_world : World := {| wdb := demo_db; mails := []; smtp_up := true |}.

(** Two tabs register the same new address at once. *)
Definition double_register : list (Handler Response) :=
  [register sample_err sample_smtp (Some "meera") "meera@campus.edu" "s3cret" 3%N 1000000%Z 42%N;
   register sample_err sample_smtp (Some "meera") "meera@campus.edu" "s3cret" 4%N 1000000%Z 77%N].

(** Each handler awaits the lookup, the hash, the mail and the save; the
    event loop alternates between them. *)
Definition register_race_sched : list (@Async.sched_step World) :=
  [Async.SResume 0; Async.SResume 1; Async.SResume 0; Async.SResume 1;
   Async.SResume 0; Async.SResume 1; Async.SResume 0; Async.SResume 1].

(** Unlike follow requests (C18), concurrent registrations of one
    address are caught by the unique index on [email]: both lookups find
    nothing and both codes are mailed, but the second [save] fails with
    a duplicate key and answers 400, and one user holds the address. *)
Theorem register_race_unique :
  match Async.pool_run exec register_race_sched (double_register, sample_world) with
  | Some (ts, w') =>
      ts = [Async.Ret (msg 201 "Code sent to your email. Please verify.");
            Async.Ret (msg 400 "User already exists")] /\
      length (mails w') = 2%nat /\
      length (List.filter (fun u => bool_decide (email u = "meera@campus.edu")) (users (wdb w'))) = 1%nat
  | None => False
  end.
Proof.
  destruct (Async.pool_run _ _ _) as [[ts w']|] eqn:E; vm_compute in E; [|discriminate].
  injection E as <- <-. split_and!; reflexivity.
Qed.

(** ** Witnesses *)

Lemma register_verify_login_witness :
  let '(r1, w1) := Async.run exec (register sample_err sample_smtp (Some "meera") "meera@campus.edu"
                                     "s3cret" 3%N 1000000%Z 42%N) sample_world in
  let '(r2, w2) := Async.run exec (verify_code "meera@campus.edu" (verification_code 42%N) 1000500%Z) w1 in
  let '(r3, w3) := Async.run exec (login "meera@campus.edu" "s3cret" 1001000%Z) w2 in
  r1 = msg 201 "Code sent to your email. Please verify." /\
  mails w1 = mails sample_world ++ [{| mail_to := "meera@campus.edu"; mail_code := verification_code 42%N |}] /\
  r2 = msg 200 "Email verified successfully! You can now login." /\
  r3 = {| status := 200; body := BLogin (jwt_sign 3%N 1001000%Z)
            {| lu_id := 3%N; lu_displayName := Some "meera"; lu_email := "meera@campus.edu";
               lu_photo := None |} |} /\
  users_wf (wdb w3).
Proof.
  apply (register_verify_login sample_err sample_smtp (Some "meera") "meera@campus.edu" "s3cret"
           3%N 1000000%Z 42%N 1000500%Z 1001000%Z sample_world);
    first [reflexivity | discriminate | lia
          | apply (bool_decide_eq_true_1 _); vm_compute; reflexivity].
Defined.

Lemma users_wf_interleaved_witness :
  match Async.pool_run exec register_race_sched (double_register, sample_world) with
  | Some (_, w') => users_wf (wdb w')
  | None => True
  end.
Proof.
  destruct (Async.pool_run _ _ _) as [[ts' w']|] eqn:E; [|exact I].
  apply (users_wf_interleaved register_race_sched double_register ts' sample_world w');
    [vm_compute; repeat constructor; discriminate
    | apply (bool_decide_eq_true_1 _); vm_compute; reflexivity | exact E].
Defined.

Lemma verification_code_length_witness :
  String.length (verification_code (2 ^ 52 - 1)%N) = 6%nat /\
  exists n, (100000 <= n <= 999999)%N /\ dec_val (verification_code (2 ^ 52 - 1)%N) 0 = Some n.
Proof. apply verification_code_length. vm_compute. reflexivity. Defined.

Lemma profile_exposes_code_witness :
  let w1 := (Async.run exec (register sample_err sample_smtp (Some "meera") "meera@campus.edu"
                               "s3cret" 3%N 1000000%Z 42%N) sample_world).2 in
  exists u, Async.run exec (get_profile (Some "meera@campus.edu")) w1 =
              ({| status := 200; body := BUser u |}, w1) /\
    verificationCode u = Some (verification_code 42%N) /\ password u = Some (bhash "s3cret") /\
    isVerified u = false.
Proof.
  apply (profile_exposes_code sample_err sample_smtp (Some "meera") "meera@campus.edu" "s3cret"
           3%N 1000000%Z 42%N sample_world);
    first [reflexivity | discriminate | apply (bool_decide_eq_true_1 _); vm_compute; reflexivity].
Defined.

Lemma put_profile_escalates_witness :
  exists u', Async.run exec (put_profile (Some "asha@campus.edu")
                              [(PRole, JStr "admin"); (PIsVerified, JBool true)]) sample_world =
    ({| status := 200; body := BProfile "Profile updated successfully" u' |},
     set_wdb (Mongo.set_users (Mongo.upsert u_id u' (users demo_db)) demo_db) sample_world) /\
    role u' = admin /\ isVerified u' = true /\ u_id u' = 1%N /\ password u' = None.
Proof.
  apply (put_profile_escalates (demo_user 1%N "asha") sample_world);
    first [reflexivity | apply (bool_decide_eq_true_1 _); vm_compute; reflexivity].
Defined.

Lemma put_password_locks_out_witness :
  let '(r, w1) := Async.run exec (put_profile (Some "asha@campus.edu") [(PPassword, JStr "hunter2")])
                    sample_world in
  status r = 200%Z /\ forall pw t, status (Async.run exec (login "asha@campus.edu" pw t) w1).1 <> 200%Z.
Proof.
  apply (put_password_locks_out (demo_user 1%N "asha") "hunter2" sample_world);
    first [reflexivity | discriminate | apply (bool_decide_eq_true_1 _); vm_compute; reflexivity].
Defined.

Lemma auth_user_token_witness :
  Async.run exec (auth_user (Some ("Bearer " +:+ jwt_sign 2%N 5000%Z)) (Some 1%N) 6000%Z) sample_world =
    (authenticated (demo_user 2%N "ravi"), sample_world) /\
  Async.run exec (auth_user (Some ("Bearer " +:+ jwt_sign 2%N 5000%Z)) (Some 1%N) 86405000%Z)
    sample_world = (unauthenticated, sample_world).
Proof.
  assert (Hwf : users_wf (wdb sample_world))
    by (apply (bool_decide_eq_true_1 _); vm_compute; reflexivity).
  assert (Hu : demo_user 2%N "ravi" ∈ users (wdb sample_world))
    by (apply (bool_decide_eq_true_1 _); vm_compute; reflexivity).
  destruct (auth_user_token (demo_user 2%N "ravi") 5000%Z 6000%Z (Some 1%N) sample_world Hwf
              eq_refl Hu ltac:(vm_compute; reflexivity) ltac:(lia)) as [H1 _].
  destruct (auth_user_token (demo_user 2%N "ravi") 5000%Z 86405000%Z (Some 1%N) sample_world Hwf
              eq_refl Hu ltac:(vm_compute; reflexivity) ltac:(lia)) as [_ H2].
  split; [apply H1 | apply H2]; vm_compute; congruence.
Defined.

Lemma register_errors_witness :
  Async.run exec (register sample_err sample_smtp None "asha@campus.edu" "pw" 5%N 0%Z 0%N) sample_world =
    (msg 400 "User already exists and is verified.", sample_world) /\
  Async.run exec (register sample_err sample_smtp None "new@campus.edu" "pw" 5%N 0%Z 0%N)
    {| wdb := demo_db; mails := []; smtp_up := false |} =
    (server_error sample_smtp, {| wdb := demo_db; mails := []; smtp_up := false |}).
Proof.
  split.
  - apply (register_errors sample_err sample_smtp None "asha@campus.edu" "pw" 5%N 0%Z 0%N sample_world);
      [reflexivity|]. exists (demo_user 1%N "asha"). split; reflexivity.
  - apply (register_errors sample_err sample_smtp None "new@campus.edu" "pw" 5%N 0%Z 0%N
             {| wdb := demo_db; mails := []; smtp_up := false |}); [reflexivity|reflexivity|].
    intros u Hu. discriminate.
Defined.

Lemma verify_code_rejects_witness :
  Async.run exec (verify_code "asha@campus.edu" "123456" 0%Z) sample_world =
    (msg 400 "Invalid or expired verification code.", sample_world).
Proof.
  apply verify_code_rejects; [reflexivity|].
  intros u Hu. apply list_elem_of_In in Hu. destruct Hu as [<-|[<-|[]]]; intros _ Hc; discriminate.
Defined.

Definition sample_google : GoogleProfile :=
  {| gp_id := "109876543210"; gp_displayName := Some "Meera"; gp_email := "meera@campus.edu";
     gp_photo := "https://lh3.googleusercontent.com/a/meera" |}.

Lemma google_link_keeps_password_witness :
  let '(_, w1) := Async.run exec (register sample_err sample_smtp (Some "mallory") "meera@campus.edu"
                                    "m4llory" 3%N 1000000%Z 42%N) sample_world in
  let '(g, w2) := Async.run exec (google_verify sample_google 4%N 2000000%Z) w1 in
  (exists u, g = Ok u /\ u_id u = 3%N /\ isVerified u = true) /\
  Async.run exec (login "meera@campus.edu" "m4llory" 3000000%Z) w2 =
    ({| status := 200; body := BLogin (jwt_sign 3%N 3000000%Z)
          {| lu_id := 3%N; lu_displayName := Some "mallory"; lu_email := "meera@campus.edu";
             lu_photo := Some (gp_photo sample_google) |} |}, w2).
Proof.
  apply (google_link_keeps_password sample_err sample_smtp (Some "mallory") "meera@campus.edu" "m4llory"
           3%N 1000000%Z 42%N sample_google 4%N 2000000%Z 3000000%Z sample_world);
    first [reflexivity | discriminate | apply (bool_decide_eq_true_1 _); vm_compute; reflexivity].
Defined.

End Auth.
