(* ===== verification/Maintenance.v ===== *)
(** * The maintenance scripts of [src/backend]

    [fix_indexes.js] replaces the [googleId_1] index of the [users]
    collection by a sparse unique index on [googleId], the index the
    schema declares ([server.js] line 37) and that [Auth.check_user]
    enforces.  A unique index that is not sparse keys every document
    without a Google id under [null], so a second account without one
    could not be stored.  [db_clear.js] deletes every user.
    [register_test.js] posts a fixed registration to the running
    server, modelled as [Auth.register] on the server's world, and
    [db_check.js] prints a line per user.  Each of these scripts exits
    with 1 when its database does not answer.  [email_test.js] verifies
    a nodemailer transport and mails the account itself; the network
    and the mail host are a record of what answers and what they
    accept, so that the test's transport can be compared with the
    server's.

    MongoDB's index semantics is the library's: a sparse index leaves
    out the documents that lack the field, and building a unique index
    over stored documents fails on a duplicate key. *)

From S2P Require Import Prelude JsString ObjectId Store Async Http Mongo Auth.
From coqutil Require Import Datatypes.RecordSetters.
Import DoubleBraceUpdate.

Open Scope stdpp_scope.

Module Maintenance.
Import ObjectId Store Async Http Auth.

(** ** Indexes on [googleId] *)

Record IndexSpec := {
  ix_unique : bool;
  ix_sparse : bool;
}.

(** [{ googleId: 1 }, { unique: true, sparse: true }] *)
Definition gid_sparse_unique : IndexSpec := {| ix_unique := true; ix_sparse := true |}.

(** The key of a document in an index on [googleId]: a sparse index
    leaves out a document without the field, any other index keys it
    under [null]. *)
Definition gid_key (ix : IndexSpec) (u : User) : option (option string) :=
  match googleId u with
  | Some g => Some (Some g)
  | None => if ix_sparse ix then None else Some None
  end.

(** Whether the document [u] collides with another document of [us] in
    a unique index. *)
Definition gid_violation (ix : IndexSpec) (u : User) (us : list User) : bool :=
  ix_unique ix &&
  match gid_key ix u with
  | Some k => existsb (fun v => bool_decide (u_id v <> u_id u) && bool_decide (gid_key ix v = Some k)) us
  | None => false
  end.

(** [collection.createIndex(...)] on the stored documents. *)
Definition create_index (ix : IndexSpec) (db : DB) : result DbError unit :=
  if existsb (fun u => gid_violation ix u (users db)) (users db)
  then Err (DuplicateKey "googleId_1") else Ok ().

(** The [users] collection: its documents and its indexes by name. *)
Record Coll := {
  c_db : DB;
  c_indexes : list (string * IndexSpec);
}.

(** [fixIndexes] once connected (lines 8-32): [googleId_1] is dropped
    when it exists, then the sparse unique index is created; the exit
    code and the collection left. *)
Definition fix_indexes (c : Coll) : Z * Coll :=
  let c1 := if existsb (fun ni => bool_decide (ni.1 = "googleId_1")) (c_indexes c)
            then {| c_db := c_db c;
                    c_indexes := List.filter (fun ni => negb (bool_decide (ni.1 = "googleId_1")))
                                   (c_indexes c) |}
            else c in
  match create_index gid_sparse_unique (c_db c1) with
  | Ok _ => (0%Z, {| c_db := c_db c1; c_indexes := c_indexes c1 ++ [("googleId_1", gid_sparse_unique)] |})
  | Err _ => (1%Z, c1)
  end.

(** [clearUsers] once connected (db_clear.js lines 13-16):
    [User.deleteMany({})], then exit with 0. *)
Definition clear_users (db : DB) : Z * DB := (0%Z, Mongo.set_users [] db).

(** [await mongoose.connect(process.env.MONGO_URI)] and the [catch] of
    [fixIndexes] and [clearUsers]: when the database does not answer
    the script exits with 1 and changes nothing. *)
Definition fix_indexes_main (c : Coll) : Z * Coll :=
  if db_up (c_db c) then fix_indexes c else (1%Z, c).

Definition clear_users_main (db : DB) : Z * DB :=
  if db_up db then clear_users db else (1%Z, db).

(** ** [email_test.js] and the server's mail transport *)

(** The options of a nodemailer SMTP transport. *)
Record Transport := {
  t_host : string;
  t_port : Z;
  t_secure : bool;
  t_user : string;
  t_pass : string;
}.

(** The server's transport (server.js lines 115-123). *)
Definition server_transport (user pass : string) : Transport :=
  {| t_host := "smtp.gmail.com"; t_port := 587; t_secure := false; t_user := user; t_pass := pass |}.

(** [createTransport({ service: 'gmail', auth })] (lines 4-10):
    nodemailer's well-known service [gmail] is [smtp.gmail.com] on
    port 465 with TLS from the start. *)
Definition gmail_transport (user pass : string) : Transport :=
  {| t_host := "smtp.gmail.com"; t_port := 465; t_secure := true; t_user := user; t_pass := pass |}.

(** The network the mail goes through: the host and port pairs that
    answer, and the credentials the mail host accepts. *)
Record MailNet := {
  reachable : string -> Z -> bool;
  accepts : string -> string -> bool;
}.

(** [transporter.verify] and [transporter.sendMail] succeed on a
    transport whose host answers on its port and accepts its
    credentials. *)
Definition transport_ok (net : MailNet) (t : Transport) : bool :=
  reachable net (t_host t) (t_port t) && accepts net (t_user t) (t_pass t).

(** What the server logs at start-up after its own
    [transporter.verify] (server.js lines 126-132). *)
Inductive VerifyLog := EmailServerReady | EmailConfigurationError.

Definition server_verify_log (net : MailNet) (user pass : string) : VerifyLog :=
  if transport_ok net (server_transport user pass) then EmailServerReady else EmailConfigurationError.

Record TestMail := {
  tm_from : string;
  tm_to : string;
  tm_subject : string;
  tm_text : string;
}.

(** [mailOptions] (lines 20-25): from the account to itself. *)
Definition test_mail (user : string) : TestMail :=
  {| tm_from := user; tm_to := user; tm_subject := "Test Email";
     tm_text := "If you see this, email is working!" |}.

(** The script (lines 12-39): [verify], then [sendMail] in its
    callback, each exiting with 1 on an error; the exit code and the
    mails sent. *)
Definition email_test (net : MailNet) (user pass : string) : Z * list TestMail :=
  let t := gmail_transport user pass in
  if transport_ok net t then
    if transport_ok net t then (0%Z, [test_mail user]) else (1%Z, [])
  else (1%Z, []).

(** ** The scripts that talk to the server or print the store *)

Section Scripts.
Context `{!Bcrypt, !Jwt}.
Variable err_message : DbError -> string.
Variable smtp_message : string.
(** [Date.prototype.toString], which depends on the machine's time zone. *)
Variable date_string : Date -> string.

(** The body [register_test.js] posts (lines 4-8). *)
Definition test_name : string := "Test User".
Definition test_email : string := "karthikeyanspro+2@gmail.com".
Definition test_password : string := "Password123!".

(** [testRegister] (lines 3-39): [POST /api/auth/register] with that
    body on the server's world, or the request's [error] when nothing
    listens on port 5000.  The exit code, and the status the script
    prints with the world the request leaves. *)
Definition register_test (fresh : ObjectId) (now : Date) (k : N) (w : option World)
    : Z * option (Z * World) :=
  match w with
  | None => (1%Z, None)
  | Some w =>
      let '(r, w') := Async.run exec (register err_message smtp_message (Some test_name) test_email
                                        test_password fresh now k) w in
      (0%Z, Some (status r, w'))
  end.

(** A double quote. *)
Definition dq : string := String "034"%char EmptyString.

(** The line [db_check.js] prints for a document (line 62); its own
    schema reads [isVerified], [email], [displayName] and
    [createdAt], which every document the server writes holds. *)
Definition check_line (u : User) : string :=
  "- [" +:+ (if isVerified u then "VERIFIED" else "PENDING") +:+ "] Email: " +:+ dq +:+ email u +:+
  dq +:+ ", Name: " +:+ dq +:+ default "undefined" (displayName u) +:+ dq +:+ ", Joined: " +:+
  date_string (u_createdAt u).

(** [checkUsers] (lines 4-28) once connected: what it prints and its
    exit code. *)
Definition db_check (db : DB) : Z * list string :=
  (0%Z, ["Connected to MongoDB"; "Total users: " +:+ js_N_to_string (N.of_nat (length (users db)))] ++
        map check_line (users db)).

(** [checkUsers] with its connection: nothing printed on standard
    output and exit code 1 when the database does not answer. *)
Definition db_check_main (db : DB) : Z * list string :=
  if db_up db then db_check db else (1%Z, []).

End Scripts.

(** ** Lemmas *)

Lemma gid_key_sparse v g : gid_key gid_sparse_unique v = Some (Some g) <-> googleId v = Some g.
Proof. unfold gid_key. destruct (googleId v); cbn; split; congruence. Qed.

(** The sparse unique index rejects exactly the clash of [check_user]. *)
Lemma gid_violation_sparse u us :
  gid_violation gid_sparse_unique u us =
    bool_decide (Exists (fun v => u_id v <> u_id u /\ googleId u <> None /\ googleId v = googleId u) us).
Proof.
  unfold gid_violation. change (ix_unique gid_sparse_unique) with true. cbn [andb].
  destruct (googleId u) as [g|] eqn:Hg.
  - replace (gid_key gid_sparse_unique u) with (Some (Some g)) by (by unfold gid_key; rewrite Hg).
    apply Bool.eq_iff_eq_true. rewrite bool_decide_eq_true, existsb_exists, Exists_exists.
    split.
    + intros (v & Hv & Hf). apply andb_prop in Hf as [H1 H2].
      apply bool_decide_eq_true in H1, H2. apply gid_key_sparse in H2.
      exists v. split; [by apply list_elem_of_In|]. split_and!; congruence.
    + intros (v & Hv & H1 & _ & H2). exists v. split; [by apply list_elem_of_In|].
      apply andb_true_intro. split; apply bool_decide_eq_true; [done|]. apply gid_key_sparse. congruence.
  - unfold gid_key. rewrite Hg. cbn. symmetry. apply bool_decide_eq_false.
    by intros (v & _ & _ & Hn & _)%Exists_exists.
Qed.

(** No document of a store the server keeps clashes in the sparse index. *)
Lemma wf_no_violation db u :
  users_wf db -> u ∈ users db -> gid_violation gid_sparse_unique u (users db) = false.
Proof.
  intros Hwf Hu. rewrite gid_violation_sparse. apply bool_decide_eq_false.
  intros (v & Hv & Hid & Hn & Hg)%Exists_exists. apply Hid. f_equal.
  apply (wf_gid _ Hwf); [done|done|done|congruence].
Qed.

Lemma filter_keep_all {A} (p : A -> bool) (l : list A) :
  existsb p l = false -> List.filter (fun x => negb (p x)) l = l.
Proof.
  induction l as [|x l IH]; cbn; [done|]. intros [-> Hl]%orb_false_elim. cbn. by rewrite IH.
Qed.

Lemma filter_twice {A} (p : A -> bool) (l : list A) :
  List.filter p (List.filter p l) = List.filter p l.
Proof. induction l as [|x l IH]; cbn; [done|]. destruct (p x) eqn:E; cbn; [rewrite E|]; by rewrite IH. Qed.

(** Whatever the indexes, the script leaves the others and the
    documents alone and ends with the new [googleId_1] exactly when
    building it succeeds. *)
Lemma fix_indexes_cases c :
  let others := List.filter (fun ni => negb (bool_decide (ni.1 = "googleId_1"))) (c_indexes c) in
  fix_indexes c =
    match create_index gid_sparse_unique (c_db c) with
    | Ok _ => (0%Z, {| c_db := c_db c; c_indexes := others ++ [("googleId_1", gid_sparse_unique)] |})
    | Err _ => (1%Z, {| c_db := c_db c; c_indexes := others |})
    end.
Proof.
  unfold fix_indexes. destruct (existsb _ (c_indexes c)) eqn:E; [done|].
  rewrite (filter_keep_all _ _ E). by destruct c.
Qed.

(** ** Properties *)

(** The [googleId] clause of [Auth.check_user], with which every
    insert and update of a user is checked, is the sparse unique index
    that [fix_indexes.js] creates and the schema declares: once the
    e-mail passes, a document is refused exactly when that index
    rejects it. *)
Theorem check_user_sparse_index u db :
  email u <> "" -> ¬ Exists (fun v => u_id v <> u_id u /\ email v = email u) (users db) ->
  check_user u db =
    if gid_violation gid_sparse_unique u (users db) then Err (DuplicateKey "googleId_1") else Ok ().
Proof.
  intros He Hd. unfold check_user. rewrite !bool_decide_false by done.
  rewrite gid_violation_sparse. by case_bool_decide.
Qed.

(** A unique index on [googleId] that is not sparse, the one the script
    replaces, keys every account without a Google id under [null]: a
    second such account clashes with the first. *)
Theorem non_sparse_null_clash ix u v us :
  ix_unique ix = true -> ix_sparse ix = false -> googleId u = None -> googleId v = None ->
  u_id v <> u_id u -> v ∈ us -> gid_violation ix u us = true.
Proof.
  intros Hu Hs Hgu Hgv Hid Hv. unfold gid_violation. rewrite Hu.
  replace (gid_key ix u) with (Some (None : option string)) by (unfold gid_key; by rewrite Hgu, Hs).
  apply existsb_exists. exists v. split; [by apply list_elem_of_In|].
  unfold gid_key. rewrite Hgv, Hs. by rewrite !bool_decide_true.
Qed.

(** On any store the server keeps, the script succeeds: it exits with 0
    and leaves the documents and the other indexes, with [googleId_1]
    the sparse unique index. *)
Theorem fix_indexes_server_store c :
  users_wf (c_db c) ->
  fix_indexes c =
    (0%Z, {| c_db := c_db c;
             c_indexes := List.filter (fun ni => negb (bool_decide (ni.1 = "googleId_1"))) (c_indexes c) ++
                          [("googleId_1", gid_sparse_unique)] |}).
Proof.
  intros Hwf. rewrite fix_indexes_cases. unfold create_index.
  replace (existsb _ (users (c_db c))) with false; [done|]. symmetry.
  apply not_true_is_false. intros (u & Hu & Hv)%existsb_exists.
  rewrite wf_no_violation in Hv; [done|done|by apply list_elem_of_In].
Qed.

(** C37: The script drops the old index before it builds the new one: when
    two documents share a Google id, the build fails, the script exits
    with 1 and leaves the collection with no [googleId_1] index at all,
    so nothing stops further duplicates. *)
Theorem fix_indexes_drops_first c u v :
  u ∈ users (c_db c) -> v ∈ users (c_db c) -> u_id u <> u_id v ->
  googleId u = googleId v -> googleId u <> None ->
  (fix_indexes c).1 = 1%Z /\ c_db (fix_indexes c).2 = c_db c /\
  forall ix, ("googleId_1", ix) ∉ c_indexes (fix_indexes c).2.
Proof.
  intros Hu Hv Hid Hg Hn. rewrite fix_indexes_cases. unfold create_index.
  replace (existsb _ (users (c_db c))) with true.
  - cbn. split_and!; [done|done|]. intros ix Hin.
    apply list_elem_of_In, filter_In in Hin as [_ Hf]. cbn in Hf.
    by rewrite bool_decide_true in Hf.
  - symmetry. apply existsb_exists. exists u. split; [by apply list_elem_of_In|].
    rewrite gid_violation_sparse. apply bool_decide_eq_true, Exists_exists.
    exists v. split; [done|]. split_and!; congruence.
Qed.

(** Running the script again after it succeeded changes nothing: the
    second run drops the index the first one built and builds it
    again. *)
Theorem fix_indexes_idempotent c :
  users_wf (c_db c) -> fix_indexes (fix_indexes c).2 = (0%Z, (fix_indexes c).2).
Proof.
  intros Hwf. rewrite (fix_indexes_server_store c Hwf). cbn [snd].
  rewrite fix_indexes_server_store by done. cbn [c_db c_indexes]. do 2 f_equal.
  rewrite List.filter_app. cbn. rewrite app_nil_r. f_equal. apply filter_twice.
Qed.

(** [db_clear.js] followed by [fix_indexes.js]: with no users left,
    the sparse unique index is built, whatever the store held before. *)
Theorem clear_then_fix db ixs :
  fix_indexes {| c_db := (clear_users db).2; c_indexes := ixs |} =
    (0%Z, {| c_db := (clear_users db).2;
             c_indexes := List.filter (fun ni => negb (bool_decide (ni.1 = "googleId_1"))) ixs ++
                          [("googleId_1", gid_sparse_unique)] |}).
Proof. by rewrite fix_indexes_cases. Qed.

Section ScriptFacts.
Context `{!Bcrypt, !Jwt}.
Variable err_message : DbError -> string.
Variable smtp_message : string.
Variable date_string : Date -> string.

(** [register_test.js] exits with 0 whatever the server answers: when
    the test address is already verified (400), or the mail server is
    down (500), the script prints the status and still succeeds, and
    the request leaves the world as it was. *)
Theorem register_test_refused_exits_zero fresh now k w :
  db_up (wdb w) = true ->
  (exists u, find_one (ByEmail test_email) (wdb w) = Some u /\ isVerified u = true) \/
  (smtp_up w = false /\
   forall u, find_one (ByEmail test_email) (wdb w) = Some u -> isVerified u = false) ->
  exists st, register_test err_message smtp_message fresh now k (Some w) = (0%Z, Some (st, w)) /\
             (st = 400 \/ st = 500)%Z.
Proof.
  intros Hup Hcase. unfold register_test.
  destruct (register_errors err_message smtp_message (Some test_name) test_email test_password
              fresh now k w Hup) as [H400 H500].
  destruct Hcase as [Hv|[Hs Hnv]]; [rewrite (H400 Hv); exists 400%Z|rewrite (H500 Hs Hnv); exists 500%Z];
    split; auto.
Qed.

(** [register_test.js] then [db_check.js]: on a store without the test
    address the request answers 201 and mails the code, and the check
    then counts one user more and prints, last, the new pending account
    with the test name and the time of the request. *)
Theorem register_test_then_check fresh now k w :
  users_wf (wdb w) -> db_up (wdb w) = true -> smtp_up w = true ->
  find_one (ByEmail test_email) (wdb w) = None -> fresh ∉ map u_id (users (wdb w)) ->
  exists w',
    register_test err_message smtp_message fresh now k (Some w) = (0%Z, Some (201%Z, w')) /\
    mails w' = mails w ++ [{| mail_to := test_email; mail_code := verification_code k |}] /\
    db_check date_string (wdb w') =
      (0%Z, ["Connected to MongoDB";
             "Total users: " +:+ js_N_to_string (N.of_nat (S (length (users (wdb w)))))] ++
            map (check_line date_string) (users (wdb w)) ++
            ["- [PENDING] Email: " +:+ dq +:+ test_email +:+ dq +:+ ", Name: " +:+ dq +:+ test_name +:+
             dq +:+ ", Joined: " +:+ date_string now]).
Proof.
  intros Hwf Hup Hs Hn Hid. unfold register_test.
  rewrite (run_register_new err_message smtp_message _ _ _ _ _ _ w
             (Mongo.set_users (users (wdb w) ++ [reg_user (Some test_name) test_email test_password fresh now k]) (wdb w)));
    [|done|done|done|apply insert_user_ok; [done|by apply check_reg_user]].
  eexists. split_and!; [reflexivity|reflexivity|]. unfold db_check. cbn [wdb set_wdb add_mail Mongo.set_users users].
  rewrite length_app, map_app. cbn [length map]. rewrite Nat.add_1_r. reflexivity.
Qed.

(** When the database does not answer, [fix_indexes.js],
    [db_clear.js] and [db_check.js] exit with 1 and change nothing. *)
Theorem scripts_db_down c db :
  db_up (c_db c) = false -> db_up db = false ->
  fix_indexes_main c = (1%Z, c) /\ clear_users_main db = (1%Z, db) /\
  db_check_main date_string db = (1%Z, []).
Proof. intros Hc Hdb. unfold fix_indexes_main, clear_users_main, db_check_main. by rewrite Hc, Hdb. Qed.

(** [email_test.js] exits with 0, having mailed the account itself,
    exactly when the [gmail] service's transport works.  It does not
    test the server's transport, which uses port 587 with STARTTLS:
    on a network where 465 answers and 587 does not, the test passes
    while the server logs a configuration error at start-up and every
    registration of a new address answers 500, its code never
    mailed.  When both ports answer alike, the test's outcome is
    the server transport's. *)
Theorem email_test_transport net user pass :
  email_test net user pass =
    (if transport_ok net (gmail_transport user pass) then (0%Z, [test_mail user]) else (1%Z, [])) /\
  (reachable net "smtp.gmail.com" 465 = reachable net "smtp.gmail.com" 587 ->
   transport_ok net (gmail_transport user pass) = transport_ok net (server_transport user pass)).
Proof.
  split.
  - unfold email_test. by destruct (transport_ok net _).
  - intros Hp. unfold transport_ok. cbn [gmail_transport server_transport t_host t_port t_user t_pass].
    by rewrite Hp.
Qed.

(** The network where 465 answers and 587 does not, the server's mail
    status being its transport's on that network. *)
Theorem email_test_passes_register_fails net user pass fresh now k w :
  reachable net "smtp.gmail.com" 465 = true -> reachable net "smtp.gmail.com" 587 = false ->
  accepts net user pass = true ->
  smtp_up w = transport_ok net (server_transport user pass) -> db_up (wdb w) = true ->
  (forall u, find_one (ByEmail test_email) (wdb w) = Some u -> isVerified u = false) ->
  email_test net user pass = (0%Z, [test_mail user]) /\
  server_verify_log net user pass = EmailConfigurationError /\
  register_test err_message smtp_message fresh now k (Some w) = (0%Z, Some (500%Z, w)).
Proof.
  intros H465 H587 Hacc Hs Hup Hnv. split_and!.
  - unfold email_test, transport_ok. cbn [gmail_transport t_host t_port t_user t_pass].
    by rewrite H465, Hacc.
  - unfold server_verify_log, transport_ok. cbn [server_transport t_host t_port]. by rewrite H587.
  - unfold register_test. rewrite (proj2 (register_errors err_message smtp_message (Some test_name) test_email
      test_password fresh now k w Hup)); [reflexivity| |exact Hnv].
    rewrite Hs. unfold transport_ok. cbn [server_transport t_host t_port]. by rewrite H587.
Qed.

End ScriptFacts.

(** ** Examples *)

Definition asha_g : User := (demo_user 1%N "asha"){{googleId := Some "g-77"}}.
Definition ravi_g : User := (demo_user 2%N "ravi"){{googleId := Some "g-77"}}.
Definition linked_twice : DB := Mongo.set_users [asha_g; ravi_g] demo_db.

Example fix_indexes_drops_first_witness :
  (fix_indexes {| c_db := linked_twice; c_indexes := [("_id_", gid_sparse_unique); ("googleId_1", {| ix_unique := true; ix_sparse := false |})] |}).1 = 1%Z /\
  forall ix, ("googleId_1", ix) ∉ c_indexes (fix_indexes {| c_db := linked_twice; c_indexes := [("_id_", gid_sparse_unique); ("googleId_1", {| ix_unique := true; ix_sparse := false |})] |}).2.
Proof.
  pose proof (fix_indexes_drops_first
    {| c_db := linked_twice; c_indexes := [("_id_", gid_sparse_unique); ("googleId_1", {| ix_unique := true; ix_sparse := false |})] |}
    asha_g ravi_g) as H.
  destruct H as (H1 & _ & H2); [left|right; left|done|done|done|]. split; [exact H1|exact H2].
Defined.

(** A network on which only port 465 answers: the test passes, the
    server's transport fails. *)
Example email_test_465_only :
  let net := {| reachable := fun _ p => bool_decide (p = 465%Z); accepts := fun _ _ => true |} in
  email_test net "campus@gmail.com" "app-password" = (0%Z, [test_mail "campus@gmail.com"]) /\
  transport_ok net (server_transport "campus@gmail.com" "app-password") = false.
Proof. split; reflexivity. Qed.

Example non_sparse_null_clash_witness :
  gid_violation {| ix_unique := true; ix_sparse := false |} (demo_user 1%N "asha") (users demo_db) = true.
Proof.
  apply (non_sparse_null_clash _ _ (demo_user 2%N "ravi")); [done|done|done|done|done|right; left].
Defined.

End Maintenance.
