(* ===== verification/ChatClient.v ===== *)
(** * The chat page of the client ([src/frontend/src/pages/Chat.tsx])

    The component keeps its state in [useState] hooks (lines 16-22) and
    changes it in event handlers; the effect on [[room, user]] (lines
    70-113) registers the socket listeners with the room of its closure,
    emits [join_room] when the socket is connected and starts
    [fetchHistory(room)].  The model is a state machine: [ClientState] has
    a field per hook, plus what the browser holds outside React: whether
    the socket is connected, the room the registered listeners captured,
    whether the effect still has to run after a change of [room] or
    [user] (React runs effects after the render, so socket events can
    arrive in between), the socket events emitted, the HTTP requests in
    flight (their responses come back in any order) and the toasts shown.
    [step] applies one [ClientEvent]; [render] computes what the JSX of
    lines 154-303 displays. *)

From S2P Require Import Prelude JsString ObjectId Store RoomId.
From coqutil Require Import Datatypes.RecordSetters.
Import DoubleBraceUpdate.

Open Scope stdpp_scope.

Module ChatClient.
Import ObjectId Store RoomId.

(** ** JSON the client receives *)

(** A message as [res.json] and [io.emit] serialize a populated message:
    ObjectIds as hexadecimal strings, the sender populated with
    [displayName] or [null]. *)
Record SenderJson := {
  sj_id : option string;
  sj_displayName : option string;
}.

Record MsgJson := {
  mj_id : option string;
  mj_room : option string;
  mj_sender : option SenderJson;
  mj_content : option string;
  mj_timestamp : Date;
}.

Definition sender_json (si : SenderInfo) : SenderJson :=
  {| sj_id := Some (to_hex (si_id si)); sj_displayName := si_displayName si |}.

Definition msg_json (m : PopMessage) : MsgJson :=
  {| mj_id := Some (to_hex (pm_id m)); mj_room := pm_room m;
     mj_sender := sender_json <$> pm_sender m; mj_content := pm_content m;
     mj_timestamp := pm_timestamp m |}.

(** A friend of [/api/users/friends/:userId] and an incoming request of
    [/api/follow/requests/:userId], as far as the page reads them. *)
Record FriendJson := {
  fj_id : string;
  fj_displayName : option string;
}.

Record RequestJson := {
  rj_id : string;
  rj_senderName : option string;
}.

(** ** State *)

Inductive ChatType := channel | p2p.

#[export] Instance ChatType_eq_dec : EqDecision ChatType.
Proof. solve_decision. Defined.

(** The payload of [socket.emit('send_message', ...)] (lines 143-147). *)
Record SendJson := {
  sd_room : string;
  sd_sender : option string;
  sd_content : string;
}.

Inductive Emit :=
| EJoin (room : string)
| ESend (p : SendJson)
| EReconnect.

Inductive Fetch :=
| FHistory (room : string)
| FFriends (uid : option string)
| FRequests (uid : option string)
| FAccept (requestId : string).

Record ClientState := {
  messages : list MsgJson;
  input : string;
  room : string;
  user : option ClientUser;
  friends : list FriendJson;
  requests : list RequestJson;
  chatType : ChatType;
  connected : bool;
  listener : option string;
  effect_pending : bool;
  emitted : list Emit;
  fetches : list Fetch;
  toasts : list string;
}.

(** The first render (lines 16-22): socket created with [autoConnect]. *)
Definition init : ClientState :=
  {| messages := []; input := ""; room := "General"; user := None; friends := [];
     requests := []; chatType := channel; connected := false; listener := None;
     effect_pending := true; emitted := []; fetches := []; toasts := [] |}.

(** ** Events *)

(** The response to a [fetchHistory]: the parsed JSON array, or a
    failure the [catch] of line 52 logs. *)
Inductive HistoryResult := HistoryOk (l : list MsgJson) | HistoryFailed.

Inductive ClientEvent :=
(** the first effect (lines 25-33) with what [localStorage] holds *)
| Mount (stored : option ClientUser)
(** the effect on [[room, user]] runs after a render *)
| RunEffect
| SocketConnect
| SocketDisconnect
| SocketConnectError
| Receive (m : MsgJson)
(** the response to the [i]-th request in flight *)
| HistoryArrives (i : nat) (r : HistoryResult)
| FriendsArrive (i : nat) (l : list FriendJson)
| RequestsArrive (i : nat) (l : list RequestJson)
| AcceptArrives (i : nat) (ok : bool)
| ClickChannel (r : string)
| ClickFriend (f : FriendJson)
| TypeInput (v : string)
| Submit
| ClickAccept (requestId : string).

(** [setRoom(r)]: React re-renders, and the effect is due again, only
    when the value changes. *)
Definition set_room (r : string) (s : ClientState) : ClientState :=
  if bool_decide (r = room s) then s else s{{room := r; effect_pending := true}}.

Definition emit (e : Emit) (s : ClientState) : ClientState := s{{emitted := emitted s ++ [e] }}.
Definition start (f : Fetch) (s : ClientState) : ClientState := s{{fetches := fetches s ++ [f] }}.
Definition toast (t : string) (s : ClientState) : ClientState := s{{toasts := toasts s ++ [t] }}.

(** Lines 70-113: the previous listeners are removed; with a user, the
    new ones capture the current room, [join_room] is emitted if the
    socket is connected, and the history is requested. *)
Definition run_effect (s : ClientState) : ClientState :=
  let s0 := s{{effect_pending := false}} in
  match user s with
  | None => s0{{listener := None}}
  | Some _ =>
      let s1 := s0{{listener := Some (room s)}} in
      let s2 := if connected s then emit (EJoin (room s)) s1 else s1 in
      start (FHistory (room s)) s2
  end.

(** Lines 25-33: the user stored at login, and its friends and requests. *)
Definition on_mount (stored : option ClientUser) (s : ClientState) : ClientState :=
  match stored with
  | None => s
  | Some u =>
      let s1 := s{{user := Some u; effect_pending := true}} in
      start (FRequests (user_id u)) (start (FFriends (user_id u)) s1)
  end.

(** [onReceiveMessage] (lines 89-94), with the room of its closure. *)
Definition on_receive (m : MsgJson) (s : ClientState) : ClientState :=
  match listener s with
  | Some r => if bool_decide (mj_room m = Some r) then s{{messages := messages s ++ [m] }} else s
  | None => s
  end.

(** [handleSendMessage] (lines 127-150). *)
Definition on_submit (s : ClientState) : ClientState :=
  if bool_decide (js_trim (input s) = "") then s
  else match user s with
       | None => toast "You must be logged in to send messages" s
       | Some u =>
           if connected s then
             (emit (ESend {| sd_room := room s; sd_sender := user_id u; sd_content := input s |}) s)
               {{input := ""}}
           else toast "Connection lost. Reconnecting..." (emit EReconnect s)
       end.

(** The response to the [i]-th request, when it is of the expected kind. *)
Definition take_fetch (i : nat) (s : ClientState) : option (Fetch * ClientState) :=
  f ← fetches s !! i; Some (f, s{{fetches := delete i (fetches s)}}).

Definition step (s : ClientState) (ev : ClientEvent) : option ClientState :=
  match ev with
  | Mount stored => Some (on_mount stored s)
  | RunEffect => if effect_pending s then Some (run_effect s) else None
  | SocketConnect =>
      let s1 := s{{connected := true}} in
      Some (match listener s with Some r => emit (EJoin r) s1 | None => s1 end)
  | SocketDisconnect => Some s{{connected := false}}
  | SocketConnectError =>
      Some (match listener s with
            | Some _ => toast "Real-time connection failed. Retrying..." s
            | None => s
            end)
  | Receive m => Some (on_receive m s)
  | HistoryArrives i r =>
      match take_fetch i s with
      | Some (FHistory _, s1) =>
          Some (match r with HistoryOk l => s1{{messages := l}} | HistoryFailed => s1 end)
      | _ => None
      end
  | FriendsArrive i l =>
      match take_fetch i s with Some (FFriends _, s1) => Some s1{{friends := l}} | _ => None end
  | RequestsArrive i l =>
      match take_fetch i s with Some (FRequests _, s1) => Some s1{{requests := l}} | _ => None end
  | AcceptArrives i ok =>
      match take_fetch i s with
      | Some (FAccept _, s1) =>
          if ok then
            let uid := user s ≫= user_id in
            Some (start (FFriends uid) (start (FRequests uid) (toast "Request accepted!" s1)))
          else Some s1
      | _ => None
      end
  | ClickChannel r => Some (set_room r s){{chatType := channel}}
  | ClickFriend f =>
      match user s with
      | Some u => Some (set_room (selectP2P u (Some (fj_id f))) s){{chatType := p2p}}
      | None => None
      end
  | TypeInput v => Some s{{input := v}}
  | Submit => Some (on_submit s)
  | ClickAccept id => Some (start (FAccept id) s)
  end.

Fixpoint run (s : ClientState) (evs : list ClientEvent) : option ClientState :=
  match evs with
  | [] => Some s
  | ev :: evs' => s' ← step s ev; run s' evs'
  end.

(** ** What the page displays *)

(** [String.prototype.includes]. *)
Definition js_includes (s sub : string) : bool :=
  if String.index 0 sub s then true else false.

(** JavaScript [a || d] on a string that may be [undefined]. *)
Definition or_default (a : option string) (d : string) : string :=
  match a with Some (String _ _ as x) => x | _ => d end.

(** A message bubble (lines 247-274): on the right when the sender is
    the user ([msg.sender?._id === (user?.id || user?._id)], where two
    [undefined] are equal), the sender's name or ["User"], the text. *)
Record Bubble := {
  b_mine : bool;
  b_name : string;
  b_content : option string;
}.

Record View := {
  (** the channel buttons and whether each is highlighted (lines 167-177) *)
  v_channels : list (string * bool);
  (** the friend buttons, or the invitation to follow someone (lines 186-200) *)
  v_friends : option (list (option string * bool));
  (** the names on the follow-request cards, shown when there are any (lines 205-222) *)
  v_requests : list (option string);
  (** the header (lines 231-236) *)
  v_title : string;
  v_subtitle : string;
  v_bubbles : list Bubble;
  (** the input's placeholder (line 289) *)
  v_placeholder : string;
}.

Definition my_id (s : ClientState) : option string := user s ≫= user_id.

Definition bubble (s : ClientState) (m : MsgJson) : Bubble :=
  {| b_mine := bool_decide (mj_sender m ≫= sj_id = my_id s);
     b_name := or_default (mj_sender m ≫= sj_displayName) "User";
     b_content := mj_content m |}.

Definition title (s : ClientState) : string :=
  match chatType s with
  | channel => room s
  | p2p =>
      match List.find (fun f => js_includes (room s) (fj_id f)) (friends s) with
      | Some f => or_default (fj_displayName f) "Private Chat"
      | None => "Private Chat"
      end
  end.

Definition render (s : ClientState) : View :=
  {| v_channels := map (fun r => (r, bool_decide (room s = r /\ chatType s = channel))) rooms;
     v_friends :=
       match friends s with
       | [] => None
       | fs => Some (map (fun f => (fj_displayName f,
                                    js_includes (room s) (fj_id f) && bool_decide (chatType s = p2p))) fs)
       end;
     v_requests := map rj_senderName (requests s);
     v_title := title s;
     v_subtitle := match chatType s with
                   | channel => "Real-time collaboration"
                   | p2p => "Personal Conversation"
                   end;
     v_bubbles := map (bubble s) (messages s);
     v_placeholder := "Message #" +:+ room s |}.

(** ** Reachable states *)

Definition reachable (s : ClientState) : Prop := exists evs, run init evs = Some s.

Section Invariant.
Variable P : ClientState -> Prop.
Hypothesis P_step : forall s ev s', P s -> step s ev = Some s' -> P s'.

Lemma client_run_preserves s evs s' : P s -> run s evs = Some s' -> P s'.
Proof.
  revert s. induction evs as [|ev evs IH]; intros s Hs Hrun; cbn in Hrun; [by simplify_eq|].
  destruct (step s ev) as [s1|] eqn:Hst; [|done]. apply (IH s1); [|done].
  by apply (P_step s ev).
Qed.

Lemma client_reachable_inv s : P init -> reachable s -> P s.
Proof. intros Hinit [evs Hrun]. by apply (client_run_preserves init evs). Qed.
End Invariant.

(** ** Lemmas *)

(** The fields a transition leaves alone, as equations the proofs
    rewrite with. *)
Lemma set_room_user r s : user (set_room r s) = user s.
Proof. unfold set_room. by case_bool_decide. Qed.

Lemma set_room_listener r s : listener (set_room r s) = listener s.
Proof. unfold set_room. by case_bool_decide. Qed.

Lemma set_room_emitted r s : emitted (set_room r s) = emitted s.
Proof. unfold set_room. by case_bool_decide. Qed.

(** Whether the effect is due, or the listeners already follow the
    room. *)
Lemma set_room_tracks r s :
  (effect_pending s = false -> listener s = (user s ≫= fun _ => Some (room s))) ->
  effect_pending (set_room r s) = false ->
  listener (set_room r s) = (user (set_room r s) ≫= fun _ => Some (room (set_room r s))).
Proof. unfold set_room. case_bool_decide; [done|]. done. Qed.

Lemma take_fetch_fields i s f s1 :
  take_fetch i s = Some (f, s1) ->
  user s1 = user s /\ room s1 = room s /\ listener s1 = listener s /\
  effect_pending s1 = effect_pending s /\ emitted s1 = emitted s.
Proof.
  unfold take_fetch. destruct (fetches s !! i); cbn; [|done]. by intros [= <- <-].
Qed.

(** The registered listeners capture the current room once the effect
    has run. *)
Definition tracks (s : ClientState) : Prop :=
  effect_pending s = false -> listener s = (user s ≫= fun _ => Some (room s)).

(** A transition that leaves the user, the room, the listeners and the
    pending effect alone keeps them in step. *)
Definition same_track (s s' : ClientState) : Prop :=
  user s' = user s /\ room s' = room s /\ listener s' = listener s /\
  effect_pending s' = effect_pending s.

Lemma tracks_same s s' : tracks s -> same_track s s' -> tracks s'.
Proof. unfold tracks. intros Ht (-> & -> & -> & ->). done. Qed.

Ltac same_track := unfold same_track; split_and!; reflexivity.

Lemma on_receive_same m s : same_track s (on_receive m s).
Proof. unfold on_receive. destruct (listener s); [case_bool_decide|]; same_track. Qed.

Lemma on_submit_same s : same_track s (on_submit s).
Proof.
  unfold on_submit. case_bool_decide; [same_track|].
  destruct (user s); [destruct (connected s)|]; same_track.
Qed.

Lemma take_fetch_same i s f s1 : take_fetch i s = Some (f, s1) -> same_track s s1.
Proof. intros (? & ? & ? & ? & _)%take_fetch_fields. by split_and!. Qed.

Lemma step_tracks s ev s' : tracks s -> step s ev = Some s' -> tracks s'.
Proof.
  intros Ht Hst. destruct ev; cbn [step] in Hst.
  - (* Mount *) injection Hst as <-. destruct stored; [|exact Ht].
    intros H. destruct s. discriminate H.
  - (* RunEffect *) destruct (effect_pending s); [|done]. injection Hst as <-.
    unfold run_effect, tracks. destruct s as [? ? ? [u|] ? ? ? [] ? ? ? ? ?]; done.
  - injection Hst as <-. eapply tracks_same; [exact Ht|].
    destruct (listener s); same_track.
  - injection Hst as <-. eapply tracks_same; [exact Ht|same_track].
  - injection Hst as <-. eapply tracks_same; [exact Ht|].
    destruct (listener s); same_track.
  - injection Hst as <-. eapply tracks_same; [exact Ht|apply on_receive_same].
  - destruct (take_fetch i s) as [[[] s1]|] eqn:Hf; try done. injection Hst as <-.
    eapply tracks_same; [exact Ht|]. apply take_fetch_same in Hf.
    destruct r; [|done]. destruct Hf as (? & ? & ? & ?). by split_and!.
  - destruct (take_fetch i s) as [[[] s1]|] eqn:Hf; try done. injection Hst as <-.
    eapply tracks_same; [exact Ht|]. apply take_fetch_same in Hf.
    destruct Hf as (? & ? & ? & ?). by split_and!.
  - destruct (take_fetch i s) as [[[] s1]|] eqn:Hf; try done. injection Hst as <-.
    eapply tracks_same; [exact Ht|]. apply take_fetch_same in Hf.
    destruct Hf as (? & ? & ? & ?). by split_and!.
  - destruct (take_fetch i s) as [[[] s1]|] eqn:Hf; try done.
    apply take_fetch_same in Hf. destruct Hf as (? & ? & ? & ?).
    destruct ok; injection Hst as <-; eapply tracks_same; try exact Ht; by split_and!.
  - injection Hst as <-. unfold tracks. cbn [effect_pending listener user room].
    apply set_room_tracks, Ht.
  - destruct (user s) as [u|] eqn:Hu; [|done]. injection Hst as <-. unfold tracks.
    cbn [effect_pending listener user room]. apply set_room_tracks, Ht.
  - injection Hst as <-. eapply tracks_same; [exact Ht|same_track].
  - injection Hst as <-. eapply tracks_same; [exact Ht|apply on_submit_same].
  - injection Hst as <-. eapply tracks_same; [exact Ht|same_track].
Qed.

(** Every [send_message] the page emitted carries a content that is not
    blank. *)
Definition not_blank_send (e : Emit) : Prop :=
  forall p, e = ESend p -> js_trim (sd_content p) <> "".

Definition sends_ok (s : ClientState) : Prop := Forall not_blank_send (emitted s).

Lemma sends_ok_extend s s' extra :
  sends_ok s -> emitted s' = emitted s ++ extra -> Forall not_blank_send extra -> sends_ok s'.
Proof. unfold sends_ok. intros Hs -> Hx. by apply Forall_app. Qed.

Lemma sends_ok_same s s' : sends_ok s -> emitted s' = emitted s -> sends_ok s'.
Proof. unfold sends_ok. by intros Hs ->. Qed.

Lemma join_ok r : Forall not_blank_send [EJoin r].
Proof. repeat constructor. by intros p. Qed.

Lemma on_submit_sends s : sends_ok s -> sends_ok (on_submit s).
Proof.
  intros Hs. unfold on_submit. case_bool_decide as Hb; [done|].
  destruct (user s) as [u|]; [destruct (connected s)|].
  - eapply sends_ok_extend; [exact Hs|reflexivity|]. repeat constructor.
    by intros p [= <-].
  - eapply sends_ok_extend; [exact Hs|reflexivity|]. repeat constructor. by intros p.
  - eapply sends_ok_extend; [exact Hs|by rewrite app_nil_r|constructor].
Qed.

Lemma step_sends s ev s' : sends_ok s -> step s ev = Some s' -> sends_ok s'.
Proof.
  intros Hs Hst. destruct ev; cbn [step] in Hst.
  - injection Hst as <-. destruct stored; [|done].
    eapply sends_ok_extend; [exact Hs|by rewrite app_nil_r|constructor].
  - destruct (effect_pending s); [|done]. injection Hst as <-. unfold run_effect.
    destruct (user s); [destruct (connected s)|].
    + eapply sends_ok_extend; [exact Hs|reflexivity|apply join_ok].
    + eapply sends_ok_extend; [exact Hs|by rewrite app_nil_r|constructor].
    + eapply sends_ok_extend; [exact Hs|by rewrite app_nil_r|constructor].
  - injection Hst as <-. destruct (listener s).
    + eapply sends_ok_extend; [exact Hs|reflexivity|apply join_ok].
    + eapply sends_ok_extend; [exact Hs|by rewrite app_nil_r|constructor].
  - injection Hst as <-. done.
  - injection Hst as <-. by destruct (listener s).
  - injection Hst as <-. unfold on_receive.
    destruct (listener s); [case_bool_decide|]; done.
  - destruct (take_fetch i s) as [[[] s1]|] eqn:Hf; try done. injection Hst as <-.
    apply take_fetch_fields in Hf as (_ & _ & _ & _ & He).
    apply (sends_ok_same s); [exact Hs|]. destruct r; by rewrite <-He.
  - destruct (take_fetch i s) as [[[] s1]|] eqn:Hf; try done. injection Hst as <-.
    apply take_fetch_fields in Hf as (_ & _ & _ & _ & He).
    apply (sends_ok_same s); [exact Hs|]. by rewrite <-He.
  - destruct (take_fetch i s) as [[[] s1]|] eqn:Hf; try done. injection Hst as <-.
    apply take_fetch_fields in Hf as (_ & _ & _ & _ & He).
    apply (sends_ok_same s); [exact Hs|]. by rewrite <-He.
  - destruct (take_fetch i s) as [[[] s1]|] eqn:Hf; try done.
    apply take_fetch_fields in Hf as (_ & _ & _ & _ & He).
    destruct ok; injection Hst as <-.
    + eapply sends_ok_extend; [exact Hs| |constructor]. rewrite app_nil_r, <-He. done.
    + apply (sends_ok_same s); [exact Hs|]. done.
  - injection Hst as <-. apply (sends_ok_same s); [exact Hs|]. apply set_room_emitted.
  - destruct (user s); [|done]. injection Hst as <-. apply (sends_ok_same s); [exact Hs|].
    apply set_room_emitted.
  - injection Hst as <-. done.
  - injection Hst as <-. by apply on_submit_sends.
  - injection Hst as <-. done.
Qed.

(** ** Properties *)

(** Once the effect has run after the last change of room or user,
    a [receive_message] appends the message exactly when it belongs to
    the room on screen; messages of the other rooms the socket is still
    a member of are dropped. *)
Theorem receive_current_room s m s' :
  reachable s -> effect_pending s = false -> user s <> None -> step s (Receive m) = Some s' ->
  messages s' = messages s ++ (if bool_decide (mj_room m = Some (room s)) then [m] else []).
Proof.
  intros Hr Hp Hu Hst.
  pose proof (client_reachable_inv tracks step_tracks s ltac:(by intros ?) Hr Hp) as Hl.
  destruct (user s) eqn:?; [|done]. cbn in Hl. cbn [step] in Hst. injection Hst as <-.
  unfold on_receive. rewrite Hl. case_bool_decide; [done|by rewrite app_nil_r].
Qed.

(** Whatever the user does, every [send_message] the page emits
    has a content that is not blank after [trim()] (the server does not
    check this, [send_whitespace_stored]). *)
Theorem sent_content_not_blank s p :
  reachable s -> ESend p ∈ emitted s -> js_trim (sd_content p) <> "".
Proof.
  intros Hr Hin. pose proof (client_reachable_inv sends_ok step_sends s (Forall_nil_2 _) Hr) as Hs.
  eapply Forall_forall in Hs; [|exact Hin]. by apply Hs.
Qed.

(** ** A stale history *)

Definition asha_client : ClientUser := {| cu_id := Some (to_hex 1%N); cu__id := None |}.

Definition general_hello : MsgJson :=
  {| mj_id := Some (to_hex 100%N); mj_room := Some "General";
     mj_sender := Some {| sj_id := Some (to_hex 2%N); sj_displayName := Some "ravi" |};
     mj_content := Some "hello"; mj_timestamp := 1000%Z |}.

(** Asha opens the page in "General" and switches to "Study Room 1"
    before the first history has arrived; the two responses come back in
    the opposite order. *)
Definition stale_events : list ClientEvent :=
  [Mount (Some asha_client); SocketConnect; RunEffect; ClickChannel "Study Room 1"; RunEffect;
   HistoryArrives 3 (HistoryOk []); HistoryArrives 2 (HistoryOk [general_hello])].

(** [fetchHistory] does not check that its room is still the one on
    screen: after that sequence the page shows "Study Room 1" with the
    history of "General".  The socket has joined both rooms and left
    neither. *)
Theorem stale_history_shown :
  match run init stale_events with
  | Some s =>
      room s = "Study Room 1" /\ v_title (render s) = "Study Room 1" /\
      messages s = [general_hello] /\ mj_room general_hello = Some "General" /\
      emitted s = [EJoin "General"; EJoin "Study Room 1"]
  | None => False
  end.
Proof. vm_compute. split_and!; reflexivity. Qed.

(** ** Witnesses *)

Definition joined_events : list ClientEvent := [Mount (Some asha_client); SocketConnect; RunEffect].

Definition joined : ClientState := default init (run init joined_events).

Lemma receive_current_room_witness :
  messages (default joined (step joined (Receive general_hello))) =
    messages joined ++ (if bool_decide (mj_room general_hello = Some (room joined))
                        then [general_hello] else []).
Proof.
  apply (receive_current_room joined general_hello);
    [exists joined_events; vm_compute; reflexivity | vm_compute; reflexivity
    | vm_compute; discriminate | vm_compute; reflexivity].
Defined.

Definition padded_send : SendJson :=
  {| sd_room := "General"; sd_sender := Some (to_hex 1%N); sd_content := " hi " |}.

Definition typed : ClientState :=
  default init (run init (joined_events ++ [TypeInput " hi "; Submit])).

Lemma sent_content_not_blank_witness : js_trim (sd_content padded_send) <> "".
Proof.
  apply (sent_content_not_blank typed padded_send).
  - exists (joined_events ++ [TypeInput " hi "; Submit]). vm_compute. reflexivity.
  - apply list_elem_of_In. vm_compute. auto.
Defined.

End ChatClient.
