(* ===== verification/ChatSystem.v ===== *)
(** * The chat system: pages of [Chat.tsx] talking to [server.js]

    [ChatClient.v] models one chat page and [ChatServer.v] the socket
    handlers of the server; here they run together.  A [Sys] is the
    server and a list of browser tabs, each with its page, the id of its
    socket's current connection, and how many of the packets the page
    emitted the server has read.  A [SysEvent] is one step of the whole:
    - [Local]: a page event that does not come from the socket or the
      messages route (the user's clicks and typing, effects, and the
      follow routes' answers, which [ChatFriends.v] serves from the
      routes instead);
    - [Open] and [Close]: a socket connection opens or drops, seen by
      both ends ([connect] and [disconnect] on the page, [connection] and
      [disconnect] on the server); a new connection has a new id, and the
      packets the server had not read when it dropped are lost;
    - [Forward]: the server reads the next packet of a tab, in the order
      the page emitted them ([join_room], [send_message]);
    - [Deliver]: the first [receive_message] of the server's outbox
      reaches the listener of the tab holding that socket;
    - [Answer]: [GET /api/messages/:room] answers a [fetchHistory] with
      the server's current history; its [500] error object reaches
      [setMessages] and the next render's [messages.map] throws, so
      React unmounts the page (the tab is [crashed]);
    - [Internal]: the server's own steps (an [await] completing, the
      clock, the database going down or up).

    The theorems: the invariant every reachable system keeps (the
    server's invariant, each open socket connected and held by one tab,
    each message a page shows stored in the database), and the
    end-to-end delivery of a message typed on one page to exactly the
    pages that are in its room; a reconnected tab misses what was sent
    meanwhile; and a connection stays in every room its page has shown
    until it drops ([joined_rooms_kept]). *)

From S2P Require Import Prelude JsString ObjectId Store RoomId Rooms ChatServer ChatClient.
From coqutil Require Import Datatypes.RecordSetters.
Import DoubleBraceUpdate.

Open Scope stdpp_scope.

Module ChatSystem.
Import ObjectId Store RoomId Rooms.

(** ** The system *)

Record Tab := {
  page : ChatClient.ClientState;
  sock : option SocketId;
  sent : nat;
  crashed : bool;
}.

Definition new_tab : Tab := {| page := ChatClient.init; sock := None; sent := 0; crashed := false |}.

Section System.
Context {R : Type} `{!RoomRegistry R, !RoomRegistryLaws R}.

Record Sys := {
  server : ChatServer.Server (R := R);
  tabs : list Tab;
}.

(** [n] tabs opening the chat page on a fresh server process. *)
Definition sys_init (db0 : DB) (t0 : Date) (n : nat) : Sys :=
  {| server := ChatServer.init db0 t0; tabs := replicate n new_tab |}.

(** The [data] the [send_message] handler receives for the page's
    [{ room, sender, content }]: JSON drops an [undefined] sender. *)
Definition payload (p : ChatClient.SendJson) : SendPayload :=
  {| p_room := Some (ChatClient.sd_room p); p_sender := ChatClient.sd_sender p;
     p_content := Some (ChatClient.sd_content p) |}.

(** The packet a page's emit puts on connection [s]; [socket.connect()]
    puts none (the reconnection is an [Open]). *)
Definition packet (s : SocketId) (e : ChatClient.Emit) : option ChatServer.Event :=
  match e with
  | ChatClient.EJoin r => Some (ChatServer.JoinRoom s r)
  | ChatClient.ESend p => Some (ChatServer.SendMessage s (payload p))
  | ChatClient.EReconnect => None
  end.

(** The page events that do not come from the chat socket or from the
    messages route. *)
Definition local (ev : ChatClient.ClientEvent) : bool :=
  match ev with
  | ChatClient.SocketConnect | ChatClient.SocketDisconnect
  | ChatClient.Receive _ | ChatClient.HistoryArrives _ _ => false
  | _ => true
  end.

(** The server's steps that are not a socket's packet. *)
Definition internal (ev : ChatServer.Event) : bool :=
  match ev with
  | ChatServer.Resume _ | ChatServer.Tick _ | ChatServer.SetDb _ => true
  | _ => false
  end.

Inductive SysEvent :=
| Local (t : nat) (ev : ChatClient.ClientEvent)
| Open (t : nat) (s : SocketId)
| Close (t : nat)
| Forward (t : nat)
| Deliver
| Answer (t : nat) (i : nat)
| Internal (ev : ChatServer.Event).

(** A network event reaching a tab: an unmounted page has no listener
    left. *)
Definition page_event (ev : ChatClient.ClientEvent) (tb : Tab) : option Tab :=
  if crashed tb then Some tb else p ← ChatClient.step (page tb) ev; Some tb{{page := p}}.

(** The listener of [receive_message] on a delivered message; [null]
    (a message [findById] did not find) makes [message.room] throw and
    the listener does nothing. *)
Definition deliver_to (d : ChatServer.Delivery) (tb : Tab) : Tab :=
  match ChatServer.dl_msg d with
  | Some pm => default tb (page_event (ChatClient.Receive (ChatClient.msg_json pm)) tb)
  | None => tb
  end.

Definition with_outbox (ds : list ChatServer.Delivery) (srv : ChatServer.Server (R := R))
    : ChatServer.Server :=
  ChatServer.mk (ChatServer.db srv) (ChatServer.reg srv) (ChatServer.connected srv)
    (ChatServer.tasks srv) ds (ChatServer.next_oid srv) (ChatServer.now srv).

(** The tab whose socket has the connection id [s]. *)
Definition holds (s : SocketId) (tb : Tab) : Prop := sock tb = Some s.

#[export] Instance holds_dec s tb : Decision (holds s tb).
Proof. unfold holds. apply _. Defined.

Definition sys_step (y : Sys) (e : SysEvent) : option Sys :=
  match e with
  | Local t ev =>
      tb ← tabs y !! t;
      if local ev && negb (crashed tb) then
        p ← ChatClient.step (page tb) ev;
        Some {| server := server y; tabs := <[t := tb{{page := p}}]> (tabs y) |}
      else None
  | Open t s =>
      tb ← tabs y !! t;
      if sock tb is None then
        srv ← ChatServer.step (server y) (ChatServer.Connect s);
        tb' ← page_event ChatClient.SocketConnect tb;
        Some {| server := srv; tabs := <[t := tb'{{sock := Some s}}]> (tabs y) |}
      else None
  | Close t =>
      tb ← tabs y !! t; s ← sock tb;
      srv ← ChatServer.step (server y) (ChatServer.Disconnect s);
      tb' ← page_event ChatClient.SocketDisconnect tb;
      Some {| server := srv;
              tabs := <[t := tb'{{sock := None; sent := length (ChatClient.emitted (page tb'))}}]>
                        (tabs y) |}
  | Forward t =>
      tb ← tabs y !! t; s ← sock tb; e ← ChatClient.emitted (page tb) !! sent tb;
      srv ← match packet s e with
            | Some pe => ChatServer.step (server y) pe
            | None => Some (server y)
            end;
      Some {| server := srv; tabs := <[t := tb{{sent := S (sent tb)}}]> (tabs y) |}
  | Deliver =>
      match ChatServer.outbox (server y) with
      | [] => None
      | d :: ds =>
          Some {| server := with_outbox ds (server y);
                  tabs := match list_find (holds (ChatServer.dl_to d)) (tabs y) with
                          | Some (t, tb) => <[t := deliver_to d tb]> (tabs y)
                          | None => tabs y
                          end |}
      end
  | Answer t i =>
      tb ← tabs y !! t;
      '(f, _) ← ChatClient.take_fetch i (page tb);
      match f with
      | ChatClient.FHistory r =>
          match ChatServer.get_messages r (server y) with
          | Ok l =>
              tb' ← page_event (ChatClient.HistoryArrives i
                                  (ChatClient.HistoryOk (map ChatClient.msg_json l))) tb;
              Some {| server := server y; tabs := <[t := tb']> (tabs y) |}
          | Err _ => Some {| server := server y; tabs := <[t := tb{{crashed := true}}]> (tabs y) |}
          end
      | _ => None
      end
  | Internal ev =>
      if internal ev then
        srv ← ChatServer.step (server y) ev; Some {| server := srv; tabs := tabs y |}
      else None
  end.

Fixpoint sys_run (y : Sys) (evs : list SysEvent) : option Sys :=
  match evs with
  | [] => Some y
  | ev :: evs' => y' ← sys_step y ev; sys_run y' evs'
  end.

Inductive sys_reachable : Sys -> Prop :=
| sreach_init db0 t0 n : ChatServer.db_ts_ok db0 t0 = true -> sys_reachable (sys_init db0 t0 n)
| sreach_step y e y' : sys_reachable y -> sys_step y e = Some y' -> sys_reachable y'.

(** ** Lemmas on the pages *)

Lemma take_fetch_messages i p f p1 :
  ChatClient.take_fetch i p = Some (f, p1) -> ChatClient.messages p1 = ChatClient.messages p.
Proof. unfold ChatClient.take_fetch. destruct (ChatClient.fetches p !! i); cbn; [|done]. by intros [= <- <-]. Qed.

Lemma set_room_messages r p : ChatClient.messages (ChatClient.set_room r p) = ChatClient.messages p.
Proof. unfold ChatClient.set_room. by case_bool_decide. Qed.

(** The events a page takes from the user leave its messages alone. *)
Lemma local_messages ev p p' :
  local ev = true -> ChatClient.step p ev = Some p' -> ChatClient.messages p' = ChatClient.messages p.
Proof.
  intros Hl Hst. destruct ev; cbn [local ChatClient.step] in Hl, Hst; try discriminate.
  - injection Hst as <-. by destruct stored.
  - destruct (ChatClient.effect_pending p); [|done]. injection Hst as <-.
    unfold ChatClient.run_effect. destruct (ChatClient.user p); [|done].
    by destruct (ChatClient.connected p).
  - injection Hst as <-. by destruct (ChatClient.listener p).
  - destruct (ChatClient.take_fetch i p) as [[[] p1]|] eqn:Hf; try done.
    injection Hst as <-. by apply take_fetch_messages in Hf.
  - destruct (ChatClient.take_fetch i p) as [[[] p1]|] eqn:Hf; try done.
    injection Hst as <-. by apply take_fetch_messages in Hf.
  - destruct (ChatClient.take_fetch i p) as [[[] p1]|] eqn:Hf; try done.
    apply take_fetch_messages in Hf. by destruct ok; injection Hst as <-.
  - injection Hst as <-. apply set_room_messages.
  - destruct (ChatClient.user p); [|done]. injection Hst as <-. apply set_room_messages.
  - by injection Hst as <-.
  - injection Hst as <-. unfold ChatClient.on_submit. case_bool_decide; [done|].
    destruct (ChatClient.user p); [|done]. by destruct (ChatClient.connected p).
  - by injection Hst as <-.
Qed.

(** What a network event changes of a tab: its page only. *)
Lemma page_event_fields ev tb tb' :
  page_event ev tb = Some tb' ->
  sock tb' = sock tb /\ sent tb' = sent tb /\ crashed tb' = crashed tb.
Proof.
  unfold page_event. destruct (crashed tb) eqn:Hc; [by intros [= <-]|].
  destruct (ChatClient.step (page tb) ev); cbn; [|done]. by intros [= <-].
Qed.

Lemma deliver_to_fields d tb :
  sock (deliver_to d tb) = sock tb /\ crashed (deliver_to d tb) = crashed tb.
Proof.
  unfold deliver_to. destruct (ChatServer.dl_msg d); [|done].
  destruct (page_event _ tb) as [tb'|] eqn:E; cbn; [|done].
  by apply page_event_fields in E as (-> & _ & ->).
Qed.

(** A delivered message is appended when it is of the room the
    listener captured. *)
Lemma deliver_to_page d pm tb :
  ChatServer.dl_msg d = Some pm -> crashed tb = false ->
  page (deliver_to d tb) = ChatClient.on_receive (ChatClient.msg_json pm) (page tb).
Proof. intros Hd Hc. unfold deliver_to, page_event. by rewrite Hd, Hc. Qed.

(** ** The invariant *)

(** A database [d'] a later state of [d]: the users are the same and
    the stored messages stay. *)
Definition db_grows (d d' : DB) : Prop :=
  users d' = users d /\ forall m, m ∈ messages d -> m ∈ messages d'.

(** A populated message of the database. *)
Definition pm_stored (d : DB) (pm : PopMessage) : Prop :=
  exists msg, msg ∈ messages d /\ pm = populate d msg.

(** A message on a page: a stored message as the server serializes it. *)
Definition stored (d : DB) (m : ChatClient.MsgJson) : Prop :=
  exists pm, pm_stored d pm /\ m = ChatClient.msg_json pm.

(** What the outbox carries: stored messages, or [null]. *)
Definition out_ok (srv : ChatServer.Server (R := R)) : Prop :=
  Forall (fun d => from_option (pm_stored (ChatServer.db srv)) True (ChatServer.dl_msg d))
    (ChatServer.outbox srv).

Definition socks_unique (l : list Tab) : Prop :=
  forall i j a b s, l !! i = Some a -> l !! j = Some b -> sock a = Some s -> sock b = Some s -> i = j.

(** A tab's connection is open on the server and its page shows stored
    messages. *)
Definition tab_ok (srv : ChatServer.Server (R := R)) (tb : Tab) : Prop :=
  (forall s, sock tb = Some s -> s ∈ ChatServer.connected srv) /\
  Forall (stored (ChatServer.db srv)) (ChatClient.messages (page tb)).

Record sys_inv (y : Sys) : Prop := {
  si_server : ChatServer.inv (server y);
  si_unique : socks_unique (tabs y);
  si_tabs : Forall (tab_ok (server y)) (tabs y);
  si_outbox : out_ok (server y);
}.

Lemma populate_users d d' m : users d' = users d -> populate d' m = populate d m.
Proof. intros H. unfold populate, sender_info, find_user. by rewrite H. Qed.

Lemma db_grows_refl d : db_grows d d.
Proof. by split. Qed.

Lemma db_grows_append d ms : db_grows d (set_messages (messages d ++ ms) d).
Proof. split; [done|]. intros m Hm. cbn. apply elem_of_app. by left. Qed.

Lemma pm_stored_grows d d' pm : db_grows d d' -> pm_stored d pm -> pm_stored d' pm.
Proof.
  intros [Hu Hm] (msg & Hin & ->). exists msg. split; [by apply Hm|].
  symmetry. by apply populate_users.
Qed.

Lemma stored_grows d d' m : db_grows d d' -> stored d m -> stored d' m.
Proof. intros Hg (pm & Hpm & ->). exists pm. split; [|done]. by eapply pm_stored_grows. Qed.

Lemma tab_ok_mono srv srv' tb :
  db_grows (ChatServer.db srv) (ChatServer.db srv') ->
  ChatServer.connected srv ⊆ ChatServer.connected srv' -> tab_ok srv tb -> tab_ok srv' tb.
Proof.
  intros Hg Hc [Hs Hm]. split.
  - intros s Hs'. apply Hc. by apply Hs.
  - eapply Forall_impl; [exact Hm|]. intros m. by apply stored_grows.
Qed.

Lemma findById_stored id d pm :
  Message_findById id d = Ok (Some pm) -> pm_stored d pm.
Proof.
  unfold Message_findById. destruct (db_up d); [|done].
  destruct (List.find _ (messages d)) as [msg|] eqn:E; cbn; [|done]. intros [= <-].
  exists msg. split; [|done]. apply find_some in E as [Hin _]. by apply list_elem_of_In.
Qed.

Lemma history_stored r d :
  Forall (stored d) (map ChatClient.msg_json (room_history r d)).
Proof.
  apply Forall_forall. intros m (pm & -> & Hpm)%list_elem_of_fmap.
  exists pm. split; [|done]. unfold room_history in Hpm.
  apply list_elem_of_fmap in Hpm as (msg & -> & Hin).
  exists msg. split; [|done]. apply elem_of_sort_by in Hin.
  by apply list_elem_of_filter in Hin as [_ ?].
Qed.

(** What one server step does to the database, the outbox and the
    connected sockets. *)
Lemma server_step_effects srv ev srv' :
  ChatServer.step srv ev = Some srv' -> out_ok srv ->
  db_grows (ChatServer.db srv) (ChatServer.db srv') /\ out_ok srv' /\
  ChatServer.connected srv' =
    match ev with
    | ChatServer.Connect s => {[s]} ∪ ChatServer.connected srv
    | ChatServer.Disconnect s => ChatServer.connected srv ∖ {[s]}
    | _ => ChatServer.connected srv
    end.
Proof.
  intros Hst Ho. destruct ev as [s|s room|s data|i|s|dt|up]; cbn [ChatServer.step] in Hst.
  - case_decide; simplify_eq. split_and!; [apply db_grows_refl|done|done].
  - case_decide; simplify_eq. split_and!; [apply db_grows_refl|done|done].
  - case_decide; simplify_eq. split_and!; [apply db_grows_refl|done|done].
  - destruct (ChatServer.tasks srv !! i) as [t|]; cbn in Hst; [|done]. injection Hst as <-.
    destruct t as [m errs|room id]; cbn [ChatServer.resume].
    + destruct (Message_save m errs (ChatServer.db srv)) as [d'|] eqn:E.
      * apply Message_save_ok in E as (_ & _ & ->). cbn.
        split_and!; [apply db_grows_append| |done].
        eapply Forall_impl; [exact Ho|]. intros d. cbn [from_option].
        destruct (ChatServer.dl_msg d); [|done]. apply pm_stored_grows, db_grows_append.
      * split_and!; [apply db_grows_refl|done|done].
    + destruct (Message_findById id (ChatServer.db srv)) as [pm|] eqn:E; cbn;
        split_and!; try apply db_grows_refl; try done.
      unfold out_ok; cbn. apply Forall_app. split; [done|].
      apply Forall_fmap, Forall_forall. intros s _. cbn.
      destruct pm as [pm|]; [|done]. by eapply findById_stored.
  - case_decide; simplify_eq. split_and!; [apply db_grows_refl|done|done].
  - case_decide; simplify_eq. split_and!; [apply db_grows_refl|done|done].
  - simplify_eq. split_and!; [by split|done|done].
Qed.

Lemma Forall_insert_except {A} (P : A -> Prop) (l : list A) t x :
  (forall j b, l !! j = Some b -> j <> t -> P b) -> P x -> Forall P (<[t := x]> l).
Proof.
  intros H Hx. apply Forall_lookup. intros j b Hb.
  apply list_lookup_insert_Some in Hb as [(-> & <- & _)|(? & ?)]; eauto.
Qed.

Lemma socks_unique_insert l t tb' :
  socks_unique l ->
  (forall s j b, sock tb' = Some s -> l !! j = Some b -> sock b = Some s -> j = t) ->
  socks_unique (<[t := tb']> l).
Proof.
  intros Hu Hn i j a b s Ha Hb Hsa Hsb.
  apply list_lookup_insert_Some in Ha as [(-> & <- & _)|(Hi & Ha)];
    apply list_lookup_insert_Some in Hb as [(-> & <- & _)|(Hj & Hb)]; [done| | |].
  - symmetry. eauto.
  - eauto.
  - eauto.
Qed.

(** Replacing a tab by one holding the same connection. *)
Lemma socks_unique_same l t tb tb' :
  socks_unique l -> l !! t = Some tb -> sock tb' = sock tb -> socks_unique (<[t := tb']> l).
Proof.
  intros Hu Ht Hs. apply socks_unique_insert; [done|].
  intros s j b Hs' Hb Hsb. rewrite Hs in Hs'. eauto.
Qed.

(** A step that keeps the server and replaces tab [t] by a tab with the
    same connection whose messages are stored. *)
Lemma inv_replace y t tb tb' :
  sys_inv y -> tabs y !! t = Some tb -> sock tb' = sock tb ->
  Forall (stored (ChatServer.db (server y))) (ChatClient.messages (page tb')) ->
  sys_inv {| server := server y; tabs := <[t := tb']> (tabs y) |}.
Proof.
  intros [Hs Hu Ht Ho] Hl Hsock Hm. split; cbn; [done| | |done].
  - by eapply socks_unique_same.
  - apply Forall_insert; [done|]. split; [|done]. rewrite Hsock.
    by apply (Forall_lookup_1 _ _ _ _ Ht Hl).
Qed.

(** A server step that is not a connection's opening or closing. *)
Lemma inv_server_step y ev srv' :
  sys_inv y -> ChatServer.step (server y) ev = Some srv' ->
  (forall s, ev <> ChatServer.Connect s) -> (forall s, ev <> ChatServer.Disconnect s) ->
  ChatServer.inv srv' /\ Forall (tab_ok srv') (tabs y) /\ out_ok srv'.
Proof.
  intros [Hs Hu Ht Ho] Hst Hc Hd.
  destruct (server_step_effects _ _ _ Hst Ho) as (Hg & Ho' & Hconn).
  split_and!; [by eapply ChatServer.step_inv| |done].
  eapply Forall_impl; [exact Ht|]. intros tb. apply tab_ok_mono; [done|].
  rewrite Hconn. destruct ev; try done; [by destruct (Hc s)|by destruct (Hd s)].
Qed.

Lemma page_event_messages ev tb tb' d :
  page_event ev tb = Some tb' ->
  Forall (stored d) (ChatClient.messages (page tb)) ->
  (forall m, ev = ChatClient.Receive m -> stored d m) ->
  (forall i l, ev = ChatClient.HistoryArrives i (ChatClient.HistoryOk l) -> Forall (stored d) l) ->
  Forall (stored d) (ChatClient.messages (page tb')).
Proof.
  unfold page_event. intros Hpe Hm Hr Hh. destruct (crashed tb); [by injection Hpe as <-|].
  destruct (ChatClient.step (page tb) ev) as [p|] eqn:Hst; cbn in Hpe; [|done].
  injection Hpe as <-. change (Forall (stored d) (ChatClient.messages p)).
  destruct (local ev) eqn:Hl; [by rewrite (local_messages _ _ _ Hl Hst)|].
  destruct ev; try discriminate Hl; cbn [ChatClient.step] in Hst.
  - injection Hst as <-. by destruct (ChatClient.listener (page tb)).
  - by injection Hst as <-.
  - injection Hst as <-. unfold ChatClient.on_receive.
    destruct (ChatClient.listener (page tb)); [case_bool_decide|]; try done.
    apply Forall_app. split; [done|]. constructor; [by apply Hr|constructor].
  - destruct (ChatClient.take_fetch i (page tb)) as [[[] p1]|] eqn:Hf; try done.
    apply take_fetch_messages in Hf. injection Hst as <-.
    destruct r; [by eapply Hh|by rewrite Hf].
Qed.

Lemma inv_sys_init db0 t0 n :
  ChatServer.db_ts_ok db0 t0 = true -> sys_inv (sys_init db0 t0 n).
Proof.
  intros Hts. split; cbn.
  - by apply ChatServer.inv_init.
  - intros i j a b s Ha. apply lookup_replicate in Ha as [-> _]. intros _ Hs. by cbv in Hs.
  - apply Forall_replicate. split; [intros ? Hs; by cbv in Hs|constructor].
  - constructor.
Qed.

Lemma page_event_connection ev tb tb' d :
  page_event ev tb = Some tb' ->
  (ev = ChatClient.SocketConnect \/ ev = ChatClient.SocketDisconnect) ->
  Forall (stored d) (ChatClient.messages (page tb)) -> Forall (stored d) (ChatClient.messages (page tb')).
Proof.
  intros Hpe Hev Hm. eapply page_event_messages; [exact Hpe|exact Hm| |];
    intros; subst; by destruct Hev.
Qed.

Lemma inv_open y t s tb srv' tb' :
  sys_inv y -> tabs y !! t = Some tb ->
  ChatServer.step (server y) (ChatServer.Connect s) = Some srv' ->
  page_event ChatClient.SocketConnect tb = Some tb' ->
  sys_inv {| server := srv'; tabs := <[t := tb'{{sock := Some s}}]> (tabs y) |}.
Proof.
  intros [Hs Hu Ht Ho] Hl Hst Hpe.
  destruct (server_step_effects _ _ _ Hst Ho) as (Hg & Ho' & Hconn).
  assert (Hfresh : s ∉ ChatServer.connected (server y)) by (cbn in Hst; by case_decide).
  split; cbn [server tabs].
  - by eapply ChatServer.step_inv.
  - apply socks_unique_insert; [done|]. intros s' j b [= <-] Hb Hsb. exfalso.
    apply Hfresh, (proj1 (Forall_lookup_1 _ _ _ _ Ht Hb)), Hsb.
  - apply Forall_insert.
    + eapply Forall_impl; [exact Ht|]. intros tb0. apply tab_ok_mono; [done|]. rewrite Hconn. set_solver.
    + split; [intros s' [= <-]; rewrite Hconn; set_solver|].
      change (Forall (stored (ChatServer.db srv')) (ChatClient.messages (page tb'))).
      eapply Forall_impl; [|intros m; apply stored_grows, Hg].
      eapply page_event_connection; [exact Hpe|by left|].
      apply (Forall_lookup_1 _ _ _ _ Ht Hl).
  - done.
Qed.

Lemma inv_close y t s tb srv' tb' :
  sys_inv y -> tabs y !! t = Some tb -> sock tb = Some s ->
  ChatServer.step (server y) (ChatServer.Disconnect s) = Some srv' ->
  page_event ChatClient.SocketDisconnect tb = Some tb' ->
  sys_inv {| server := srv';
             tabs := <[t := tb'{{sock := None; sent := length (ChatClient.emitted (page tb'))}}]>
                       (tabs y) |}.
Proof.
  intros [Hs Hu Ht Ho] Hl Hsock Hst Hpe.
  destruct (server_step_effects _ _ _ Hst Ho) as (Hg & Ho' & Hconn).
  split; cbn [server tabs].
  - by eapply ChatServer.step_inv.
  - apply socks_unique_insert; [done|]. by intros s' j b [=].
  - apply Forall_insert_except.
    + intros j b Hb Hj. destruct (Forall_lookup_1 _ _ _ _ Ht Hb) as [Hc Hm]. split.
      * intros s' Hs'. rewrite Hconn. apply elem_of_difference. split; [by apply Hc|].
        intros ->%elem_of_singleton. apply Hj. eapply Hu; eauto.
      * eapply Forall_impl; [exact Hm|]. intros m. by apply stored_grows.
    + split; [by intros s' [=]|].
      change (Forall (stored (ChatServer.db srv')) (ChatClient.messages (page tb'))).
      eapply Forall_impl; [|intros m; apply stored_grows, Hg].
      eapply page_event_connection; [exact Hpe|by right|].
      apply (Forall_lookup_1 _ _ _ _ Ht Hl).
  - done.
Qed.

Lemma inv_forward y t s tb e srv' :
  sys_inv y -> tabs y !! t = Some tb -> sock tb = Some s ->
  match packet s e with Some pe => ChatServer.step (server y) pe | None => Some (server y) end = Some srv' ->
  sys_inv {| server := srv'; tabs := <[t := tb{{sent := S (sent tb)}}]> (tabs y) |}.
Proof.
  intros Hinv Hl Hsock Hst. destruct (packet s e) as [pe|] eqn:Hp.
  - destruct (inv_server_step _ _ _ Hinv Hst) as (Hs' & Ht' & Ho');
      [intros s' ->; destruct e; cbn in Hp; congruence..|].
    destruct Hinv as [Hs Hu Ht Ho]. split; cbn [server tabs]; [done| |by apply Forall_insert; [|apply (Forall_lookup_1 _ _ _ _ Ht' Hl)]|done].
    by apply (socks_unique_same _ _ tb).
  - injection Hst as <-. apply (inv_replace y t tb); [done|done|done|].
    apply (Forall_lookup_1 _ _ _ _ (si_tabs _ Hinv) Hl).
Qed.

Lemma inv_internal y ev srv' :
  sys_inv y -> internal ev = true -> ChatServer.step (server y) ev = Some srv' ->
  sys_inv {| server := srv'; tabs := tabs y |}.
Proof.
  intros Hinv Hi Hst.
  destruct (inv_server_step _ _ _ Hinv Hst) as (Hs' & Ht' & Ho');
    [by intros s ->|by intros s ->|].
  split; cbn [server tabs]; [done|apply (si_unique _ Hinv)|done|done].
Qed.

Lemma inv_with_outbox srv ds : ChatServer.inv srv -> ChatServer.inv (with_outbox ds srv).
Proof. by intros [? ? ? ?]. Qed.

Lemma deliver_to_messages d tb db :
  from_option (pm_stored db) True (ChatServer.dl_msg d) ->
  Forall (stored db) (ChatClient.messages (page tb)) ->
  Forall (stored db) (ChatClient.messages (page (deliver_to d tb))).
Proof.
  intros Hd Hm. unfold deliver_to. destruct (ChatServer.dl_msg d) as [pm|]; [|done].
  destruct (page_event _ tb) as [tb'|] eqn:E; cbn; [|done].
  eapply page_event_messages; [exact E|exact Hm| |by intros ? ? [=]].
  intros m [= <-]. by exists pm.
Qed.

Lemma inv_deliver y d ds :
  sys_inv y -> ChatServer.outbox (server y) = d :: ds ->
  sys_inv {| server := with_outbox ds (server y);
             tabs := match list_find (holds (ChatServer.dl_to d)) (tabs y) with
                     | Some (t, tb) => <[t := deliver_to d tb]> (tabs y)
                     | None => tabs y
                     end |}.
Proof.
  intros [Hs Hu Ht Ho] Hout. unfold out_ok in Ho. rewrite Hout in Ho.
  apply Forall_cons in Ho as [Hd Ho].
  split; cbn [server tabs]; [by apply inv_with_outbox| | |exact Ho].
  - destruct (list_find _ _) as [[t tb]|] eqn:E; [|done].
    apply list_find_Some in E as (Hl & _ & _).
    apply (socks_unique_same _ _ tb); [done|done|apply deliver_to_fields].
  - destruct (list_find _ _) as [[t tb]|] eqn:E; [|exact Ht].
    apply list_find_Some in E as (Hl & _ & _). apply Forall_insert; [exact Ht|].
    destruct (Forall_lookup_1 _ _ _ _ Ht Hl) as [Hc Hm]. split.
    + rewrite (proj1 (deliver_to_fields d tb)). exact Hc.
    + by apply deliver_to_messages.
Qed.

Lemma inv_answer y t i tb f p1 r :
  sys_inv y -> tabs y !! t = Some tb ->
  ChatClient.take_fetch i (page tb) = Some (f, p1) -> f = ChatClient.FHistory r ->
  forall y', match ChatServer.get_messages r (server y) with
             | Ok l =>
                 tb' ← page_event (ChatClient.HistoryArrives i
                                     (ChatClient.HistoryOk (map ChatClient.msg_json l))) tb;
                 Some {| server := server y; tabs := <[t := tb']> (tabs y) |}
             | Err _ => Some {| server := server y; tabs := <[t := tb{{crashed := true}}]> (tabs y) |}
             end = Some y' -> sys_inv y'.
Proof.
  intros Hinv Hl Hf -> y'. pose proof (Forall_lookup_1 _ _ _ _ (si_tabs _ Hinv) Hl) as [_ Hm].
  unfold ChatServer.get_messages, Message_find_room.
  destruct (db_up (ChatServer.db (server y))).
  - destruct (page_event _ tb) as [tb'|] eqn:E; cbn; [|done]. intros [= <-].
    apply (inv_replace y t tb); [done|done|by apply page_event_fields in E as [-> _]|].
    eapply page_event_messages; [exact E|exact Hm|by intros ? [=]|].
    intros ? ? [= _ <-]. apply history_stored.
  - intros [= <-]. by apply (inv_replace y t tb).
Qed.

(** Every step keeps the invariant. *)
Lemma sys_step_inv y e y' : sys_inv y -> sys_step y e = Some y' -> sys_inv y'.
Proof.
  intros Hinv Hst. destruct e as [t ev|t s|t|t| |t i|ev]; cbn [sys_step] in Hst.
  - obind Hst. destruct (local ev && negb (crashed t0)) eqn:Hc; [|done].
    apply andb_prop in Hc as [Hc _]. obind Hst. injection Hst as <-.
    apply (inv_replace y t t0); [done|done|done|].
    change (Forall (stored (ChatServer.db (server y))) (ChatClient.messages c)).
    rewrite (local_messages _ _ _ Hc E0). apply (Forall_lookup_1 _ _ _ _ (si_tabs _ Hinv) E).
  - obind Hst. destruct (sock t0); [done|]. obind Hst. obind Hst.
    injection Hst as <-. by eapply inv_open.
  - obind Hst. obind Hst. obind Hst. obind Hst. injection Hst as <-. by eapply inv_close.
  - obind Hst. obind Hst. obind Hst. obind Hst. injection Hst as <-. by eapply inv_forward.
  - destruct (ChatServer.outbox (server y)) as [|d ds] eqn:Ho; [done|].
    injection Hst as <-. by apply inv_deliver.
  - obind Hst. obind Hst. destruct p as [f p1].
    destruct f as [r| | |]; try done. by eapply inv_answer.
  - destruct (internal ev) eqn:Hi; [|done]. obind Hst. injection Hst as <-. by eapply inv_internal.
Qed.

Lemma sys_reachable_inv y : sys_reachable y -> sys_inv y.
Proof.
  induction 1 as [db0 t0 n Hts|y e y' _ IH Hst]; [by apply inv_sys_init|by eapply sys_step_inv].
Qed.

Lemma sys_run_reachable y evs y' : sys_reachable y -> sys_run y evs = Some y' -> sys_reachable y'.
Proof.
  revert y. induction evs as [|e evs IH]; intros y Hr Hrun; cbn in Hrun; [by simplify_eq|].
  destruct (sys_step y e) as [y1|] eqn:E; [|done]. apply (IH y1); [by econstructor|done].
Qed.

(** ** Draining the outbox *)

(** What the deliveries [ds] do to one tab. *)
Definition deliver_all (ds : list ChatServer.Delivery) (tb : Tab) : Tab :=
  foldl (fun tb d => if decide (holds (ChatServer.dl_to d) tb) then deliver_to d tb else tb) tb ds.


Lemma deliver_step_tabs l d t tb :
  socks_unique l -> list_find (holds (ChatServer.dl_to d)) l = Some (t, tb) ->
  <[t := deliver_to d tb]> l =
    (fun tb0 => if decide (holds (ChatServer.dl_to d) tb0) then deliver_to d tb0 else tb0) <$> l.
Proof.
  intros Hu E. apply list_find_Some in E as (Hl & Hh & _).
  apply list_eq. intros j. rewrite list_lookup_fmap.
  destruct (decide (j = t)) as [->|Hj].
  - rewrite list_lookup_insert_eq by (eapply lookup_lt_Some; eauto). rewrite Hl. cbn. by rewrite decide_True.
  - rewrite list_lookup_insert_ne by done. destruct (l !! j) as [b|] eqn:Hb; cbn; [|done].
    case_decide as Hb'; [|done]. exfalso. apply Hj. eapply Hu; eauto.
Qed.

Lemma deliver_none_tabs l d :
  list_find (holds (ChatServer.dl_to d)) l = None ->
  l = (fun tb0 => if decide (holds (ChatServer.dl_to d) tb0) then deliver_to d tb0 else tb0) <$> l.
Proof.
  intros E. apply list_find_None in E. induction E as [|x l Hx _ IH]; [done|].
  cbn. by rewrite decide_False, <-IH.
Qed.

Lemma socks_unique_fmap (f : Tab -> Tab) l :
  (forall tb, sock (f tb) = sock tb) -> socks_unique l -> socks_unique (f <$> l).
Proof.
  intros Hf Hu i j a b s Ha Hb.
  apply list_lookup_fmap_Some in Ha as (a' & -> & Ha), Hb as (b' & -> & Hb).
  rewrite !Hf. eauto.
Qed.

(** Delivering the whole outbox, one [receive_message] at a time. *)
Lemma deliver_outbox y ds :
  socks_unique (tabs y) -> ChatServer.outbox (server y) = ds ->
  sys_run y (replicate (length ds) Deliver) =
    Some {| server := with_outbox [] (server y); tabs := deliver_all ds <$> tabs y |}.
Proof.
  revert y. induction ds as [|d ds IH]; intros y Hu Ho.
  - cbn. destruct y as [srv l]. cbn in *. f_equal. f_equal.
    + destruct srv; cbn in *; by subst.
    + symmetry. apply list_fmap_id.
  - cbn [length replicate sys_run sys_step]. rewrite Ho. cbn [mbind option_bind].
    set (f := fun tb0 => if decide (holds (ChatServer.dl_to d) tb0) then deliver_to d tb0 else tb0).
    assert (Hl : match list_find (holds (ChatServer.dl_to d)) (tabs y) with
                 | Some (t, tb) => <[t := deliver_to d tb]> (tabs y)
                 | None => tabs y
                 end = f <$> tabs y).
    { destruct (list_find _ _) as [[t tb]|] eqn:E; [by apply deliver_step_tabs|by apply deliver_none_tabs]. }
    rewrite Hl, IH; cbn [server tabs].
    + f_equal. rewrite <-list_fmap_compose. done.
    + apply socks_unique_fmap; [|done]. intros tb. subst f. cbn.
      case_decide; [apply deliver_to_fields|done].
    + done.
Qed.

(** A message sent to the sockets [ss], each once, reaches a tab once
    when the tab holds one of them. *)
Lemma deliver_all_once pm ss tb :
  NoDup ss ->
  deliver_all (map (fun s => {| ChatServer.dl_to := s; ChatServer.dl_msg := Some pm |}) ss) tb =
    match sock tb with
    | Some s => if bool_decide (s ∈ ss)
                then deliver_to {| ChatServer.dl_to := s; ChatServer.dl_msg := Some pm |} tb
                else tb
    | None => tb
    end.
Proof.
  unfold deliver_all. revert tb. induction ss as [|s0 ss IH]; intros tb Hnd; cbn [map foldl].
  { destruct (sock tb); [|done]. by rewrite bool_decide_false by set_solver. }
  apply NoDup_cons in Hnd as [Hs0 Hnd]. rewrite IH by done. cbn [ChatServer.dl_to].
  unfold holds. case_decide as Hh.
  - rewrite (proj1 (deliver_to_fields _ _)), Hh.
    rewrite bool_decide_false by done. by rewrite bool_decide_true by set_solver.
  - destruct (sock tb) as [s|]; [|done]. assert (s <> s0) by congruence.
    do 2 case_bool_decide; set_solver.
Qed.

(** ** A message typed on one page *)

(** The page a [Submit] leaves when it sends [input]. *)
Lemma on_submit_sends_input p u :
  ChatClient.user p = Some u -> ChatClient.connected p = true ->
  js_trim (ChatClient.input p) <> "" ->
  ChatClient.on_submit p =
    (ChatClient.emit (ChatClient.ESend {| ChatClient.sd_room := ChatClient.room p;
        ChatClient.sd_sender := user_id u; ChatClient.sd_content := ChatClient.input p |}) p)
      {{ChatClient.input := ""}}.
Proof.
  intros Hu Hc Ht. unfold ChatClient.on_submit. rewrite bool_decide_false by done.
  by rewrite Hu, Hc.
Qed.

(** The page submits and the server reads the [send_message] packet. *)
Lemma submit_forward y a ta sa u :
  sys_inv y -> tabs y !! a = Some ta -> crashed ta = false -> sock ta = Some sa ->
  ChatClient.user (page ta) = Some u -> ChatClient.connected (page ta) = true ->
  js_trim (ChatClient.input (page ta)) <> "" -> sent ta = length (ChatClient.emitted (page ta)) ->
  exists ta',
    sys_run y [Local a ChatClient.Submit; Forward a] =
      Some {| server := ChatServer.on_send_message
                          (payload {| ChatClient.sd_room := ChatClient.room (page ta);
                                      ChatClient.sd_sender := user_id u;
                                      ChatClient.sd_content := ChatClient.input (page ta) |}) (server y);
              tabs := <[a := ta']> (tabs y) |} /\
    sock ta' = sock ta /\ crashed ta' = false /\
    ChatClient.messages (page ta') = ChatClient.messages (page ta) /\
    ChatClient.listener (page ta') = ChatClient.listener (page ta).
Proof.
  intros Hinv Ha Hc Hs Hu Hconn Ht Hsent.
  pose proof (on_submit_sends_input _ _ Hu Hconn Ht) as Hsub.
  assert (Hlt : a < length (tabs y)) by (eapply lookup_lt_Some; eauto).
  assert (Hin : sa ∈ ChatServer.connected (server y))
    by apply (proj1 (Forall_lookup_1 _ _ _ _ (si_tabs _ Hinv) Ha)), Hs.
  cbn [sys_run sys_step]. rewrite Ha. cbn [mbind option_bind local negb andb]. rewrite Hc.
  cbn [ChatClient.step]. rewrite Hsub. cbn [negb mbind option_bind tabs server].
  rewrite list_lookup_insert_eq by done. cbn [mbind option_bind].
  change (sock (ta{{page := _}})) with (sock ta). rewrite Hs. cbn [mbind option_bind].
  change (sent (ta{{page := _}})) with (sent ta).
  change (ChatClient.emitted (page (ta{{page := ?P}}))) with (ChatClient.emitted P).
  change (ChatClient.emitted (?P{{ChatClient.input := ""}})) with (ChatClient.emitted P).
  change (ChatClient.emitted (ChatClient.emit ?e ?P)) with (ChatClient.emitted P ++ [e]).
  rewrite Hsent, list_lookup_middle by done. cbn [mbind option_bind packet ChatServer.step].
  rewrite decide_True by done. cbn [mbind option_bind]. rewrite list_insert_insert_eq.
  eexists. split; [reflexivity|]. split_and!; [done|exact Hc|done|done].
Qed.

(** The server completes the [save] and then the [findById] of the
    message the last [send_message] issued, and emits it to its room. *)
Lemma save_then_emit srv l data r :
  p_room data = Some r -> message_errors data = [] -> db_up (ChatServer.db srv) = true ->
  (forall msg, msg ∈ messages (ChatServer.db srv) -> m_id msg <> ChatServer.next_oid srv) ->
  let k := length (ChatServer.tasks srv) in
  exists srv3,
    sys_run {| server := ChatServer.on_send_message data srv; tabs := l |}
      [Internal (ChatServer.Resume k); Internal (ChatServer.Resume k)] =
      Some {| server := srv3; tabs := l |} /\
    ChatServer.reg srv3 = ChatServer.reg srv /\ ChatServer.connected srv3 = ChatServer.connected srv /\
    ChatServer.outbox srv3 = ChatServer.outbox srv ++
      map (fun s => {| ChatServer.dl_to := s;
                       ChatServer.dl_msg := Some (populate (ChatServer.db srv)
                          (new_Message (ChatServer.next_oid srv) (ChatServer.now srv) data)) |})
        (ChatServer.recipients (Some r) srv).
Proof.
  intros Hr He Hup Hfresh k.
  set (m0 := new_Message (ChatServer.next_oid srv) (ChatServer.now srv) data).
  cbn [sys_run sys_step internal mbind option_bind ChatServer.step server tabs].
  change (ChatServer.tasks (ChatServer.on_send_message data srv))
    with (ChatServer.tasks srv ++ [ChatServer.TSave m0 (message_errors data)]).
  rewrite list_lookup_middle by done. cbn [mbind option_bind ChatServer.resume].
  rewrite He. cbn [Message_save]. change (ChatServer.db (ChatServer.on_send_message data srv))
    with (ChatServer.db srv). rewrite Hup. cbn [ChatServer.mk ChatServer.tasks server tabs].
  rewrite list_lookup_insert_eq by (subst k; cbn; rewrite length_app; cbn; lia).
  cbn [mbind option_bind ChatServer.resume ChatServer.db].
  unfold Message_findById. cbn [ChatServer.mk ChatServer.db db_up set_messages messages].
  rewrite Hup, find_app_last.
  - eexists. split; [reflexivity|]. split_and!; [done|done|].
    cbn [ChatServer.outbox fmap option_fmap option_map].
    rewrite populate_set_messages. subst m0. cbn [m_room new_Message]. rewrite Hr. reflexivity.
  - intros msg Hmsg. apply bool_decide_eq_false. by apply Hfresh.
  - by apply bool_decide_eq_true.
Qed.

Lemma sys_run_app y evs1 evs2 :
  sys_run y (evs1 ++ evs2) = y1 ← sys_run y evs1; sys_run y1 evs2.
Proof.
  revert y. induction evs1 as [|e evs1 IH]; intros y; cbn; [done|].
  destruct (sys_step y e); cbn; [apply IH|done].
Qed.

(** The page's [send_message] passes the schema's validation. *)
Lemma payload_valid p u :
  ChatClient.user p = Some u -> (forall x, user_id u = Some x -> ObjectId.cast x <> None) ->
  js_trim (ChatClient.input p) <> "" ->
  message_errors (payload {| ChatClient.sd_room := ChatClient.room p; ChatClient.sd_sender := user_id u;
                             ChatClient.sd_content := ChatClient.input p |}) = [].
Proof.
  intros _ Hcast Ht. unfold message_errors, payload. cbn.
  destruct (user_id u) as [x|]; [destruct (ObjectId.cast x) eqn:E; [|by destruct (Hcast x)]|];
    (destruct (ChatClient.input p); [done|reflexivity]).
Qed.

(** Whether a tab shows what the server emits to room [r]: the page is
    mounted, its listener captured [r], and its socket is a member of
    [r]. *)
Definition listens (r : string) (srv : ChatServer.Server (R := R)) (tb : Tab) : bool :=
  negb (crashed tb) && bool_decide (ChatClient.listener (page tb) = Some r) &&
  match sock tb with Some s => bool_decide (s ∈ reg_members r (ChatServer.reg srv)) | None => false end.

Lemma deliver_once_messages srv r pm tb :
  ChatServer.inv srv -> pm_room pm = Some r ->
  ChatClient.messages (page (deliver_all
     (map (fun s => {| ChatServer.dl_to := s; ChatServer.dl_msg := Some pm |})
        (ChatServer.recipients (Some r) srv)) tb)) =
    ChatClient.messages (page tb) ++ (if listens r srv tb then [ChatClient.msg_json pm] else []).
Proof.
  intros Hinv Hr. rewrite deliver_all_once by apply NoDup_elements. unfold listens.
  destruct (sock tb) as [s|] eqn:Hs; [|by rewrite andb_false_r, app_nil_r].
  pose proof (ChatServer.recipients_members _ r Hinv s) as Hm.
  destruct (crashed tb) eqn:Hc.
  - rewrite app_nil_r. case_bool_decide; [|done]. unfold deliver_to, page_event. by rewrite Hc.
  - cbn [negb andb]. rewrite (bool_decide_ext _ _ Hm).
    case_bool_decide as Hin; [|by rewrite andb_false_r, app_nil_r]. rewrite andb_true_r.
    rewrite (deliver_to_page _ pm) by done. unfold ChatClient.on_receive. cbn [ChatClient.msg_json ChatClient.mj_room].
    rewrite Hr. destruct (ChatClient.listener (page tb)) as [r'|].
    + destruct (decide (r' = r)) as [->|Hne].
      * by rewrite !bool_decide_true.
      * rewrite !bool_decide_false by congruence. by rewrite app_nil_r.
    + by rewrite app_nil_r.
Qed.

(** ** Properties *)

(** ** Room membership *)

(** A server step leaves a socket in its rooms unless it is that
    socket's disconnection: [join_room] only adds. *)
Lemma server_step_members srv ev srv' s r :
  ChatServer.inv srv -> ChatServer.step srv ev = Some srv' ->
  ev <> ChatServer.Disconnect s ->
  s ∈ reg_members r (ChatServer.reg srv) -> s ∈ reg_members r (ChatServer.reg srv').
Proof.
  intros Hi Hst Hd Hs. pose proof (ChatServer.inv_reg _ Hi) as Hw.
  destruct ev as [s1|s1 room|s1 data|i|s1|dt|up]; cbn [ChatServer.step] in Hst.
  - case_decide; simplify_eq. cbn. rewrite reg_members_join by done. case_decide; set_solver.
  - case_decide; simplify_eq. cbn. rewrite reg_members_join by done. case_decide; set_solver.
  - case_decide; simplify_eq. done.
  - destruct (ChatServer.tasks srv !! i) as [t|]; cbn in Hst; [|done]. injection Hst as <-.
    destruct t as [m errs|room id]; cbn [ChatServer.resume];
      [destruct (Message_save _ _ _)|destruct (Message_findById _ _)]; done.
  - case_decide; simplify_eq. cbn. rewrite reg_members_leave_all by done.
    assert (s1 <> s) by (intros ->; by apply Hd). set_solver.
  - case_decide; simplify_eq. done.
  - simplify_eq. done.
Qed.

(** Replacing a tab at some index keeps the connection of the tab at
    [t] when the replacement at [t] keeps it. *)
Lemma insert_keeps_sock (l : list Tab) (t' t : nat) x tb s :
  l !! t = Some tb -> sock tb = Some s -> (t' = t -> sock x = Some s) ->
  exists tb', <[t' := x]> l !! t = Some tb' /\ sock tb' = Some s.
Proof.
  intros Ht Hs Hx. destruct (decide (t' = t)) as [<-|Hne].
  - exists x. split; [|by apply Hx]. apply list_lookup_insert_eq. by eapply lookup_lt_Some.
  - exists tb. by rewrite list_lookup_insert_ne.
Qed.

(** The tab replaced at [t] is the tab looked up there, with its
    connection. *)
Ltac same_tab :=
  intros ->;
  match goal with
  | H1 : ?l !! ?i = Some ?a, H2 : ?l !! ?i = Some ?b |- _ =>
      assert (a = b) as -> by congruence; assumption
  end.

(** A step of the system other than the closing of tab [t] keeps that
    tab's connection and its connection's rooms. *)
Lemma sys_step_keeps_rooms y e y' t tb s r :
  sys_inv y -> sys_step y e = Some y' -> tabs y !! t = Some tb -> sock tb = Some s ->
  e <> Close t -> s ∈ reg_members r (ChatServer.reg (server y)) ->
  (exists tb', tabs y' !! t = Some tb' /\ sock tb' = Some s) /\
  s ∈ reg_members r (ChatServer.reg (server y')).
Proof.
  intros Hinv Hst Ht Hs Hne Hm. pose proof (si_server _ Hinv) as Hsi.
  destruct e as [t' ev|t' s'|t'|t'| |t' i|ev]; cbn [sys_step] in Hst.
  - obind Hst. destruct (local ev && negb (crashed t0)); [|done]. obind Hst. injection Hst as <-.
    split; [|done]. apply (insert_keeps_sock _ _ _ _ tb); [done|done|]. same_tab.
  - obind Hst. destruct (sock t0) eqn:Hs0; [done|]. obind Hst. obind Hst. injection Hst as <-.
    assert (t' <> t) by (intros ->; congruence). split.
    + apply (insert_keeps_sock _ _ _ _ tb); [done|done|done].
    + by eapply server_step_members.
  - obind Hst. obind Hst. obind Hst. obind Hst. injection Hst as <-.
    assert (t' <> t) by (intros ->; by apply Hne). split.
    + apply (insert_keeps_sock _ _ _ _ tb); [done|done|done].
    + eapply server_step_members; [done|done| |done]. intros [= ->].
      apply H. by apply (si_unique _ Hinv t' t t0 tb s).
  - obind Hst. obind Hst. obind Hst. destruct (packet s0 e) as [pe|] eqn:Hp.
    + obind Hst. injection Hst as <-. split.
      * apply (insert_keeps_sock _ _ _ _ tb); [done|done|]. same_tab.
      * eapply server_step_members; [done|done| |done].
        destruct e; cbn in Hp; simplify_eq; discriminate.
    + injection Hst as <-. split; [|done].
      apply (insert_keeps_sock _ _ _ _ tb); [done|done|]. same_tab.
  - destruct (ChatServer.outbox (server y)) as [|d ds]; [done|]. injection Hst as <-.
    split; [|done]. cbn [tabs].
    destruct (list_find _ (tabs y)) as [[t0 tb0]|] eqn:Hf; [|by exists tb].
    apply list_find_Some in Hf as (Hf & _ & _).
    apply (insert_keeps_sock _ _ _ _ tb); [done|done|]. intros ->.
    rewrite (proj1 (deliver_to_fields d tb0)). congruence.
  - obind Hst. obind Hst. destruct p as [f p1]. destruct f as [r'| | |]; try done.
    destruct (ChatServer.get_messages r' (server y)).
    + obind Hst. injection Hst as <-. split; [|done].
      apply (insert_keeps_sock _ _ _ _ tb); [done|done|]. intros ->.
      rewrite (proj1 (page_event_fields _ _ _ E1)). congruence.
    + injection Hst as <-. split; [|done].
      apply (insert_keeps_sock _ _ _ _ tb); [done|done|]. same_tab.
  - destruct (internal ev) eqn:Hi; [|done]. obind Hst. injection Hst as <-.
    split; [by exists tb|]. eapply server_step_members; [done|done| |done].
    intros ->. discriminate.
Qed.

(** C9: in every reachable state of the system, a message typed on a
    mounted, connected page reaches, after the page's [Submit], the
    server reading the packet, the [save] and the [findById] completing
    and the outbox being delivered, every tab whose page listens to the
    room and whose socket joined it, exactly once, and no other tab; the
    message carries the room, the text and the sender's display name
    (the example scenario of the specification's section 8).  The
    hypotheses are that the database is up, the sender's id is an
    ObjectId (or absent), the new message's id is fresh, the page has no
    unsent packet and the outbox is empty. *)
Theorem chat_end_to_end y a ta sa u :
  sys_reachable y -> tabs y !! a = Some ta -> crashed ta = false -> sock ta = Some sa ->
  ChatClient.user (page ta) = Some u -> ChatClient.connected (page ta) = true ->
  js_trim (ChatClient.input (page ta)) <> "" -> sent ta = length (ChatClient.emitted (page ta)) ->
  (forall x, user_id u = Some x -> ObjectId.cast x <> None) ->
  db_up (ChatServer.db (server y)) = true -> ChatServer.outbox (server y) = [] ->
  (forall msg, msg ∈ messages (ChatServer.db (server y)) -> m_id msg <> ChatServer.next_oid (server y)) ->
  exists y' m,
    sys_run y ([Local a ChatClient.Submit; Forward a;
                Internal (ChatServer.Resume (length (ChatServer.tasks (server y))));
                Internal (ChatServer.Resume (length (ChatServer.tasks (server y))))] ++
               replicate (length (ChatServer.recipients (Some (ChatClient.room (page ta))) (server y)))
                 Deliver) = Some y' /\
    ChatClient.mj_room m = Some (ChatClient.room (page ta)) /\
    ChatClient.mj_content m = Some (ChatClient.input (page ta)) /\
    ChatClient.mj_sender m =
      ChatClient.sender_json <$> ((user_id u ≫= ObjectId.cast) ≫= sender_info (ChatServer.db (server y))) /\
    forall b tb, tabs y !! b = Some tb ->
      exists tb', tabs y' !! b = Some tb' /\
        ChatClient.messages (page tb') = ChatClient.messages (page tb) ++
          (if listens (ChatClient.room (page ta)) (server y) tb then [m] else []).
Proof.
  intros Hr Ha Hc Hs Hu Hconn Ht Hsent Hcast Hup Hout Hfresh.
  pose proof (sys_reachable_inv _ Hr) as Hinv.
  destruct (submit_forward _ _ _ _ _ Hinv Ha Hc Hs Hu Hconn Ht Hsent)
    as (ta' & Hrun1 & Hs' & Hc' & Hm' & Hl').
  destruct (save_then_emit (server y) (<[a := ta']> (tabs y))
              (payload {| ChatClient.sd_room := ChatClient.room (page ta); ChatClient.sd_sender := user_id u;
                          ChatClient.sd_content := ChatClient.input (page ta) |})
              (ChatClient.room (page ta)) eq_refl
              (payload_valid _ _ Hu Hcast Ht) Hup Hfresh) as (srv3 & Hrun2 & _ & _ & Hout3).
  rewrite Hout in Hout3. cbn [app] in Hout3.
  assert (Hrun12 : sys_run y ([Local a ChatClient.Submit; Forward a] ++
             [Internal (ChatServer.Resume (length (ChatServer.tasks (server y))));
              Internal (ChatServer.Resume (length (ChatServer.tasks (server y))))]) =
             Some {| server := srv3; tabs := <[a := ta']> (tabs y) |})
    by (rewrite sys_run_app, Hrun1; exact Hrun2).
  pose proof (sys_reachable_inv _ (sys_run_reachable _ _ _ Hr Hrun12)) as Hinv3.
  pose proof (deliver_outbox _ _ (si_unique _ Hinv3) Hout3) as Hrun3.
  rewrite length_map in Hrun3. cbn [app] in Hrun12.
  eexists _, (ChatClient.msg_json (populate (ChatServer.db (server y))
    (new_Message (ChatServer.next_oid (server y)) (ChatServer.now (server y))
       (payload {| ChatClient.sd_room := ChatClient.room (page ta); ChatClient.sd_sender := user_id u;
                   ChatClient.sd_content := ChatClient.input (page ta) |})))).
  split; [rewrite sys_run_app, Hrun12; exact Hrun3|].
  split_and!; [cbn; reflexivity|reflexivity|reflexivity|].
  intros b tb Hb. cbn [tabs]. rewrite list_lookup_fmap.
  destruct (decide (b = a)) as [->|Hne].
  - rewrite Ha in Hb. injection Hb as <-.
    rewrite list_lookup_insert_eq by (eapply lookup_lt_Some; eauto). eexists. split; [reflexivity|].
    rewrite (deliver_once_messages (server y)) by (apply Hinv || reflexivity).
    unfold listens. by rewrite Hm', Hs', Hc', Hl', Hc.
  - rewrite list_lookup_insert_ne, Hb by done. eexists. split; [reflexivity|].
    apply deliver_once_messages; [apply Hinv|reflexivity].
Qed.

(** C10: in every reachable state of the system, every message a chat
    page shows is a message the database stores, as the server
    populates it: the history route and [receive_message] deliver
    nothing else, whatever the interleaving of the pages, the sockets
    and the server's [await]s. *)
Theorem pages_show_stored y t tb m :
  sys_reachable y -> tabs y !! t = Some tb -> m ∈ ChatClient.messages (page tb) ->
  exists msg, msg ∈ messages (ChatServer.db (server y)) /\
    m = ChatClient.msg_json (populate (ChatServer.db (server y)) msg).
Proof.
  intros Hr Ht Hm. destruct (sys_reachable_inv _ Hr) as [_ _ Htabs _].
  destruct (Forall_lookup_1 _ _ _ _ Htabs Ht) as [_ Hs].
  destruct (proj1 (Forall_forall _ _) Hs m Hm) as (pm & (msg & Hin & ->) & ->). by exists msg.
Qed.

(** C12: the page never leaves a room (lines 70-113 only emit
    [join_room]) and the server's [join_room] only adds the socket to a
    room: once a tab's connection is in a room, it stays in it however
    the user switches rooms and whatever else happens, until that tab's
    connection drops.  The specification has the caller leave its prior
    room first; here a socket collects every room it has shown, and
    only the page's [message.room] filter hides their messages. *)
Theorem joined_rooms_kept y evs y' t tb s r :
  sys_reachable y -> tabs y !! t = Some tb -> sock tb = Some s ->
  s ∈ reg_members r (ChatServer.reg (server y)) -> Close t ∉ evs ->
  sys_run y evs = Some y' -> s ∈ reg_members r (ChatServer.reg (server y')).
Proof.
  revert y tb. induction evs as [|e evs IH]; intros y tb Hr Ht Hs Hm Hc Hrun; cbn in Hrun.
  - by simplify_eq.
  - destruct (sys_step y e) as [y1|] eqn:Hst; [|done].
    apply not_elem_of_cons in Hc as [Hne Hc].
    destruct (sys_step_keeps_rooms y e y1 t tb s r) as [(tb1 & Ht1 & Hs1) Hm1];
      [by apply sys_reachable_inv|done|done|done|done|done|].
    apply (IH y1 tb1); [by econstructor|done|done|done|done|done].
Qed.

(** C11: on a reconnection the page joins its room again but does not
    fetch its history again (lines 75-78), while the specification
    (section 4.3) makes the client responsible for re-fetching it.  In
    every state, when a tab's socket opens again the tab holds the new
    socket, queues [join_room] for the room it listens to, starts no
    request, and shows exactly the messages it showed before: what the
    room received while the tab was disconnected is not shown. *)
Theorem reconnect_misses_message (y : Sys) t tb s y' :
  tabs y !! t = Some tb -> crashed tb = false -> sys_step y (Open t s) = Some y' ->
  exists tb', tabs y' !! t = Some tb' /\ sock tb' = Some s /\
    ChatClient.messages (page tb') = ChatClient.messages (page tb) /\
    ChatClient.fetches (page tb') = ChatClient.fetches (page tb) /\
    ChatClient.emitted (page tb') = ChatClient.emitted (page tb) ++
      (match ChatClient.listener (page tb) with Some r => [ChatClient.EJoin r] | None => [] end).
Proof.
  intros Htb Hc Hstep. cbn [sys_step] in Hstep. rewrite Htb in Hstep. cbn [mbind option_bind] in Hstep.
  destruct (sock tb) eqn:Hs; [discriminate|].
  destruct (ChatServer.step _ _) as [srv|]; cbn [mbind option_bind] in Hstep; [|discriminate].
  unfold page_event in Hstep. rewrite Hc in Hstep. cbn [ChatClient.step mbind option_bind] in Hstep.
  injection Hstep as <-. eexists. split; [cbn [tabs]; apply list_lookup_insert_eq; by eapply lookup_lt_Some|].
  destruct (ChatClient.listener (page tb)); rewrite ?app_nil_r; split_and!; reflexivity.
Qed.

End System.
(** ** Two tabs on socket.io's adapter *)

Definition ravi_client : ClientUser := {| cu_id := Some (to_hex 2%N); cu__id := None |}.

(** Asha and Ravi open the chat page, their sockets connect, the pages
    join "General", and Asha types a message. *)
Definition chat_evs : list SysEvent :=
  [Local 0 (ChatClient.Mount (Some ChatClient.asha_client)); Local 1 (ChatClient.Mount (Some ravi_client));
   Open 0 "sa"; Open 1 "sb"; Local 0 ChatClient.RunEffect; Local 1 ChatClient.RunEffect;
   Forward 0; Forward 1; Local 0 (ChatClient.TypeInput "hello")].

Definition chat_init : Sys (R := Adapter) := sys_init demo_db 0%Z 2.

Definition chat_y : Sys (R := Adapter) := default chat_init (sys_run chat_init chat_evs).

Definition chat_ta : Tab := default new_tab (tabs chat_y !! 0).

Lemma chat_y_reachable : sys_reachable chat_y.
Proof.
  apply (sys_run_reachable chat_init chat_evs); [by constructor|reflexivity].
Qed.

Lemma chat_end_to_end_witness :
  exists y' m,
    sys_run chat_y ([Local 0 ChatClient.Submit; Forward 0;
                     Internal (ChatServer.Resume (length (ChatServer.tasks (server chat_y))));
                     Internal (ChatServer.Resume (length (ChatServer.tasks (server chat_y))))] ++
                    replicate (length (ChatServer.recipients (Some (ChatClient.room (page chat_ta)))
                                         (server chat_y))) Deliver) = Some y' /\
    ChatClient.mj_room m = Some (ChatClient.room (page chat_ta)) /\
    ChatClient.mj_content m = Some (ChatClient.input (page chat_ta)) /\
    ChatClient.mj_sender m =
      ChatClient.sender_json <$> ((user_id ChatClient.asha_client ≫= ObjectId.cast)
                                    ≫= sender_info (ChatServer.db (server chat_y))) /\
    forall b tb, tabs chat_y !! b = Some tb ->
      exists tb', tabs y' !! b = Some tb' /\
        ChatClient.messages (page tb') = ChatClient.messages (page tb) ++
          (if listens (ChatClient.room (page chat_ta)) (server chat_y) tb then [m] else []).
Proof.
  apply (chat_end_to_end chat_y 0 chat_ta "sa" ChatClient.asha_client);
    first [exact chat_y_reachable | reflexivity | vm_compute; discriminate | idtac].
  - intros x Hx. vm_compute in Hx. injection Hx as <-. vm_compute. discriminate.
  - intros msg Hm. vm_compute in Hm. by apply not_elem_of_nil in Hm.
Defined.

(** Asha's message delivered to both pages. *)
Definition chat_after : Sys (R := Adapter) :=
  default chat_y (sys_run chat_y [Local 0 ChatClient.Submit; Forward 0;
                                  Internal (ChatServer.Resume 0); Internal (ChatServer.Resume 0);
                                  Deliver; Deliver]).

Lemma pages_show_stored_witness :
  exists msg, msg ∈ messages (ChatServer.db (server chat_after)) /\
    default ChatClient.general_hello
      (head (ChatClient.messages (page (default new_tab (tabs chat_after !! 1))))) =
    ChatClient.msg_json (populate (ChatServer.db (server chat_after)) msg).
Proof.
  apply (pages_show_stored chat_after 1 (default new_tab (tabs chat_after !! 1)));
    [apply (sys_run_reachable chat_y [Local 0 ChatClient.Submit; Forward 0;
       Internal (ChatServer.Resume 0); Internal (ChatServer.Resume 0); Deliver; Deliver]);
       [exact chat_y_reachable|vm_compute; reflexivity]
    |vm_compute; reflexivity|vm_compute; left].
Defined.

(** Both history requests are answered; Ravi's connection drops; Asha
    sends her message, which the server stores and delivers to her;
    Ravi's socket reconnects with a new id and its page re-joins
    "General". *)
Definition reconnect_evs : list SysEvent :=
  [Answer 0 2; Answer 1 2; Close 1; Local 0 ChatClient.Submit; Forward 0;
   Internal (ChatServer.Resume 0); Internal (ChatServer.Resume 0); Deliver; Open 1 "sb2"; Forward 1].

(** The run above, to the end: a message sent to the room while a tab
    was disconnected is stored and shown on the other tab, but the
    reconnected tab, back in the room with no history request pending,
    never shows it. *)
Example reconnect_run_example :
  match sys_run chat_y reconnect_evs with
  | Some y =>
      let tb0 := default new_tab (tabs y !! 0) in
      let tb1 := default new_tab (tabs y !! 1) in
      ChatClient.connected (page tb1) = true /\
      ChatClient.listener (page tb1) = Some "General" /\
      bool_decide ("sb2" ∈ reg_members "General" (ChatServer.reg (server y))) = true /\
      forallb (fun f => if f is ChatClient.FHistory _ then false else true)
        (ChatClient.fetches (page tb1)) = true /\
      ChatClient.messages (page tb1) = [] /\
      map ChatClient.mj_content (ChatClient.messages (page tb0)) = [Some "hello"] /\
      match ChatServer.get_messages "General" (server y) with
      | Ok l => map pm_content l
      | Err _ => []
      end = [Some "hello"]
  | None => False
  end.
Proof. vm_compute. split_and!; reflexivity. Qed.

(** The state just before Ravi's socket opens again, and just after. *)
Definition before_reconnect : Sys (R := Adapter) := default chat_y (sys_run chat_y (take 8 reconnect_evs)).
Definition reconnected : Sys (R := Adapter) := default before_reconnect (sys_step before_reconnect (Open 1 "sb2")).

Lemma reconnect_misses_message_witness :
  exists tb', tabs reconnected !! 1 = Some tb' /\ sock tb' = Some "sb2" /\
    ChatClient.messages (page tb') = ChatClient.messages (page (default new_tab (tabs before_reconnect !! 1))) /\
    ChatClient.fetches (page tb') = ChatClient.fetches (page (default new_tab (tabs before_reconnect !! 1))) /\
    ChatClient.emitted (page tb') = ChatClient.emitted (page (default new_tab (tabs before_reconnect !! 1))) ++
      (match ChatClient.listener (page (default new_tab (tabs before_reconnect !! 1))) with
       | Some r => [ChatClient.EJoin r] | None => [] end).
Proof.
  apply (reconnect_misses_message before_reconnect 1 (default new_tab (tabs before_reconnect !! 1)) "sb2" reconnected);
    vm_compute; reflexivity.
Defined.

(** Asha switches from "General" to "Study Room 1": the page's effect
    runs again and its [join_room] reaches the server. *)
Definition switch_evs : list SysEvent :=
  [Local 0 (ChatClient.ClickChannel "Study Room 1"); Local 0 ChatClient.RunEffect; Forward 0].

Definition switched : Sys (R := Adapter) := default chat_y (sys_run chat_y switch_evs).

Lemma joined_rooms_kept_witness :
  ChatClient.room (page (default new_tab (tabs switched !! 0))) = "Study Room 1" /\
  "sa" ∈ reg_members "Study Room 1" (ChatServer.reg (server switched)) /\
  "sa" ∈ reg_members "General" (ChatServer.reg (server switched)).
Proof.
  split_and!; [vm_compute; reflexivity|by_decide|].
  apply (joined_rooms_kept chat_y switch_evs switched 0 chat_ta "sa" "General");
    [exact chat_y_reachable|vm_compute; reflexivity|vm_compute; reflexivity
    |by_decide
    |cbv [switch_evs]; intros Hin; repeat apply elem_of_cons in Hin as [Hin|Hin]; try discriminate;
       by apply not_elem_of_nil in Hin
    |vm_compute; reflexivity].
Defined.

End ChatSystem.
