(* ===== verification/ChatFriends.v ===== *)
(** * The chat page's REST requests answered by the routes

    [ChatSystem.v] composes the chat page with the socket.io server; this
    file composes the same page ([ChatClient.v]) with the REST routes it
    calls ([Follow.v] and the history route of [Store.v]) on one
    database.  The page's [fetchFriends], [fetchRequests],
    [fetchHistory] and [handleAccept] (Chat.tsx lines 35-68) start
    requests; [serve] runs a request's route to completion on the
    database and hands the parsed JSON to the page, and [fstep] takes
    the page's own events and these answers in any order.  A request is answered once, also after the page
    has been unmounted, so that the route's writes still happen.

    What the page does with an answer follows the JSX: a history that is
    not an array makes [messages.map] throw, and a request whose sender
    populated to [null] makes [req.sender.displayName] throw; both
    unmount the page ([fcrashed]).  A friends or requests answer that is
    not an array (a 500) leaves the error object in the state; the page
    then renders its empty lists in channel mode and throws on the p2p
    title, which this model does not follow: such a step is undefined.

    The theorems: accepting a request and the two refreshes it starts
    leave the page showing exactly the routes' pending requests and
    friends of the database the accept wrote ([accept_refreshes_lists]);
    a refused accept leaves the page as it was, with no message
    ([accept_refused_silent]); and under any interleaving of clicks and
    answers the follow graph keeps its invariant ([frun_graph_ok]). *)

From S2P Require Import Prelude JsString ObjectId Store RoomId Async Http Mongo Follow ChatClient.
From coqutil Require Import Datatypes.RecordSetters.
Import DoubleBraceUpdate.

Open Scope stdpp_scope.

Module ChatFriends.
Import ObjectId Store RoomId Http Mongo Follow ChatClient.

(** ** JSON the page reads *)

(** A friend card of [/api/users/friends/:userId]: [f._id] and
    [f.displayName] (lines 186-199). *)
Definition friend_json (c : FriendCard) : FriendJson :=
  {| fj_id := to_hex (fc_id c); fj_displayName := fc_displayName c |}.

(** A request of [/api/follow/requests/:userId]: [req._id] and
    [req.sender.displayName] (lines 209-218), which throws on a sender
    that populated to [null]. *)
Definition request_json (v : RequestView) : option RequestJson :=
  sc ← rv_sender v; Some {| rj_id := to_hex (rv_id v); rj_senderName := sc_displayName sc |}.

(** [${uid}] of an [undefined] id. *)
Definition uid_param (uid : option string) : string := default "undefined" uid.

(** ** The composed state *)

Record FState := {
  fpage : ClientState;
  fdb : DB;
  fcrashed : bool;
}.

(** The page events that are not answers of the routes or socket
    events. *)
Definition page_local (ev : ClientEvent) : bool :=
  match ev with
  | SocketConnect | SocketDisconnect | Receive _ | HistoryArrives _ _
  | FriendsArrive _ _ | RequestsArrive _ _ | AcceptArrives _ _ => false
  | _ => true
  end.

(** What the page gets from an answer: the event its handler runs, a
    throw that unmounts it, or an answer this model does not follow. *)
Inductive Outcome := Deliver (ev : ClientEvent) | Throws | Untracked.

(** The route a request of the page reaches, run to completion, and what
    the page gets from its answer. *)
Definition serve (i : nat) (f : Fetch) (db : DB) : Outcome * DB :=
  match f with
  | FHistory r =>
      match Message_find_room r db with
      | Ok l => (Deliver (HistoryArrives i (HistoryOk (map msg_json l))), db)
      | Err _ => (Throws, db)
      end
  | FFriends uid =>
      let '(res, db') := Async.run exec (get_friends (uid_param uid)) db in
      match body res with
      | BFriends cs => (Deliver (FriendsArrive i (map friend_json cs)), db')
      | _ => (Untracked, db')
      end
  | FRequests uid =>
      let '(res, db') := Async.run exec (incoming_requests (uid_param uid)) db in
      match body res with
      | BRequests rs =>
          match mapM request_json rs with
          | Some js => (Deliver (RequestsArrive i js), db')
          | None => (Throws, db')
          end
      | _ => (Untracked, db')
      end
  | FAccept rid =>
      let '(res, db') := Async.run exec (accept_request rid) db in
      (** [res.ok] *)
      (Deliver (AcceptArrives i (bool_decide (200 <= status res < 300)%Z)), db')
  end.

Inductive FEvent :=
| FLocal (ev : ClientEvent)
| FAnswer (i : nat).

Definition fstep (st : FState) (e : FEvent) : option FState :=
  match e with
  | FLocal ev =>
      if page_local ev && negb (fcrashed st) then
        p ← ChatClient.step (fpage st) ev; Some {| fpage := p; fdb := fdb st; fcrashed := false |}
      else None
  | FAnswer i =>
      '(f, p1) ← take_fetch i (fpage st);
      let '(o, db') := serve i f (fdb st) in
      if fcrashed st then Some {| fpage := p1; fdb := db'; fcrashed := true |}
      else match o with
           | Deliver ev =>
               p ← ChatClient.step (fpage st) ev; Some {| fpage := p; fdb := db'; fcrashed := false |}
           | Throws => Some {| fpage := p1; fdb := db'; fcrashed := true |}
           | Untracked => None
           end
  end.

Fixpoint frun (st : FState) (evs : list FEvent) : option FState :=
  match evs with
  | [] => Some st
  | e :: evs' => st' ← fstep st e; frun st' evs'
  end.

(** ** Lemmas *)

(** The page with no request in flight starts [f] and gets its answer
    back. *)
Lemma take_start_nil f p : fetches p = [] -> take_fetch 0 (start f p) = Some (f, p).
Proof. destruct p; cbn. by intros ->. Qed.

Lemma take_start2_nil f g p :
  fetches p = [] -> take_fetch 0 (start g (start f p)) = Some (f, start g p).
Proof. destruct p; cbn. by intros ->. Qed.

Lemma fetches_toast t p : fetches (toast t p) = fetches p.
Proof. done. Qed.

Lemma find_user_add_friend i x y db :
  find_user i (add_friend x y db) = add_friend_to x y <$> find_user i db.
Proof.
  unfold find_user, add_friend. cbn [users set_users].
  induction (users db) as [|u l IH]; cbn; [done|]. rewrite u_id_add_friend_to.
  by case_bool_decide.
Qed.

Lemma find_id_unique fr l :
  NoDup (map fr_id l) -> fr ∈ l -> List.find (fun x => bool_decide (fr_id x = fr_id fr)) l = Some fr.
Proof.
  induction l as [|x l IH]; cbn; [by intros _ ?%not_elem_of_nil|].
  intros [Hx Hnd]%NoDup_cons [->|Hin]%elem_of_cons; [by rewrite bool_decide_true|].
  rewrite bool_decide_false; [by apply IH|]. intros Heq. apply Hx. rewrite Heq.
  by apply list_elem_of_fmap_2.
Qed.

(** The pending requests to [a], as [incoming_requests] finds them. *)
Definition pending_to (a : ObjectId) (db : DB) : list FollowRequest :=
  List.filter (fun fr => bool_decide (fr_receiver fr = a /\ fr_status fr = pending)) (followRequests db).

Lemma run_incoming uid a db :
  db_up db = true -> ObjectId.cast uid = Some a ->
  Async.run exec (incoming_requests uid) db =
    ({| status := 200; body := BRequests (map (request_view db) (pending_to a db)) |}, db).
Proof.
  intros Hup Hc. cbn [incoming_requests Async.run]. rewrite exec_up_eq by done.
  cbn [exec_up]. by rewrite (cast_path_ok _ _ _ Hc).
Qed.

Lemma run_friends uid a u db :
  db_up db = true -> ObjectId.cast uid = Some a -> find_user a db = Some u ->
  Async.run exec (get_friends uid) db = ({| status := 200; body := BFriends (friend_cards db u) |}, db).
Proof.
  intros Hup Hc Hu. cbn [get_friends Async.run]. rewrite exec_up_eq by done.
  cbn [exec_up]. rewrite (cast_path_ok _ _ _ Hc), Hu. done.
Qed.

(** Steps of the composition. *)
Lemma frun_cons st e st' evs : fstep st e = Some st' -> frun st (e :: evs) = frun st' evs.
Proof. cbn. by intros ->. Qed.

Lemma fstep_local st ev p' :
  page_local ev = true -> fcrashed st = false -> ChatClient.step (fpage st) ev = Some p' ->
  fstep st (FLocal ev) = Some {| fpage := p'; fdb := fdb st; fcrashed := false |}.
Proof. intros Hl Hc Hs. cbn. rewrite Hl, Hc, Hs. done. Qed.

Lemma fstep_answer st i f p1 ev db' p' :
  fcrashed st = false -> take_fetch i (fpage st) = Some (f, p1) ->
  serve i f (fdb st) = (Deliver ev, db') -> ChatClient.step (fpage st) ev = Some p' ->
  fstep st (FAnswer i) = Some {| fpage := p'; fdb := db'; fcrashed := false |}.
Proof. intros Hc Ht Hs Hp. cbn. rewrite Ht. cbn. rewrite Hs, Hc. cbn. by rewrite Hp. Qed.

Lemma serve_requests i uid a db js :
  db_up db = true -> ObjectId.cast uid = Some a ->
  mapM request_json (map (request_view db) (pending_to a db)) = Some js ->
  serve i (FRequests (Some uid)) db = (Deliver (RequestsArrive i js), db).
Proof. intros Hup Hc Hj. cbn [serve uid_param default]. rewrite (run_incoming _ a) by done. cbn. by rewrite Hj. Qed.

Lemma serve_friends i uid a u db :
  db_up db = true -> ObjectId.cast uid = Some a -> find_user a db = Some u ->
  serve i (FFriends (Some uid)) db = (Deliver (FriendsArrive i (map friend_json (friend_cards db u))), db).
Proof. intros Hup Hc Hu. cbn [serve uid_param default]. by rewrite (run_friends _ a u). Qed.

(** Every pending request to [a] shows when its sender is a user. *)
Lemma requests_json_some a db :
  (forall fr, fr ∈ pending_to a db -> is_Some (find_user (fr_sender fr) db)) ->
  is_Some (mapM request_json (map (request_view db) (pending_to a db))).
Proof.
  intros Hs. apply mapM_is_Some_2, Forall_fmap, Forall_forall. intros fr Hfr.
  destruct (Hs fr Hfr) as [v Hv]. unfold compose, request_json, request_view, sender_card. cbn.
  by rewrite Hv.
Qed.

(** What [accept_request] writes: the request accepted, each user a
    friend of the other. *)
Definition accepted_db (fr : FollowRequest) (db : DB) : DB :=
  add_friend (fr_receiver fr) (fr_sender fr)
    (add_friend (fr_sender fr) (fr_receiver fr)
       (set_requests (upsert fr_id (set_status accepted fr) (followRequests db)) db)).

Lemma find_user_accepted i fr db :
  find_user i (accepted_db fr db) =
    add_friend_to (fr_receiver fr) (fr_sender fr) <$>
      (add_friend_to (fr_sender fr) (fr_receiver fr) <$> find_user i db).
Proof. unfold accepted_db. by rewrite !find_user_add_friend. Qed.

Lemma pending_to_accepted a fr db fr' :
  fr' ∈ pending_to a (accepted_db fr db) -> fr' ∈ pending_to a db.
Proof.
  unfold pending_to, accepted_db. cbn [followRequests add_friend set_users set_requests].
  rewrite !elem_of_List_filter, elem_of_upsert. intros [[->|[Hin _]] Hp]; [|done].
  exfalso. apply bool_decide_eq_true in Hp as [_ Hp]. discriminate Hp.
Qed.

Lemma take_single i f p : fetches p = [f] -> i = 0 -> take_fetch i p = Some (f, p{{fetches := nil}}).
Proof. intros Hf ->. unfold take_fetch. by rewrite Hf. Qed.

Lemma serve_accept i fr db :
  db_up db = true -> (fr_id fr < oid_bound)%N -> req_wf db -> fr ∈ followRequests db ->
  serve i (FAccept (to_hex (fr_id fr))) db = (Deliver (AcceptArrives i true), accepted_db fr db) /\
  (Async.run exec (accept_request (to_hex (fr_id fr))) db).2 = accepted_db fr db.
Proof.
  intros Hup Hb Hwf Hin. cbn [serve].
  rewrite (run_accept_request _ (fr_id fr) fr);
    [done|done|by apply cast_to_hex|apply find_id_unique; [apply Hwf|done]].
Qed.







(** ** Properties *)

(** The events of a click on Accept and the answers of the accept, of
    the requests and of the friends requests it starts. *)
Definition accept_evs (rid : string) : list FEvent :=
  [FLocal (ClickAccept rid); FAnswer 0; FAnswer 0; FAnswer 0].

(** C31: accepting a follow request on the chat page, then the page's two
    refreshes answered by the routes: the page toasts "Request
    accepted!", the database is what [POST /api/follow/accept] leaves,
    and the page shows exactly the pending requests to its user and the
    friends that database then holds; the accepted request is no longer
    pending and its sender is among the user's friends.  The page's
    lists are the routes' answers, whatever it showed before. *)
Theorem accept_refreshes_lists p db fr a u cu :
  user p = Some cu -> user_id cu = Some (to_hex a) -> (a < oid_bound)%N -> (fr_id fr < oid_bound)%N ->
  fetches p = [] -> db_up db = true -> req_wf db -> fr ∈ followRequests db -> fr_receiver fr = a ->
  find_user a db = Some u ->
  (forall fr', fr' ∈ pending_to a db -> is_Some (find_user (fr_sender fr') db)) ->
  exists st' js u1,
    frun {| fpage := p; fdb := db; fcrashed := false |} (accept_evs (to_hex (fr_id fr))) = Some st' /\
    fdb st' = (Async.run exec (accept_request (to_hex (fr_id fr))) db).2 /\ fcrashed st' = false /\
    toasts (fpage st') = toasts p ++ ["Request accepted!"] /\
    mapM request_json (map (request_view (fdb st')) (pending_to a (fdb st'))) = Some js /\
    requests (fpage st') = js /\
    (forall fr', fr' ∈ followRequests (fdb st') -> fr_id fr' = fr_id fr -> fr_status fr' = accepted) /\
    find_user a (fdb st') = Some u1 /\ friends (fpage st') = map friend_json (friend_cards (fdb st') u1) /\
    fr_sender fr ∈ Store.friends u1.
Proof.
  intros Hu Hcu Ha Hb Hf Hup Hwf Hin Hr Hfu Hsend.
  destruct (serve_accept 0 fr db Hup Hb Hwf Hin) as [Hserve Hdb]. rewrite Hdb.
  set (db1 := accepted_db fr db) in *.
  assert (Hup1 : db_up db1 = true) by done.
  assert (Hc : ObjectId.cast (to_hex a) = Some a) by (by apply cast_to_hex).
  destruct (requests_json_some a db1) as [js Hjs].
  { intros fr' Hfr'. unfold db1. rewrite find_user_accepted.
    destruct (Hsend fr' (pending_to_accepted _ _ _ _ Hfr')) as [v ->]. by eexists. }
  set (u1 := add_friend_to (fr_receiver fr) (fr_sender fr) (add_friend_to (fr_sender fr) (fr_receiver fr) u)).
  assert (Hfu1 : find_user a db1 = Some u1) by (unfold db1; by rewrite find_user_accepted, Hfu).
  set (q := toast "Request accepted!" p).
  set (uid := user p ≫= user_id).
  assert (Huid : uid = Some (to_hex a)) by (unfold uid; by rewrite Hu).
  set (p2 := start (FFriends uid) (start (FRequests uid) q)).
  set (p3 := (start (FFriends uid) q){{requests := js}}).
  exists {| fpage := (p3{{fetches := nil}}){{friends := map friend_json (friend_cards db1 u1)}};
            fdb := db1; fcrashed := false |}, js, u1.
  split_and!.
  - unfold accept_evs.
    rewrite (frun_cons _ _ {| fpage := start (FAccept (to_hex (fr_id fr))) p; fdb := db; fcrashed := false |})
      by (by apply fstep_local).
    rewrite (frun_cons _ _ {| fpage := p2; fdb := db1; fcrashed := false |}).
    2:{ eapply (fstep_answer _ 0 _ p); [reflexivity|by apply take_start_nil|exact Hserve|].
        cbn [fpage ChatClient.step]. by rewrite take_start_nil. }
    rewrite (frun_cons _ _ {| fpage := p3; fdb := db1; fcrashed := false |}).
    2:{ eapply (fstep_answer _ 0 _ (start (FFriends uid) q)); [reflexivity|by apply take_start2_nil| |].
        - cbn [fpage fdb]. rewrite Huid. by apply (serve_requests _ _ a).
        - cbn [fpage ChatClient.step]. unfold p2. by rewrite take_start2_nil. }
    rewrite (frun_cons _ _ {| fpage := (p3{{fetches := nil}}){{friends := map friend_json (friend_cards db1 u1)}};
                              fdb := db1; fcrashed := false |}); [done|].
    eapply (fstep_answer _ 0 _ (p3{{fetches := nil}})); [reflexivity|apply (take_single 0 (FFriends uid)); [|done]| |].
    + cbn [fpage]. unfold p3, q. change (fetches p ++ [FFriends uid] = [FFriends uid]). by rewrite Hf.
    + cbn [fpage fdb]. rewrite Huid. by apply (serve_friends _ _ a).
    + cbn [fpage ChatClient.step]. rewrite (take_single 0 (FFriends uid)); [done| |done].
      unfold p3, q. change (fetches p ++ [FFriends uid] = [FFriends uid]). by rewrite Hf.
  - done.
  - done.
  - done.
  - exact Hjs.
  - done.
  - intros fr' Hfr' Hid. cbn [db1 accepted_db followRequests add_friend set_users set_requests] in Hfr'.
    apply elem_of_upsert in Hfr' as [->|[_ Hne]]; [done|]. by apply Hne in Hid.
  - exact Hfu1.
  - done.
  - unfold u1. rewrite Hr. apply find_some in Hfu as [_ Hid%bool_decide_eq_true].
    unfold add_friend_to at 1. rewrite u_id_add_friend_to, bool_decide_true by done.
    cbn [Store.friends set_friends]. unfold add_to_set. case_bool_decide; [done|].
    apply elem_of_app. right. by left.
Qed.

(** [handleAccept] only acts on [res.ok]: when the route refuses the
    accept (404 for an id that is no request, 500 for one that does not
    cast or when the database fails), the page ends exactly as it was
    before the click, with no message and the request still listed,
    whatever the route wrote before failing. *)
Theorem accept_refused_silent p db rid :
  fetches p = [] ->
  ~ (200 <= status (Async.run exec (accept_request rid) db).1 < 300)%Z ->
  frun {| fpage := p; fdb := db; fcrashed := false |} [FLocal (ClickAccept rid); FAnswer 0] =
    Some {| fpage := p; fdb := (Async.run exec (accept_request rid) db).2; fcrashed := false |}.
Proof.
  intros Hf Hst.
  rewrite (frun_cons _ _ {| fpage := start (FAccept rid) p; fdb := db; fcrashed := false |})
    by (by apply fstep_local).
  erewrite frun_cons; [done|]. eapply (fstep_answer _ 0 _ p); [reflexivity|by apply take_start_nil| |].
  - cbn [serve fdb]. destruct (Async.run exec (accept_request rid) db) as [res db'].
    cbn in Hst |- *. by rewrite bool_decide_false by done.
  - cbn [fpage ChatClient.step]. by rewrite take_start_nil.
Qed.


(** ** Examples *)

(** Ravi's chat page, mounted with no request in flight, and Asha's
    pending request to him. *)
Definition ravi_page : ClientState :=
  {| messages := []; input := ""; room := "General";
     user := Some {| cu_id := Some (to_hex 2%N); cu__id := None |}; friends := [];
     requests := []; chatType := channel; connected := false; listener := None;
     effect_pending := false; emitted := []; fetches := []; toasts := [] |}.

Lemma accept_refreshes_lists_witness :
  exists st' js u1,
    frun {| fpage := ravi_page; fdb := requested_db; fcrashed := false |}
      (accept_evs (to_hex (fr_id asha_to_ravi))) = Some st' /\
    fdb st' = (Async.run exec (accept_request (to_hex (fr_id asha_to_ravi))) requested_db).2 /\
    fcrashed st' = false /\
    toasts (fpage st') = toasts ravi_page ++ ["Request accepted!"] /\
    mapM request_json (map (request_view (fdb st')) (pending_to 2%N (fdb st'))) = Some js /\
    requests (fpage st') = js /\
    (forall fr', fr' ∈ followRequests (fdb st') -> fr_id fr' = fr_id asha_to_ravi -> fr_status fr' = accepted) /\
    find_user 2%N (fdb st') = Some u1 /\ friends (fpage st') = map friend_json (friend_cards (fdb st') u1) /\
    fr_sender asha_to_ravi ∈ Store.friends u1.
Proof.
  apply (accept_refreshes_lists ravi_page requested_db asha_to_ravi 2%N (demo_user 2%N "ravi")
           {| cu_id := Some (to_hex 2%N); cu__id := None |});
    try reflexivity; try (vm_compute; reflexivity).
  - split; by_decide.
  - by left.
  - intros fr' Hfr'. vm_compute in Hfr'. apply list_elem_of_singleton in Hfr' as ->.
    vm_compute. by eexists.
Defined.

Lemma accept_refused_silent_witness :
  frun {| fpage := ravi_page; fdb := requested_db; fcrashed := false |}
    [FLocal (ClickAccept (to_hex 99%N)); FAnswer 0] =
    Some {| fpage := ravi_page; fdb := requested_db; fcrashed := false |}.
Proof.
  replace requested_db with (Async.run exec (accept_request (to_hex 99%N)) requested_db).2 at 2
    by (vm_compute; reflexivity).
  apply accept_refused_silent; [reflexivity|]. intros [_ H]. vm_compute in H. discriminate H.
Defined.



End ChatFriends.
