(* ===== verification/Content.v ===== *)
(** * Notes, announcements, uploads and the CORS policy

    [server.js] lines 100-111 and 219-286: [multer] stores an uploaded
    file under [uploads/notes] as [Date.now() + path.extname(originalname)]
    before the route runs; [POST /api/notes/upload] saves a [Note] whose
    [fileUrl] points at it and whose [tags] are the comma-separated
    [tags] field; [GET /api/notes] lists the notes with their uploader;
    [POST /api/announcements] saves an [Announcement]; [GET
    /api/announcements] answers the ten most recent.  Lines 134-153 decide
    which origins the CORS middleware admits.

    The handlers are [Async.prog] programs over [Op]; [exec] runs an
    operation on the store and the directory of uploaded files. *)

From S2P Require Import Prelude JsString ObjectId Store Async.

Open Scope stdpp_scope.

Module Content.
Import ObjectId Store Async.

(** ** [path.extname] and the stored file name *)

(** The part of a path after its last ['/']. *)
Fixpoint basename_go (s acc : string) : string :=
  match s with
  | EmptyString => acc
  | String c s' => if ascii_dec c "/" then basename_go s' "" else basename_go s' (acc +:+ String c "")
  end.

(** The suffix from the last ['.'], if there is one. *)
Fixpoint last_dot (s : string) : option string :=
  match s with
  | EmptyString => None
  | String c s' =>
      match last_dot s' with
      | Some e => Some e
      | None => if ascii_dec c "." then Some (String c s') else None
      end
  end.

(** Node's [path.extname] on a name without trailing slash: the suffix
    from the last dot of the base name, unless that dot starts the name
    or the name is [".."]. *)
Definition extname (p : string) : string :=
  let b := basename_go p "" in
  if bool_decide (b = "..") then ""
  else match last_dot b with
       | Some e => if bool_decide (e = b) then "" else e
       | None => ""
       end.

(** [filename: (req, file, cb) => cb(null, Date.now() + path.extname(file.originalname))] *)
Definition stored_name (now : Date) (originalname : string) : string :=
  js_N_to_string (Z.to_N now) +:+ extname originalname.

(** ** The world: the store and the upload directory *)

(** A file as multer receives it. *)
Record Upload := {
  up_originalname : string;
  up_content : string;
}.

Record CWorld := {
  cdb : DB;
  (** [uploads/notes]: file names and contents, at most one per name *)
  disk : list (string * string);
}.

(** [fs.writeFile]: a file of the same name is replaced. *)
Definition write_file (name content : string) (d : list (string * string)) : list (string * string) :=
  List.filter (fun f => negb (bool_decide (f.1 = name))) d ++ [(name, content)].

Definition set_notes (ns : list Note) (db : DB) : DB :=
  {| users := users db; notes := ns; announcements := announcements db;
     messages := messages db; followRequests := followRequests db; db_up := db_up db |}.

Definition set_announcements (as_ : list Announcement) (db : DB) : DB :=
  {| users := users db; notes := notes db; announcements := as_;
     messages := messages db; followRequests := followRequests db; db_up := db_up db |}.

(** ** Documents *)

(** A reference path cast to an ObjectId; [undefined] stays absent. *)
Definition cast_ref (path : string) (v : option string) : result DbError (option ObjectId) :=
  match v with
  | None => Ok None
  | Some s => match ObjectId.cast s with Some i => Ok (Some i) | None => Err (CastError path) end
  end.

(** The text fields of the multipart form (line 224). *)
Record NoteFields := {
  nf_title : option string;
  nf_subject : option string;
  nf_tags : option string;
  nf_uploadedBy : option string;
}.

(** [new Note({ title, subject, fileUrl, uploadedBy, tags: tags ? tags.split(',') : [] })]
    (lines 234-240). *)
Definition new_Note (id : ObjectId) (now : Date) (f : NoteFields) (url : string) : result DbError Note :=
  let! up := cast_ref "uploadedBy" (nf_uploadedBy f) in
  Ok {| n_id := id; n_title := nf_title f; n_subject := nf_subject f; n_fileUrl := Some url;
        n_uploadedBy := up;
        n_tags := match nf_tags f with Some (String _ _ as t) => js_split "," t | _ => [] end;
        n_createdAt := now |}.

(** The [required] validators of [title] and [fileUrl] (lines 64, 66). *)
Definition required (path : string) (v : option string) : result DbError unit :=
  match v with None | Some EmptyString => Err (ValidationError path) | _ => Ok () end.

Definition note_valid (n : Note) : result DbError unit :=
  let! _ := required "title" (n_title n) in required "fileUrl" (n_fileUrl n).

(** The body of [POST /api/announcements] (line 266). *)
Record AnnFields := {
  af_title : option string;
  af_content : option string;
  af_postedBy : option string;
  af_type : option string;
}.

(** The [enum] of [type] and its default (line 78). *)
Definition ann_type (t : option string) : result DbError AnnouncementType :=
  match t with
  | None => Ok general
  | Some s =>
      if bool_decide (s = "hackathon") then Ok hackathon
      else if bool_decide (s = "club") then Ok club
      else if bool_decide (s = "general") then Ok general
      else Err (ValidationError "type")
  end.

(** [new Announcement({ title, content, postedBy, type })] and its
    validation (lines 75-78, 267-268). *)
Definition new_Announcement (id : ObjectId) (now : Date) (f : AnnFields) : result DbError Announcement :=
  let! by_ := cast_ref "postedBy" (af_postedBy f) in
  let! ty := ann_type (af_type f) in
  let! _ := required "title" (af_title f) in
  let! _ := required "content" (af_content f) in
  Ok {| a_id := id; a_title := af_title f; a_content := af_content f; a_postedBy := by_;
        a_type := ty; a_createdAt := now |}.

(** Populated views: [.populate('uploadedBy', 'displayName photo')] and
    [.populate('postedBy', 'displayName role')]. *)
Record NoteView := {
  nv_note : Note;
  nv_uploader : option (option string * option string);
}.

Record AnnView := {
  av_ann : Announcement;
  av_poster : option (option string * Role);
}.

Definition note_view (db : DB) (n : Note) : NoteView :=
  {| nv_note := n;
     nv_uploader := n_uploadedBy n ≫= fun i => (fun u => (displayName u, photo u)) <$> find_user i db |}.

Definition ann_view (db : DB) (a : Announcement) : AnnView :=
  {| av_ann := a;
     av_poster := a_postedBy a ≫= fun i => (fun u => (displayName u, role u)) <$> find_user i db |}.

(** [.sort({ createdAt: -1 })]: newest first, ties in insertion order. *)
Definition newer (a b : Announcement) : bool := (a_createdAt b <=? a_createdAt a)%Z.

(** [Announcement.find().populate(...).sort({ createdAt: -1 }).limit(10)] *)
Definition latest (db : DB) : list AnnView :=
  map (ann_view db) (take 10 (sort_by newer (announcements db))).

(** ** Operations and handlers *)

Inductive Op :=
(** multer's [diskStorage] writing the upload *)
| WriteFile (name content : string)
(** [note.save()] *)
| InsertNote (n : Note)
(** [Note.find().populate('uploadedBy', 'displayName photo')] *)
| FindNotes
(** [announcement.save()] *)
| InsertAnnouncement (a : Announcement)
(** [Announcement.find().populate(...).sort({ createdAt: -1 }).limit(10)] *)
| FindLatest.

Inductive Res :=
| RDone
| RNotes (l : list NoteView)
| RAnns (l : list AnnView)
| RErr (e : DbError).

Definition exec (op : Op) (w : CWorld) : Res * CWorld :=
  match op with
  | WriteFile name c => (RDone, {| cdb := cdb w; disk := write_file name c (disk w) |})
  | _ =>
      if negb (db_up (cdb w)) then (RErr Unavailable, w) else
      match op with
      | InsertNote n =>
          match note_valid n with
          | Ok _ => (RDone, {| cdb := set_notes (notes (cdb w) ++ [n]) (cdb w); disk := disk w |})
          | Err e => (RErr e, w)
          end
      | FindNotes => (RNotes (map (note_view (cdb w)) (notes (cdb w))), w)
      | InsertAnnouncement a =>
          (RDone, {| cdb := set_announcements (announcements (cdb w) ++ [a]) (cdb w); disk := disk w |})
      | FindLatest => (RAnns (latest (cdb w)), w)
      | WriteFile _ _ => (RDone, w)
      end
  end.

Inductive CBody :=
| CMsg (message : string)
| CNote (message : string) (n : Note)
| CNotes (l : list NoteView)
| CAnn (message : string) (a : Announcement)
| CAnns (l : list AnnView).

Record CResponse := {
  c_status : Z;
  c_body : CBody;
}.

Definition cmsg (code : Z) (m : string) : CResponse := {| c_status := code; c_body := CMsg m |}.

Definition Handler (A : Type) := Async.prog Op Res A.

(** [POST /api/notes/upload] (lines 222-249), multer's write first. *)
Definition upload_note (f : NoteFields) (file : option Upload) (id : ObjectId) (now : Date)
    : Handler CResponse :=
  match file with
  | None => Ret (cmsg 400 "No file uploaded")
  | Some up =>
      let name := stored_name now (up_originalname up) in
      _ <-- WriteFile name (up_content up) ;;
      match new_Note id now f ("/uploads/notes/" +:+ name) with
      | Err _ => Ret (cmsg 500 "Upload failed")
      | Ok n =>
          r <-- InsertNote n ;;
          match r with
          | RDone => Ret {| c_status := 201; c_body := CNote "Note uploaded successfully" n |}
          | _ => Ret (cmsg 500 "Upload failed")
          end
      end
  end.

(** [GET /api/notes] (lines 252-259). *)
Definition get_notes : Handler CResponse :=
  r <-- FindNotes ;;
  match r with
  | RNotes l => Ret {| c_status := 200; c_body := CNotes l |}
  | _ => Ret (cmsg 500 "Failed to fetch notes")
  end.

(** [POST /api/announcements] (lines 264-273). *)
Definition post_announcement (f : AnnFields) (id : ObjectId) (now : Date) : Handler CResponse :=
  match new_Announcement id now f with
  | Err _ => Ret (cmsg 500 "Failed to post announcement")
  | Ok a =>
      r <-- InsertAnnouncement a ;;
      match r with
      | RDone => Ret {| c_status := 201; c_body := CAnn "Announcement posted" a |}
      | _ => Ret (cmsg 500 "Failed to post announcement")
      end
  end.

(** [GET /api/announcements] (lines 276-286). *)
Definition get_announcements : Handler CResponse :=
  r <-- FindLatest ;;
  match r with
  | RAnns l => Ret {| c_status := 200; c_body := CAnns l |}
  | _ => Ret (cmsg 500 "Failed to fetch announcements")
  end.

(** ** The CORS policy (lines 135-153) *)

(** [allowedOrigins]: [CLIENT_URL] and three development servers, with
    [.filter(Boolean)] dropping an unset or empty [CLIENT_URL]. *)
Definition allowed_origins (client_url : option string) : list string :=
  omap (fun o => match o with Some (String _ _ as s) => Some s | _ => None end)
       [client_url; Some "http://localhost:8080"; Some "http://localhost:5173";
        Some "http://localhost:3000"].

(** The [origin] callback: [Ok true] admits the request, [Err] is the
    error passed to the callback. *)
Definition cors_origin (client_url node_env : option string) (origin : option string)
    : result string bool :=
  match origin with
  | None | Some EmptyString => Ok true
  | Some o =>
      if bool_decide (o ∈ allowed_origins client_url \/ node_env = Some "development")
      then Ok true else Err "Not allowed by CORS"
  end.

(** The session cookie (lines 162-165): [secure] and [sameSite]. *)
Definition cookie_flags (node_env : option string) : bool * string :=
  if bool_decide (node_env = Some "production") then (true, "none") else (false, "lax").

(** ** Lemmas *)

Lemma newer_total a b : newer a b = false -> newer b a = true.
Proof. unfold newer. rewrite !Z.leb_le, Z.leb_gt. lia. Qed.

Lemma newer_trans a b c : newer a b = true -> newer b c = true -> newer a c = true.
Proof. unfold newer. rewrite !Z.leb_le. lia. Qed.

Lemma run_get_announcements w :
  db_up (cdb w) = true ->
  Async.run exec get_announcements w = ({| c_status := 200; c_body := CAnns (latest (cdb w)) |}, w).
Proof. intros Hup. cbn. by rewrite Hup. Qed.

Lemma run_get_notes w :
  db_up (cdb w) = true ->
  Async.run exec get_notes w = ({| c_status := 200; c_body := CNotes (map (note_view (cdb w)) (notes (cdb w))) |}, w).
Proof. intros Hup. cbn. by rewrite Hup. Qed.

(** An upload whose note is valid writes the file, appends the note and
    answers 201. *)
Lemma run_upload_note_ok f up id now w n :
  db_up (cdb w) = true ->
  new_Note id now f ("/uploads/notes/" +:+ stored_name now (up_originalname up)) = Ok n ->
  note_valid n = Ok () ->
  Async.run exec (upload_note f (Some up) id now) w =
    ({| c_status := 201; c_body := CNote "Note uploaded successfully" n |},
     {| cdb := set_notes (notes (cdb w) ++ [n]) (cdb w);
        disk := write_file (stored_name now (up_originalname up)) (up_content up) (disk w) |}).
Proof.
  intros Hup Hn Hv. cbn [upload_note Async.run]. rewrite Hn. cbn [Async.run exec cdb].
  by rewrite Hup, Hv.
Qed.

(** The file just written is the one stored under its name. *)
Lemma find_write_file name c d (P : string * string -> bool) :
  (forall x y, P (x, y) = true <-> x = name) ->
  List.find P (write_file name c d) = Some (name, c).
Proof.
  intros HP. unfold write_file. induction d as [|[x y] d IH]; cbn.
  - by rewrite (proj2 (HP name c) eq_refl).
  - case_bool_decide as Hx; cbn; [done|].
    destruct (P (x, y)) eqn:E; [|done]. apply HP in E. by destruct Hx.
Qed.

(** ** Examples *)

Definition sample_cworld : CWorld := {| cdb := demo_db; disk := [] |}.

Definition dbms_fields : NoteFields :=
  {| nf_title := Some "DBMS notes"; nf_subject := Some "DBMS"; nf_tags := Some "sql,db";
     nf_uploadedBy := None |}.

(** Two notes uploaded in the same millisecond, then one without a title. *)
Definition upload_a : Handler CResponse :=
  upload_note dbms_fields (Some {| up_originalname := "notes.pdf"; up_content := "A" |})
    50%N 1700000000000%Z.
Definition upload_b : Handler CResponse :=
  upload_note dbms_fields (Some {| up_originalname := "slides.pdf"; up_content := "B" |})
    51%N 1700000000000%Z.
Definition upload_untitled : Handler CResponse :=
  upload_note {| nf_title := None; nf_subject := None; nf_tags := None; nf_uploadedBy := None |}
    (Some {| up_originalname := "draft.pdf"; up_content := "C" |}) 52%N 1700000000001%Z.

(** ** Properties *)

(** The stored name of an upload is the millisecond and the
    extension only: two PDFs uploaded in the same millisecond are both
    saved with one URL, and the second file replaces the first on disk.
    An upload the [Note] validation rejects answers 500 but its file,
    written by multer before the route, stays on disk. *)
Theorem upload_collision :
  let '(r1, w1) := Async.run exec upload_a sample_cworld in
  let '(r2, w2) := Async.run exec upload_b w1 in
  let '(r3, w3) := Async.run exec upload_untitled w2 in
  c_status r1 = 201%Z /\ c_status r2 = 201%Z /\ c_status r3 = 500%Z /\
  map n_fileUrl (notes (cdb w3)) =
    [Some "/uploads/notes/1700000000000.pdf"; Some "/uploads/notes/1700000000000.pdf"] /\
  disk w3 = [("1700000000000.pdf", "B"); ("1700000000001.pdf", "C")].
Proof. vm_compute. split_and!; reflexivity. Qed.


(** With the database up, [GET /api/announcements] answers the ten
    most recent announcements, or all of them when there are fewer: the
    answer and the announcements left out make up the collection, and
    none left out is more recent than one answered. *)
Theorem latest_announcements w :
  db_up (cdb w) = true ->
  exists l rest,
    Async.run exec get_announcements w = ({| c_status := 200; c_body := CAnns l |}, w) /\
    length l = Nat.min 10 (length (announcements (cdb w))) /\
    Permutation (map av_ann l ++ rest) (announcements (cdb w)) /\
    (forall a v, a ∈ rest -> v ∈ l -> (a_createdAt a <= a_createdAt (av_ann v))%Z).
Proof.
  intros Hup. set (sorted := sort_by newer (announcements (cdb w))).
  exists (latest (cdb w)), (drop 10 sorted). split_and!.
  - by apply run_get_announcements.
  - unfold latest. by rewrite length_map, length_take, length_sort_by.
  - unfold latest. rewrite map_map. erewrite map_ext; [|intros x; reflexivity].
    rewrite map_id, take_drop. apply sort_by_perm.
  - intros a v Ha (x & -> & Hx)%list_elem_of_fmap. cbn.
    pose proof (sort_by_take_drop newer newer_total newer_trans 10 _ x a Hx Ha) as Hn.
    unfold newer in Hn. by apply Z.leb_le in Hn.
Qed.

Definition three_announcements : CWorld :=
  {| cdb := set_announcements
              [{| a_id := 1%N; a_title := Some "Hackathon"; a_content := Some "Sat 9am"; a_postedBy := None;
                  a_type := hackathon; a_createdAt := 30%Z |};
               {| a_id := 2%N; a_title := Some "Club fair"; a_content := Some "Mon"; a_postedBy := None;
                  a_type := club; a_createdAt := 10%Z |};
               {| a_id := 3%N; a_title := Some "Exams"; a_content := Some "Timetable"; a_postedBy := None;
                  a_type := general; a_createdAt := 20%Z |}] demo_db;
     disk := [] |}.

Lemma latest_announcements_witness :
  exists l rest,
    Async.run exec get_announcements three_announcements =
      ({| c_status := 200; c_body := CAnns l |}, three_announcements) /\
    length l = Nat.min 10 (length (announcements (cdb three_announcements))) /\
    Permutation (map av_ann l ++ rest) (announcements (cdb three_announcements)) /\
    (forall a v, a ∈ rest -> v ∈ l -> (a_createdAt a <= a_createdAt (av_ann v))%Z).
Proof. apply latest_announcements. reflexivity. Defined.

End Content.
