(* ===== verification/Session.v ===== *)
(** * The browser session: [localStorage] and the pages that keep it

    The client keeps the logged-in user in the browser's [localStorage]
    under the keys ["token"] and ["user"].  Four places write them:
    - the login page ([src/frontend/src/pages/Login.tsx], lines 12-35)
      stores the [{ token, user }] the login route answers;
    - the dashboard ([Dashboard.tsx], lines 11-47) stores the user that
      [GET /api/auth/user] answers for the token of its URL, the end of
      the Google sign-in;
    - the profile page ([Profile.tsx], lines 53-76) stores the document
      the profile update answers;
    - the logout buttons ([Dashboard.tsx] lines 49-53, [Navbar.tsx]
      lines 34-39) remove both keys.
    The chat and discovery pages read [user.id || user._id], the profile
    page reads [user.email].

    A page's request runs the server's handler of [Auth.v] to completion
    on the server's [World] ([Async.run Auth.exec]), and the page then
    reacts to the response.  The pages here have one request in flight
    at a time: the profile page shows no button before its profile has
    loaded, and its Save button is disabled while a save is pending
    (line 225). *)

From S2P Require Import Prelude JsString ObjectId RoomId Store Http Async Mongo Auth.
From coqutil Require Import Datatypes.RecordSetters.
Import DoubleBraceUpdate.

Open Scope stdpp_scope.

Module Session.
Import RoomId Store Http Auth.

(** ** What [localStorage] holds *)

(** The JSON object stored under ["user"]: the [{ id, displayName,
    email, photo }] of the login route, or a whole user document, with
    its [_id] and every other path. *)
Inductive StoredUser :=
| SULogin (lu : LoginUser)
| SUDoc (u : User).

(** With [localStorage], the page's location, its [alert]s, and the
    API's session cookie as the id passport keeps for it
    ([serializeUser], server.js line 209), if any. *)
Record Browser := {
  ls_token : option string;
  ls_user : option StoredUser;
  location : string;
  alerts : list string;
  session : option ObjectId.ObjectId;
}.

Record Sys := {
  br : Browser;
  srv : World;
}.

(** [JSON.parse(localStorage.getItem("user"))] read as [{ id, _id }]. *)
Definition client_user (su : StoredUser) : ClientUser :=
  match su with
  | SULogin lu => {| cu_id := Some (ObjectId.to_hex (lu_id lu)); cu__id := None |}
  | SUDoc u => {| cu_id := None; cu__id := Some (ObjectId.to_hex (u_id u)) |}
  end.

(** [storedUser.email]. *)
Definition stored_email (su : StoredUser) : string :=
  match su with SULogin lu => lu_email lu | SUDoc u => email u end.

(** [response.ok]. *)
Definition res_ok (r : Response) : bool := bool_decide (200 <= status r < 300)%Z.

(** [data.message || fallback]. *)
Definition message_or (r : Response) (fallback : string) : string :=
  match body r with
  | BMsg (String _ _ as m) => m
  | _ => fallback
  end.

(** [a || d] on a string path. *)
Definition or_text (a : option string) (d : string) : string :=
  match a with Some (String _ _ as v) => v | _ => d end.

(** ** The query string of [GET /api/auth/profile?email=${email}]

    The page puts the e-mail into the URL as it is (line 33).  The
    browser drops a fragment ([#...]) from the request; Express's query
    parser ([qs]) ends the value at the next [&], turns every [+] into a
    space and then percent-decodes the value, keeping it as it is when
    an escape does not decode.  Escapes are decoded on ASCII
    characters. *)

Definition pct_char (a b : ascii) : option ascii :=
  match ObjectId.hex_val a, ObjectId.hex_val b with
  | Some x, Some y => if (16 * x + y <? 128)%N then Some (ascii_of_N (16 * x + y)) else None
  | _, _ => None
  end.

(** The raw value: up to the first [&] or [#]. *)
Fixpoint url_param (s : string) : string :=
  match s with
  | EmptyString => EmptyString
  | String c s' =>
      if ascii_dec c "&" then EmptyString
      else if ascii_dec c "#" then EmptyString
      else String c (url_param s')
  end.

Fixpoint plus_to_space (s : string) : string :=
  match s with
  | EmptyString => EmptyString
  | String c s' => String (if ascii_dec c "+" then " "%char else c) (plus_to_space s')
  end.

(** [decodeURIComponent]: [None] when an escape does not decode. *)
Fixpoint pct_decode (s : string) : option string :=
  match s with
  | EmptyString => Some EmptyString
  | String c s' =>
      if ascii_dec c "%" then
        match s' with
        | String a (String b s'') =>
            d ← pct_char a b; rest ← pct_decode s''; Some (String d rest)
        | _ => None
        end
      else rest ← pct_decode s'; Some (String c rest)
  end.

(** [req.query.email] for the e-mail the page put in the URL. *)
Definition query_value (raw : string) : string :=
  let v := plus_to_space (url_param raw) in
  match pct_decode v with Some d => d | None => v end.

(** ** The login page ([Login.tsx] lines 12-35) *)

Section Pages.
Context `{!Bcrypt, !Jwt}.

Definition login_submit (e pw : string) (now : Date) (s : Sys) : Sys :=
  let '(r, w) := Async.run exec (login e pw now) (srv s) in
  if res_ok r then
    match body r with
    | BLogin tok lu =>
        {| br := (br s){{ls_token := Some tok; ls_user := Some (SULogin lu);
                         location := "/dashboard"}};
           srv := w |}
    (** the login route answers no other successful body *)
    | _ => {| br := br s; srv := w |}
    end
  else {| br := (br s){{alerts := alerts (br s) ++ [message_or r "Login failed"] }}; srv := w |}.

(** ** The dashboard ([Dashboard.tsx] lines 11-53) *)

(** The user the dashboard shows once loaded.  With a token in its URL
    it asks [GET /api/auth/user] with [Authorization: Bearer <token>]
    and no session cookie (the request is cross-origin and sends no
    credentials); otherwise it shows the stored user when both keys are
    set. *)
Definition dashboard_mount (url_token : option string) (now : Date) (s : Sys)
    : Sys * option StoredUser :=
  match url_token with
  | Some (String _ _ as tok) =>
      let '(r, w) := Async.run exec (auth_user (Some ("Bearer " +:+ tok)) None now) (srv s) in
      match body r with
      | BAuth true (Some u) =>
          ({| br := (br s){{ls_user := Some (SUDoc u); ls_token := Some tok}}; srv := w |},
           Some (SUDoc u))
      | _ => ({| br := br s; srv := w |}, None)
      end
  | _ =>
      match ls_user (br s), ls_token (br s) with
      | Some su, Some _ => (s, Some su)
      | _, _ => (s, None)
      end
  end.

(** [handleLogout] of the dashboard and of the navigation bar. *)
Definition logout_click (b : Browser) : Browser :=
  b{{ls_token := None; ls_user := None; location := "/login"}}.

(** ** The navigation bar ([Navbar.tsx]) *)

(** The user the bar shows (lines 11-32): the page's [currentUser], else
    the user stored in [localStorage]. *)
Definition navbar_user (current : option StoredUser) (b : Browser) : option StoredUser :=
  match current with Some u => Some u | None => ls_user b end.

(** The stored user's [displayName] and [photo]. *)
Definition stored_name_photo (su : StoredUser) : option string * option string :=
  match su with
  | SULogin lu => (lu_displayName lu, lu_photo lu)
  | SUDoc u => (displayName u, photo u)
  end.

(** What the bar shows on the right (lines 62-82): "Sign In", or the
    user's name and avatar with a Log out button. *)
Definition navbar_view (u : option StoredUser) : option (option string * string) :=
  su ← u;
  let '(n, ph) := stored_name_photo su in
  Some (n, or_text ph ("https://api.dicebear.com/7.x/avataaars/svg?seed=" +:+
                       match n with Some x => x | None => "undefined" end)).

(** ** The profile page ([Profile.tsx]) *)

(** [formData] (lines 13-22). *)
Record Form := {
  f_displayName : string;
  f_department : string;
  f_college : string;
  f_year : string;
  f_class : string;
  f_placedAt : string;
  f_leetCodeHandle : string;
  f_codeForcesHandle : string;
}.

Definition blank_form : Form := Build_Form "" "" "" "" "" "" "" "".

(** [data.x || ""] *)
Definition or_blank (v : option string) : string := match v with Some s => s | None => "" end.

(** The form filled from a loaded profile (lines 37-46). *)
Definition form_of (u : User) : Form :=
  {| f_displayName := or_blank (displayName u); f_department := or_blank (department u);
     f_college := or_blank (college u); f_year := or_blank (year u);
     f_class := or_blank (class u); f_placedAt := or_blank (placedAt u);
     f_leetCodeHandle := or_blank (leetCodeHandle u);
     f_codeForcesHandle := or_blank (codeForcesHandle u) |}.

(** The body [{ email: user.email, ...formData }] (line 60) without its
    [email], which the route takes apart: the [$set] of the other keys,
    in the order of [formData]. *)
Definition form_upd (f : Form) : list (Path * JVal) :=
  [(PDisplayName, JStr (f_displayName f)); (PDepartment, JStr (f_department f));
   (PCollege, JStr (f_college f)); (PYear, JStr (f_year f)); (PClass, JStr (f_class f));
   (PPlacedAt, JStr (f_placedAt f)); (PLeetCodeHandle, JStr (f_leetCodeHandle f));
   (PCodeForcesHandle, JStr (f_codeForcesHandle f))].

Inductive Field :=
| FDisplayName | FDepartment | FCollege | FYear | FClass | FPlacedAt | FLeetCode | FCodeForces.

(** [setFormData({ ...formData, x: e.target.value })] *)
Definition set_field (fl : Field) (v : string) (f : Form) : Form :=
  match fl with
  | FDisplayName => f{{f_displayName := v}}
  | FDepartment => f{{f_department := v}}
  | FCollege => f{{f_college := v}}
  | FYear => f{{f_year := v}}
  | FClass => f{{f_class := v}}
  | FPlacedAt => f{{f_placedAt := v}}
  | FLeetCode => f{{f_leetCodeHandle := v}}
  | FCodeForces => f{{f_codeForcesHandle := v}}
  end.

(** The profile the route stores for a submitted form: [$set] of the
    eight paths, every other path kept. *)
Definition fill_form (f : Form) (u : User) : User :=
  u{{displayName := Some (f_displayName f); department := Some (f_department f);
     college := Some (f_college f); year := Some (f_year f); class := Some (f_class f);
     placedAt := Some (f_placedAt f); leetCodeHandle := Some (f_leetCodeHandle f);
     codeForcesHandle := Some (f_codeForcesHandle f)}}.

(** The page's state (lines 9-22); [isLoading] is set and reset around
    each save and only disables the Save button meanwhile. *)
Record PState := {
  pu : option User;
  editing : bool;
  form : Form;
  ptoasts : list string;
}.

Definition pinit : PState := {| pu := None; editing := false; form := blank_form; ptoasts := [] |}.

Inductive PEvent :=
| PMount
| PEdit
| PCancel
| PSetField (fl : Field) (v : string)
| PSave.

(** [fetchProfile(email)] (lines 31-51). *)
Definition fetch_profile (e : string) (s : Sys) (p : PState) : Sys * PState :=
  let '(r, w) := Async.run exec (get_profile (Some (query_value e))) (srv s) in
  let s' := {| br := br s; srv := w |} in
  if res_ok r then
    match body r with
    | BUser u => (s', p{{pu := Some u; form := form_of u}})
    | _ => (s', p)
    end
  else (s', p).

(** [handleUpdate] (lines 53-76). *)
Definition save_profile (s : Sys) (p : PState) : Sys * PState :=
  match pu p with
  (** [user.email] of [null] throws; the [catch] shows its toast *)
  | None => (s, p{{ptoasts := ptoasts p ++ ["An error occurred"] }})
  | Some u =>
      let '(r, w) := Async.run exec (put_profile (Some (email u)) (form_upd (form p))) (srv s) in
      if res_ok r then
        match body r with
        | BProfile _ u' =>
            ({| br := (br s){{ls_user := Some (SUDoc u')}}; srv := w |},
             p{{pu := Some u'; editing := false; ptoasts := ptoasts p ++ ["Profile updated!"] }})
        | _ => ({| br := br s; srv := w |}, p)
        end
      else ({| br := br s; srv := w |},
            p{{ptoasts := ptoasts p ++ [message_or r "Update failed"] }})
  end.

Definition profile_step (ev : PEvent) (s : Sys) (p : PState) : Sys * PState :=
  match ev with
  (** the effect (lines 24-29): [JSON.parse(localStorage.getItem("user") || "{}")] *)
  | PMount =>
      match ls_user (br s) with
      | Some su =>
          match stored_email su with
          | EmptyString => (s, p)
          | e => fetch_profile e s p
          end
      | None => (s, p)
      end
  | PEdit => (s, p{{editing := true}})
  | PCancel => (s, p{{editing := false}})
  | PSetField fl v => (s, p{{form := set_field fl v (form p)}})
  | PSave => save_profile s p
  end.

Fixpoint profile_run (evs : list PEvent) (s : Sys) (p : PState) : Sys * PState :=
  match evs with
  | [] => (s, p)
  | ev :: evs' => let '(s', p') := profile_step ev s p in profile_run evs' s' p'
  end.

Definition role_text (r : Role) : string :=
  match r with student => "student" | secretary => "secretary" | admin => "admin" end.

(** What the page shows: ["Loading..."] until a profile is loaded
    (line 78), then its header (lines 93-118) and its details (lines
    170-173 and 213-215). *)
Record ProfileView := {
  pv_name : option string;
  pv_email : string;
  pv_role : string;
  pv_details : list (string * string);
}.

Definition profile_view (p : PState) : option ProfileView :=
  u ← pu p;
  Some {| pv_name := displayName u; pv_email := email u; pv_role := role_text (role u);
          pv_details :=
            [("College", or_text (college u) "Not set");
             ("Department", or_text (department u) "Not set");
             ("Graduation Year", or_text (year u) "Not set");
             ("Class/Section", or_text (class u) "Not set");
             ("Status", match placedAt u with
                        | Some (String _ _ as pl) => "Placed at " +:+ pl
                        | _ => "Actively Searching"
                        end);
             ("LeetCode", or_text (leetCodeHandle u) "No handle");
             ("Codeforces", or_text (codeForcesHandle u) "No handle")] |}.

End Pages.

(** ** Lemmas *)

(** An address without [+], [&], [#] or [%] reaches the route as it
    is. *)
Fixpoint plain (s : string) : bool :=
  match s with
  | EmptyString => true
  | String c s' =>
      negb (bool_decide (c = "+"%char \/ c = "&"%char \/ c = "#"%char \/ c = "%"%char)) && plain s'
  end.

(** An address with none of [&], [#] or [%]. *)
Fixpoint no_escape (s : string) : bool :=
  match s with
  | EmptyString => true
  | String c s' =>
      negb (bool_decide (c = "&"%char \/ c = "#"%char \/ c = "%"%char)) && no_escape s'
  end.

Lemma no_escape_plus_to_space s :
  no_escape s = true -> url_param s = s /\ pct_decode (plus_to_space s) = Some (plus_to_space s).
Proof.
  induction s as [|c s IH]; [done|]. cbn.
  intros [Hc Hs]%andb_prop. apply negb_true_iff, bool_decide_eq_false_1 in Hc.
  destruct (IH Hs) as [-> ->].
  repeat destruct (ascii_dec _ _); subst; try (exfalso; apply Hc; tauto); done.
Qed.

Lemma query_value_no_escape s : no_escape s = true -> query_value s = plus_to_space s.
Proof.
  intros [H1 H2]%no_escape_plus_to_space. unfold query_value. by rewrite H1, H2.
Qed.

Lemma plain_no_escape s : plain s = true -> no_escape s = true /\ plus_to_space s = s.
Proof.
  induction s as [|c s IH]; [done|]. cbn.
  intros [Hc Hs]%andb_prop. apply negb_true_iff, bool_decide_eq_false_1 in Hc.
  destruct (IH Hs) as [-> ->]. rewrite bool_decide_false by tauto.
  destruct (ascii_dec c "+"); [exfalso; apply Hc; tauto|done].
Qed.

Lemma query_value_plain s : plain s = true -> query_value s = s.
Proof.
  intros [Hn Hp]%plain_no_escape. by rewrite query_value_no_escape, Hp.
Qed.

(** A [+] turns into a space: the address the route looks up is not the
    one the page holds. *)
Lemma plus_to_space_changes s : has_char "+" s = true -> plus_to_space s <> s.
Proof.
  induction s as [|c s IH]; [done|]. cbn [has_char plus_to_space].
  destruct (ascii_dec "+" c) as [<-|Hc].
  - intros _ [=].
  - destruct (ascii_dec c "+"); [congruence|]. intros H Heq. injection Heq as Heq. by apply IH.
Qed.

Lemma apply_set_form f u : apply_set (form_upd f) u = Ok (fill_form f u).
Proof. by destruct u. Qed.

Lemma form_of_fill f u : form_of (fill_form f u) = f.
Proof. by destruct f, u. Qed.

Lemma fill_form_keys f u :
  u_id (fill_form f u) = u_id u /\ email (fill_form f u) = email u /\
  googleId (fill_form f u) = googleId u.
Proof. by destruct u. Qed.

(** The profile the route stores is found again by its e-mail. *)
Lemma find_email_upsert db u u' :
  users_wf db -> u ∈ users db -> u_id u' = u_id u -> email u' = email u ->
  googleId u' = googleId u ->
  find_one (ByEmail (email u)) (Mongo.set_users (Mongo.upsert u_id u' (users db)) db) = Some u'.
Proof.
  intros Hwf Hu Hi He Hg. apply find_one_unique.
  - apply users_wf_upsert; [done| |by apply (check_user_stored _ u)].
    rewrite Hi. by apply list_elem_of_fmap_2.
  - cbn. apply Mongo.elem_of_upsert. by left.
  - cbn. by apply bool_decide_true.
  - intros v Hv%bool_decide_eq_true_1. cbn in Hv. by rewrite Hv.
Qed.

Lemma update_one_form db u f :
  users_wf db -> u ∈ users db ->
  update_one (email u) (form_upd f) db =
    Ok (Some (fill_form f u), Mongo.set_users (Mongo.upsert u_id (fill_form f u) (users db)) db).
Proof.
  intros Hwf Hu. apply update_one_stored; [done|done|apply apply_set_form|by destruct u].
Qed.

(** The id a page reads from the stored user is the hexadecimal string
    of its [_id]. *)
Lemma user_id_client_user su :
  user_id (client_user su) =
    Some (ObjectId.to_hex (match su with SULogin lu => lu_id lu | SUDoc u => u_id u end)).
Proof.
  assert (Hx : forall id, exists c r, ObjectId.to_hex id = String c r).
  { intros id. pose proof (ObjectId.length_hex_of 24 id "") as Hl.
    unfold ObjectId.to_hex. destruct (ObjectId.hex_of 24 id "") as [|c r]; [done|eauto]. }
  destruct su as [lu|u]; unfold user_id, js_or, client_user; cbn [cu_id cu__id].
  - by destruct (Hx (lu_id lu)) as (c & r & ->).
  - done.
Qed.

(** After a logout, a page that passes no user shows "Sign In". *)
Lemma navbar_after_logout b : navbar_view (navbar_user None (logout_click b)) = None.
Proof. by destruct b. Qed.

Lemma find_one_email e db u : find_one (ByEmail e) db = Some u -> u ∈ users db /\ email u = e.
Proof. intros [Hu He]%find_some_elem. split; [done|]. by apply bool_decide_eq_true_1 in He. Qed.

Section PageLemmas.
Context `{!Bcrypt, !Jwt}.

Lemma run_fetch_profile e s p :
  query_value e <> "" -> db_up (wdb (srv s)) = true ->
  fetch_profile e s p =
    ({| br := br s; srv := srv s |},
     match find_one (ByEmail (query_value e)) (wdb (srv s)) with
     | Some u => p{{pu := Some u; form := form_of u}}
     | None => p
     end).
Proof.
  intros He Hup. unfold fetch_profile. rewrite run_get_profile by done.
  by destruct (find_one _ _).
Qed.

(** The mount of the profile page looks up the stored e-mail as the
    query string decodes it. *)
Lemma profile_mount s p su :
  ls_user (br s) = Some su -> query_value (stored_email su) <> "" -> db_up (wdb (srv s)) = true ->
  profile_step PMount s p =
    ({| br := br s; srv := srv s |},
     match find_one (ByEmail (query_value (stored_email su))) (wdb (srv s)) with
     | Some u => p{{pu := Some u; form := form_of u}}
     | None => p
     end).
Proof.
  intros Hs Hq Hup. cbn [profile_step]. rewrite Hs.
  destruct (stored_email su) as [|c e]; [done|]. by apply run_fetch_profile.
Qed.

Lemma run_save_profile s p u :
  users_wf (wdb (srv s)) -> db_up (wdb (srv s)) = true -> u ∈ users (wdb (srv s)) ->
  pu p = Some u ->
  save_profile s p =
    ({| br := (br s){{ls_user := Some (SUDoc (fill_form (form p) u))}};
        srv := set_wdb (Mongo.set_users (Mongo.upsert u_id (fill_form (form p) u)
                                           (users (wdb (srv s)))) (wdb (srv s))) (srv s) |},
     p{{pu := Some (fill_form (form p) u); editing := false;
        ptoasts := ptoasts p ++ ["Profile updated!"] }}).
Proof.
  intros Hwf Hup Hu Hp. unfold save_profile. rewrite Hp.
  rewrite (run_put_profile _ _ _ (fill_form (form p) u)
             (Mongo.set_users (Mongo.upsert u_id (fill_form (form p) u) (users (wdb (srv s))))
                (wdb (srv s))));
    [reflexivity|by apply (wf_nonempty _ Hwf)|done|by apply update_one_form].
Qed.

Lemma run_login_submit e pw now s u h :
  db_up (wdb (srv s)) = true -> find_one (ByEmail e) (wdb (srv s)) = Some u ->
  password u = Some h -> h <> "" -> isVerified u = true -> bcompare pw h = true ->
  login_submit e pw now s =
    {| br := (br s){{ls_token := Some (jwt_sign (u_id u) now);
                     ls_user := Some (SULogin (login_user u)); location := "/dashboard"}};
       srv := srv s |}.
Proof. intros. unfold login_submit. by rewrite (run_login_ok _ _ _ u h). Qed.

(** C28: saving the profile form and loading the page again shows the
    form that was saved.  The route stores the eight fields of the form
    and keeps every other path; the page keeps the document it answers
    in [localStorage]; a fresh profile page looks the stored e-mail up
    and fills its form from the stored document, which gives back the
    form, for an address that reaches the route unchanged. *)
Theorem profile_save_reload s p u :
  users_wf (wdb (srv s)) -> db_up (wdb (srv s)) = true -> u ∈ users (wdb (srv s)) ->
  pu p = Some u -> plain (email u) = true ->
  let '(s1, p1) := profile_step PSave s p in
  pu p1 = Some (fill_form (form p) u) /\
  ls_user (br s1) = Some (SUDoc (fill_form (form p) u)) /\
  (profile_step PMount s1 pinit).2 = pinit{{pu := Some (fill_form (form p) u); form := form p}}.
Proof.
  intros Hwf Hup Hu Hp Hpl. change (profile_step PSave s p) with (save_profile s p).
  rewrite (run_save_profile _ _ u) by done.
  destruct (fill_form_keys (form p) u) as (Hi & He & Hg).
  split; [done|]. split; [done|].
  rewrite (profile_mount _ _ (SUDoc (fill_form (form p) u))); cbn [br srv wdb set_wdb stored_email];
    rewrite ?He, ?query_value_plain by done; [|done|by apply (wf_nonempty _ Hwf)|done].
  rewrite <-He at 1. rewrite (find_email_upsert _ u) by done.
  cbn [snd]. by rewrite form_of_fill.
Qed.

(** C27: a successful login on the login page stores what the other
    pages read: the dashboard is opened with the token, the chat and
    discovery pages derive [user.id || user._id] as the hexadecimal
    [_id] of the account, and the profile page, for an address that
    reaches the route unchanged, loads that account's document and
    fills its form from it. *)
Theorem login_then_pages e pw now s u h :
  users_wf (wdb (srv s)) -> db_up (wdb (srv s)) = true -> find_one (ByEmail e) (wdb (srv s)) = Some u ->
  password u = Some h -> h <> "" -> isVerified u = true -> bcompare pw h = true -> plain e = true ->
  let s1 := login_submit e pw now s in
  location (br s1) = "/dashboard" /\ ls_token (br s1) = Some (jwt_sign (u_id u) now) /\
  option_map (fun su => user_id (client_user su)) (ls_user (br s1)) =
    Some (Some (ObjectId.to_hex (u_id u))) /\
  (profile_step PMount s1 pinit).2 = pinit{{pu := Some u; form := form_of u}}.
Proof.
  intros Hwf Hup Hf Hh Hne Hv Hc Hpl. rewrite (run_login_submit _ _ _ _ u h) by done.
  destruct (find_one_email _ _ _ Hf) as [Hu He].
  split; [done|]. split; [done|].
  split; [transitivity (Some (user_id (client_user (SULogin (login_user u)))));
          [reflexivity|by rewrite user_id_client_user]|].
  rewrite (profile_mount _ _ (SULogin (login_user u))); cbn [br srv stored_email login_user lu_email];
    rewrite ?He, ?query_value_plain by done; [|done|subst e; by apply (wf_nonempty _ Hwf)|done].
  by rewrite Hf.
Qed.

(** C29: the profile page puts the e-mail into its URL without
    encoding it, and the query parser turns a [+] into a space.  For an
    account whose address has a [+] (and no [&], [#] or [%]), the page
    asks for the address with spaces: it never shows the account's own
    profile; it stays on "Loading..." when no account has that address,
    and shows the other account when one has. *)
Theorem profile_plus_address s su u :
  users_wf (wdb (srv s)) -> db_up (wdb (srv s)) = true -> ls_user (br s) = Some su ->
  u ∈ users (wdb (srv s)) -> email u = stored_email su ->
  has_char "+" (email u) = true -> no_escape (email u) = true ->
  pu (profile_step PMount s pinit).2 = find_one (ByEmail (plus_to_space (email u))) (wdb (srv s)) /\
  pu (profile_step PMount s pinit).2 <> Some u.
Proof.
  intros Hwf Hup Hs Hu He Hplus Hn.
  assert (Hq : query_value (stored_email su) = plus_to_space (email u))
    by (rewrite <-He; by apply query_value_no_escape).
  rewrite (profile_mount _ _ su Hs); [|rewrite Hq; by destruct (email u)|done].
  rewrite Hq. cbn [snd].
  destruct (find_one (ByEmail (plus_to_space (email u))) (wdb (srv s))) as [v|] eqn:Hf; [|done].
  split; [done|]. intros [=<-]. apply (plus_to_space_changes (email v)); [done|].
  apply find_one_email in Hf as [_ Hv]. by symmetry.
Qed.

End PageLemmas.

(** ** Examples *)

#[local] Existing Instances sample_bcrypt sample_jwt.

(** Two verified accounts with the password "s3cret", one of them
    plus-addressed. *)
Definition asha : User := (demo_user 1%N "asha"){{password := Some (sample_hash "s3cret")}}.
Definition meera : User :=
  (demo_user 3%N "meera"){{email := "meera+cs@campus.edu"; password := Some (sample_hash "s3cret")}}.

Definition sample_sys : Sys :=
  {| br := {| ls_token := None; ls_user := None; location := "/login"; alerts := []; session := None |};
     srv := set_wdb (Mongo.set_users [asha; demo_user 2%N "ravi"; meera] demo_db) sample_world |}.

(** Asha edits her department and saves. *)
Definition editing_asha : PState :=
  {| pu := Some asha; editing := true; form := (form_of asha){{f_department := "CSE"}};
     ptoasts := [] |}.

Lemma profile_save_reload_witness :
  let '(s1, p1) := profile_step PSave sample_sys editing_asha in
  pu p1 = Some (fill_form (form editing_asha) asha) /\
  ls_user (br s1) = Some (SUDoc (fill_form (form editing_asha) asha)) /\
  (profile_step PMount s1 pinit).2 =
    pinit{{pu := Some (fill_form (form editing_asha) asha); form := form editing_asha}}.
Proof.
  apply (profile_save_reload sample_sys editing_asha asha);
    first [reflexivity | apply (bool_decide_eq_true_1 _); vm_compute; reflexivity
          | apply list_elem_of_here].
Defined.

Lemma login_then_pages_witness :
  let s1 := login_submit "asha@campus.edu" "s3cret" 5000%Z sample_sys in
  location (br s1) = "/dashboard" /\ ls_token (br s1) = Some (jwt_sign (u_id asha) 5000%Z) /\
  option_map (fun su => user_id (client_user su)) (ls_user (br s1)) =
    Some (Some (ObjectId.to_hex (u_id asha))) /\
  (profile_step PMount s1 pinit).2 = pinit{{pu := Some asha; form := form_of asha}}.
Proof.
  apply (login_then_pages "asha@campus.edu" "s3cret" 5000%Z sample_sys asha (sample_hash "s3cret"));
    first [reflexivity | discriminate | apply (bool_decide_eq_true_1 _); vm_compute; reflexivity].
Defined.

(** Meera has logged in; her profile page asks for "meera cs@campus.edu". *)
Definition meera_sys : Sys :=
  {| br := (br sample_sys){{ls_user := Some (SULogin (login_user meera))}}; srv := srv sample_sys |}.

Lemma profile_plus_address_witness :
  pu (profile_step PMount meera_sys pinit).2 =
    find_one (ByEmail (plus_to_space (email meera))) (wdb (srv meera_sys)) /\
  pu (profile_step PMount meera_sys pinit).2 <> Some meera.
Proof.
  apply (profile_plus_address meera_sys (SULogin (login_user meera)) meera);
    first [reflexivity | apply (bool_decide_eq_true_1 _); vm_compute; reflexivity
          | do 2 apply list_elem_of_further; apply list_elem_of_here].
Defined.

End Session.
