(* ===== verification/Signup.v ===== *)
(** * The registration page ([src/frontend/src/pages/Index.tsx])

    The page has two steps (line 10).  In the first the user fills in a
    name, an e-mail and a password; the browser submits the form only
    when the three [required] fields are filled and the e-mail field,
    of [type="email"], holds a valid e-mail address in the sense of the
    HTML standard.  [handleRegister] (lines 18-44) posts them to
    [POST /api/auth/register] and moves to the second step when the
    answer is [ok].  In the second step the code field keeps the digits
    of what is typed, at most six characters (lines 212-219);
    [handleVerify] (lines 47-76) refuses a code that does not have six
    characters and otherwise posts the e-mail and the code to
    [POST /api/auth/verify-code], and on success sends the browser to
    the login page (after a two-second timer, which the model does not
    time).

    A submission runs the [Auth.v] handler to completion on the
    server's world: the Register and Verify buttons are disabled while
    their request is in flight (lines 168 and 225). *)

From S2P Require Import Prelude JsString ObjectId RoomId Store Http Async Mongo Auth Session.
From coqutil Require Import Datatypes.RecordSetters.
Import DoubleBraceUpdate.

Open Scope stdpp_scope.

Module Signup.
Import RoomId Store Http Auth Session.

(** ** The browser's check of an [<input type="email">]

    The HTML standard's "valid e-mail address": a non-empty local part
    of letters, digits and [.!#$%&'*+/=?^_`{|}~-], an [@], and a domain
    of dot-separated labels of 1 to 63 letters, digits or hyphens that
    start and end with a letter or digit. *)

Definition is_alnum (c : ascii) : bool :=
  let n := nat_of_ascii c in
  ((48 <=? n) && (n <=? 57)) || ((65 <=? n) && (n <=? 90)) || ((97 <=? n) && (n <=? 122)).

Definition local_char (c : ascii) : bool :=
  is_alnum c || has_char c ".!#$%&'*+/=?^_`{|}~-".

Definition label_char (c : ascii) : bool := is_alnum c || bool_decide (c = "-"%char).

Definition label_ok (l : string) : bool :=
  let cs := String.list_ascii_of_string l in
  match cs with
  | [] => false
  | c :: _ =>
      (String.length l <=? 63) && forallb label_char cs && is_alnum c &&
      is_alnum (default c (last cs))
  end.

(** The text up to the first [@] and the text after it. *)
Fixpoint split_at (s : string) : string * option string :=
  match s with
  | EmptyString => (EmptyString, None)
  | String c s' =>
      if ascii_dec c "@" then (EmptyString, Some s')
      else let '(l, r) := split_at s' in (String c l, r)
  end.

Definition html_email_valid (s : string) : bool :=
  match split_at s with
  | (String _ _ as local, Some domain) =>
      forallb local_char (String.list_ascii_of_string local) &&
      forallb label_ok (js_split "." domain)
  | _ => false
  end.

(** The value sanitization of an e-mail input: line feeds and carriage
    returns removed, then leading and trailing ASCII white space. *)
Definition html_ws (c : ascii) : bool :=
  bool_decide (nat_of_ascii c ∈ [9; 10; 12; 13; 32]%nat).

Fixpoint strip_newlines (s : string) : string :=
  match s with
  | EmptyString => EmptyString
  | String c s' =>
      if bool_decide (nat_of_ascii c ∈ [10; 13]%nat) then strip_newlines s' else String c (strip_newlines s')
  end.

Fixpoint strip_ws_start (s : string) : string :=
  match s with
  | EmptyString => EmptyString
  | String c s' => if html_ws c then strip_ws_start s' else s
  end.

Definition email_value (v : string) : string :=
  string_rev (strip_ws_start (string_rev (strip_ws_start (strip_newlines v)))).

(** ** The page *)

Inductive Step := SRegister | SVerify.

(** The state of the page (lines 10-15); [isLoading] only disables the
    button of the request in flight. *)
Record IState := {
  step : Step;
  name : string;
  iemail : string;
  ipassword : string;
  verificationCode : string;
  itoasts : list string;
}.

Definition iinit : IState :=
  {| step := SRegister; name := ""; iemail := ""; ipassword := ""; verificationCode := "";
     itoasts := [] |}.

(** [e.target.value.replace(/\D/g, "")] *)
Fixpoint js_digits (s : string) : string :=
  match s with
  | EmptyString => EmptyString
  | String c s' =>
      let n := nat_of_ascii c in
      if (48 <=? n) && (n <=? 57) then String c (js_digits s') else js_digits s'
  end.

Inductive IEvent :=
| TypeName (v : string)
| TypeEmail (v : string)
| TypePassword (v : string)
(** what the user types or pastes into the code field *)
| TypeCode (raw : string)
(** the register form submitted; the server draws the new [_id], the
    time and [Math.random()] *)
| SubmitRegister (fresh : ObjectId.ObjectId) (now : Date) (k : N)
| SubmitVerify (now : Date)
| BackToRegister
| GoogleSignIn.

Section Page.
Context `{!Bcrypt, !Jwt}.
Variable err_message : DbError -> string.
Variable smtp_message : string.

(** [handleRegister], once the browser has checked the form. *)
Definition handle_register (fresh : ObjectId.ObjectId) (now : Date) (k : N) (s : Sys) (p : IState)
    : Sys * IState :=
  let '(r, w) := Async.run exec (register err_message smtp_message (Some (name p)) (iemail p)
                                   (ipassword p) fresh now k) (srv s) in
  if res_ok r then
    ({| br := br s; srv := w |},
     p{{step := SVerify; itoasts := itoasts p ++ ["Verification code sent to your email!"] }})
  else ({| br := br s; srv := w |}, p{{itoasts := itoasts p ++ [message_or r "Registration failed"] }}).

(** [handleVerify]. *)
Definition handle_verify (now : Date) (s : Sys) (p : IState) : Sys * IState :=
  if negb (String.length (verificationCode p) =? 6)%nat then
    (s, p{{itoasts := itoasts p ++ ["Please enter a 6-digit code"] }})
  else
    let '(r, w) := Async.run exec (verify_code (iemail p) (verificationCode p) now) (srv s) in
    if res_ok r then
      ({| br := (br s){{location := "/login"}}; srv := w |},
       p{{itoasts := itoasts p ++ ["Email verified! Redirecting to login..."] }})
    else ({| br := br s; srv := w |}, p{{itoasts := itoasts p ++ [message_or r "Verification failed"] }}).

(** [handleGoogleSignIn] (lines 78-80): the browser goes to
    [${API_BASE_URL}/api/auth/google]. *)
Definition handleGoogleSignIn (s : Sys) : Sys :=
  {| br := (br s){{location := "/api/auth/google"}}; srv := srv s |}.

Definition istep (ev : IEvent) (s : Sys) (p : IState) : Sys * IState :=
  match ev with
  | TypeName v => (s, p{{name := v}})
  | TypeEmail v => (s, p{{iemail := email_value v}})
  | TypePassword v => (s, p{{ipassword := v}})
  | TypeCode raw => (s, p{{verificationCode := js_digits (String.substring 0 6 raw)}})
  | SubmitRegister fresh now k =>
      match step p with
      | SRegister =>
          (** the [required] fields and the [type="email"] check *)
          if bool_decide (name p <> "") && bool_decide (ipassword p <> "") &&
             html_email_valid (iemail p)
          then handle_register fresh now k s p
          else (s, p)
      | SVerify => (s, p)
      end
  | SubmitVerify now =>
      match step p with
      | SVerify => if bool_decide (verificationCode p <> "") then handle_verify now s p else (s, p)
      | SRegister => (s, p)
      end
  | BackToRegister => (s, p{{step := SRegister}})
  | GoogleSignIn => (handleGoogleSignIn s, p)
  end.

Fixpoint irun (evs : list IEvent) (s : Sys) (p : IState) : Sys * IState :=
  match evs with
  | [] => (s, p)
  | ev :: evs' => let '(s', p') := istep ev s p in irun evs' s' p'
  end.

End Page.

(** ** Lemmas *)

Lemma substring_full n s : (String.length s <= n)%nat -> String.substring 0 n s = s.
Proof.
  revert n. induction s as [|c s IH]; intros [|n] Hn; cbn in *; try done; [lia|].
  rewrite IH; [done|lia].
Qed.

Lemma js_digits_digit d a : (d < 10)%N -> js_digits (String (digit_char d) a) = String (digit_char d) (js_digits a).
Proof.
  intros Hd. assert (Hc : (d = 0 \/ d = 1 \/ d = 2 \/ d = 3 \/ d = 4 \/ d = 5 \/ d = 6 \/ d = 7 \/ d = 8 \/ d = 9)%N) by lia.
  by repeat destruct Hc as [->|Hc]; [..|subst].
Qed.

Lemma js_digits_dec_go f n acc : js_digits (dec_go f n acc) = dec_go f n (js_digits acc).
Proof.
  revert n acc. induction f as [|f IH]; intros n acc; [done|]. cbn [dec_go].
  destruct (n <? 10)%N; rewrite ?IH; by rewrite js_digits_digit by (apply N.mod_lt; lia).
Qed.

(** The code the mail carries is what the code field keeps when it is
    typed or pasted. *)
Lemma code_typed k :
  (k < 2 ^ 52)%N ->
  js_digits (String.substring 0 6 (verification_code k)) = verification_code k.
Proof.
  intros Hk. pose proof (js_N_to_string_6 _ (verification_code_range k Hk)) as Hl.
  rewrite substring_full by (unfold verification_code; lia).
  unfold verification_code, js_N_to_string. by rewrite js_digits_dec_go.
Qed.

Lemma html_email_valid_nonempty e : html_email_valid e = true -> e <> "".
Proof. by intros H ->. Qed.

(** The form as the user left it before submitting. *)
Definition filled (nm e pw : string) : IState :=
  {| step := SRegister; name := nm; iemail := e; ipassword := pw; verificationCode := "";
     itoasts := [] |}.

Lemma irun_one `{!Bcrypt, !Jwt} err smtp ev s p : irun err smtp [ev] s p = istep err smtp ev s p.
Proof. cbn. by destruct (istep err smtp ev s p). Qed.

Section Flow.
Context `{!Bcrypt, !Jwt}.
Variable err_message : DbError -> string.
Variable smtp_message : string.

(** C17: a new user signs up through the pages.  On the registration
    page they type a name, an address the browser accepts and a
    password and submit: the page moves to the code step and the
    server mails a code to the address.  They type the mailed code and
    submit before it expires: the page sends them to the login page.
    There, the same address and password open the dashboard, and the
    chat and discovery pages read the new account's [_id] from
    [localStorage].  The user collection stays well formed. *)
Theorem signup_flow s nm e pw fresh now k t1 t2 :
  users_wf (wdb (srv s)) -> db_up (wdb (srv s)) = true -> smtp_up (srv s) = true ->
  nm <> "" -> pw <> "" -> html_email_valid e = true -> email_value e = e ->
  find_one (ByEmail e) (wdb (srv s)) = None -> fresh ∉ map u_id (users (wdb (srv s))) ->
  (k < 2 ^ 52)%N -> (t1 < now + 10 * 60 * 1000)%Z ->
  let '(s1, p1) := irun err_message smtp_message
                      [TypeName nm; TypeEmail e; TypePassword pw; SubmitRegister fresh now k] s iinit in
  let '(s2, p2) := irun err_message smtp_message
                      [TypeCode (verification_code k); SubmitVerify t1] s1 p1 in
  let s3 := login_submit e pw t2 s2 in
  step p1 = SVerify /\
  mails (srv s1) = mails (srv s) ++ [{| mail_to := e; mail_code := verification_code k |}] /\
  location (br s2) = "/login" /\
  location (br s3) = "/dashboard" /\
  option_map (fun su => user_id (client_user su)) (ls_user (br s3)) =
    Some (Some (ObjectId.to_hex fresh)) /\
  users_wf (wdb (srv s3)).
Proof.
  intros Hwf Hup Hs Hnm Hpw Hv He Hn Hfresh Hk Ht.
  pose proof (register_verify_login err_message smtp_message (Some nm) e pw fresh now k t1 t2 (srv s)
                Hwf Hup Hs (html_email_valid_nonempty e Hv) Hn Hfresh Ht) as Hrvl.
  destruct (Async.run exec (register err_message smtp_message (Some nm) e pw fresh now k) (srv s))
    as [r1 w1] eqn:E1.
  destruct (Async.run exec (verify_code e (verification_code k) t1) w1) as [r2 w2] eqn:E2.
  destruct (Async.run exec (login e pw t2) w2) as [r3 w3] eqn:E3.
  destruct Hrvl as (-> & Hm & -> & -> & Hwf3).
  set (c := verification_code k).
  assert (Hlen : String.length (verification_code k) = 6%nat)
    by (apply js_N_to_string_6, verification_code_range, Hk).
  set (p1 := {| step := SVerify; name := nm; iemail := e; ipassword := pw; verificationCode := "";
                itoasts := ["Verification code sent to your email!"] |}).
  assert (H1 : irun err_message smtp_message
                 [TypeName nm; TypeEmail e; TypePassword pw; SubmitRegister fresh now k] s iinit =
               ({| br := br s; srv := w1 |}, p1)).
  { change (irun err_message smtp_message [TypeName nm; TypeEmail e; TypePassword pw;
                                          SubmitRegister fresh now k] s iinit)
      with (irun err_message smtp_message [SubmitRegister fresh now k] s (filled nm (email_value e) pw)).
    rewrite irun_one, He. unfold istep. cbn [filled step name ipassword iemail].
    rewrite !bool_decide_true, Hv by done. unfold handle_register.
    cbn [andb filled name iemail ipassword]. by rewrite E1. }
  set (p2 := {| step := SVerify; name := nm; iemail := e; ipassword := pw; verificationCode := c;
                itoasts := ["Verification code sent to your email!";
                            "Email verified! Redirecting to login..."] |}).
  assert (H2 : irun err_message smtp_message [TypeCode c; SubmitVerify t1] {| br := br s; srv := w1 |} p1 =
               ({| br := (br s){{location := "/login"}}; srv := w2 |}, p2)).
  { change (irun err_message smtp_message [TypeCode c; SubmitVerify t1] {| br := br s; srv := w1 |} p1)
      with (irun err_message smtp_message [SubmitVerify t1] {| br := br s; srv := w1 |}
              (p1{{verificationCode := js_digits (String.substring 0 6 c)}})).
    rewrite irun_one. subst c. rewrite code_typed by done.
    change (p1{{verificationCode := verification_code k}})
      with {| step := SVerify; name := nm; iemail := e; ipassword := pw;
              verificationCode := verification_code k;
              itoasts := ["Verification code sent to your email!"] |}.
    unfold istep. cbn [step verificationCode].
    rewrite bool_decide_true by (intros Hc; by rewrite Hc in Hlen).
    unfold handle_verify. cbn [verificationCode iemail]. rewrite Hlen. cbn [Nat.eqb negb]. cbn [srv br]. by rewrite E2. }
  rewrite H1, H2. unfold login_submit. cbn [srv]. rewrite E3.
  split_and!; done.
Qed.

End Flow.

(** ** Examples *)

#[local] Existing Instances sample_bcrypt sample_jwt.

(** Kiran signs up with a plus address; the browser accepts it. *)
Lemma signup_flow_witness :
  let '(s1, p1) := irun sample_err sample_smtp
                      [TypeName "Kiran"; TypeEmail "kiran+cs@campus.edu"; TypePassword "s3cret";
                       SubmitRegister 9%N 1000000%Z 42%N] sample_sys iinit in
  let '(s2, p2) := irun sample_err sample_smtp
                      [TypeCode (verification_code 42%N); SubmitVerify 1000500%Z] s1 p1 in
  let s3 := login_submit "kiran+cs@campus.edu" "s3cret" 1001000%Z s2 in
  step p1 = SVerify /\
  mails (srv s1) = mails (srv sample_sys) ++
                   [{| mail_to := "kiran+cs@campus.edu"; mail_code := verification_code 42%N |}] /\
  location (br s2) = "/login" /\
  location (br s3) = "/dashboard" /\
  option_map (fun su => user_id (client_user su)) (ls_user (br s3)) =
    Some (Some (ObjectId.to_hex 9%N)) /\
  users_wf (wdb (srv s3)).
Proof.
  apply (signup_flow sample_err sample_smtp sample_sys "Kiran" "kiran+cs@campus.edu" "s3cret"
           9%N 1000000%Z 42%N 1000500%Z 1001000%Z);
    first [reflexivity | discriminate | lia
          | apply (bool_decide_eq_true_1 _); vm_compute; reflexivity].
Defined.

End Signup.
