(* ===== verification/Boards.v ===== *)
(** * The notes and announcements pages ([Resources.tsx], [Landing.tsx])

    [src/frontend/src/pages/Resources.tsx] lists the notes of
    [GET /api/notes] and uploads a note with a file through
    [POST /api/notes/upload] (lines 19-67); the uploader is the
    [user.id || user._id] of [localStorage].
    [src/frontend/src/pages/Landing.tsx] lists the announcements of
    [GET /api/announcements] and lets a stored admin or secretary post
    one through [POST /api/announcements] (lines 23-64).

    A page's request runs the [Content.v] handler to completion on the
    server's [CWorld].  The pages keep one request in flight at a time:
    the upload and post forms are modal, and the list is fetched again
    only after a successful submission. *)

From S2P Require Import Prelude JsString ObjectId RoomId Store Http Async Mongo Auth Session Content.
From coqutil Require Import Datatypes.RecordSetters.
Import DoubleBraceUpdate.

Open Scope stdpp_scope.

Module Boards.
Import RoomId Store Http Session Content.

(** The browser and the server of the content routes. *)
Record CSys := {
  cbr : Browser;
  csrv : CWorld;
}.

(** [response.ok] of a content route. *)
Definition c_ok (r : CResponse) : bool := bool_decide (200 <= c_status r < 300)%Z.

(** [user.id || user._id] of [JSON.parse(localStorage.getItem("user") || "{}")]. *)
Definition stored_id (b : Browser) : option string :=
  ls_user b ≫= fun su => user_id (client_user su).

(** ** The resources page ([Resources.tsx]) *)

(** [uploadData] (lines 12-17). *)
Record UForm := {
  uf_title : string;
  uf_subject : string;
  uf_tags : string;
  uf_file : option Upload;
}.

Definition empty_uform : UForm := {| uf_title := ""; uf_subject := ""; uf_tags := ""; uf_file := None |}.

(** The state of the page (lines 9-17). *)
Record RState := {
  rnotes : list NoteView;
  isUploading : bool;
  risLoading : bool;
  uploadData : UForm;
  rtoasts : list string;
}.

Definition rinit : RState :=
  {| rnotes := []; isUploading := false; risLoading := true; uploadData := empty_uform;
     rtoasts := [] |}.

Inductive REvent :=
| RMount
| OpenUpload
| CloseUpload
| SetTitle (v : string)
| SetSubject (v : string)
| SetTags (v : string)
| PickFile (f : option Upload)
(** the form submitted; the server draws the note's [_id] and the time *)
| SubmitUpload (id : ObjectId.ObjectId) (now : Date).

(** [fetchNotes] (lines 23-35). *)
Definition fetch_notes (s : CSys) (p : RState) : CSys * RState :=
  let '(r, w) := Async.run exec get_notes (csrv s) in
  let s' := {| cbr := cbr s; csrv := w |} in
  if c_ok r then
    match c_body r with
    | CNotes l => (s', p{{rnotes := l; risLoading := false}})
    | _ => (s', p{{risLoading := false}})
    end
  else (s', p{{risLoading := false}}).

(** The multipart form of lines 45-50: every text field is sent, the
    empty string included. *)
Definition note_fields (f : UForm) (uid : string) : NoteFields :=
  {| nf_title := Some (uf_title f); nf_subject := Some (uf_subject f); nf_tags := Some (uf_tags f);
     nf_uploadedBy := Some uid |}.

(** [handleUpload] (lines 37-67). *)
Definition handle_upload (id : ObjectId.ObjectId) (now : Date) (s : CSys) (p : RState)
    : CSys * RState :=
  match uf_file (uploadData p) with
  | None => (s, p{{rtoasts := rtoasts p ++ ["Please select a file"] }})
  | Some file =>
      match stored_id (cbr s) with
      | None => (s, p{{rtoasts := rtoasts p ++ ["Please login to upload"] }})
      | Some uid =>
          let '(r, w) := Async.run exec (upload_note (note_fields (uploadData p) uid) (Some file) id now)
                           (csrv s) in
          let s' := {| cbr := cbr s; csrv := w |} in
          if c_ok r then
            fetch_notes s' (p{{rtoasts := rtoasts p ++ ["Note uploaded successfully!"];
                               isUploading := false}})
          else (s', p{{rtoasts := rtoasts p ++ ["Upload failed"] }})
      end
  end.

Definition rstep (ev : REvent) (s : CSys) (p : RState) : CSys * RState :=
  match ev with
  | RMount => fetch_notes s p
  | OpenUpload => (s, p{{isUploading := true}})
  | CloseUpload => (s, p{{isUploading := false}})
  | SetTitle v => (s, p{{uploadData := (uploadData p){{uf_title := v}} }})
  | SetSubject v => (s, p{{uploadData := (uploadData p){{uf_subject := v}} }})
  | SetTags v => (s, p{{uploadData := (uploadData p){{uf_tags := v}} }})
  | PickFile f => (s, p{{uploadData := (uploadData p){{uf_file := f}} }})
  | SubmitUpload id now =>
      (** the form is on screen; its [required] title and subject *)
      if isUploading p && bool_decide (uf_title (uploadData p) <> "") &&
         bool_decide (uf_subject (uploadData p) <> "")
      then handle_upload id now s p
      else (s, p)
  end.

Fixpoint rrun (evs : list REvent) (s : CSys) (p : RState) : CSys * RState :=
  match evs with
  | [] => (s, p)
  | ev :: evs' => let '(s', p') := rstep ev s p in rrun evs' s' p'
  end.

(** A note card (lines 100-140): subject, title, uploader, tags and the
    download link [${API_BASE_URL}${note.fileUrl}]. *)
Record NoteCard := {
  nc_subject : option string;
  nc_title : option string;
  nc_uploader : option string;
  nc_tags : list string;
  nc_href : option string;
}.

Definition note_card (v : NoteView) : NoteCard :=
  {| nc_subject := n_subject (nv_note v); nc_title := n_title (nv_note v);
     nc_uploader := nv_uploader v ≫= fst; nc_tags := n_tags (nv_note v);
     nc_href := n_fileUrl (nv_note v) |}.

(** The spinner while loading, else the cards. *)
Definition rrender (p : RState) : option (list NoteCard) :=
  if risLoading p then None else Some (map note_card (rnotes p)).

(** What [GET ${API_BASE_URL}/uploads/notes/<name>] serves: Express's
    static handler of the upload directory (line 156). *)
Definition download (w : CWorld) (href : string) : option string :=
  snd <$> List.find (fun f => bool_decide ("/uploads/notes/" +:+ f.1 = href)) (disk w).

(** ** The landing page ([Landing.tsx]) *)

(** What [setAnnouncements(data)] receives: the array of the route, or
    its error object. *)
Inductive AnnData := AList (l : list AnnView) | AErrorObject.

(** [newAnnouncement] (line 16); [type] is one of the three options of
    the select. *)
Record AnnForm := {
  na_title : string;
  na_content : string;
  na_type : string;
}.

Definition blank_ann : AnnForm := {| na_title := ""; na_content := ""; na_type := "general" |}.

Record LState := {
  lanns : AnnData;
  luser : option StoredUser;
  isPosting : bool;
  newAnnouncement : AnnForm;
  ltoasts : list string;
}.

Definition linit : LState :=
  {| lanns := AList []; luser := None; isPosting := false; newAnnouncement := blank_ann;
     ltoasts := [] |}.

(** [user.role] of the stored user: the login route stores no role. *)
Definition stored_role (su : StoredUser) : option Role :=
  match su with SULogin _ => None | SUDoc u => Some (role u) end.

(** [user?.role === 'admin' || user?.role === 'secretary'] (line 64). *)
Definition isAdmin (p : LState) : bool :=
  match luser p ≫= stored_role with Some admin | Some secretary => true | _ => false end.

Inductive LEvent :=
| LMount
| OpenPost
| ClosePost
| SetAnnTitle (v : string)
| SetAnnContent (v : string)
| SetAnnType (v : string)
| SubmitPost (id : ObjectId.ObjectId) (now : Date).

(** [fetchAnnouncements] (lines 33-41): the body whatever the status. *)
Definition fetch_announcements (s : CSys) (p : LState) : CSys * LState :=
  let '(r, w) := Async.run exec get_announcements (csrv s) in
  ({| cbr := cbr s; csrv := w |},
   p{{lanns := match c_body r with CAnns l => AList l | _ => AErrorObject end}}).

(** The body [{ ...newAnnouncement, postedBy: user.id || user._id }]. *)
Definition ann_fields (f : AnnForm) (su : StoredUser) : AnnFields :=
  {| af_title := Some (na_title f); af_content := Some (na_content f);
     af_postedBy := user_id (client_user su); af_type := Some (na_type f) |}.

(** [handlePostAnnouncement] (lines 43-62): a refused post shows
    nothing. *)
Definition handle_post (id : ObjectId.ObjectId) (now : Date) (s : CSys) (p : LState) : CSys * LState :=
  match luser p with
  | Some su =>
      if bool_decide (stored_role su = Some student) then
        (s, p{{ltoasts := ltoasts p ++ ["Only Admins/Secretaries can post announcements"] }})
      else
        let '(r, w) := Async.run exec (post_announcement (ann_fields (newAnnouncement p) su) id now)
                         (csrv s) in
        let s' := {| cbr := cbr s; csrv := w |} in
        if c_ok r then
          fetch_announcements s'
            (p{{ltoasts := ltoasts p ++ ["Announcement posted successfully!"];
                isPosting := false; newAnnouncement := blank_ann}})
        else (s', p)
  | None => (s, p{{ltoasts := ltoasts p ++ ["Only Admins/Secretaries can post announcements"] }})
  end.

Definition lstep (ev : LEvent) (s : CSys) (p : LState) : CSys * LState :=
  match ev with
  (** the effect (lines 23-31) *)
  | LMount => fetch_announcements s (p{{luser := ls_user (cbr s)}})
  | OpenPost => (s, if isAdmin p then p{{isPosting := true}} else p)
  | ClosePost => (s, p{{isPosting := false}})
  | SetAnnTitle v => (s, p{{newAnnouncement := (newAnnouncement p){{na_title := v}} }})
  | SetAnnContent v => (s, p{{newAnnouncement := (newAnnouncement p){{na_content := v}} }})
  | SetAnnType v => (s, p{{newAnnouncement := (newAnnouncement p){{na_type := v}} }})
  | SubmitPost id now =>
      (** the modal form is on screen; its [required] title and content *)
      if isPosting p && bool_decide (na_title (newAnnouncement p) <> "") &&
         bool_decide (na_content (newAnnouncement p) <> "")
      then handle_post id now s p
      else (s, p)
  end.

Fixpoint lrun (evs : list LEvent) (s : CSys) (p : LState) : CSys * LState :=
  match evs with
  | [] => (s, p)
  | ev :: evs' => let '(s', p') := lstep ev s p in lrun evs' s' p'
  end.

(** An announcement card (lines 290-322): type, title, content, the
    poster's name or "Campus Admin" and role or "Authority". *)
Record AnnCard := {
  ac_type : AnnouncementType;
  ac_title : option string;
  ac_content : option string;
  ac_by : string;
  ac_role : string;
}.

Definition ann_card (v : AnnView) : AnnCard :=
  {| ac_type := a_type (av_ann v); ac_title := a_title (av_ann v); ac_content := a_content (av_ann v);
     ac_by := match av_poster v with
              | Some (Some (String _ _ as n), _) => n
              | _ => "Campus Admin"
              end;
     ac_role := match av_poster v with Some (_, r) => role_text r | None => "Authority" end |}.

(** The cards, or [None] for "No announcements yet" (lines 150-166). *)
Definition lrender (p : LState) : option (list AnnCard) :=
  match lanns p with
  | AList (_ :: _ as l) => Some (map ann_card l)
  | _ => None
  end.

(** ** Lemmas *)

Lemma string_app_inj (a x y : string) : a +:+ x = a +:+ y -> x = y.
Proof. induction a as [|c a IH]; cbn; [done|]. intros [=]. by apply IH. Qed.

(** The note the page's form makes for a logged-in uploader. *)
Definition form_note (f : UForm) (i id : ObjectId.ObjectId) (now : Date) (url : string) : Note :=
  {| n_id := id; n_title := Some (uf_title f); n_subject := Some (uf_subject f); n_fileUrl := Some url;
     n_uploadedBy := Some i;
     n_tags := match uf_tags f with EmptyString => [] | t => js_split "," t end;
     n_createdAt := now |}.

Lemma new_Note_form f uid i id now url :
  ObjectId.cast uid = Some i ->
  new_Note id now (note_fields f uid) url = Ok (form_note f i id now url).
Proof.
  intros Hc. unfold new_Note, cast_ref. cbn [note_fields nf_uploadedBy]. rewrite Hc.
  unfold form_note. cbn [note_fields nf_title nf_subject nf_tags]. by destruct (uf_tags f).
Qed.

Lemma note_valid_form f i id now url :
  uf_title f <> "" -> url <> "" -> note_valid (form_note f i id now url) = Ok ().
Proof. intros Ht Hu. unfold note_valid. cbn. by destruct (uf_title f), url. Qed.

Lemma rrender_after_upload p l t :
  rrender ((p{{rtoasts := t; isUploading := false}}){{rnotes := l; risLoading := false}}) =
    Some (map note_card l).
Proof. by destruct p. Qed.

(** C24: uploading a note from the resources page, logged in and with
    the database up, stores the file and the note: the page then lists
    the notes the route answers, the earlier ones followed by the new
    one, whose card carries the typed title and subject, the tags split
    at the commas and the uploader read from [localStorage], and whose
    Download link serves the uploaded content. *)
Theorem upload_then_download s p id now uid i file :
  db_up (cdb (csrv s)) = true -> isUploading p = true ->
  uf_file (uploadData p) = Some file -> uf_title (uploadData p) <> "" ->
  uf_subject (uploadData p) <> "" -> stored_id (cbr s) = Some uid -> ObjectId.cast uid = Some i ->
  let url := "/uploads/notes/" +:+ stored_name now (up_originalname file) in
  let '(s', p') := rstep (SubmitUpload id now) s p in
  rrender p' = Some (map (fun n => note_card (note_view (cdb (csrv s)) n))
                         (notes (cdb (csrv s)) ++ [form_note (uploadData p) i id now url])) /\
  download (csrv s') url = Some (up_content file).
Proof.
  intros Hup Hu Hf Ht Hs Hid Hc url.
  unfold rstep. rewrite Hu, !bool_decide_true by done. cbn [andb]. unfold handle_upload.
  rewrite Hf, Hid. rewrite (run_upload_note_ok _ _ _ _ _ (form_note (uploadData p) i id now url));
    [|done|apply new_Note_form, Hc|].
  2:{ apply note_valid_form; [done|]. by destruct (stored_name _ _). }
  replace (c_ok _) with true by reflexivity. unfold fetch_notes.
  rewrite run_get_notes by done. replace (c_ok _) with true by reflexivity.
  split.
  - rewrite rrender_after_upload. f_equal. cbn [cdb csrv notes set_notes]. rewrite map_map.
    by apply map_ext.
  - unfold download. cbn [csrv disk]. rewrite find_write_file; [done|].
    intros x y. cbn. rewrite bool_decide_eq_true. split; [apply string_app_inj|by intros ->].
Qed.

(** ** Examples *)

Definition os_file : Upload := {| up_originalname := "unit1.pdf"; up_content := "%PDF-1.7 ..." |}.

(** Asha, logged in, fills in the upload form. *)
Definition asha_csys : CSys :=
  {| cbr := (br sample_sys){{ls_user := Some (SULogin (login_user (demo_user 1%N "asha")))}};
     csrv := sample_cworld |}.

Definition filling : RState :=
  {| rnotes := []; isUploading := true; risLoading := false;
     uploadData := {| uf_title := "OS Unit 1"; uf_subject := "Operating Systems"; uf_tags := "OS,Exam";
                      uf_file := Some os_file |};
     rtoasts := [] |}.

Lemma upload_then_download_witness :
  let url := "/uploads/notes/" +:+ stored_name 1700000000000%Z (up_originalname os_file) in
  let '(s', p') := rstep (SubmitUpload 7%N 1700000000000%Z) asha_csys filling in
  rrender p' = Some (map (fun n => note_card (note_view (cdb (csrv asha_csys)) n))
                         (notes (cdb (csrv asha_csys)) ++ [form_note (uploadData filling) 1%N 7%N 1700000000000%Z url])) /\
  download (csrv s') url = Some (up_content os_file).
Proof.
  apply (upload_then_download asha_csys filling 7%N 1700000000000%Z (ObjectId.to_hex 1%N) 1%N os_file);
    first [reflexivity | discriminate].
Defined.

End Boards.
