(* ===== verification/Discover.v ===== *)
(** * The peer discovery page ([src/frontend/src/pages/Users.tsx])

    The page loads [/api/users?exclude=<me>] once, filters the list by
    the search box on every render (lines 56-59) and sends a follow
    request when a card's button is clicked (lines 35-54); when the
    request succeeds it marks the card "Requested" with
    [setUsers(users.map(...))], where [users] is the array of the render
    in which the button was clicked (the handler's closure).  The state
    machine keeps, for each request in flight, that array.  JavaScript's
    [toLowerCase] is modelled on ASCII letters; [drender] gives [None]
    where rendering throws a [TypeError]. *)

From S2P Require Import Prelude JsString ObjectId RoomId.
From coqutil Require Import Datatypes.RecordSetters.
Import DoubleBraceUpdate.

Open Scope stdpp_scope.

Module Discover.
Import RoomId.

(** ** Data *)

(** A user of [/api/users] as the page reads it, with the [requested]
    flag the page adds (line 49). *)
Record Peer := {
  pe_id : string;
  pe_displayName : option string;
  pe_department : option string;
  pe_photo : option string;
  pe_role : string;
  pe_requested : bool;
}.

Inductive DFetch :=
| FUsers (exclude : option string)
(** the follow request to [receiverId], with the [users] array of the
    render whose button was clicked *)
| FFollow (receiverId : string) (snapshot : list Peer).

Record DState := {
  peers : list Peer;
  search : string;
  currentUser : option ClientUser;
  isLoading : bool;
  dfetches : list DFetch;
  dtoasts : list string;
  sent : list (option string * string);
}.

Definition dinit : DState :=
  {| peers := []; search := ""; currentUser := None; isLoading := true; dfetches := [];
     dtoasts := []; sent := [] |}.

(** ** JavaScript helpers *)

(** [String.prototype.toLowerCase] on ASCII letters. *)
Definition lower_char (c : ascii) : ascii :=
  let n := nat_of_ascii c in
  if (65 <=? n) && (n <=? 90) then ascii_of_nat (n + 32) else c.

Fixpoint js_lower (s : string) : string :=
  match s with
  | EmptyString => EmptyString
  | String c s' => String (lower_char c) (js_lower s')
  end.

Definition js_includes (s sub : string) : bool :=
  if String.index 0 sub s then true else false.

(** ** The search filter (lines 56-59) *)

(** [u.displayName.toLowerCase().includes(q) || u.department?.toLowerCase().includes(q)]:
    [None] when [displayName] is missing and the call throws. *)
Definition matches_search (q : string) (u : Peer) : option bool :=
  match pe_displayName u with
  | None => None
  | Some n =>
      if js_includes (js_lower n) q then Some true
      else Some (match pe_department u with
                 | Some d => js_includes (js_lower d) q
                 | None => false
                 end)
  end.

Fixpoint filter_users (q : string) (l : list Peer) : option (list Peer) :=
  match l with
  | [] => Some []
  | u :: l' =>
      match matches_search q u, filter_users q l' with
      | Some b, Some rest => Some (if b then u :: rest else rest)
      | _, _ => None
      end
  end.

Definition filteredUsers (s : DState) : option (list Peer) :=
  filter_users (js_lower (search s)) (peers s).

(** ** Events *)

Inductive DEvent :=
| DMount (stored : option ClientUser)
(** the [/api/users] response, or a failure the [catch] logs *)
| UsersArrive (i : nat) (r : option (list Peer))
| TypeSearch (v : string)
| ClickFollow (receiverId : string)
(** the follow response: [Some ok] with [res.ok], [None] when [fetch] throws *)
| FollowArrives (i : nat) (r : option bool).

(** [users.map(u => u._id === receiverId ? { ...u, requested: true } : u)] *)
Definition mark_requested (rid : string) (l : list Peer) : list Peer :=
  map (fun u => if bool_decide (pe_id u = rid) then u{{pe_requested := true}} else u) l.

Definition take_dfetch (i : nat) (s : DState) : option (DFetch * DState) :=
  f ← dfetches s !! i; Some (f, s{{dfetches := delete i (dfetches s)}}).

Definition dstep (s : DState) (ev : DEvent) : option DState :=
  match ev with
  | DMount None => Some s
  | DMount (Some u) =>
      Some s{{currentUser := Some u; dfetches := dfetches s ++ [FUsers (user_id u)] }}
  | UsersArrive i r =>
      match take_dfetch i s with
      | Some (FUsers _, s1) =>
          Some (match r with
                | Some l => s1{{peers := l; isLoading := false}}
                | None => s1{{isLoading := false}}
                end)
      | _ => None
      end
  | TypeSearch v => Some s{{search := v}}
  | ClickFollow rid =>
      match currentUser s with
      | None => Some s
      | Some u =>
          Some s{{dfetches := dfetches s ++ [FFollow rid (peers s)];
                  sent := sent s ++ [(user_id u, rid)] }}
      end
  | FollowArrives i r =>
      match take_dfetch i s with
      | Some (FFollow rid snap, s1) =>
          Some (match r with
                | Some true =>
                    (s1{{dtoasts := dtoasts s1 ++ ["Follow request sent!"] }})
                      {{peers := mark_requested rid snap}}
                | Some false => s1
                | None => s1{{dtoasts := dtoasts s1 ++ ["Failed to send request"] }}
                end)
      | _ => None
      end
  end.

Fixpoint drun (s : DState) (evs : list DEvent) : option DState :=
  match evs with
  | [] => Some s
  | ev :: evs' => s' ← dstep s ev; drun s' evs'
  end.

(** ** What the page displays (lines 84-148) *)

Record Card := {
  c_role : string;
  c_photo : string;
  c_name : option string;
  c_department : string;
  c_button : string;
  c_disabled : bool;
}.

Definition card (u : Peer) : Card :=
  {| c_role := pe_role u;
     c_photo := match pe_photo u with
                | Some (String _ _ as p) => p
                | _ => "https://api.dicebear.com/7.x/avataaars/svg?seed=" +:+
                       match pe_displayName u with Some n => n | None => "undefined" end
                end;
     c_name := pe_displayName u;
     c_department := match pe_department u with
                     | Some (String _ _ as d) => d
                     | _ => "No Department Set"
                     end;
     c_button := if pe_requested u then "Requested" else "Follow";
     c_disabled := pe_requested u |}.

(** The spinner while loading, else the cards; [None] when the filter
    throws. *)
Definition drender (s : DState) : option (option (list Card)) :=
  if isLoading s then Some None
  else l ← filteredUsers s; Some (Some (map card l)).

(** The search the page means: the query, lower-cased, occurs in the
    lower-cased name or department. *)
Definition search_hit (q : string) (u : Peer) : bool :=
  js_includes (js_lower (default "" (pe_displayName u))) q ||
  match pe_department u with Some d => js_includes (js_lower d) q | None => false end.

(** ** Lemmas *)

Lemma matches_search_named q u n :
  pe_displayName u = Some n -> matches_search q u = Some (search_hit q u).
Proof.
  intros Hn. unfold matches_search, search_hit. rewrite Hn. cbn.
  by destruct (js_includes _ q).
Qed.

Lemma filter_users_named q l :
  Forall (fun u => pe_displayName u <> None) l ->
  filter_users q l = Some (List.filter (search_hit q) l).
Proof.
  induction 1 as [|u l Hu _ IH]; [done|]. cbn.
  destruct (pe_displayName u) as [n|] eqn:Hn; [|done].
  rewrite (matches_search_named _ _ n Hn), IH. by destruct (search_hit q u).
Qed.

(** The filter throws exactly when a listed user has no display name,
    whatever the search text. *)
Lemma matches_search_None q u :
  matches_search q u = None <-> pe_displayName u = None.
Proof.
  unfold matches_search. destruct (pe_displayName u); [|done].
  by destruct (js_includes _ _).
Qed.

Lemma filter_users_None q l :
  filter_users q l = None <-> exists u, u ∈ l /\ pe_displayName u = None.
Proof.
  induction l as [|u l IH]; cbn.
  - split; [done|]. intros (v & Hv & _). set_solver.
  - setoid_rewrite elem_of_cons. pose proof (matches_search_None q u) as Hu.
    destruct (matches_search q u) as [b|], (filter_users q l) as [l0|].
    + split; [done|]. intros (v & [->|Hv] & Hd); [by apply Hu in Hd|].
      assert (Hc : Some l0 = None) by (apply IH; eauto). done.
    + split; [intros _|done]. destruct IH as [[v [Hv Hd]] _]; eauto.
    + split; [intros _|done]. exists u. split; [auto|]. by apply Hu.
    + split; [intros _|done]. exists u. split; [auto|]. by apply Hu.
Qed.

Lemma filteredUsers_crash s :
  filteredUsers s = None <-> exists u, u ∈ peers s /\ pe_displayName u = None.
Proof. apply filter_users_None. Qed.

(** Two follow clicks before either answer, both answered [ok]: each
    response rebuilds the list from the array of its click. *)
Lemma drun_two_follows s s' u r1 r2 :
  currentUser s = Some u -> dfetches s = [] ->
  drun s [ClickFollow r1; ClickFollow r2; FollowArrives 0 (Some true);
          FollowArrives 0 (Some true)] = Some s' ->
  s' = s{{dtoasts := dtoasts s ++ ["Follow request sent!"; "Follow request sent!"];
          peers := mark_requested r2 (peers s);
          sent := sent s ++ [(user_id u, r1); (user_id u, r2)] }}.
Proof.
  destruct s as [ps q cu ld fs ts se]; cbn. intros -> -> Hs. cbn in Hs.
  injection Hs as <-. by rewrite <-!app_assoc.
Qed.

Lemma elem_of_mark_requested_other r p l :
  p ∈ l -> pe_id p <> r -> p ∈ mark_requested r l.
Proof.
  intros Hp Hr. apply list_elem_of_In, in_map_iff. exists p.
  rewrite bool_decide_false by done. split; [done|]. by apply list_elem_of_In.
Qed.

(** C33: [handleFollowRequest] marks the card with the [users] array of
    the render whose button was clicked.  When the user clicks "Follow"
    on one card and then on another before the first answer arrives,
    and both requests succeed, the second answer rebuilds the list from
    the array that predates the first mark: the first card is shown
    with an enabled "Follow" button again although its request was
    sent and acknowledged. *)
Theorem follow_mark_lost s s' u p r2 :
  currentUser s = Some u -> dfetches s = [] ->
  p ∈ peers s -> pe_requested p = false -> pe_id p <> r2 ->
  drun s [ClickFollow (pe_id p); ClickFollow r2; FollowArrives 0 (Some true);
          FollowArrives 0 (Some true)] = Some s' ->
  (user_id u, pe_id p) ∈ sent s' /\ "Follow request sent!" ∈ dtoasts s' /\
  p ∈ peers s' /\ c_button (card p) = "Follow" /\ c_disabled (card p) = false.
Proof.
  intros Hu Hf Hp Hreq Hr Hrun. apply (drun_two_follows _ _ u) in Hrun as ->; [|done..].
  unfold card. rewrite Hreq. cbn. split_and!; [set_solver|set_solver| |done|done].
  by apply elem_of_mark_requested_other.
Qed.

(** C34: when every listed user has a display name, the page displays,
    in the order of the list, the card of exactly the users whose name
    or department contains the search text, letter case ignored: the
    JavaScript filter equals the reference search [search_hit]. *)
Theorem drender_search s :
  isLoading s = false -> Forall (fun u => pe_displayName u <> None) (peers s) ->
  drender s = Some (Some (map card (List.filter (search_hit (js_lower (search s))) (peers s)))).
Proof.
  intros Hl Hn. unfold drender, filteredUsers. rewrite Hl. by rewrite filter_users_named.
Qed.

(** Sample data: two classmates listed, the first without a department. *)
Definition asha_peer : Peer :=
  {| pe_id := "a1"; pe_displayName := Some "Asha"; pe_department := None;
     pe_photo := None; pe_role := "student"; pe_requested := false |}.
Definition ravi_peer : Peer :=
  {| pe_id := "r2"; pe_displayName := Some "Ravi"; pe_department := Some "CSE";
     pe_photo := None; pe_role := "student"; pe_requested := false |}.
Definition me : ClientUser := {| cu_id := Some "m0"; cu__id := None |}.

(** The page after mounting and loading both users. *)
Definition loaded : DState :=
  dinit{{currentUser := Some me; peers := [asha_peer; ravi_peer]; isLoading := false}}.

(** Searching "CS" lists Ravi, whose department is "CSE", and not Asha. *)
Lemma drender_search_witness :
  drender (loaded{{search := "CS"}}) =
    Some (Some (map card (List.filter (search_hit (js_lower "CS")) [asha_peer; ravi_peer]))) /\
  List.filter (search_hit (js_lower "CS")) [asha_peer; ravi_peer] = [ravi_peer].
Proof.
  split; [|reflexivity].
  exact (drender_search (loaded{{search := "CS"}}) eq_refl
           ltac:(vm_compute; repeat constructor; discriminate)).
Defined.

Lemma loaded_reached :
  drun dinit [DMount (Some me); UsersArrive 0 (Some [asha_peer; ravi_peer])] = Some loaded.
Proof. reflexivity. Qed.

Lemma follow_mark_lost_witness :
  exists s', drun loaded [ClickFollow "a1"; ClickFollow "r2"; FollowArrives 0 (Some true);
                          FollowArrives 0 (Some true)] = Some s' /\
  ((user_id me, "a1") ∈ sent s' /\ "Follow request sent!" ∈ dtoasts s' /\
   asha_peer ∈ peers s' /\ c_button (card asha_peer) = "Follow" /\
   c_disabled (card asha_peer) = false).
Proof.
  eexists. split; [reflexivity|].
  apply (follow_mark_lost loaded _ me asha_peer "r2");
    [reflexivity|reflexivity| |reflexivity|discriminate|reflexivity].
  apply list_elem_of_here.
Defined.

(** The page after a user without a display name is listed throws at
    its first render, whatever the search text. *)
Lemma nameless_user_crashes q :
  drender (loaded{{search := q; peers := [ravi_peer; asha_peer{{pe_displayName := None}}] }}) = None.
Proof.
  assert (Hc : filteredUsers (loaded{{search := q; peers := [ravi_peer; asha_peer{{pe_displayName := None}}] }}) = None).
  { apply filteredUsers_crash. exists (asha_peer{{pe_displayName := None}}).
    split; [apply list_elem_of_further, list_elem_of_here|done]. }
  unfold drender. by rewrite Hc.
Qed.

End Discover.
