(* ===== verification/Router.v ===== *)
(** * The Express application's routing

    [src/backend/server.js] mounts [express.static('uploads')] under
    [/uploads] (line 156) and declares nineteen routes (lines 222-561),
    each a method and a path pattern whose [:name] segments are
    parameters.  Express 4 matches a request path against a pattern
    segment by segment, letter case ignored, with an optional trailing
    slash, a parameter matching any non-empty segment; the first matching
    layer handles the request.  The query string is not part of the path.

    The Google strategy's [callbackURL] (line 178) is where Google sends
    the browser back; without the [CALLBACK_URL] variable it is
    [/auth/google/callback], which no layer matches: the callback route
    is [/api/auth/google/callback].  The theorems show that, and that the
    paths the pages request reach their routes. *)

From S2P Require Import Prelude JsString Content Discover.

Open Scope stdpp_scope.

Module Router.

Inductive Method := GET | POST | PUT.

#[export] Instance method_eq_dec : EqDecision Method.
Proof. solve_decision. Defined.

(** A layer of the application, in the order of [app.use] and the route
    declarations. *)
Inductive Layer :=
| Static (prefix : string)
| Route (m : Method) (pattern : string).

Definition layers : list Layer :=
  [Static "/uploads";
   Route POST "/api/notes/upload"; Route GET "/api/notes";
   Route POST "/api/announcements"; Route GET "/api/announcements";
   Route POST "/api/auth/register"; Route POST "/api/auth/verify-code";
   Route POST "/api/auth/login"; Route POST "/api/auth/logout";
   Route GET "/api/auth/profile"; Route PUT "/api/auth/profile";
   Route GET "/api/auth/user"; Route GET "/api/users";
   Route POST "/api/follow/request"; Route GET "/api/follow/requests/:userId";
   Route POST "/api/follow/accept"; Route GET "/api/users/friends/:userId";
   Route GET "/api/messages/:room"; Route GET "/api/auth/google";
   Route GET "/api/auth/google/callback"].

(** The segments of a path, a trailing slash dropped. *)
Definition segments (path : string) : list string :=
  let xs := js_split "/" path in
  match last xs with
  | Some "" => if bool_decide (2 <= length xs)%nat then removelast xs else xs
  | _ => xs
  end.

Definition seg_matches (pat seg : string) : bool :=
  match pat with
  | String ":" _ => bool_decide (seg <> "")
  | _ => bool_decide (Discover.js_lower pat = Discover.js_lower seg)
  end.

Fixpoint segs_match (ps xs : list string) : bool :=
  match ps, xs with
  | [], [] => true
  | p :: ps', x :: xs' => seg_matches p x && segs_match ps' xs'
  | _, _ => false
  end.

(** Whether a layer handles a request of method [m] on [path], whose
    segments are [xs]; [express.static] under a prefix takes the [GET]
    requests below it. *)
Definition layer_matches (m : Method) (path : string) (xs : list string) (l : Layer) : bool :=
  match l with
  | Static prefix => bool_decide (m = GET) && String.prefix (prefix +:+ "/") path
  | Route m' pattern => bool_decide (m = m') && segs_match (segments pattern) xs
  end.

(** The index of the layer that handles a request, if any. *)
Definition route_of (m : Method) (path : string) : option nat :=
  let xs := segments path in fst <$> list_find (fun l => layer_matches m path xs l = true) layers.

(** [process.env.CALLBACK_URL || '/auth/google/callback'] *)
Definition callback_url (env : option string) : string :=
  match env with
  | Some (String _ _ as u) => u
  | _ => "/auth/google/callback"
  end.

(** ** Lemmas *)

Lemma split_go_seg a t :
  has_char "/" a = false -> split_go "/" 0 (a +:+ String "/" t) "" = a :: split_go "/" 0 t "".
Proof.
  intros Ha. rewrite (split_go_no_sep "/") by (reflexivity || exact Ha). rewrite string_app_nil_l.
  cbn [split_go String.prefix]. destruct (ascii_dec "/" "/") as [_|[]]; [|done]. by destruct t.
Qed.

Lemma split_slash_last x : has_char "/" x = false -> split_go "/" 0 x "" = [x].
Proof. intros Hx. by rewrite (split_go_no_sep_end "/") by (reflexivity || exact Hx). Qed.

(** A path of segments [pre], then [/] and [x]. *)
Definition path_of (pre : list string) (x : string) : string :=
  foldr (fun a acc => a +:+ String "/" acc) x pre.

(** The segments of such a path, [x] not empty. *)
Lemma segments_path_of (pre : list string) x :
  x <> "" -> has_char "/" x = false -> Forall (fun a => has_char "/" a = false) pre ->
  segments (path_of pre x) = pre ++ [x].
Proof.
  intros Hne Hx Hpre. unfold segments.
  replace (js_split "/" (path_of pre x)) with (pre ++ [x]).
  - rewrite last_app. cbn. by destruct x.
  - symmetry. change (split_go "/" 0 (path_of pre x) "" = pre ++ [x]).
    induction Hpre as [|a pre Ha _ IH]; [by apply split_slash_last|].
    change (path_of (a :: pre) x) with (a +:+ String "/" (path_of pre x)).
    by rewrite split_go_seg, IH.
Qed.

(** ** Properties *)

(** Without the [CALLBACK_URL] variable, Google sends the browser back to
    [/auth/google/callback] (line 178), a path no layer of the
    application handles, while the callback route is
    [/api/auth/google/callback] (line 558): the sign-in never reaches
    the route that logs the user in and redirects to the dashboard.  An
    empty variable falls back to the same path. *)
Theorem callback_default_unrouted :
  route_of GET (callback_url None) = None /\ route_of GET (callback_url (Some "")) = None /\
  route_of GET "/api/auth/google/callback" = Some 19%nat.
Proof. split_and!; vm_compute; reflexivity. Qed.

(** The requests the chat page sends with an id or a room that holds no
    [/] reach their routes: [fetchFriends], [fetchRequests] and
    [fetchHistory] (Chat.tsx lines 35-55). *)
Theorem chat_requests_routed x :
  x <> "" -> has_char "/" x = false ->
  route_of GET ("/api/users/friends/" +:+ x) = Some 16%nat /\
  route_of GET ("/api/follow/requests/" +:+ x) = Some 14%nat /\
  route_of GET ("/api/messages/" +:+ x) = Some 17%nat.
Proof.
  intros Hne Hx.
  change ("/api/users/friends/" +:+ x) with (path_of [""; "api"; "users"; "friends"] x).
  change ("/api/follow/requests/" +:+ x) with (path_of [""; "api"; "follow"; "requests"] x).
  change ("/api/messages/" +:+ x) with (path_of [""; "api"; "messages"] x).
  unfold route_of.
  rewrite !(segments_path_of _ x Hne Hx) by (repeat constructor).
  destruct x as [|c x']; [done|]. split_and!; vm_compute; reflexivity.
Qed.

(** The file URL the upload route stores for a note,
    [/uploads/notes/] and multer's file name (server.js line 235), is
    served by [express.static], whatever the name: the Download link of
    the resources page reaches the file. *)
Theorem uploads_served now name :
  route_of GET ("/uploads/notes/" +:+ Content.stored_name now name) = Some 0%nat.
Proof. unfold route_of. vm_compute. reflexivity. Qed.

(** ** Examples *)

Lemma chat_requests_routed_witness :
  route_of GET ("/api/users/friends/" +:+ "000000000000000000000002") = Some 16%nat /\
  route_of GET ("/api/follow/requests/" +:+ "000000000000000000000002") = Some 14%nat /\
  route_of GET ("/api/messages/" +:+ "000000000000000000000001--000000000000000000000002") = Some 17%nat.
Proof.
  split_and!.
  - apply (chat_requests_routed "000000000000000000000002"); [done|reflexivity].
  - apply (chat_requests_routed "000000000000000000000002"); [done|reflexivity].
  - apply (chat_requests_routed "000000000000000000000001--000000000000000000000002"); [done|reflexivity].
Defined.

End Router.
