(* ===== verification/Pages.v ===== *)
(** * The login page, the dashboard, the navigation bar and the landing page

    [src/frontend/src/pages/Login.tsx] keeps the e-mail and password the
    user types and, on submit, posts them to the login route of
    [Session.login_submit]; the browser submits the form only when the
    [required] fields are filled and the [type="email"] field holds a
    valid address.  Its Google button leaves for the OAuth route; its
    GitHub button only logs.
    [src/frontend/src/pages/Dashboard.tsx] reads [?token=] from its URL
    (the end of the Google sign-in, [google_callback] of [Auth.v], which
    also leaves the user in the API's session: [google_return]) and
    asks [GET /api/auth/user] for its user, or shows the user stored in
    [localStorage]; it renders a welcome card and navigation buttons.
    Its logout, like the navigation bar's, never reaches the server, so
    the session outlives it ([page_logout_keeps_session]).
    [src/frontend/src/components/Navbar.tsx] shows four links and the
    user part of [Session.navbar_view].
    [src/frontend/src/pages/Landing.tsx] renders the announcements page of
    [Boards.v]: the hero's two buttons, the post button for admins and
    secretaries, the cards and the post modal.

    [URLSearchParams] is the browser's: the query's pairs split on [&]
    and [=], with [+] read as a space and [%XX] escapes decoded. *)

From S2P Require Import Prelude JsString ObjectId RoomId Store Http Async Mongo Auth Session Signup Content Boards.
From coqutil Require Import Datatypes.RecordSetters.
Import DoubleBraceUpdate.

Open Scope stdpp_scope.

Module Pages.
Import RoomId Store Http Auth Session Boards.

(** ** [URLSearchParams] *)

(** [application/x-www-form-urlencoded] decoding: [+] is a space, [%XX]
    the character with that code; a [%] that starts no escape stays.
    The model's strings are ASCII: an escape of a byte from 0x80 up,
    which the browser decodes as UTF-8, is kept as it is. *)
Fixpoint form_decode (s : string) : string :=
  match s with
  | EmptyString => EmptyString
  | String c s' =>
      if ascii_dec c "+" then String " " (form_decode s')
      else if ascii_dec c "%" then
        match s' with
        | String a (String b s'') =>
            match pct_char a b with
            | Some d => String d (form_decode s'')
            | None => String c (form_decode s')
            end
        | _ => String c (form_decode s')
        end
      else String c (form_decode s')
  end.

(** A sequence before and after its first [c]; all of it without one. *)
Fixpoint split_first (c : ascii) (s : string) : string * string :=
  match s with
  | EmptyString => (EmptyString, EmptyString)
  | String d s' =>
      if ascii_dec d c then (EmptyString, s')
      else let '(a, b) := split_first c s' in (String d a, b)
  end.

(** The name-value pairs of [window.location.search]: a leading [?] is
    dropped and empty sequences are skipped. *)
Definition search_pairs (search : string) : list (string * string) :=
  let q := match search with String "?" q => q | _ => search end in
  map (fun sq => let '(n, v) := split_first "=" sq in (form_decode n, form_decode v))
    (filter (fun sq => sq <> "") (js_split "&" q)).

(** [new URLSearchParams(search).get(key)]: the first value of [key]. *)
Definition search_get (key search : string) : option string :=
  snd <$> List.find (fun nv => bool_decide (nv.1 = key)) (search_pairs search).

(** [window.location.href = `${API_BASE_URL}/api/auth/google`] *)
Definition google_signin (b : Browser) : Browser := b{{location := "/api/auth/google"}}.

Section Pages.
Context `{!Bcrypt, !Jwt}.

(** ** The end of the Google sign-in

    The callback (server.js lines 558-561) has passport log the user into
    the API's session, which keeps the user's id ([serializeUser], line
    209) under the browser's cookie, and redirects the browser to the
    dashboard URL with the token. *)
Definition google_return (client_url : option string) (u : User) (now : Date) (b : Browser) : Browser :=
  match body (google_callback client_url u now) with
  | BRedirect url => b{{location := url; session := Some (u_id u)}}
  | _ => b
  end.

(** ** The login page ([Login.tsx]) *)

Record LForm := {
  lf_email : string;
  lf_password : string;
}.

Definition lf_init : LForm := {| lf_email := ""; lf_password := "" |}.

Inductive LoginEvent :=
| LTypeEmail (v : string)
| LTypePassword (v : string)
| LSubmit (now : Date)
| LGoogle
| LGitHub.

(** The [type="email"] input's value is sanitized (newlines and
    surrounding white space removed, [Signup.email_value]); the form is
    submitted only when both [required] fields are filled and the
    address is valid. *)
Definition login_step (ev : LoginEvent) (s : Sys) (f : LForm) : Sys * LForm :=
  match ev with
  | LTypeEmail v => (s, f{{lf_email := Signup.email_value v}})
  | LTypePassword v => (s, f{{lf_password := v}})
  | LSubmit now =>
      if Signup.html_email_valid (lf_email f) && bool_decide (lf_password f <> "")
      then (login_submit (lf_email f) (lf_password f) now s, f)
      else (s, f)
  | LGoogle => ({| br := google_signin (br s); srv := srv s |}, f)
  (** [console.log("GitHub sign in")] *)
  | LGitHub => (s, f)
  end.

Fixpoint login_run (evs : list LoginEvent) (s : Sys) (f : LForm) : Sys * LForm :=
  match evs with
  | [] => (s, f)
  | ev :: evs' => let '(s', f') := login_step ev s f in login_run evs' s' f'
  end.

(** ** The dashboard ([Dashboard.tsx]) *)

Record DState := {
  d_user : option StoredUser;
  d_loading : bool;
}.

Definition d_init : DState := {| d_user := None; d_loading := true |}.

(** The effect (lines 11-47) with the page's [window.location.search]. *)
Definition dash_mount (search : string) (now : Date) (s : Sys) : Sys * DState :=
  let '(s', u) := dashboard_mount (search_get "token" search) now s in
  (s', {| d_user := u; d_loading := false |}).

Inductive DashButton := GoHome | MyProfile | ConnectPeers | RealtimeChat | DashLogout.

(** The buttons of lines 99-133. *)
Definition dash_click (bt : DashButton) (b : Browser) : Browser :=
  match bt with
  | GoHome => b{{location := "/"}}
  | MyProfile => b{{location := "/profile"}}
  | ConnectPeers => b{{location := "/users"}}
  | RealtimeChat => b{{location := "/chat"}}
  | DashLogout => logout_click b
  end.

(** What the page renders (lines 55-137): "Loading dashboard...", or
    the navigation bar with [currentUser={user}], the photo when the user
    has one, the welcome line and the e-mail line. *)
Inductive DashView :=
| DLoading
| DCard (nav : option (option string * string)) (photo : option string)
        (welcome : string) (subtitle : string).

Definition dash_view (b : Browser) (d : DState) : DashView :=
  if d_loading d then DLoading
  else
    let '(nm, ph) := match d_user d with Some su => stored_name_photo su | None => (None, None) end in
    DCard (navbar_view (navbar_user (d_user d) b))
          (match ph with Some (String _ _ as p) => Some p | _ => None end)
          ("Welcome, " +:+ or_text nm "to CampusConnect")
          (or_text (stored_email <$> d_user d) "Signed in successfully").

(** ** The navigation bar's links (lines 56-60 and 88-96) *)

Definition navbar_links : list (string * string) :=
  [("/resources", "Resources"); ("/users", "Find Peers"); ("/chat", "Chatrooms");
   ("/dashboard", "Dashboard")].

(** ** The landing page's view ([Landing.tsx] lines 66-252) *)

Inductive HeroButton := GetStarted | HeroSignIn.

(** "Get Started" links to the registration page; "Sign In" leaves for
    the OAuth route (lines 98-107). *)
Definition hero_click (bt : HeroButton) (b : Browser) : Browser :=
  match bt with
  | GetStarted => b{{location := "/register"}}
  | HeroSignIn => google_signin b
  end.

Record LandingView := {
  lv_nav : option (option string * string);
  lv_post_button : bool;
  lv_cards : option (list AnnCard);
  lv_modal : option AnnForm;
}.

Definition landing_view (b : Browser) (p : LState) : LandingView :=
  {| lv_nav := navbar_view (navbar_user (luser p) b);
     lv_post_button := isAdmin p;
     lv_cards := lrender p;
     lv_modal := if isPosting p then Some (newAnnouncement p) else None |}.


End Pages.
(** ** Lemmas *)

(** Text a URL carries unescaped: the base64url characters and the dot
    of a JSON Web Token. *)
Fixpoint url_safe (s : string) : bool :=
  match s with
  | EmptyString => true
  | String c s' =>
      (Signup.is_alnum c || bool_decide (c = "-"%char \/ c = "_"%char \/ c = "."%char)) && url_safe s'
  end.

Lemma url_safe_decode s : url_safe s = true -> form_decode s = s /\ has_char "&" s = false.
Proof.
  induction s as [|c s IH]; [done|]. cbn [url_safe]. intros [Hc Hs]%andb_prop.
  destruct (IH Hs) as [IH1 IH2]. cbn [form_decode has_char].
  destruct (ascii_dec c "+") as [->|_]; [by vm_compute in Hc|].
  destruct (ascii_dec c "%") as [->|_]; [by vm_compute in Hc|].
  destruct (ascii_dec "&" c) as [<-|_]; [by vm_compute in Hc|]. by rewrite IH1.
Qed.

(** The token of the dashboard's URL is read back as it was written. *)
Lemma search_get_token tok : url_safe tok = true -> search_get "token" ("?token=" +:+ tok) = Some tok.
Proof.
  intros H. destruct (url_safe_decode tok H) as [Hd Ha].
  assert (Hs : js_split "&" ("token=" +:+ tok) = ["token=" +:+ tok]).
  { unfold js_split. rewrite (split_go_no_sep_end "&"); [done|reflexivity|].
    change ("token=" +:+ tok) with (String "t" (String "o" (String "k" (String "e" (String "n"
      (String "=" tok)))))). cbn [has_char]. exact Ha. }
  unfold search_get, search_pairs.
  change ("?token=" +:+ tok) with (String "?" ("token=" +:+ tok)). cbv iota beta.
  rewrite Hs. cbn [filter list_filter]. rewrite decide_True by discriminate.
  change ("token=" +:+ tok) with (String "t" (String "o" (String "k" (String "e" (String "n"
      (String "=" tok)))))). cbn. by rewrite Hd.
Qed.

Section Flows.
Context `{!Bcrypt, !Jwt}.

(** C26: signing in with Google ends on a dashboard that holds the
    account.  The login page's Google button leaves for the OAuth route;
    once the provider has answered and the strategy has found or created
    the stored user [u], the callback redirects to the dashboard with a
    token in its query; the dashboard reads the token back from its URL,
    [GET /api/auth/user] answers [u], and the page stores the token and
    the user in [localStorage] and greets [u] by name with its e-mail. *)
Theorem google_sign_in_dashboard client_url u t now s f :
  users_wf (wdb (srv s)) -> db_up (wdb (srv s)) = true -> u ∈ users (wdb (srv s)) ->
  (u_id u < ObjectId.oid_bound)%N -> (0 <= t <= now)%Z -> (now / 1000 < t / 1000 + 86400)%Z ->
  url_safe (jwt_sign (u_id u) t) = true -> jwt_sign (u_id u) t <> "" ->
  location (br (login_step LGoogle s f).1) = "/api/auth/google" /\
  (exists base, body (google_callback client_url u t) =
                BRedirect (base +:+ "/dashboard" +:+ ("?token=" +:+ jwt_sign (u_id u) t))) /\
  let '(s', d) := dash_mount ("?token=" +:+ jwt_sign (u_id u) t) now s in
  srv s' = srv s /\ ls_token (br s') = Some (jwt_sign (u_id u) t) /\ ls_user (br s') = Some (SUDoc u) /\
  dash_view (br s') d =
    DCard (navbar_view (Some (SUDoc u)))
          (match photo u with Some (String _ _ as p) => Some p | _ => None end)
          ("Welcome, " +:+ or_text (displayName u) "to CampusConnect")
          (or_text (Some (email u)) "Signed in successfully").
Proof.
  intros Hwf Hup Hu Hid Ht Hnow Hsafe Hne. split; [reflexivity|]. split.
  { exists (match client_url with Some (String _ _ as c) => c | _ => "http://localhost:8080" end).
    unfold google_callback. by destruct client_url as [[]|]. }
  unfold dash_mount. rewrite search_get_token by done. unfold dashboard_mount.
  pose proof (run_auth_user_bearer u t now None (srv s) Hwf Hup Hu Hid Ht Hnow) as Hrun.
  destruct (jwt_sign (u_id u) t) as [|c tk] eqn:E; [done|]. rewrite Hrun. cbn.
  split_and!; [done|done|done|]. by destruct (photo u) as [[]|].
Qed.

(** C30: the dashboard reports a successful sign-in when the sign-in
    failed.  When the token of its URL is refused by
    [GET /api/auth/user] (expired, forged, or for a deleted user), the
    page stores nothing, yet shows "Welcome, to CampusConnect" and
    "Signed in successfully", with the navigation bar showing whoever
    [localStorage] still holds. *)
Theorem dashboard_rejected_token search tok now s :
  search_get "token" search = Some tok -> tok <> "" ->
  (forall u, body (Async.run exec (auth_user (Some ("Bearer " +:+ tok)) None now) (srv s)).1 <>
             BAuth true (Some u)) ->
  let '(s', d) := dash_mount search now s in
  br s' = br s /\
  dash_view (br s') d =
    DCard (navbar_view (ls_user (br s))) None "Welcome, to CampusConnect" "Signed in successfully".
Proof.
  intros Hg Hne Hrej. unfold dash_mount. rewrite Hg. unfold dashboard_mount.
  destruct tok as [|c tk]; [done|].
  destruct (Async.run exec _ (srv s)) as [r w]. cbn in Hrej.
  destruct (body r) as [| | | | |tk' lu|[] [u|]| | |] eqn:Hb; try (split; reflexivity).
  by destruct (Hrej u).
Qed.

(** The landing page keeps the user it read from [localStorage] and
    no open modal. *)
Definition no_post (b : Browser) (p : LState) : Prop :=
  (luser p = None \/ luser p = ls_user b) /\ isPosting p = false.

Lemma lstep_no_post ev s p :
  match ls_user (cbr s) ≫= stored_role with Some admin | Some secretary => False | _ => True end ->
  no_post (cbr s) p ->
  cbr (lstep ev s p).1 = cbr s /\ no_post (cbr s) (lstep ev s p).2.
Proof.
  intros Hrole [Hu Hp].
  assert (Ha : isAdmin p = false).
  { unfold isAdmin. destruct Hu as [-> | ->]; [done|].
    by destruct (ls_user (cbr s) ≫= stored_role) as [[]|]. }
  destruct ev; cbn [lstep]; try (split; [done|split; [exact Hu|exact Hp]]).
  - unfold fetch_announcements. destruct (Async.run _ _ _).
    split; [done|]. split; [by right|exact Hp].
  - rewrite Ha. split; [done|]. exact (conj Hu Hp).
  - split; [done|]. split; [exact Hu|done].
  - rewrite Hp. split; [done|]. exact (conj Hu Hp).
Qed.

Lemma lrun_no_post evs s p :
  match ls_user (cbr s) ≫= stored_role with Some admin | Some secretary => False | _ => True end ->
  no_post (cbr s) p ->
  cbr (lrun evs s p).1 = cbr s /\ no_post (cbr s) (lrun evs s p).2.
Proof.
  revert s p. induction evs as [|ev evs IH]; intros s p Hr Hn; cbn [lrun]; [done|].
  destruct (lstep_no_post ev s p Hr Hn) as [Hc Hn'].
  destruct (lstep ev s p) as [s1 p1]. cbn in Hc, Hn'.
  rewrite <-Hc in Hn', Hr. rewrite <-Hc. by apply IH.
Qed.

(** C32: the logout buttons of the pages (Dashboard.tsx lines 49-53,
    Navbar.tsx lines 34-39) only clear [localStorage] and go to the login
    page; no page calls [POST /api/auth/logout].  After a Google sign-in
    and a logout, the browser's session cookie still names the user, and
    [GET /api/auth/user] without a token answers that user as
    authenticated. *)
Theorem page_logout_keeps_session client_url u t now s :
  users_wf (wdb (srv s)) -> db_up (wdb (srv s)) = true -> u ∈ users (wdb (srv s)) ->
  let b := logout_click (google_return client_url u t (br s)) in
  ls_token b = None /\ ls_user b = None /\ location b = "/login" /\ session b = Some (u_id u) /\
  Async.run exec (auth_user None (session b) now) (srv s) = (authenticated u, srv s).
Proof.
  intros Hwf Hup Hu. unfold google_return, google_callback. cbn [body].
  split_and!; [done|done|done|done|]. cbn [logout_click session].
  change (session _) with (Some (u_id u)). unfold auth_user. rewrite run_deserialize by done.
  cbn [mbind option_bind]. by rewrite (find_user_stored _ _ Hwf Hu).
Qed.

(** C35: only a stored admin or secretary document shows the
    announcement controls.  Whatever the user does on the landing
    page, when [localStorage] holds a student, no user, or the user the
    password login stores (which has no role), the page never shows the
    "Post Announcement" button nor the post modal: an admin who signed
    in with a password cannot post from the page. *)
Theorem landing_post_admin_only evs s :
  match ls_user (cbr s) ≫= stored_role with Some admin | Some secretary => False | _ => True end ->
  let '(s', p) := lrun evs s linit in
  lv_post_button (landing_view (cbr s') p) = false /\ lv_modal (landing_view (cbr s') p) = None.
Proof.
  intros Hrole. destruct (lrun_no_post evs s linit Hrole (conj (or_introl eq_refl) eq_refl)) as [Hc [Hu Hp]].
  destruct (lrun evs s linit) as [s' p]. cbn in Hc, Hu, Hp.
  unfold landing_view, isAdmin. cbn [lv_post_button lv_modal]. rewrite Hp. split; [|done].
  destruct Hu as [-> | ->]; [done|]. by destruct (ls_user (cbr s) ≫= stored_role) as [[]|].
Qed.

End Flows.

(** ** Examples *)

#[local] Existing Instances sample_bcrypt sample_jwt.

(** Asha signs in with Google on the login page of [sample_sys]. *)
Lemma google_sign_in_dashboard_witness :
  location (br (login_step LGoogle sample_sys lf_init).1) = "/api/auth/google" /\
  (exists base, body (google_callback None asha 5000%Z) =
                BRedirect (base +:+ "/dashboard" +:+ ("?token=" +:+ jwt_sign (u_id asha) 5000%Z))) /\
  let '(s', d) := dash_mount ("?token=" +:+ jwt_sign (u_id asha) 5000%Z) 6000%Z sample_sys in
  srv s' = srv sample_sys /\ ls_token (br s') = Some (jwt_sign (u_id asha) 5000%Z) /\
  ls_user (br s') = Some (SUDoc asha) /\
  dash_view (br s') d =
    DCard (navbar_view (Some (SUDoc asha)))
          (match photo asha with Some (String _ _ as p) => Some p | _ => None end)
          ("Welcome, " +:+ or_text (displayName asha) "to CampusConnect")
          (or_text (Some (email asha)) "Signed in successfully").
Proof.
  apply (google_sign_in_dashboard None asha 5000%Z 6000%Z sample_sys lf_init);
    first [reflexivity | discriminate | lia | apply list_elem_of_here
          | apply (bool_decide_eq_true_1 _); vm_compute; reflexivity | vm_compute; discriminate].
Defined.

(** Meera is stored from an earlier login; the dashboard is opened
    with a forged token. *)
Lemma dashboard_rejected_token_witness :
  let '(s', d) := dash_mount "?token=forged" 6000%Z meera_sys in
  br s' = br meera_sys /\
  dash_view (br s') d =
    DCard (navbar_view (ls_user (br meera_sys))) None "Welcome, to CampusConnect" "Signed in successfully".
Proof.
  apply (dashboard_rejected_token "?token=forged" "forged" 6000%Z meera_sys);
    [vm_compute; reflexivity | discriminate | intros u; vm_compute; discriminate].
Defined.

(** An admin signed in with her password opens the landing page and
    clicks where the post button would be. *)
Definition admin_csys : CSys :=
  {| cbr := (br sample_sys){{ls_user := Some (SULogin (login_user ((demo_user 4%N "dean"){{role := admin}})))}};
     csrv := Content.sample_cworld |}.

Lemma landing_post_admin_only_witness :
  let '(s', p) := lrun [LMount; OpenPost] admin_csys linit in
  lv_post_button (landing_view (cbr s') p) = false /\ lv_modal (landing_view (cbr s') p) = None.
Proof. apply (landing_post_admin_only [LMount; OpenPost] admin_csys). vm_compute. exact I. Defined.

(** Asha signs in with Google, logs out, and her cookie still opens the
    session. *)
Lemma page_logout_keeps_session_witness :
  session (logout_click (google_return None asha 5000%Z (br sample_sys))) = Some (u_id asha) /\
  Async.run exec (auth_user None (Some (u_id asha)) 6000%Z) (srv sample_sys) =
    (authenticated asha, srv sample_sys).
Proof.
  destruct (page_logout_keeps_session None asha 5000%Z 6000%Z sample_sys) as (_ & _ & _ & Hs & Ha);
    [by_decide|reflexivity|by left|].
  rewrite Hs in Ha. split; [exact Hs|exact Ha].
Defined.

End Pages.
