(* ===== verification/Scene3D.v ===== *)
(** * The 3D scene of the profile and resources pages

    [src/frontend/src/components/Scene3D.tsx] draws a camera, a college
    building, forty flying notes and two hundred background particles.
    Each part is a react-three-fiber component whose [useFrame] callback
    runs once per animation frame and moves its objects towards targets
    that depend on the [scrollProgress] property.  The model keeps the
    numbers of the code as exact rationals ([Q]), so the continuity,
    convergence and bound theorems below are stated over [Qeq]; a
    [Vector3] is a triple of rationals under pointwise [Qeq], with the
    three.js operations the code calls ([Vector3.lerp] and
    [MathUtils.lerp]) as [Proper] morphisms.

    [Math.random], [Math.sin] and the clock's [elapsedTime] are
    parameters: the draws as a function from the index of the call to a
    value in [[0, 1)], the sine as any function. *)

From S2P Require Import Prelude.
From Stdlib Require Import QArith Qpower Qabs Lqa.

Module Scene3D.

Local Open Scope Q_scope.

(** ** three.js data and operations *)

Record Vector3 := mkV { vx : Q; vy : Q; vz : Q }.

Definition v3eq (a b : Vector3) : Prop :=
  vx a == vx b /\ vy a == vy b /\ vz a == vz b.

#[export] Instance v3eq_equiv : Equivalence v3eq.
Proof.
  split.
  - intros a. split_and!; reflexivity.
  - intros a b (?&?&?). split_and!; by symmetry.
  - intros a b c (?&?&?) (?&?&?). split_and!; etransitivity; eauto.
Qed.

(** [Vector3.lerp(v, alpha)]: [this.x += (v.x - this.x) * alpha], and
    likewise for [y] and [z]. *)
Definition v3lerp (a v : Vector3) (alpha : Q) : Vector3 :=
  mkV (vx a + (vx v - vx a) * alpha) (vy a + (vy v - vy a) * alpha)
      (vz a + (vz v - vz a) * alpha).

(** [MathUtils.lerp(x, y, t)]: [(1 - t) * x + t * y]. *)
Definition lerp (x y t : Q) : Q := (1 - t) * x + t * y.

#[export] Instance v3lerp_proper : Proper (v3eq ==> v3eq ==> Qeq ==> v3eq) v3lerp.
Proof.
  intros a a' (Ha1&Ha2&Ha3) v v' (Hv1&Hv2&Hv3) t t' Ht. unfold v3lerp.
  split_and!; cbn; [rewrite Ha1, Hv1|rewrite Ha2, Hv2|rewrite Ha3, Hv3]; by rewrite Ht.
Qed.

#[export] Instance lerp_proper : Proper (Qeq ==> Qeq ==> Qeq ==> Qeq) lerp.
Proof. intros x x' Hx y y' Hy t t' Ht. unfold lerp. by rewrite Hx, Hy, Ht. Qed.

(** [x < y] on numbers, as a boolean. *)
Definition Qltb (x y : Q) : bool := negb (Qle_bool y x).

(** [Math.PI]: the double nearest to pi, 884279719003555 / 2^48. *)
Definition Math_PI : Q := 884279719003555 # 281474976710656.

(** ** The camera (lines 6-40) *)

Inductive StageName := HERO | ANNOUNCEMENTS | FEATURES.

Record Stage := { position : Vector3; lookAt : Vector3 }.

Definition STAGES (s : StageName) : Stage :=
  match s with
  | HERO => {| position := mkV 0 0 8; lookAt := mkV 0 0 0 |}
  | ANNOUNCEMENTS => {| position := mkV (-5) 2 6; lookAt := mkV 0 0 0 |}
  | FEATURES => {| position := mkV 4 (-2) 5; lookAt := mkV 0 0 0 |}
  end.

(** The two stages the camera moves between and the fraction [t] of the
    way (lines 17-31). *)
Definition camera_leg (scrollProgress : Q) : StageName * StageName * Q :=
  if Qlt_le_dec scrollProgress (1#2) then (HERO, ANNOUNCEMENTS, scrollProgress * 2)
  else (ANNOUNCEMENTS, FEATURES, (scrollProgress - (1#2)) * 2).

(** [targetPos] and [targetLook] (lines 33-34). *)
Definition camera_targets (scrollProgress : Q) : Vector3 * Vector3 :=
  let '(s, e, t) := camera_leg scrollProgress in
  (v3lerp (position (STAGES s)) (position (STAGES e)) t,
   v3lerp (lookAt (STAGES s)) (lookAt (STAGES e)) t).

(** The camera's position and the point it looks at. *)
Record Camera := { cam_position : Vector3; cam_look : Vector3 }.

(** One frame of [CameraController] (lines 16-38). *)
Definition camera_frame (scrollProgress : Q) (c : Camera) : Camera :=
  let '(targetPos, targetLook) := camera_targets scrollProgress in
  {| cam_position := v3lerp (cam_position c) targetPos (1#20); cam_look := targetLook |}.

(** ** The building (lines 42-91) *)

Record Building := { rotation_y : Q; position_y : Q }.

(** The group's initial position [[0, -5, 0]] (line 55). *)
Definition building_init : Building := {| rotation_y := 0; position_y := -5 |}.

Definition building_targetY (scrollProgress : Q) : Q :=
  if Qlt_le_dec scrollProgress (1#5) then -5 + scrollProgress * 25 else 0.

(** One frame of [CollegeBuilding] at clock time [elapsedTime]
    (lines 45-52). *)
Definition building_frame (elapsedTime scrollProgress : Q) (b : Building) : Building :=
  {| rotation_y := elapsedTime * (3#20) + scrollProgress * Math_PI * 2;
     position_y := lerp (position_y b) (building_targetY scrollProgress) (1#20) |}.

(** The pillars (line 63) and the eight windows (lines 83-88). *)
Definition pillars : list Vector3 :=
  [mkV (-9#5) 1 (8#5); mkV (9#5) 1 (8#5); mkV (-3#5) 1 (8#5); mkV (3#5) 1 (8#5)].

(** The box meshes, a centre and the [boxGeometry] sizes: the main base
    (lines 57-58) and the glass centre (lines 77-78). *)
Record Box := { center : Vector3; size : Vector3 }.

Definition base_box : Box := {| center := mkV 0 (5#4) 0; size := mkV 4 (5#2) 3 |}.

Definition glass_box : Box := {| center := mkV 0 (3#2) (1#10); size := mkV (3#2) (7#2) (31#10) |}.

Definition window_position (i : nat) : Vector3 :=
  mkV ((inject_Z (Z.of_nat i mod 4) - (3#2)) * (4#5))
      ((3#2) + inject_Z (Z.of_nat i / 4) * 1 - (1#2)) (151#100).

Definition windows : list Vector3 := map window_position (seq 0 8).

(** ** The flying notes (lines 93-137) *)

Record NoteData := { startPos : Vector3; speed : Q; rotationSpeed : Q; id : Q }.

(** One note's data from five draws of [Math.random], in the order the
    object literal evaluates them (lines 96-101). *)
Definition note_data (r1 r2 r3 r4 r5 : Q) : NoteData :=
  {| startPos := mkV ((r1 - (1#2)) * 15) (-10) ((r2 - (1#2)) * 5);
     speed := (1#5) + r3 * (1#2);
     rotationSpeed := (r4 - (1#2)) * (1#10);
     id := r5 |}.

(** The [count] notes, [rnd k] being the [k]-th draw. *)
Definition make_notes (count : nat) (rnd : nat -> Q) : list NoteData :=
  map (fun i => note_data (rnd (5 * i)%nat) (rnd (5 * i + 1)%nat) (rnd (5 * i + 2)%nat)
                          (rnd (5 * i + 3)%nat) (rnd (5 * i + 4)%nat)) (seq 0 count).

Definition noteData (rnd : nat -> Q) : list NoteData := make_notes 40 rnd.

(** A note's mesh: its position, rotation and material opacity. *)
Record NoteMesh := { n_position : Vector3; n_rot_x : Q; n_rot_z : Q; n_opacity : Q }.

(** The meshes as rendered (lines 129-134): at [startPos], opacity 0. *)
Definition note_mesh (d : NoteData) : NoteMesh :=
  {| n_position := startPos d; n_rot_x := 0; n_rot_z := 0; n_opacity := 0 |}.

Definition isNotePhase (scrollProgress : Q) : bool :=
  Qltb (3#10) scrollProgress && Qltb scrollProgress (4#5).

Section Frames.

(** [Math.sin], any function. *)
Variable Math_sin : Q -> Q.

(** The body of the [forEach] for one child and its data (lines 111-123). *)
Definition note_frame (elapsedTime scrollProgress : Q) (data : NoteData) (mesh : NoteMesh) : NoteMesh :=
  let opacity := if isNotePhase scrollProgress then 4#5 else 0 in
  let o := lerp (n_opacity mesh) opacity (1#10) in
  if isNotePhase scrollProgress then
    let t := (scrollProgress - (3#10)) / (1#2) in
    let p := n_position mesh in
    {| n_position := mkV (vx p + Math_sin (elapsedTime + id data) * (1#100))
                         (vy (startPos data) + t * 25 * speed data) (vz p);
       n_rot_x := n_rot_x mesh + rotationSpeed data;
       n_rot_z := n_rot_z mesh + rotationSpeed data * (1#2);
       n_opacity := o |}
  else {| n_position := n_position mesh; n_rot_x := n_rot_x mesh;
          n_rot_z := n_rot_z mesh; n_opacity := o |}.

(** One frame of [FlyingNotes]: [children.forEach] with [noteData[i]]
    (lines 106-125). *)
Definition notes_frame (elapsedTime scrollProgress : Q) (datas : list NoteData)
    (meshes : list NoteMesh) : list NoteMesh :=
  zip_with (fun d m => note_frame elapsedTime scrollProgress d m) datas meshes.

End Frames.

(** ** The background particles (lines 139-165) *)

(** The 600 coordinates of the position buffer, [rnd k] the [k]-th draw
    (lines 141-149). *)
Definition particle_positions (rnd : nat -> Q) : list Q :=
  flat_map (fun i => [(rnd (3 * i)%nat - (1#2)) * 30; (rnd (3 * i + 1)%nat - (1#2)) * 30;
                      (rnd (3 * i + 2)%nat - (1#2)) * 30]) (seq 0 200).

(** The points' rotation, [y] then [x] (lines 152-155). *)
Definition particles_rotation (elapsedTime : Q) : Q * Q :=
  (elapsedTime * (1#50), elapsedTime * (1#100)).

(** ** The scene (lines 167-187) *)

Record Scene := {
  camera : Camera;
  building : Building;
  notes : list NoteMesh;
  particles_rot : Q * Q
}.

(** [scrollProgress = 0] when the property is not given. *)
Definition scroll_prop (p : option Q) : Q := match p with Some s => s | None => 0 end.

(** The [scrollProgress] the pages give: [<Scene3D />] on the profile
    page (Profile.tsx line 83) and on the resources page
    (Resources.tsx line 72), neither with a property. *)
Definition profile_scroll : option Q := None.
Definition resources_scroll : option Q := None.

(** The scene as mounted: the camera at [[0, 0, 8]] (line 170), looking
    down the z axis at the origin. *)
Definition scene_init (rnd : nat -> Q) : Scene :=
  {| camera := {| cam_position := mkV 0 0 8; cam_look := mkV 0 0 0 |};
     building := building_init;
     notes := map note_mesh (noteData rnd);
     particles_rot := (0, 0) |}.

(** One frame: the [useFrame] callbacks in the order the components are
    mounted (lines 176-183). *)
Definition scene_frame (Math_sin : Q -> Q) (rnd : nat -> Q) (elapsedTime : Q)
    (prop : option Q) (sc : Scene) : Scene :=
  let s := scroll_prop prop in
  {| camera := camera_frame s (camera sc);
     building := building_frame elapsedTime s (building sc);
     notes := notes_frame Math_sin elapsedTime s (noteData rnd) (notes sc);
     particles_rot := particles_rotation elapsedTime |}.

(** Frames, each at its clock time and with the property of the last
    render before it. *)
Fixpoint scene_run (Math_sin : Q -> Q) (rnd : nat -> Q) (frames : list (Q * option Q))
    (sc : Scene) : Scene :=
  match frames with
  | [] => sc
  | (t, prop) :: frames' => scene_run Math_sin rnd frames' (scene_frame Math_sin rnd t prop sc)
  end.

(** ** Vector arithmetic of the proofs *)

Definition v3sub (a b : Vector3) : Vector3 := mkV (vx a - vx b) (vy a - vy b) (vz a - vz b).

Definition v3scale (k : Q) (a : Vector3) : Vector3 := mkV (k * vx a) (k * vy a) (k * vz a).

Definition v3eqb (a b : Vector3) : bool :=
  Qeq_bool (vx a) (vx b) && Qeq_bool (vy a) (vy b) && Qeq_bool (vz a) (vz b).

Lemma v3eqb_spec a b : v3eqb a b = true <-> v3eq a b.
Proof. unfold v3eqb, v3eq. rewrite !andb_true_iff, !Qeq_bool_iff. tauto. Qed.

#[export] Instance v3sub_proper : Proper (v3eq ==> v3eq ==> v3eq) v3sub.
Proof.
  intros a a' (Ha1&Ha2&Ha3) b b' (Hb1&Hb2&Hb3).
  split_and!; cbn; [rewrite Ha1, Hb1|rewrite Ha2, Hb2|rewrite Ha3, Hb3]; reflexivity.
Qed.

#[export] Instance v3scale_proper : Proper (Qeq ==> v3eq ==> v3eq) v3scale.
Proof.
  intros k k' Hk a a' (Ha1&Ha2&Ha3).
  split_and!; cbn; [rewrite Ha1|rewrite Ha2|rewrite Ha3]; by rewrite Hk.
Qed.

(** A goal of linear inequalities over absolute values: case on the sign
    of each [Qabs] argument, then [lra]. *)
Ltac qabs_lra :=
  repeat match goal with
  | |- context [Qabs ?x] =>
      let H := fresh in destruct (Qlt_le_dec x 0) as [H|H];
      [rewrite (Qabs_neg x) by lra | rewrite (Qabs_pos x) by lra]
  end; lra.

(** [Vector3.lerp] is [MathUtils.lerp] on each coordinate. *)
Lemma v3lerp_lerp a v t :
  v3eq (v3lerp a v t) (mkV (lerp (vx a) (vx v) t) (lerp (vy a) (vy v) t) (lerp (vz a) (vz v) t)).
Proof. unfold lerp. split_and!; cbn; ring. Qed.

(** A [lerp] towards [v] scales the way left to [v] by [1 - alpha]. *)
Lemma v3lerp_sub a v alpha :
  v3eq (v3sub (v3lerp a v alpha) v) (v3scale (1 - alpha) (v3sub a v)).
Proof. split_and!; cbn; ring. Qed.

Lemma v3lerp_self a t : v3eq (v3lerp a a t) a.
Proof. split_and!; cbn; ring. Qed.

Lemma v3scale_scale k l a : v3eq (v3scale k (v3scale l a)) (v3scale (k * l) a).
Proof. split_and!; cbn; ring. Qed.

(** [MathUtils.lerp] stays between bounds of its ends. *)
Lemma lerp_between lo hi x y t :
  lo <= x <= hi -> lo <= y <= hi -> 0 <= t <= 1 -> lo <= lerp x y t <= hi.
Proof. unfold lerp. intros [] [] []. split; nra. Qed.

Lemma lerp_self x t : lerp x x t == x.
Proof. unfold lerp. ring. Qed.


(** A closed comparison of rationals, decided by evaluation. *)
Ltac qdecide := vm_compute; first [reflexivity | intros ?H; discriminate H].

(** *** The camera *)

Lemma camera_frame_position s c :
  cam_position (camera_frame s c) = v3lerp (cam_position c) (fst (camera_targets s)) (1#20).
Proof. unfold camera_frame. by destruct (camera_targets s). Qed.

Lemma camera_frame_look s c : cam_look (camera_frame s c) = snd (camera_targets s).
Proof. unfold camera_frame. by destruct (camera_targets s). Qed.

Lemma camera_look_origin s : v3eq (snd (camera_targets s)) (mkV 0 0 0).
Proof. unfold camera_targets, camera_leg. destruct (Qlt_le_dec s (1#2)); split_and!; cbn; ring. Qed.

Lemma camera_target_0 : v3eq (fst (camera_targets 0)) (mkV 0 0 8).
Proof. split_and!; vm_compute; reflexivity. Qed.

Lemma q1920_nz : ~ (19#20) == 0.
Proof. vm_compute. discriminate. Qed.

(** After [n] frames at one scroll position, the way left to the target
    is [(19/20)^n] times the way at the start. *)
Lemma camera_iter_error s c n :
  v3eq (v3sub (cam_position (Nat.iter n (camera_frame s) c)) (fst (camera_targets s)))
       (v3scale ((19#20) ^ Z.of_nat n) (v3sub (cam_position c) (fst (camera_targets s)))).
Proof.
  induction n as [|n IH].
  - change ((19#20) ^ Z.of_nat 0) with 1. change (Nat.iter 0 (camera_frame s) c) with c.
    split_and!; cbn [v3sub v3scale vx vy vz]; ring.
  - rewrite Nat.iter_succ, camera_frame_position, v3lerp_sub, IH, v3scale_scale.
    apply v3scale_proper; [|reflexivity].
    rewrite Nat2Z.inj_succ, <- Z.add_1_r, (Qpower_plus _ _ _ q1920_nz).
    change ((19#20) ^ 1%Z) with (19#20). ring.
Qed.

(** *** Runs of the scene *)

Lemma scene_run_app f rnd fs1 fs2 sc :
  scene_run f rnd (fs1 ++ fs2) sc = scene_run f rnd fs2 (scene_run f rnd fs1 sc).
Proof. revert sc. induction fs1 as [|[t p] fs1 IH]; intros sc; [done|]. apply IH. Qed.

Lemma scene_run_camera f rnd prop ts sc :
  camera (scene_run f rnd (map (fun t => (t, prop)) ts) sc) =
  Nat.iter (length ts) (camera_frame (scroll_prop prop)) (camera sc).
Proof.
  revert sc. induction ts as [|t ts IH]; intros sc; [done|].
  cbn [map scene_run length]. by rewrite IH, Nat.iter_succ_r.
Qed.

(** A property of scenes that every frame keeps is kept by every run. *)
Lemma scene_run_ind (P : Scene -> Prop) f rnd frames sc :
  (forall t prop sc, (t, prop) ∈ frames -> P sc -> P (scene_frame f rnd t prop sc)) ->
  P sc -> P (scene_run f rnd frames sc).
Proof.
  revert sc. induction frames as [|[t p] fs IH]; intros sc Hstep Hsc; [done|].
  cbn. apply IH; [intros; apply Hstep; [by right|done]|]. apply Hstep; [by left|done].
Qed.

Lemma building_targetY_range s : 0 <= s <= 1 -> -5 <= building_targetY s <= 0.
Proof. unfold building_targetY. destruct (Qlt_le_dec s (1#5)); lra. Qed.

Lemma building_targetY_0 : building_targetY 0 == -5.
Proof. vm_compute. reflexivity. Qed.

Lemma note_frame_off f e s d m :
  isNotePhase s = false ->
  note_frame f e s d m = {| n_position := n_position m; n_rot_x := n_rot_x m;
                            n_rot_z := n_rot_z m; n_opacity := lerp (n_opacity m) 0 (1#10) |}.
Proof. intros H. unfold note_frame. by rewrite H. Qed.

Lemma isNotePhase_spec s : isNotePhase s = true <-> 3#10 < s /\ s < 4#5.
Proof.
  unfold isNotePhase, Qltb. rewrite andb_true_iff, !negb_true_iff.
  rewrite <- !not_true_iff_false, !Qle_bool_iff. split; intros []; split; lra.
Qed.

(** A note at rest: where it was rendered, not turned, invisible. *)
Definition note_at_rest (m : NoteMesh) (d : NoteData) : Prop :=
  v3eq (n_position m) (startPos d) /\ n_rot_x m == 0 /\ n_rot_z m == 0 /\ n_opacity m == 0.

Lemma notes_frame_rest f e s datas meshes :
  isNotePhase s = false -> Forall2 note_at_rest meshes datas ->
  Forall2 note_at_rest (notes_frame f e s datas meshes) datas.
Proof.
  intros Hs Hm. induction Hm as [|m d ms ds (Hp&Hx&Hz&Ho) _ IH]; [constructor|].
  constructor; [|exact IH]. rewrite (note_frame_off _ _ _ _ _ Hs). cbn [n_position n_rot_x n_rot_z n_opacity].
  refine (conj Hp (conj Hx (conj Hz _))).
  change (lerp (n_opacity m) 0 (1#10) == 0). by rewrite Ho, lerp_self.
Qed.

(** A scene left alone: the camera at its mount position, the building
    at its initial height, and every note at rest. *)
Definition idle (rnd : nat -> Q) (sc : Scene) : Prop :=
  v3eq (cam_position (camera sc)) (mkV 0 0 8) /\ position_y (building sc) == -5 /\
  Forall2 note_at_rest (notes sc) (noteData rnd).

Lemma idle_init rnd : idle rnd (scene_init rnd).
Proof.
  split_and!; [reflexivity|reflexivity|]. cbn [scene_init notes].
  induction (noteData rnd) as [|d ds IH]; constructor; [|exact IH].
  split_and!; reflexivity.
Qed.

Lemma idle_frame f rnd t sc : idle rnd sc -> idle rnd (scene_frame f rnd t None sc).
Proof.
  intros (Hc&Hy&Hn). split_and!; cbn [scene_frame camera building notes scroll_prop].
  - rewrite camera_frame_position, camera_target_0, Hc. apply v3lerp_self.
  - cbn [building_frame position_y]. by rewrite Hy, building_targetY_0, lerp_self.
  - by apply notes_frame_rest.
Qed.

Lemma idle_run_none f rnd ts :
  idle rnd (scene_run f rnd (map (fun t => (t, None)) ts) (scene_init rnd)).
Proof.
  apply scene_run_ind; [|apply idle_init].
  intros t prop sc Hin. apply list_elem_of_In, in_map_iff in Hin as (? & [= _ <-] & _).
  apply idle_frame.
Qed.

(** ** Properties *)

(** C38: Mounted without a [scrollProgress], as the profile and resources
    pages mount it (Profile.tsx line 83, Resources.tsx line 72), none
    of the scroll-driven motion happens: whatever the frames' clock
    times, [Math.sin] and
    [Math.random], the camera stays at [[0, 0, 8]], the building at its
    initial height [-5] (its entry from below never happens), and every
    note where it was rendered, unturned and invisible.  A scroll
    position of [1/2] would lift the building at its first frame.  The
    building's rotation and the particles' rotation follow the clock
    and are not part of the statement. *)
Theorem default_scene_idle f rnd ts :
  idle rnd (scene_run f rnd (map (fun t => (t, profile_scroll)) ts) (scene_init rnd)) /\
  idle rnd (scene_run f rnd (map (fun t => (t, resources_scroll)) ts) (scene_init rnd)) /\
  -5 < position_y (building (scene_frame f rnd 0 (Some (1#2)) (scene_init rnd))).
Proof.
  split_and!; [apply idle_run_none|apply idle_run_none|vm_compute; reflexivity].
Qed.

(** C39: The camera eases towards its target: after the frames of one scroll
    position, whatever their number and clock times, the way left from
    the camera to the target is [(19/20)^n] times the way at the start,
    [n] the number of frames; and after any frame the camera looks at
    the origin, the look-at point of every stage. *)
Theorem camera_converges f rnd prop ts t sc :
  let target := fst (camera_targets (scroll_prop prop)) in
  v3eq (v3sub (cam_position (camera (scene_run f rnd (map (fun t => (t, prop)) ts) sc))) target)
       (v3scale ((19#20) ^ Z.of_nat (length ts)) (v3sub (cam_position (camera sc)) target)) /\
  v3eq (cam_look (camera (scene_run f rnd (map (fun t => (t, prop)) (ts ++ [t])) sc))) (mkV 0 0 0).
Proof.
  split.
  - rewrite scene_run_camera. apply camera_iter_error.
  - rewrite scene_run_camera, length_app, Nat.add_1_r, Nat.iter_succ, camera_frame_look.
    apply camera_look_origin.
Qed.

(** C40: While the scroll position stays in [[0, 1]], the building's height
    stays between its entry height [-5] and its resting height [0],
    whatever the frames and however the position changes between
    them. *)
Theorem building_y_bounds f rnd frames sc :
  -5 <= position_y (building sc) <= 0 ->
  Forall (fun fr => 0 <= scroll_prop fr.2 <= 1) frames ->
  -5 <= position_y (building (scene_run f rnd frames sc)) <= 0.
Proof.
  intros Hsc Hfr. apply (scene_run_ind (fun sc => -5 <= position_y (building sc) <= 0)); [|exact Hsc].
  intros t prop sc' Hin Hy. cbn [scene_frame building building_frame position_y].
  apply lerp_between; [exact Hy| |lra].
  apply building_targetY_range. by apply (proj1 (Forall_forall _ _) Hfr (t, prop)).
Qed.

(** The camera's target moves continuously with the scroll position,
    with no jump where it changes legs at [1/2]: each coordinate moves
    by at most [18], [8] and [4] times the change of position. *)
Theorem camera_target_lipschitz p q :
  let d := v3sub (fst (camera_targets q)) (fst (camera_targets p)) in
  Qabs (vx d) <= 18 * Qabs (q - p) /\ Qabs (vy d) <= 8 * Qabs (q - p) /\
  Qabs (vz d) <= 4 * Qabs (q - p).
Proof.
  unfold camera_targets, camera_leg.
  destruct (Qlt_le_dec q (1#2)), (Qlt_le_dec p (1#2));
    cbn [fst v3sub v3lerp STAGES position vx vy vz]; split_and!; qabs_lra.
Qed.

(** In the notes' phase, with draws in [[0, 1)], a note's height lies
    strictly between its start [-10] and [7.5], and its opacity, from a
    value in [[0, 0.8]], stays there in every phase. *)
Theorem note_frame_bounds f e s r1 r2 r3 r4 r5 m :
  0 <= r3 < 1 -> 0 <= n_opacity m <= 4#5 ->
  0 <= n_opacity (note_frame f e s (note_data r1 r2 r3 r4 r5) m) <= 4#5 /\
  (isNotePhase s = true ->
   -10 < vy (n_position (note_frame f e s (note_data r1 r2 r3 r4 r5) m)) < 15#2).
Proof.
  intros Hr Ho. unfold note_frame. destruct (isNotePhase s) eqn:Hs.
  - apply isNotePhase_spec in Hs. cbn [n_opacity n_position vy note_data startPos speed].
    split; [apply lerp_between; lra|intros _].
    assert (0 < (s - (3#10)) / (1#2) < 1) by (split; [apply Qlt_shift_div_l|apply Qlt_shift_div_r]; lra).
    split; nra.
  - split; [apply lerp_between; lra|discriminate].
Qed.

(** The eight windows are at eight different places: two rows of four
    on the front face, at [z = 1.51] just before the base's face at
    [1.5], within its width and height. *)
Theorem windows_distinct i j :
  (i < 8)%nat -> (j < 8)%nat -> v3eq (window_position i) (window_position j) -> i = j.
Proof.
  intros Hi Hj Heq%v3eqb_spec. revert Heq.
  destruct i as [|[|[|[|[|[|[|[|i]]]]]]]]; try lia;
    destruct j as [|[|[|[|[|[|[|[|j]]]]]]]]; try lia; intros H; vm_compute in H; congruence.
Qed.

(** A point strictly inside a box. *)
Definition in_box (p : Vector3) (b : Box) : Prop :=
  Qabs (vx p - vx (center b)) * 2 < vx (size b) /\ Qabs (vy p - vy (center b)) * 2 < vy (size b) /\
  Qabs (vz p - vz (center b)) * 2 < vz (size b).

(** Each window's [0.3] by [0.5] plane (line 85) lies within the width
    and height of the base, [0.01] in front of its front face; the four
    windows of the middle columns are inside the glass centre, whose
    front is at [1.65], the four of the outer columns outside it. *)
Theorem windows_layout :
  Forall (fun w => Qabs (vx w - vx (center base_box)) * 2 + (3#10) <= vx (size base_box) /\
                   Qabs (vy w - vy (center base_box)) * 2 + (1#2) <= vy (size base_box) /\
                   (vz w - vz (center base_box)) * 2 == vz (size base_box) + (1#50)) windows /\
  Forall (fun i => in_box (window_position i) glass_box) [1; 2; 5; 6]%nat /\
  Forall (fun i => ~ in_box (window_position i) glass_box) [0; 3; 4; 7]%nat.
Proof.
  split_and!; repeat constructor; try qdecide;
    intros (H1&H2&H3); vm_compute in H1, H2, H3; discriminate.
Qed.

(** The 600 coordinates of the background particles, from draws in
    [[0, 1)], lie in [[-15, 15)]: the cube of side 30 around the
    origin. *)
Theorem particles_in_cube rnd :
  (forall k, 0 <= rnd k < 1) ->
  length (particle_positions rnd) = 600%nat /\
  Forall (fun x => -15 <= x < 15) (particle_positions rnd).
Proof.
  intros Hr. unfold particle_positions. split; [reflexivity|].
  apply Forall_flat_map, Forall_forall. intros i _.
  repeat constructor; destruct (Hr (3 * i)%nat), (Hr (3 * i + 1)%nat), (Hr (3 * i + 2)%nat); lra.
Qed.

(** ** Examples *)

(** A run whose scroll position moves from [0.1] to [1]: the building
    stays between [-5] and [0]. *)
Lemma building_y_bounds_witness :
  -5 <= position_y (building (scene_run (fun _ => 0) (fun _ => 1#2)
          [(0, Some (1#10)); (1#60, Some 1); (1#30, None)] (scene_init (fun _ => 1#2)))) <= 0.
Proof.
  apply building_y_bounds; [split; qdecide|].
  repeat constructor; qdecide.
Defined.

End Scene3D.
